(** * WeensyOS process and virtual-memory manager (pset4/kernel.c)

    A shallow embedding of the kernel core: the physical frame table
    [pageinfo], the allocator, the page-table clone, the process table,
    the interrupt dispatcher, the scheduler, the invariant checker and the
    memory viewer every kernel entry draws.

    The kernel's headers (kernel.h, x86.h, lib.h) and its hardware module
    are not part of the sources at hand.  Their constants and the two
    console primitives the kernel calls are collected in the class
    [Config]; the x86 paging macros are written out below. *)

From Stdlib Require Import ZArith Lia Bool String.
From stdpp Require Import base list.
Local Open Scope Z_scope.

(** ** Machine integers *)

(** Conversion to [int8_t] (the type of both fields of a frame record):
    two's complement wrap-around. *)
Definition to_int8 (z : Z) : Z := (z + 128) `mod` 256 - 128.

(** Conversion to [uintptr_t] / [uint32_t]. *)
Definition to_uint32 (z : Z) : Z := z `mod` 2 ^ 32.

(** Conversion to [uint16_t]. *)
Definition to_uint16 (z : Z) : Z := z `mod` 2 ^ 16.

(** ** x86 paging macros (x86.h) *)

Definition PAGESIZE : Z := 4096.
Definition PAGENUMBER (a : Z) : Z := Z.shiftr a 12.
Definition PAGEADDRESS (pn : Z) : Z := Z.shiftl pn 12.
Definition PAGEOFFSET (a : Z) : Z := Z.land a 4095.
Definition PTE_ADDR (e : Z) : Z := Z.land e (Z.lnot 4095).
Definition PTE_FLAGS (e : Z) : Z := Z.land e 4095.
Definition L1PAGEINDEX (a : Z) : Z := Z.shiftr a 22.
Definition L2PAGEINDEX (a : Z) : Z := Z.land (Z.shiftr a 12) 1023.
Definition PAGETABLE_NENTRIES : Z := 1024.
Definition PTE_P : Z := 1.
Definition PTE_W : Z := 2.
Definition PTE_U : Z := 4.
Definition PFERR_PRESENT : Z := 1.
Definition PFERR_WRITE : Z := 2.
Definition PFERR_USER : Z := 4.

(** ** Constants and console primitives of the absent headers *)

Class Config := {
  NPROC : Z;                    (* capacity of the process table *)
  MEMSIZE_PHYSICAL : Z;
  MEMSIZE_VIRTUAL : Z;
  NPAGES : Z;                   (* bound of the allocator's scan *)
  PROC_START_ADDR : Z;
  KERNEL_START_ADDR : Z;
  KERNEL_STACK_TOP : Z;
  kernel_end : Z;               (* [extern char end[]] *)
  kernel_pagetable : Z;         (* address of the kernel's level-1 table *)
  console : Z;                  (* address of the console page *)
  physical_memory_isreserved : Z -> bool;
  program_pages : Z -> list Z;  (* page addresses of each program image *)
  CPOS : Z -> Z -> Z;           (* console cell of a row and a column *)
  (* console_printf(cpos, color, format, ...): memory once the text is
     written, from the values the core passes for the conversions *)
  console_printf : Z -> Z -> string -> list Z -> (Z -> Z -> Z) -> (Z -> Z -> Z)
}.

(** What the code relies on about the frame constants: [NPAGES] frames
    cover physical memory exactly, and addresses fit a [uintptr_t]. *)
Definition frames_cover `{Config} : Prop :=
  0 < NPAGES /\ NPAGES * PAGESIZE = MEMSIZE_PHYSICAL /\ MEMSIZE_PHYSICAL < 2 ^ 32.

(** ** Physical frame records *)

Record physical_pageinfo := mk_pageinfo {
  owner : Z;      (* int8_t *)
  refcount : Z    (* int8_t *)
}.

Definition PO_FREE : Z := 0.
Definition PO_RESERVED : Z := -1.
Definition PO_KERNEL : Z := -2.

Abbreviation pageinfo_t := (list physical_pageinfo).

(** [pageinfo[pn]].  C leaves a read outside the array undefined; the model
    reads a zeroed record there. *)
Definition pi_get (pi : pageinfo_t) (pn : Z) : physical_pageinfo :=
  if pn <? 0 then mk_pageinfo 0 0
  else default (mk_pageinfo 0 0) (pi !! Z.to_nat pn).

(** [pageinfo[pn] = r].  A store outside the array is dropped by the model. *)
Definition pi_set (pi : pageinfo_t) (pn : Z) (r : physical_pageinfo) : pageinfo_t :=
  if pn <? 0 then pi else <[Z.to_nat pn := r]> pi.

Definition set_refcount (pi : pageinfo_t) (pn : Z) (v : Z) : pageinfo_t :=
  pi_set pi pn (mk_pageinfo (owner (pi_get pi pn)) (to_int8 v)).

Definition set_owner (pi : pageinfo_t) (pn : Z) (v : Z) : pageinfo_t :=
  pi_set pi pn (mk_pageinfo (to_int8 v) (refcount (pi_get pi pn))).

Section Allocator.
Context `{Config}.

(** physical_page_alloc(addr, owner): [owner] arrives as an [int8_t]. *)
Definition physical_page_alloc (pi : pageinfo_t) (addr : Z) (own : Z)
  : Z * pageinfo_t :=
  if negb (Z.land addr 4095 =? 0)
     || (MEMSIZE_PHYSICAL <=? addr)
     || negb (refcount (pi_get pi (PAGENUMBER addr)) =? 0)
  then (-1, pi)
  else (0, set_owner (set_refcount pi (PAGENUMBER addr) 1) (PAGENUMBER addr) own).

(** The scan [for(pn = 0; pn < NPAGES; ++pn) if(!pageinfo[pn].refcount) break;]
    started at [pn] with [fuel] frames left; it yields the value of [pn]
    after the loop. *)
Fixpoint scan_free (pi : pageinfo_t) (fuel : nat) (pn : Z) : Z :=
  match fuel with
  | O => pn
  | S k => if refcount (pi_get pi pn) =? 0 then pn
           else scan_free pi k (pn + 1)
  end.

Definition find_free (pi : pageinfo_t) : Z := scan_free pi (Z.to_nat NPAGES) 0.

(** page_alloc_lite(pid): the returned pointer is [0] for [NULL]. *)
Definition page_alloc_lite (pi : pageinfo_t) (pid : Z) : Z * pageinfo_t :=
  let pn := find_free pi in
  let '(r, pi') := physical_page_alloc pi (to_uint32 (pn * PAGESIZE)) (to_int8 pid) in
  if 0 <=? r then (PAGEADDRESS pn, pi') else (0, pi').

End Allocator.

(** ** Physical memory and page tables *)

(** Physical memory as an arena of page frames: frame number, then the index
    of a 32-bit word inside the frame.  Pointers handed around by the kernel
    core are page-aligned ([memshow_virtual] asserts it of page tables), and
    a pointer designates the frame [PAGENUMBER] gives. *)
Definition memory := Z -> Z -> Z.

(** [((uint32_t* ) p)[i]] *)
Definition mem_load (m : memory) (p i : Z) : Z := m (PAGENUMBER p) i.

(** [((uint32_t* ) p)[i] = v] *)
Definition mem_store (m : memory) (p i v : Z) : memory :=
  fun f j => if (f =? PAGENUMBER p) && (j =? i) then v else m f j.

(** [memcpy(dst, src, PAGESIZE)] *)
Definition memcpy_page (m : memory) (dst src : Z) : memory :=
  fun f j => if f =? PAGENUMBER dst then m (PAGENUMBER src) j else m f j.

Record vamapping := mk_vamapping {
  vam_pn : Z;     (* int; negative when unmapped *)
  vam_pa : Z;     (* uintptr_t *)
  vam_perm : Z    (* int *)
}.

Definition vam_unmapped : vamapping := mk_vamapping (-1) (to_uint32 (-1)) 0.

(** Modelled from the spec: [virtual_memory_lookup] of the absent
    memory-mapping module.  It walks the two-level structure: an absent
    level-1 entry or an absent leaf gives the unmapped sentinel (negative
    frame id, empty permission set); a populated leaf gives the frame, the
    physical address and the permissions.  Entries hold a frame address in
    the high bits and the permission set in the low bits, as the source's
    own uses of [PTE_P] and [PAGENUMBER] on entries have them. *)
Definition virtual_memory_lookup (m : memory) (pagetable va : Z) : vamapping :=
  let l1e := mem_load m pagetable (L1PAGEINDEX va) in
  if Z.land l1e PTE_P =? 0 then vam_unmapped
  else
    let pe := mem_load m (PTE_ADDR l1e) (L2PAGEINDEX va) in
    if Z.land pe PTE_P =? 0 then vam_unmapped
    else mk_vamapping (PAGENUMBER pe) (PTE_ADDR pe + PAGEOFFSET va) (PTE_FLAGS pe).

(** One page of [virtual_memory_map]: the leaf for [va] receives the frame
    address with the permissions.  Where the level-1 entry is absent there
    is no leaf to store to and memory is left as it is. *)
Definition map_page (m : memory) (pagetable va pa perm : Z) : memory :=
  let l1e := mem_load m pagetable (L1PAGEINDEX va) in
  if Z.land l1e PTE_P =? 0 then m
  else mem_store m (PTE_ADDR l1e) (L2PAGEINDEX va) (Z.lor pa perm).

(** Modelled from the spec: [virtual_memory_map] of the absent
    memory-mapping module, mapping a virtual range to a physical range page
    by page with one permission set. *)
Definition virtual_memory_map (m : memory) (pagetable va pa sz perm : Z) : memory :=
  fold_left (fun m' k => map_page m' pagetable (va + k * PAGESIZE) (pa + k * PAGESIZE) perm)
            (seqZ 0 (sz `div` PAGESIZE)) m.

(** The leaf entry for [va] in the level-2 table behind entry 0 of the
    level-1 table at [pagetable], and what a lookup makes of a leaf. *)
Definition leaf_entry (m : memory) (pagetable va : Z) : Z :=
  m (PAGENUMBER (PTE_ADDR (m (PAGENUMBER pagetable) 0))) (L2PAGEINDEX va).

Definition decode_leaf (pe va : Z) : vamapping :=
  if Z.land pe PTE_P =? 0 then vam_unmapped
  else mk_vamapping (PAGENUMBER pe) (PTE_ADDR pe + PAGEOFFSET va) (PTE_FLAGS pe).

(** ** Process descriptors and kernel state *)

Inductive procstate := P_FREE | P_RUNNABLE | P_BROKEN.

Definition procstate_eqb (a b : procstate) : bool :=
  match a, b with
  | P_FREE, P_FREE | P_RUNNABLE, P_RUNNABLE | P_BROKEN, P_BROKEN => true
  | _, _ => false
  end.

(** Trap numbers, named as the constants the dispatcher switches on. *)
Inductive intno :=
  | INT_SYS_PANIC | INT_SYS_GETPID | INT_SYS_YIELD | INT_SYS_PAGE_ALLOC
  | INT_SYS_FORK | INT_TIMER | INT_PAGEFAULT | INT_OTHER (n : Z).

(** The saved CPU context; only the registers the core reads or writes. *)
Record x86_registers := mk_registers {
  reg_eax : Z;
  reg_esp : Z;
  reg_eip : Z;
  reg_intno : intno;
  reg_err : Z
}.

Definition set_eax (r : x86_registers) (v : Z) : x86_registers :=
  mk_registers (to_uint32 v) (reg_esp r) (reg_eip r) (reg_intno r) (reg_err r).

Definition set_esp (r : x86_registers) (v : Z) : x86_registers :=
  mk_registers (reg_eax r) (to_uint32 v) (reg_eip r) (reg_intno r) (reg_err r).

Definition set_eip (r : x86_registers) (v : Z) : x86_registers :=
  mk_registers (reg_eax r) (reg_esp r) (to_uint32 v) (reg_intno r) (reg_err r).

Definition zero_registers : x86_registers := mk_registers 0 0 0 (INT_OTHER 0) 0.

Record proc := mk_proc {
  p_pid : Z;
  p_registers : x86_registers;
  p_state : procstate;
  p_pagetable : Z              (* pageentry_t*; 0 is NULL *)
}.

Definition zero_proc : proc := mk_proc 0 zero_registers P_FREE 0.

Abbreviation proctable := (list proc).

(** [processes[pid]]; outside the array the model reads a zeroed descriptor
    and drops stores. *)
Definition proc_get (ps : proctable) (pid : Z) : proc :=
  if pid <? 0 then zero_proc else default zero_proc (ps !! Z.to_nat pid).

Definition proc_set (ps : proctable) (pid : Z) (p : proc) : proctable :=
  if pid <? 0 then ps else <[Z.to_nat pid := p]> ps.

Definition with_state (p : proc) (st : procstate) : proc :=
  mk_proc (p_pid p) (p_registers p) st (p_pagetable p).

Definition with_pagetable (p : proc) (pt : Z) : proc :=
  mk_proc (p_pid p) (p_registers p) (p_state p) pt.

Definition with_registers (p : proc) (r : x86_registers) : proc :=
  mk_proc (p_pid p) r (p_state p) (p_pagetable p).

Definition with_pid (p : proc) (pid : Z) : proc :=
  mk_proc pid (p_registers p) (p_state p) (p_pagetable p).

(** The function-local statics of memshow_virtual_animate(). *)
Record animation := mk_animation {
  last_ticks : Z;   (* unsigned *)
  showing : Z       (* int *)
}.

Definition animation_start : animation := mk_animation 0 1.

(** The kernel's globals, with the statics of the memory viewer and the
    CPU register the page-fault handler reads.  [current] is a pointer into
    [processes]; the model keeps the index of the descriptor it points
    to. *)
Record kstate := mk_kstate {
  processes : proctable;
  current : Z;
  ticks : Z;
  pageinfo : pageinfo_t;
  mem : memory;
  anim : animation;
  cr2 : Z          (* the fault address, which [rcr2()] returns *)
}.

Definition upd_processes (s : kstate) (ps : proctable) : kstate :=
  mk_kstate ps (current s) (ticks s) (pageinfo s) (mem s) (anim s) (cr2 s).
Definition upd_current (s : kstate) (c : Z) : kstate :=
  mk_kstate (processes s) c (ticks s) (pageinfo s) (mem s) (anim s) (cr2 s).
Definition upd_ticks (s : kstate) (t : Z) : kstate :=
  mk_kstate (processes s) (current s) t (pageinfo s) (mem s) (anim s) (cr2 s).
Definition upd_pageinfo (s : kstate) (pi : pageinfo_t) : kstate :=
  mk_kstate (processes s) (current s) (ticks s) pi (mem s) (anim s) (cr2 s).
Definition upd_mem (s : kstate) (m : memory) : kstate :=
  mk_kstate (processes s) (current s) (ticks s) (pageinfo s) m (anim s) (cr2 s).
Definition upd_anim (s : kstate) (a : animation) : kstate :=
  mk_kstate (processes s) (current s) (ticks s) (pageinfo s) (mem s) a (cr2 s).
Definition upd_cr2 (s : kstate) (a : Z) : kstate :=
  mk_kstate (processes s) (current s) (ticks s) (pageinfo s) (mem s) (anim s) a.

Definition upd_proc (s : kstate) (pid : Z) (f : proc -> proc) : kstate :=
  upd_processes s (proc_set (processes s) pid (f (proc_get (processes s) pid))).

(** [*current] *)
Definition cur (s : kstate) : proc := proc_get (processes s) (current s).

(** How a kernel entry ends: it never returns to its caller. *)
Inductive outcome :=
  | Resumed (s : kstate)     (* run(p): [current s] is the process resumed *)
  | Panicked                 (* panic, or a failed assert *)
  | Spins (s : kstate).      (* schedule() found nothing to run and loops *)

(** ** The kernel's operations *)

Definition PROC_SIZE : Z := 262144.      (* 0x040000 *)

(** The values a C loop [for (x = lo; x < hi; x += step)] takes. *)
Definition for_range (lo hi step : Z) : list Z :=
  (fun k => lo + k * step) <$> seqZ 0 ((hi - lo + step - 1) `div` step).

Section Kernel.
Context `{Config}.

(** copy_pagetable(pagetable, owner).  The second allocation is attempted
    only when the first one gave a frame ([&&]). *)
Definition copy_pagetable (pi : pageinfo_t) (m : memory) (pagetable own : Z)
  : Z * pageinfo_t * memory :=
  let '(pagel1, pi1) := page_alloc_lite pi own in
  if pagel1 =? 0 then (0, pi1, m)
  else
    let '(pagel2, pi2) := page_alloc_lite pi1 own in
    if pagel2 =? 0 then (0, pi2, m)
    else
      let newpagetable := pagel1 in
      let m1 := memcpy_page m newpagetable
                  (pagetable - 4 * (pagetable `mod` PAGESIZE)) in
      let m2 := mem_store m1 newpagetable 0
                  (to_uint32 (Z.lor pagel2 (Z.lor (Z.lor PTE_P PTE_W) PTE_U))) in
      let e0 := mem_load m2 pagetable 0 in
      let m3 := memcpy_page m2 pagel2 (e0 - e0 `mod` PAGESIZE) in
      (newpagetable, pi2, m3).

(** sys_page_alloc_func(addr, pagetable, pid) *)
Definition sys_page_alloc_func (pi : pageinfo_t) (m : memory) (addr pagetable pid : Z)
  : Z * pageinfo_t * memory :=
  let pn := find_free pi in
  let '(r, pi') := physical_page_alloc pi (to_uint32 (pn * PAGESIZE)) (to_int8 pid) in
  if 0 <=? r
  then (r, pi', virtual_memory_map m pagetable addr (to_uint32 (pn * PAGESIZE)) PAGESIZE
                  (Z.lor (Z.lor PTE_P PTE_W) PTE_U))
  else (r, pi', m).

(** Modelled from the spec: [program_load] of the absent loader.  The spec
    gives its result only (0 or a negative error); the comment on
    [physical_page_alloc] says the loader claims its frames through that
    function, so the model claims the pages of the image for the process in
    order and reports the first refusal.  The image bytes it copies are not
    represented. *)
Fixpoint program_load_pages (pi : pageinfo_t) (pid : Z) (pages : list Z)
  : Z * pageinfo_t :=
  match pages with
  | [] => (0, pi)
  | a :: rest =>
      let '(r, pi') := physical_page_alloc pi a (to_int8 pid) in
      if r <? 0 then (-1, pi') else program_load_pages pi' pid rest
  end.

Definition program_load (s : kstate) (pid program_number : Z) : Z * kstate :=
  let '(r, pi') := program_load_pages (pageinfo s) (p_pid (proc_get (processes s) pid))
                     (program_pages program_number) in
  (r, upd_pageinfo s pi').

(** Modelled from the spec: [process_init] of the absent hardware module
    resets the saved register context, which the core treats as opaque. *)
Definition process_init (p : proc) : proc := with_registers p zero_registers.

(** process_setup(pid, program_number), up to the [else] branch that falls
    back on the kernel's page table. *)
Definition setup_pagetable (s : kstate) (pid : Z) : kstate :=
  let s1 := upd_proc s pid process_init in
  let '(pt, pi2, m2) := copy_pagetable (pageinfo s1) (mem s1) kernel_pagetable (to_int8 pid) in
  let s2 := upd_proc (upd_mem (upd_pageinfo s1 pi2) m2) pid (fun p => with_pagetable p pt) in
  if negb (pt =? 0) then
    let pt' := p_pagetable (proc_get (processes s2) pid) in
    let m3 := virtual_memory_map (mem s2) pt' PROC_START_ADDR PROC_START_ADDR
                (MEMSIZE_PHYSICAL - PROC_START_ADDR) 0 in
    let m4 := virtual_memory_map m3 pt'
                (PROC_START_ADDR + (pid - 1) * PROC_SIZE)
                (PROC_START_ADDR + (pid - 1) * PROC_SIZE)
                (2 * PAGESIZE) (Z.lor (Z.lor PTE_P PTE_W) PTE_U) in
    upd_mem s2 m4
  else
    let s2' := upd_proc s2 pid (fun p => with_pagetable p kernel_pagetable) in
    let kpn := PAGENUMBER kernel_pagetable in
    upd_pageinfo s2' (set_refcount (pageinfo s2') kpn
                        (refcount (pi_get (pageinfo s2') kpn) + 1)).

(** process_setup(pid, program_number); [None] is the failed
    [assert(r >= 0)]. *)
Definition process_setup (s : kstate) (pid program_number : Z) : option kstate :=
  let s3 := setup_pagetable s pid in
  let s4 := upd_proc s3 pid (fun p => with_state p P_RUNNABLE) in
  let '(r, s5) := program_load s4 pid program_number in
  if r <? 0 then None
  else
    let s6 := upd_proc s5 pid (fun p => with_registers p (set_esp (p_registers p) MEMSIZE_VIRTUAL)) in
    let stack_page := MEMSIZE_VIRTUAL - PAGESIZE in
    let '(_, pi7, m7) := sys_page_alloc_func (pageinfo s6) (mem s6) stack_page
                           (p_pagetable (proc_get (processes s6) pid)) pid in
    Some (upd_mem (upd_pageinfo s6 pi7) m7).

(** pageinfo_init(): the owner the loop body computes for [addr], the loop
    body, and the loop over the zero-initialised static array. *)
Definition boot_owner (addr : Z) : Z :=
  if physical_memory_isreserved addr then PO_RESERVED
  else if ((KERNEL_START_ADDR <=? addr) && (addr <? kernel_end))
          || (addr =? KERNEL_STACK_TOP - PAGESIZE) then PO_KERNEL
  else PO_FREE.

Definition pageinfo_init_step (pi : pageinfo_t) (addr : Z) : pageinfo_t :=
  let own := boot_owner addr in
  let pi1 := set_owner pi (PAGENUMBER addr) own in
  set_refcount pi1 (PAGENUMBER addr) (if own =? PO_FREE then 0 else 1).

Definition pageinfo_zero : pageinfo_t :=
  replicate (Z.to_nat (PAGENUMBER MEMSIZE_PHYSICAL)) (mk_pageinfo 0 0).

Definition pageinfo_init : pageinfo_t :=
  fold_left pageinfo_init_step (for_range 0 MEMSIZE_PHYSICAL PAGESIZE) pageinfo_zero.

(** run(p): fails its assertion unless [p] is runnable, else makes it
    current and resumes it. *)
Definition run (s : kstate) (pid : Z) : outcome :=
  if procstate_eqb (p_state (proc_get (processes s) pid)) P_RUNNABLE
  then Resumed (upd_current s pid)
  else Panicked.

(** The loop of schedule(), run for at most [fuel] iterations: the pid it
    hands to [run], or [None] when none was found so far. *)
Fixpoint schedule_loop (ps : proctable) (fuel : nat) (pid : Z) : option Z :=
  match fuel with
  | O => None
  | S k =>
      let pid' := Z.rem (pid + 1) NPROC in
      if procstate_eqb (p_state (proc_get ps pid')) P_RUNNABLE then Some pid'
      else schedule_loop ps k pid'
  end.

(** schedule(): one full turn of the table decides; a turn that finds
    nothing repeats forever (see [schedule_loop_spins]). *)
Definition schedule (s : kstate) : outcome :=
  match schedule_loop (processes s) (Z.to_nat NPROC) (p_pid (cur s)) with
  | Some pid => run s pid
  | None => Spins s
  end.

(** The loop over [va] in the fork handler.  Its two conditions: the page
    is writable and owned by the caller (copied), or it has some permission
    and is owned by the caller (shared). *)
Definition private_page (s : kstate) (va : Z) : bool :=
  let vam := virtual_memory_lookup (mem s) (p_pagetable (cur s)) va in
  negb (Z.land (vam_perm vam) PTE_W =? 0)
  && (owner (pi_get (pageinfo s) (vam_pn vam)) =? p_pid (cur s)).

Definition shared_page (s : kstate) (va : Z) : bool :=
  let vam := virtual_memory_lookup (mem s) (p_pagetable (cur s)) va in
  negb (vam_perm vam =? 0)
  && (owner (pi_get (pageinfo s) (vam_pn vam)) =? p_pid (cur s)).

(** The branch that copies: the allocation result is used unchecked. *)
Definition fork_private (newpid : Z) (s : kstate) (va : Z) : kstate :=
  let vam := virtual_memory_lookup (mem s) (p_pagetable (cur s)) va in
  let '(page, pi1) := page_alloc_lite (pageinfo s) newpid in
  let m1 := memcpy_page (mem s) page (vam_pa vam) in
  let m2 := virtual_memory_map m1 (p_pagetable (proc_get (processes s) newpid))
              va page PAGESIZE (vam_perm vam) in
  upd_mem (upd_pageinfo s pi1) m2.

(** The branch that shares: the frame whose refcount it increments is
    looked up again after the mapping is installed. *)
Definition shared_frame (newpid : Z) (s : kstate) (va : Z) : Z :=
  let vam := virtual_memory_lookup (mem s) (p_pagetable (cur s)) va in
  let pa := vam_pa (virtual_memory_lookup (mem s) (p_pagetable (cur s)) va) in
  let m1 := virtual_memory_map (mem s) (p_pagetable (proc_get (processes s) newpid))
              va pa PAGESIZE (vam_perm vam) in
  vam_pn (virtual_memory_lookup m1 (p_pagetable (cur s)) va).

Definition fork_shared (newpid : Z) (s : kstate) (va : Z) : kstate :=
  let vam := virtual_memory_lookup (mem s) (p_pagetable (cur s)) va in
  let pa := vam_pa (virtual_memory_lookup (mem s) (p_pagetable (cur s)) va) in
  let m1 := virtual_memory_map (mem s) (p_pagetable (proc_get (processes s) newpid))
              va pa PAGESIZE (vam_perm vam) in
  let pn := shared_frame newpid s va in
  upd_mem (upd_pageinfo s (set_refcount (pageinfo s) pn
                             (refcount (pi_get (pageinfo s) pn) + 1))) m1.

(** The body of the loop, for one page. *)
Definition fork_page (newpid : Z) (s : kstate) (va : Z) : kstate :=
  if private_page s va then fork_private newpid s va
  else if shared_page s va then fork_shared newpid s va
  else s.

(** The fork handler once a Free slot [newpid] is found, in its three
    stages: the slot is claimed and given the clone of the caller's page
    table; the loop over the user pages runs; the registers are set. *)
Definition fork_claim (s : kstate) (newpid : Z) : kstate :=
  let s1 := upd_proc s newpid (fun p => with_state p P_RUNNABLE) in
  let '(pt, pi2, m2) := copy_pagetable (pageinfo s1) (mem s1) (p_pagetable (cur s1))
                          (to_int8 newpid) in
  upd_proc (upd_mem (upd_pageinfo s1 pi2) m2) newpid (fun p => with_pagetable p pt).

Definition fork_pages (s : kstate) (newpid : Z) : kstate :=
  fold_left (fork_page newpid) (for_range PROC_START_ADDR MEMSIZE_VIRTUAL PAGESIZE) s.

Definition fork_registers (s : kstate) (newpid : Z) : kstate :=
  let s4 := upd_proc s newpid (fun p => with_registers p (p_registers (cur s))) in
  let s5 := upd_proc s4 newpid (fun p => with_registers p (set_eax (p_registers p) 0)) in
  upd_proc s5 (current s5) (fun p => with_registers p (set_eax (p_registers p) newpid)).

Definition fork_child (s : kstate) (newpid : Z) : kstate :=
  fork_registers (fork_pages (fork_claim s newpid) newpid) newpid.

(** [current->p_registers.reg_eax = -1] *)
Definition fork_failed (s : kstate) : kstate :=
  upd_proc s (current s) (fun p => with_registers p (set_eax (p_registers p) (-1))).

(** The scan [for(newpid = 1; newpid < NPROC; ++newpid)] over the slots
    that are left, with its [break] and its literal 15. *)
Fixpoint fork_scan (s : kstate) (pids : list Z) : kstate :=
  match pids with
  | [] => s
  | newpid :: rest =>
      if procstate_eqb (p_state (proc_get (processes s) newpid)) P_FREE
      then fork_child s newpid
      else fork_scan (if newpid =? 15 then fork_failed s else s) rest
  end.

Definition sys_fork (s : kstate) : kstate := fork_scan s (seqZ 1 (NPROC - 1)).

(** virtual_memory_check(): [true] when every assertion holds. *)
Definition counts_on_kernel_table (ps : proctable) (pid : Z) : bool :=
  negb (procstate_eqb (p_state (proc_get ps pid)) P_FREE)
  && (p_pagetable (proc_get ps pid) =? kernel_pagetable).

Definition expected_kernel_refcount (ps : proctable) : Z :=
  fold_left (fun n pid => if counts_on_kernel_table ps pid then n + 1 else n)
            (seqZ 0 NPROC) 1.

Definition check_pagetable (pi : pageinfo_t) (m : memory)
    (pagetable expected_owner expected_refcount : Z) : bool :=
  (owner (pi_get pi (PAGENUMBER pagetable)) =? expected_owner)
  && (refcount (pi_get pi (PAGENUMBER pagetable)) =? expected_refcount)
  && forallb (fun pn =>
                let pte := mem_load m pagetable pn in
                if Z.land pte PTE_P =? 0 then true
                else (owner (pi_get pi (PAGENUMBER pte)) =? expected_owner)
                     && (refcount (pi_get pi (PAGENUMBER pte)) =? 1))
             (seqZ 0 PAGETABLE_NENTRIES).

Definition check_process (s : kstate) (pid : Z) : bool :=
  if (0 <=? pid) && procstate_eqb (p_state (proc_get (processes s) pid)) P_FREE
  then true
  else if (pid <? 0) || (p_pagetable (proc_get (processes s) pid) =? kernel_pagetable)
  then check_pagetable (pageinfo s) (mem s) kernel_pagetable PO_KERNEL
         (expected_kernel_refcount (processes s))
  else check_pagetable (pageinfo s) (mem s) (p_pagetable (proc_get (processes s) pid)) pid 1.

Definition check_frame (s : kstate) (pn : Z) : bool :=
  if (0 <? refcount (pi_get (pageinfo s) pn)) && (0 <=? owner (pi_get (pageinfo s) pn))
  then negb (procstate_eqb
               (p_state (proc_get (processes s) (owner (pi_get (pageinfo s) pn)))) P_FREE)
  else true.

Definition virtual_memory_check (s : kstate) : bool :=
  procstate_eqb (p_state (proc_get (processes s) 0)) P_FREE
  && forallb (check_process s) (seqZ (-1) (NPROC + 1))
  && forallb (check_frame s) (seqZ 0 (PAGENUMBER MEMSIZE_PHYSICAL)).

End Kernel.

(** ** The memory viewer's choice of process *)

Definition HZ : Z := 100.

Section Viewer.
Context `{Config}.

(** [if (last_ticks == 0 || ticks - last_ticks >= HZ / 2)], in unsigned
    arithmetic. *)
Definition animate_tick (s : kstate) (a : animation) : animation :=
  if (last_ticks a =? 0) || (HZ / 2 <=? to_uint32 (ticks s - last_ticks a))
  then mk_animation (ticks s) (showing a + 1)
  else a.

(** [while (showing <= 2*NPROC && processes[showing % NPROC].p_state == P_FREE)
    ++showing;] run for at most [fuel] iterations; it yields [showing]. *)
Fixpoint animate_skip (ps : proctable) (fuel : nat) (sh : Z) : Z :=
  match fuel with
  | O => sh
  | S k =>
      if (sh <=? 2 * NPROC) && procstate_eqb (p_state (proc_get ps (Z.rem sh NPROC))) P_FREE
      then animate_skip ps k (sh + 1)
      else sh
  end.

(** memshow_virtual_animate(): the new statics, and the page table and
    process number handed to memshow_virtual, if any. *)
Definition memshow_virtual_animate (s : kstate) (a : animation)
  : animation * option (Z * Z) :=
  let a1 := animate_tick s a in
  let sh := Z.rem (animate_skip (processes s) (Z.to_nat (2 * NPROC + 1 - showing a1))
                     (showing a1)) NPROC in
  (mk_animation (last_ticks a1) sh,
   if procstate_eqb (p_state (proc_get (processes s) sh)) P_FREE then None
   else Some (p_pagetable (proc_get (processes s) sh), sh)).

End Viewer.

(** ** The picture of physical memory *)

(** [memstate_colors]: a glyph in the low byte, the CGA attribute above. *)
Definition memstate_colors : list Z :=
  [ Z.lor 75 3328  (* 'K' | 0x0D00 *); Z.lor 82 1792  (* 'R' | 0x0700 *);
    Z.lor 46 1792  (* '.' | 0x0700 *); Z.lor 49 3072  (* '1' | 0x0C00 *);
    Z.lor 50 2560  (* '2' | 0x0A00 *); Z.lor 51 2304  (* '3' | 0x0900 *);
    Z.lor 52 3584  (* '4' | 0x0E00 *); Z.lor 53 3840  (* '5' | 0x0F00 *);
    Z.lor 54 3072  (* '6' | 0x0C00 *); Z.lor 55 2560  (* '7' | 0x0A00 *);
    Z.lor 56 2304  (* '8' | 0x0900 *); Z.lor 57 3584  (* '9' | 0x0E00 *);
    Z.lor 65 3840  (* 'A' | 0x0F00 *); Z.lor 66 3072  (* 'B' | 0x0C00 *);
    Z.lor 67 2560  (* 'C' | 0x0A00 *); Z.lor 68 2304  (* 'D' | 0x0900 *);
    Z.lor 69 3584  (* 'E' | 0x0E00 *); Z.lor 70 3840  (* 'F' | 0x0F00 *) ].

(** [memstate_colors[owner - PO_KERNEL]]; [None] when the index falls
    outside the array. *)
Definition memstate_color (own : Z) : option Z :=
  if own - PO_KERNEL <? 0 then None else memstate_colors !! Z.to_nat (own - PO_KERNEL).

(** The value memshow_physical() stores in the console cell of frame [pn]. *)
Definition memshow_physical_cell (pi : pageinfo_t) (pn : Z) : option Z :=
  let own := if refcount (pi_get pi pn) =? 0 then PO_FREE else owner (pi_get pi pn) in
  match memstate_color own with
  | None => None
  | Some color =>
      Some (if 1 <? refcount (pi_get pi pn) then Z.land color 30719 (* 0x77FF *) else color)
  end.

(** ** What the viewer draws *)

Section Display.
Context `{Config}.

(** [console[i] = v].  The cells of the console array are 16 bits wide
    (the colour words stored are [uint16_t]); the store replaces one half
    of a 32-bit word, the low half at the lower address. *)
Definition console_store (m : memory) (i v : Z) : memory :=
  let a := console + 2 * i in
  let w := m (PAGENUMBER a) (PAGEOFFSET a `div` 4) in
  let w' := if Z.land a 2 =? 0
            then Z.lor (Z.land w 4294901760 (* 0xFFFF0000 *)) v
            else Z.lor (Z.land w 65535 (* 0x0000FFFF *)) (Z.shiftl v 16) in
  fun f j => if (f =? PAGENUMBER a) && (j =? PAGEOFFSET a `div` 4) then w' else m f j.

(** memshow_physical(): the body of its loop for frame [pn], and the
    function.  [None] stands for a read outside [memstate_colors], which C
    leaves undefined: the model stops there as at a failed assertion. *)
Definition memshow_physical_step (pi : pageinfo_t) (om : option memory) (pn : Z)
  : option memory :=
  match om with
  | None => None
  | Some m =>
      let m1 := if Z.rem pn 64 =? 0
                then console_printf (CPOS (1 + Z.quot pn 64) 3) 3840 (* 0x0F00 *)
                       "0x%06X " [Z.shiftl pn 12] m
                else m in
      match memshow_physical_cell pi pn with
      | None => None
      | Some color =>
          Some (console_store m1 (CPOS (1 + Z.quot pn 64) (12 + Z.rem pn 64)) color)
      end
  end.

Definition memshow_physical (s : kstate) : option memory :=
  fold_left (memshow_physical_step (pageinfo s))
            (seqZ 0 (PAGENUMBER MEMSIZE_PHYSICAL))
            (Some (console_printf (CPOS 0 32) 3840 "PHYSICAL MEMORY" [] (mem s))).

(** The colour memshow_virtual() computes for a mapping; [None] is the
    failed [assert(vam.pa < MEMSIZE_PHYSICAL)], or a read outside
    [memstate_colors]. *)
Definition memshow_virtual_cell (pi : pageinfo_t) (vam : vamapping) : option Z :=
  if vam_pn vam <? 0 then Some 32 (* ' ' *)
  else if negb (vam_pa vam <? MEMSIZE_PHYSICAL) then None
  else
    let own := if refcount (pi_get pi (vam_pn vam)) =? 0 then PO_FREE
               else owner (pi_get pi (vam_pn vam)) in
    match memstate_color own with
    | None => None
    | Some color =>
        let color1 :=
          if Z.land (vam_perm vam) PTE_U =? 0 then color
          else to_uint16 (Z.lor (Z.lor (Z.shiftl (Z.land color 3840 (* 0x0F00 *)) 4)
                                       (Z.shiftr (Z.land color 61440 (* 0xF000 *)) 4))
                                (Z.land color 255)) in
        Some (if 1 <? refcount (pi_get pi (vam_pn vam))
              then Z.land color1 30719 (* 0x77FF *) else color1)
    end.

(** The body of the loop of memshow_virtual() for the page at [va]: the
    lookup reads the page table as memory is at that point. *)
Definition memshow_virtual_step (pi : pageinfo_t) (pagetable : Z)
    (om : option memory) (va : Z) : option memory :=
  match om with
  | None => None
  | Some m =>
      match memshow_virtual_cell pi (virtual_memory_lookup m pagetable va) with
      | None => None
      | Some color =>
          let pn := PAGENUMBER va in
          let m1 := if Z.rem pn 64 =? 0
                    then console_printf (CPOS (11 + Z.quot pn 64) 3) 3840 "0x%06X " [va] m
                    else m in
          Some (console_store m1 (CPOS (11 + Z.quot pn 64) (12 + Z.rem pn 64)) color)
      end
  end.

(** memshow_virtual(pagetable, name); [None] is a failed assertion, the
    first being that [pagetable] is page-aligned.  [name] is the decimal
    text of a process number, which the model passes as that number. *)
Definition memshow_virtual (pi : pageinfo_t) (m : memory) (pagetable name : Z)
  : option memory :=
  if negb (pagetable =? PTE_ADDR pagetable) then None
  else
    fold_left (memshow_virtual_step pi pagetable)
              (for_range 0 MEMSIZE_VIRTUAL PAGESIZE)
              (Some (console_printf (CPOS 10 26) 3840 "VIRTUAL ADDRESS SPACE FOR %s"
                       [name] m)).

(** [memshow_physical(); memshow_virtual_animate();] as interrupt() calls
    them: the state once both pictures are drawn, or [None] when one of
    them stops the kernel. *)
Definition memshow (s : kstate) : option kstate :=
  match memshow_physical s with
  | None => None
  | Some m1 =>
      let '(a, shown) := memshow_virtual_animate s (anim s) in
      match shown with
      | None => Some (upd_anim (upd_mem s m1) a)
      | Some (pagetable, name) =>
          match memshow_virtual (pageinfo s) m1 pagetable name with
          | None => None
          | Some m2 => Some (upd_anim (upd_mem s m2) a)
          end
      end
  end.

End Display.

(** ** The dispatcher *)

Section Dispatcher.
Context `{Config}.

(** The tail of interrupt(): resume the current process or pick another. *)
Definition resume_or_schedule (s : kstate) : outcome :=
  if procstate_eqb (p_state (cur s)) P_RUNNABLE then run s (current s)
  else schedule s.

(** The page-fault handler for a fault taken in user mode: the message is
    written on the last line of the console and the current process
    becomes Broken.  The two words of the message that name the operation
    and the problem are chosen by two bits of the error code, which is how
    the model passes them. *)
Definition pagefault_user (s : kstate) (reg : x86_registers) : kstate :=
  let m' := console_printf (CPOS 24 0) 3072 (* 0x0C00 *)
              "Process %d page fault for 0x%08X (%s %s, eip=%p)!\n"
              [p_pid (cur s); cr2 s; Z.land (reg_err reg) PFERR_WRITE;
               Z.land (reg_err reg) PFERR_PRESENT; reg_eip reg]
              (mem s) in
  upd_proc (upd_mem s m') (current s) (fun p => with_state p P_BROKEN).

(** interrupt(reg).  After the consistency check the two pictures are
    drawn, and a failed assertion there stops the kernel before the switch
    is reached; the handlers then work on memory as the drawing left it.
    [console_show_cursor] and [check_keyboard] talk to the display
    controller and the keyboard through I/O ports and are not
    represented. *)
Definition interrupt (s : kstate) (reg : x86_registers) : outcome :=
  let s0 := upd_proc s (current s) (fun p => with_registers p reg) in
  if negb (virtual_memory_check s0) then Panicked
  else
    match memshow s0 with
    | None => Panicked
    | Some s1 =>
        match reg_intno reg with
        | INT_SYS_PANIC => Panicked
        | INT_SYS_GETPID =>
            resume_or_schedule
              (upd_proc s1 (current s1)
                 (fun p => with_registers p (set_eax (p_registers p) (p_pid p))))
        | INT_SYS_YIELD => schedule s1
        | INT_SYS_PAGE_ALLOC =>
            let addr := reg_eax (p_registers (cur s1)) in
            let '(r, pi', m') := sys_page_alloc_func (pageinfo s1) (mem s1) addr
                                   (p_pagetable (cur s1)) (p_pid (cur s1)) in
            resume_or_schedule
              (upd_proc (upd_mem (upd_pageinfo s1 pi') m') (current s1)
                 (fun p => with_registers p (set_eax (p_registers p) r)))
        | INT_SYS_FORK => resume_or_schedule (sys_fork s1)
        | INT_TIMER => schedule (upd_ticks s1 (to_uint32 (ticks s1 + 1)))
        | INT_PAGEFAULT =>
            if Z.land (reg_err reg) PFERR_USER =? 0 then Panicked
            else resume_or_schedule (pagefault_user s1 reg)
        | INT_OTHER _ => Panicked
        end
    end.

(** The state start() builds before the first process_setup: frame table
    initialised, kernel mappings installed in the memory [m0] that
    hardware_init and console_clear left, every descriptor Free.
    [current] is not yet set; the model holds index 0 there.  No fault has
    been taken yet, and the fault-address register holds the 0 of a CPU
    reset. *)
Definition boot_state (m0 : memory) : kstate :=
  let m1 := virtual_memory_map m0 kernel_pagetable 0 0 PROC_START_ADDR
              (Z.lor PTE_P PTE_W) in
  let m2 := virtual_memory_map m1 kernel_pagetable console console PAGESIZE
              (Z.lor (Z.lor PTE_P PTE_W) PTE_U) in
  mk_kstate ((fun i => mk_proc i zero_registers P_FREE 0) <$> seqZ 0 NPROC)
            0 0 pageinfo_init m2 animation_start 0.

(** The process_setup calls start() makes for a boot command. *)
Definition boot_programs (command : option string) : list (Z * Z) :=
  match command with
  | Some c =>
      if String.eqb c "fork" then [(1, 4)]
      else if String.eqb c "forkexit" then [(1, 5)]
      else [(1, 0); (2, 1); (3, 2); (4, 3)]
  | None => [(1, 0); (2, 1); (3, 2); (4, 3)]
  end.

Fixpoint setup_all (s : kstate) (l : list (Z * Z)) : option kstate :=
  match l with
  | [] => Some s
  | (pid, prog) :: rest =>
      match process_setup s pid prog with
      | Some s' => setup_all s' rest
      | None => None
      end
  end.

(** start(command) *)
Definition start (m0 : memory) (command : option string) : outcome :=
  match setup_all (boot_state m0) (boot_programs command) with
  | Some s => run s 1
  | None => Panicked
  end.

(** Every refcount the fork handler increments for the page at [va]
    belongs to a frame that is referenced, and the increment stays within
    an [int8_t]. *)
Definition share_fits (newpid : Z) (s : kstate) (va : Z) : bool :=
  if private_page s va then true
  else if shared_page s va then
    let r := refcount (pi_get (pageinfo s) (shared_frame newpid s va)) in
    (0 <? r) && (r <? 127)
  else true.

Fixpoint fork_pages_fit (newpid : Z) (s : kstate) (vas : list Z) : bool :=
  match vas with
  | [] => true
  | va :: rest => share_fits newpid s va && fork_pages_fit newpid (fork_page newpid s va) rest
  end.

Definition fork_child_fits (s : kstate) (newpid : Z) : bool :=
  fork_pages_fit newpid (fork_claim s newpid)
    (for_range PROC_START_ADDR MEMSIZE_VIRTUAL PAGESIZE).

(** The same along the scan for a Free slot, which it follows step by step. *)
Fixpoint fork_scan_fits (s : kstate) (pids : list Z) : bool :=
  match pids with
  | [] => true
  | newpid :: rest =>
      if procstate_eqb (p_state (proc_get (processes s) newpid)) P_FREE
      then fork_child_fits s newpid
      else fork_scan_fits (if newpid =? 15 then fork_failed s else s) rest
  end.

Definition sys_fork_fits (s : kstate) : bool := fork_scan_fits s (seqZ 1 (NPROC - 1)).

Definition interrupt_fits (s : kstate) (reg : x86_registers) : bool :=
  match reg_intno reg with
  | INT_SYS_FORK =>
      match memshow (upd_proc s (current s) (fun p => with_registers p reg)) with
      | Some s1 => sys_fork_fits s1
      | None => true
      end
  | _ => true
  end.

(** The states the kernel is in between interrupts: the one start() resumes
    the first process in; any state after user code has run, which changes
    memory and, by faulting, the fault-address register; and the state a
    handler resumes a process in, for handlers whose refcount increments
    fit. *)
Inductive kernel_reach : kstate -> Prop :=
  | reach_start m0 command s :
      start m0 command = Resumed s -> kernel_reach s
  | reach_user s m a :
      kernel_reach s -> kernel_reach (upd_cr2 (upd_mem s m) a)
  | reach_interrupt s reg s' :
      kernel_reach s -> interrupt_fits s reg = true ->
      interrupt s reg = Resumed s' -> kernel_reach s'.

End Dispatcher.

(** ** Specification predicates *)

Section Predicates.
Context `{Config}.

(** [pn] is the lowest-numbered frame the allocator's scan sees as free. *)
Definition first_free (pi : pageinfo_t) (pn : Z) : Prop :=
  0 <= pn < NPAGES /\ refcount (pi_get pi pn) = 0
  /\ forall j, 0 <= j < pn -> refcount (pi_get pi j) <> 0.

(** The descriptor at [pid] is Runnable. *)
Definition runnable_at (ps : proctable) (pid : Z) : Prop :=
  p_state (proc_get ps pid) = P_RUNNABLE.

(** The pid the scheduler's scan looks at in its [k]-th iteration. *)
Definition scan_pid (start k : Z) : Z := (start + k) `mod` NPROC.

(** No slot among pids 1 .. NPROC - 1 is Free. *)
Definition no_free_slot (ps : proctable) : Prop :=
  forall pid, 1 <= pid < NPROC -> p_state (proc_get ps pid) <> P_FREE.

(** [pid] is the first Free slot among pids 1 .. NPROC - 1. *)
Definition first_free_slot (ps : proctable) (pid : Z) : Prop :=
  1 <= pid < NPROC /\ p_state (proc_get ps pid) = P_FREE
  /\ forall j, 1 <= j < pid -> p_state (proc_get ps j) <> P_FREE.

(** The process table has [NPROC] descriptors and [current] points into it. *)
Definition procs_sized (s : kstate) : Prop :=
  Z.of_nat (length (processes s)) = NPROC /\ 0 <= current s < NPROC.

(** The page-table pointer the clone inside fork hands back for the slot
    [newpid]. *)
Definition fork_clone_result (s : kstate) (newpid : Z) : Z :=
  fst (fst (copy_pagetable (pageinfo s) (mem s) (p_pagetable (cur s)) (to_int8 newpid))).

(** The expected kernel-table refcount as the spec words it: 1 plus the
    number of processes in Runnable state whose page table is the kernel's. *)
Definition spec_expected_kernel_refcount (ps : proctable) : Z :=
  1 + Z.of_nat (length (List.filter
                          (fun pid => procstate_eqb (p_state (proc_get ps pid)) P_RUNNABLE
                                      && (p_pagetable (proc_get ps pid) =? kernel_pagetable))
                          (seqZ 0 NPROC))).

(** The frame [pn] lies in the kernel image as pageinfo_init sees it. *)
Definition kernel_frame (pn : Z) : Prop :=
  0 <= pn < NPAGES /\ boot_owner (pn * PAGESIZE) = PO_KERNEL.

(** What start() needs of the memory hardware_init leaves: once the boot
    mappings are installed, the kernel's level-1 table and every level-2
    table it points to sit in frames of the kernel image. *)
Definition kernel_tables_placed (m0 : memory) : Prop :=
  kernel_frame (PAGENUMBER kernel_pagetable)
  /\ forall i, 0 <= i < PAGETABLE_NENTRIES ->
       let pte := mem_load (mem (boot_state m0)) kernel_pagetable i in
       Z.land pte PTE_P <> 0 -> kernel_frame (PAGENUMBER pte).

(** [kernel_tables_placed], as a check that runs on the memory of the boot
    state. *)
Definition kernel_frameb (pn : Z) : bool :=
  (0 <=? pn) && (pn <? NPAGES) && (boot_owner (pn * PAGESIZE) =? PO_KERNEL).

Definition kernel_tables_placedb (m : memory) : bool :=
  kernel_frameb (PAGENUMBER kernel_pagetable)
  && forallb (fun i =>
                let pte := mem_load m kernel_pagetable i in
                (Z.land pte PTE_P =? 0) || kernel_frameb (PAGENUMBER pte))
             (seqZ 0 PAGETABLE_NENTRIES).

(** A frame record as the data model has it: both fields within an
    [int8_t], the refcount not negative, and refcount 0 exactly for the
    owner Free. *)
Definition frame_ok (r : physical_pageinfo) : Prop :=
  -128 <= owner r < 128 /\ 0 <= refcount r < 128
  /\ (refcount r = 0 <-> owner r = PO_FREE).

Definition frames_ok (pi : pageinfo_t) : Prop := Forall frame_ok pi.

Definition frame_okb (r : physical_pageinfo) : bool :=
  (-128 <=? owner r) && (owner r <? 128) && (0 <=? refcount r) && (refcount r <? 128)
  && Bool.eqb (refcount r =? 0) (owner r =? PO_FREE).

(** The invariant of the frame table, for every frame. *)
Definition refcount_owner_inv (pi : pageinfo_t) : Prop :=
  forall pn, refcount (pi_get pi pn) = 0 <-> owner (pi_get pi pn) = PO_FREE.

(** The process table as the kernel keeps it: [NPROC] descriptors, each
    holding its own index as pid, slot 0 never used. *)
Definition procs_ok (ps : proctable) : Prop :=
  Z.of_nat (length ps) = NPROC
  /\ (forall i, 0 <= i < NPROC -> p_pid (proc_get ps i) = i)
  /\ p_state (proc_get ps 0) = P_FREE.

Definition kernel_ok (s : kstate) : Prop :=
  frames_ok (pageinfo s) /\ procs_ok (processes s).

(** A state in which a process has been resumed. *)
Definition kernel_running (s : kstate) : Prop :=
  kernel_ok s /\ p_state (cur s) = P_RUNNABLE.

(** During start(): the kernel's page-table frame is referenced, at most
    [b] times. *)
Definition kernel_booting (s : kstate) (b : Z) : Prop :=
  kernel_ok s /\ 0 < refcount (pi_get (pageinfo s) (PAGENUMBER kernel_pagetable)) <= b.

(** No frame within the scan is free. *)
Definition exhausted (pi : pageinfo_t) : Prop :=
  forall j, 0 <= j < NPAGES -> refcount (pi_get pi j) <> 0.

(** The frame table has one record per frame of physical memory. *)
Definition frames_sized (pi : pageinfo_t) : Prop :=
  Z.of_nat (length pi) = NPAGES.

(** The state of the fork handler when its loop reaches [va], and the
    pointer page_alloc_lite gives it there. *)
Definition fork_state_before (s : kstate) (newpid va : Z) : kstate :=
  fold_left (fork_page newpid) (for_range PROC_START_ADDR va PAGESIZE)
            (fork_claim s newpid).

Definition fork_fresh_page (s : kstate) (newpid va : Z) : Z :=
  fst (page_alloc_lite (pageinfo (fork_state_before s newpid va)) newpid).

(** What the fork loop relies on, for a caller with pid [cpid] and page
    table [ppt] and a child [newpid] whose clone lives in the frames [c1]
    (level 1) and [c2] (level 2): the caller's level-1 table and its first
    level-2 table are frames the caller owns; the child's are frames the
    child owns; frame 0 is not the caller's; and entry 0 of the child's
    level-1 table points at its level-2 table. *)
Definition fork_inv (newpid cpid ppt c1 c2 : Z) (t : kstate) : Prop :=
  frames_sized (pageinfo t) /\ frames_ok (pageinfo t)
  /\ p_pagetable (cur t) = ppt /\ p_pid (cur t) = cpid
  /\ p_pagetable (proc_get (processes t) newpid) = c1 * PAGESIZE
  /\ owner (pi_get (pageinfo t) (PAGENUMBER ppt)) = cpid
  /\ Z.land (mem t (PAGENUMBER ppt) 0) PTE_P <> 0
  /\ owner (pi_get (pageinfo t) (PAGENUMBER (mem t (PAGENUMBER ppt) 0))) = cpid
  /\ owner (pi_get (pageinfo t) 0) <> cpid
  /\ owner (pi_get (pageinfo t) c1) = newpid
  /\ owner (pi_get (pageinfo t) c2) = newpid
  /\ c1 <> 0 /\ c2 <> 0 /\ c1 <> c2
  /\ mem t c1 0 = c2 * PAGESIZE + 7
  /\ cpid <> 0 /\ newpid <> 0 /\ cpid <> newpid /\ -128 <= newpid < 128.

(** The virtual addresses the fork loop visits lie below 4 MiB, where one
    level-2 table holds every leaf. *)
Definition user_region_ok : Prop :=
  0 <= PROC_START_ADDR /\ PROC_START_ADDR `mod` PAGESIZE = 0
  /\ MEMSIZE_VIRTUAL <= 2 ^ 22.

(** What fork needs of the caller's address space: its page-table pointer
    is page-aligned, its level-1 table and the level-2 table behind entry 0
    are frames it owns, and frame 0 is not one of its frames. *)
Definition parent_tables_ok (s : kstate) : Prop :=
  p_pagetable (cur s) `mod` PAGESIZE = 0
  /\ owner (pi_get (pageinfo s) (PAGENUMBER (p_pagetable (cur s)))) = p_pid (cur s)
  /\ Z.land (mem s (PAGENUMBER (p_pagetable (cur s))) 0) PTE_P <> 0
  /\ owner (pi_get (pageinfo s)
              (PAGENUMBER (mem s (PAGENUMBER (p_pagetable (cur s))) 0))) = p_pid (cur s)
  /\ owner (pi_get (pageinfo s) 0) <> p_pid (cur s).

(** How one iteration of the fork loop may change the frame table and
    memory: a record changes by being claimed for the child or keeps its
    owner; records of referenced frames that are not the caller's are
    untouched; referenced frames other than frame 0 and the child's level-2
    table [c2] keep their contents. *)
Definition step_frames (newpid cpid c2 : Z) (t t1 : kstate) : Prop :=
  processes t1 = processes t /\ current t1 = current t
  /\ frames_sized (pageinfo t1) /\ frames_ok (pageinfo t1)
  /\ (forall f, (owner (pi_get (pageinfo t1) f) = owner (pi_get (pageinfo t) f)
                 /\ (refcount (pi_get (pageinfo t) f) <> 0 ->
                     refcount (pi_get (pageinfo t1) f) <> 0))
                \/ (refcount (pi_get (pageinfo t) f) = 0
                    /\ pi_get (pageinfo t1) f = mk_pageinfo newpid 1))
  /\ (forall f, refcount (pi_get (pageinfo t) f) <> 0 ->
                owner (pi_get (pageinfo t) f) <> cpid ->
                pi_get (pageinfo t1) f = pi_get (pageinfo t) f)
  /\ (forall f j, f <> 0 -> f <> c2 -> refcount (pi_get (pageinfo t) f) <> 0 ->
                  mem t1 f j = mem t f j).

(** The address of the [k]-th page the fork loop visits. *)
Definition user_page (k : Z) : Z := PROC_START_ADDR + k * PAGESIZE.

(** What [va] maps to in the address space of the current process, and in
    that of the process in slot [pid]. *)
Definition current_mapping (s : kstate) (va : Z) : vamapping :=
  virtual_memory_lookup (mem s) (p_pagetable (cur s)) va.

Definition mapping_of (s : kstate) (pid va : Z) : vamapping :=
  virtual_memory_lookup (mem s) (p_pagetable (proc_get (processes s) pid)) va.

(** [v] is another address at which the fork loop shares the frame [pn],
    and [shared_once]: the frame behind [va] is shared at [va] only. *)
Definition shared_elsewhere (s : kstate) (va pn v : Z) : bool :=
  negb (v =? va) && negb (private_page s v) && shared_page s v
  && (vam_pn (current_mapping s v) =? pn).

Definition shared_once (s : kstate) (va : Z) : bool :=
  forallb (fun v => negb (shared_elsewhere s va (vam_pn (current_mapping s va)) v))
          (for_range PROC_START_ADDR MEMSIZE_VIRTUAL PAGESIZE).

(** Every frame in use in [pi] is still in use in [pi'], with the owner it
    had and at least as many references. *)
Definition frames_kept (pi pi' : pageinfo_t) : Prop :=
  forall pn, 0 < refcount (pi_get pi pn) ->
    owner (pi_get pi' pn) = owner (pi_get pi pn)
    /\ refcount (pi_get pi pn) <= refcount (pi_get pi' pn).

(** Every owner field is one of the three tags or a process number. *)
Definition owners_bounded (pi : pageinfo_t) : Prop :=
  forall pn, PO_KERNEL <= owner (pi_get pi pn) < NPROC.

End Predicates.

(** ** The console of the concrete configurations

    A text screen of 80 columns, and a console_printf whose text is not
    represented: it leaves memory as it is. *)
Definition CPOS80 (row col : Z) : Z := row * 80 + col.

Definition console_printf_blank (cpos color : Z) (format : string) (args : list Z)
    (m : memory) : memory := m.

(** ** A concrete configuration

    The layout drawn at the top of kernel.c (kernel at 0x40000, kernel stack
    top at 0x80000, I/O memory from 0xA0000, processes from 0x100000, each
    [PROC_SIZE] apart), with 2 MiB of physical memory, 3 MiB of virtual
    memory and 16 process slots. *)
Definition weensy : Config := {|
  NPROC := 16;
  MEMSIZE_PHYSICAL := 2097152;
  MEMSIZE_VIRTUAL := 3145728;
  NPAGES := 512;
  PROC_START_ADDR := 1048576;
  KERNEL_START_ADDR := 262144;
  KERNEL_STACK_TOP := 524288;
  kernel_end := 360448;
  kernel_pagetable := 335872;
  console := 753664;
  physical_memory_isreserved :=
    fun a => (a =? 0) || ((655360 <=? a) && (a <? 1048576));
  program_pages :=
    fun n => if n <? 4 then [1048576 + n * PROC_SIZE; 1048576 + n * PROC_SIZE + 4096]
             else [1048576; 1052672];
  CPOS := CPOS80;
  console_printf := console_printf_blank
|}.

(** A frame table in which every frame is taken by the kernel. *)
Definition full_pageinfo : pageinfo_t := replicate 512 (mk_pageinfo PO_KERNEL 1).

(** The same layout with a process table of 8 slots. *)
Definition weensy8 : Config := {|
  NPROC := 8;
  MEMSIZE_PHYSICAL := 2097152;
  MEMSIZE_VIRTUAL := 3145728;
  NPAGES := 512;
  PROC_START_ADDR := 1048576;
  KERNEL_START_ADDR := 262144;
  KERNEL_STACK_TOP := 524288;
  kernel_end := 360448;
  kernel_pagetable := 335872;
  console := 753664;
  physical_memory_isreserved :=
    fun a => (a =? 0) || ((655360 <=? a) && (a <? 1048576));
  program_pages :=
    fun n => if n <? 4 then [1048576 + n * PROC_SIZE; 1048576 + n * PROC_SIZE + 4096]
             else [1048576; 1052672];
  CPOS := CPOS80;
  console_printf := console_printf_blank
|}.

(** Eight descriptors, Runnable exactly at pids 2, 5 and 7, with [c] the
    current process. *)
Definition sched_example (c : Z) : kstate :=
  mk_kstate
    ((fun i => mk_proc i zero_registers
                 (if (i =? 2) || (i =? 5) || (i =? 7) then P_RUNNABLE else P_FREE) 0)
       <$> seqZ 0 8)
    c 0 [] (fun _ _ => 0) animation_start 0.

(** A process table of 16 descriptors in which every slot from 1 on is
    Runnable, process [c] current, over the frame table of a fresh boot. *)
Definition busy_state (c : Z) : kstate :=
  mk_kstate
    ((fun i => mk_proc i zero_registers (if i =? 0 then P_FREE else P_RUNNABLE) 0)
       <$> seqZ 0 16)
    c 0 (@pageinfo_init weensy) (fun _ _ => 0) animation_start 0.

(** The same with 8 descriptors. *)
Definition busy_state8 (c : Z) : kstate :=
  mk_kstate
    ((fun i => mk_proc i zero_registers (if i =? 0 then P_FREE else P_RUNNABLE) 0)
       <$> seqZ 0 8)
    c 0 (@pageinfo_init weensy8) (fun _ _ => 0) animation_start 0.

(** The memory hardware_init leaves in the concrete configuration: the
    kernel's level-1 table at 0x52000 with its one level-2 table at 0x53000,
    which maps the 2 MiB of physical memory onto themselves. *)
Definition weensy_m0 : memory :=
  fun f j =>
    if f =? 82 then (if j =? 0 then Z.lor 339968 7 else 0)
    else if f =? 83 then (if (0 <=? j) && (j <? 512) then Z.lor (Z.shiftl j 12) 7 else 0)
    else 0.

(** The state in which start() resumes process 1, for the default boot
    command (four processes). *)
Definition weensy_running : kstate :=
  match @start weensy weensy_m0 None with
  | Resumed s => s
  | _ => @boot_state weensy weensy_m0
  end.

(** A user-mode write fault on a missing page, and the same fault taken in
    kernel mode. *)
Definition user_fault : x86_registers :=
  mk_registers 0 3145728 1048576 INT_PAGEFAULT (Z.lor PFERR_USER PFERR_WRITE).
Definition kernel_fault : x86_registers :=
  mk_registers 0 3145728 1048576 INT_PAGEFAULT PFERR_WRITE.

(** The PageAlloc trap's effect on the frame table and memory, for the
    current process asking for a page at [va]. *)
Definition page_alloc_for_current `{Config} (s : kstate) (va : Z) : kstate :=
  let '(_, pi', m') := sys_page_alloc_func (pageinfo s) (mem s) va
                         (p_pagetable (cur s)) (p_pid (cur s)) in
  upd_mem (upd_pageinfo s pi') m'.

(** The booted system after process 1 has asked for a page at every
    address from 0x102000 up to its stack page: every frame is taken. *)
Definition weensy_exhausted : kstate :=
  fold_left (@page_alloc_for_current weensy)
            (for_range 1056768 3141632 PAGESIZE) weensy_running.

(** The boot state with process 1 Broken and left on the kernel's page
    table, whose frame is referenced twice. *)
Definition broken_alias_state : kstate :=
  let s := @boot_state weensy weensy_m0 in
  mk_kstate
    (proc_set (processes s) 1 (mk_proc 1 zero_registers P_BROKEN (@kernel_pagetable weensy)))
    1 0
    (set_refcount (pageinfo s) (PAGENUMBER (@kernel_pagetable weensy)) 2)
    (mem s) (anim s) (cr2 s).

(** A frame table with frame 300 as its only free frame. *)
Definition one_free_pageinfo : pageinfo_t :=
  <[300%nat := mk_pageinfo PO_FREE 0]> full_pageinfo.

(** Whether a kernel entry ended by resuming a process. *)
Definition is_resumed (o : outcome) : bool :=
  match o with Resumed _ => true | _ => false end.

(** The booted system after process 1 has asked for 368 pages: two frames
    are left, which a fork's page-table clone takes. *)
Definition weensy_two_left : kstate :=
  fold_left (@page_alloc_for_current weensy)
            (for_range 1056768 (1056768 + 368 * 4096) PAGESIZE) weensy_running.

(** The concrete configuration with program images of one page each. *)
Definition weensy1 : Config := {|
  NPROC := 16;
  MEMSIZE_PHYSICAL := 2097152;
  MEMSIZE_VIRTUAL := 3145728;
  NPAGES := 512;
  PROC_START_ADDR := 1048576;
  KERNEL_START_ADDR := 262144;
  KERNEL_STACK_TOP := 524288;
  kernel_end := 360448;
  kernel_pagetable := 335872;
  console := 753664;
  physical_memory_isreserved :=
    fun a => (a =? 0) || ((655360 <=? a) && (a <? 1048576));
  program_pages :=
    fun n => if n <? 4 then [1048576 + n * PROC_SIZE] else [1048576];
  CPOS := CPOS80;
  console_printf := console_printf_blank
|}.

(** The state in which start() resumes process 1 there.  process_setup has
    mapped two pages at 0x100000 for process 1; the image claimed the first
    only, so the frame behind 0x101000 is mapped and Free. *)
Definition weensy1_running : kstate :=
  match @start weensy1 weensy_m0 None with
  | Resumed s => s
  | _ => @boot_state weensy1 weensy_m0
  end.

(** The booted system with the second page of process 1 (frame 257, at
    0x101000) made read-only in its page table. *)
Definition weensy_readonly : kstate :=
  upd_mem weensy_running
    (mem_store (mem weensy_running) 8192 (L2PAGEINDEX 1052672) (Z.lor 1052672 5)).

(** The same layout scaled down: 32 frames of physical memory, the kernel
    image in frames 4 to 7 with its page tables in frames 5 and 6, the
    kernel stack in frame 9, I/O memory in frames 10 to 15, processes from
    0x10000, 24 pages of virtual memory and 6 process slots. *)
Definition mini : Config := {|
  NPROC := 6;
  MEMSIZE_PHYSICAL := 131072;
  MEMSIZE_VIRTUAL := 98304;
  NPAGES := 32;
  PROC_START_ADDR := 65536;
  KERNEL_START_ADDR := 16384;
  KERNEL_STACK_TOP := 40960;
  kernel_end := 32768;
  kernel_pagetable := 20480;
  console := 45056;
  physical_memory_isreserved :=
    fun a => (a =? 0) || ((40960 <=? a) && (a <? 65536));
  program_pages := fun _ => [65536; 69632];
  CPOS := CPOS80;
  console_printf := console_printf_blank
|}.

Definition mini_m0 : memory :=
  fun f j =>
    if f =? 5 then (if j =? 0 then Z.lor 24576 7 else 0)
    else if f =? 6 then (if (0 <=? j) && (j <? 32) then Z.lor (Z.shiftl j 12) 7 else 0)
    else 0.

(** The state in which start() resumes process 1 for the boot command
    that loads one process. *)
Definition mini_running : kstate :=
  match @start mini mini_m0 (Some "fork"%string) with
  | Resumed s => s
  | _ => @boot_state mini mini_m0
  end.

(** The registers of a trap of kind [n] with argument [eax]. *)
Definition trap (n : intno) (eax : Z) : x86_registers :=
  mk_registers eax 98304 65536 n 0.

(** The state a kernel entry hands back to user code; the state it was
    entered in when it resumes nothing. *)
Definition after_trap `{Config} (s : kstate) (reg : x86_registers) : kstate :=
  match interrupt s reg with
  | Resumed s' => s'
  | _ => s
  end.

(** The scaled-down system after process 1 has forked once: processes 1
    and 2. *)
Definition mini_forked : kstate := @after_trap mini mini_running (trap INT_SYS_FORK 0).

(** After three forks every frame is taken; the fourth fork claims slot 5
    while its clone finds no frame. *)
Definition mini_exhausted : kstate :=
  @after_trap mini (@after_trap mini mini_forked (trap INT_SYS_FORK 0))
    (trap INT_SYS_FORK 0).

Definition mini_orphan : kstate := @after_trap mini mini_exhausted (trap INT_SYS_FORK 0).

(** The scaled-down booted system with one leaf of the page table of
    process 1, the one for the page at 0x12000, made to point at the first
    address beyond physical memory. *)
Definition mini_stray : kstate :=
  upd_mem mini_running
    (mem_store (mem mini_running) 8192 (L2PAGEINDEX 73728) (Z.lor 131072 7)).

(** * Properties *)

(** Closed goals over the concrete states are settled by evaluation. *)
Ltac by_compute :=
  vm_compute; repeat split; try reflexivity; try discriminate.

(** ** Machine integers and frame records *)

Lemma to_int8_small z : -128 <= z < 128 -> to_int8 z = z.
Proof.
  intros Hz. unfold to_int8.
  rewrite Z.mod_small by lia. lia.
Qed.

Lemma to_int8_range z : -128 <= to_int8 z < 128.
Proof.
  unfold to_int8. pose proof (Z.mod_pos_bound (z + 128) 256). lia.
Qed.

Lemma to_int8_idem z : to_int8 (to_int8 z) = to_int8 z.
Proof. apply to_int8_small, to_int8_range. Qed.

Lemma to_uint32_small z : 0 <= z < 2 ^ 32 -> to_uint32 z = z.
Proof. intros Hz. unfold to_uint32. now rewrite Z.mod_small. Qed.

Lemma PAGENUMBER_mul pn : PAGENUMBER (pn * PAGESIZE) = pn.
Proof.
  unfold PAGENUMBER, PAGESIZE. rewrite Z.shiftr_div_pow2 by lia.
  change (2 ^ 12) with 4096. now rewrite Z.div_mul.
Qed.

Lemma PAGEADDRESS_mul pn : PAGEADDRESS pn = pn * PAGESIZE.
Proof.
  unfold PAGEADDRESS, PAGESIZE. rewrite Z.shiftl_mul_pow2 by lia. reflexivity.
Qed.

Lemma page_aligned_mul pn : Z.land (pn * PAGESIZE) 4095 = 0.
Proof.
  change 4095 with (Z.ones 12). rewrite Z.land_ones by lia.
  unfold PAGESIZE. change (2 ^ 12) with 4096. apply Z.mod_mul. lia.
Qed.

Lemma length_pi_set pi pn r : length (pi_set pi pn r) = length pi.
Proof.
  unfold pi_set. destruct (pn <? 0); [reflexivity | apply length_insert].
Qed.

Lemma pi_get_set_eq pi pn r :
  0 <= pn < Z.of_nat (length pi) -> pi_get (pi_set pi pn r) pn = r.
Proof.
  intros Hpn. unfold pi_get, pi_set.
  destruct (pn <? 0) eqn:E; [lia |].
  rewrite list_lookup_insert_eq by lia. reflexivity.
Qed.

Lemma pi_get_set_ne pi pn pn' r :
  pn <> pn' -> pi_get (pi_set pi pn r) pn' = pi_get pi pn'.
Proof.
  intros Hne. unfold pi_get, pi_set.
  destruct (pn' <? 0) eqn:E'; [reflexivity |].
  destruct (pn <? 0) eqn:E; [reflexivity |].
  rewrite list_lookup_insert_ne by lia. reflexivity.
Qed.

Lemma pi_get_outside pi pn :
  ~ (0 <= pn < Z.of_nat (length pi)) -> pi_get pi pn = mk_pageinfo 0 0.
Proof.
  intros Hpn. unfold pi_get. destruct (pn <? 0) eqn:E; [reflexivity |].
  rewrite lookup_ge_None_2 by lia. reflexivity.
Qed.

Lemma pi_set_outside pi pn r :
  ~ (0 <= pn < Z.of_nat (length pi)) -> pi_set pi pn r = pi.
Proof.
  intros Hpn. unfold pi_set. destruct (pn <? 0) eqn:E; [reflexivity |].
  apply list_insert_ge. lia.
Qed.

Lemma pi_set_set pi pn r r' : pi_set (pi_set pi pn r) pn r' = pi_set pi pn r'.
Proof.
  unfold pi_set. destruct (pn <? 0); [reflexivity |].
  apply list_insert_insert_eq.
Qed.

(** ** The physical frame allocator *)

Section AllocatorFacts.
Context `{Config}.

Lemma scan_free_spec pi fuel pn :
  let r := scan_free pi fuel pn in
  pn <= r <= pn + Z.of_nat fuel
  /\ (forall j, pn <= j < r -> refcount (pi_get pi j) <> 0)
  /\ (r < pn + Z.of_nat fuel -> refcount (pi_get pi r) = 0).
Proof.
  revert pn. induction fuel as [| k IH]; intros pn; cbn [scan_free].
  - repeat split; lia.
  - destruct (refcount (pi_get pi pn) =? 0) eqn:E.
    + apply Z.eqb_eq in E. repeat split; lia.
    + apply Z.eqb_neq in E. specialize (IH (pn + 1)). cbv zeta in IH.
      destruct IH as (Hr & Hbusy & Hfree). split; [lia | split].
      * intros j Hj. destruct (Z.eq_dec j pn) as [-> | Hne]; [exact E |].
        apply Hbusy. lia.
      * intros Hlt. apply Hfree. lia.
Qed.

Lemma find_free_first pi pn : 0 < NPAGES -> first_free pi pn -> find_free pi = pn.
Proof.
  intros Hn (Hpn & Hz & Hbusy). unfold find_free.
  pose proof (scan_free_spec pi (Z.to_nat NPAGES) 0) as Hs. cbv zeta in Hs.
  destruct Hs as (Hr & Hb & Hf).
  set (r := scan_free pi (Z.to_nat NPAGES) 0) in *.
  destruct (Z.lt_trichotomy r pn) as [Hlt | [Heq | Hgt]]; [| exact Heq |].
  - exfalso. apply (Hbusy r); [lia |]. apply Hf. lia.
  - exfalso. apply (Hb pn); [lia | exact Hz].
Qed.

Lemma find_free_exhausted pi : 0 < NPAGES -> exhausted pi -> find_free pi = NPAGES.
Proof.
  intros Hn Hex. unfold find_free.
  pose proof (scan_free_spec pi (Z.to_nat NPAGES) 0) as Hs. cbv zeta in Hs.
  destruct Hs as (Hr & Hb & Hf).
  set (r := scan_free pi (Z.to_nat NPAGES) 0) in *.
  destruct (Z.eq_dec r NPAGES) as [Heq | Hne]; [exact Heq |].
  exfalso. apply (Hex r); [lia |]. apply Hf. lia.
Qed.

(** The scan either stops on the first free frame or runs off the end. *)
Lemma find_free_cases pi :
  0 < NPAGES -> first_free pi (find_free pi) \/ (exhausted pi /\ find_free pi = NPAGES).
Proof.
  intros Hn. unfold find_free.
  pose proof (scan_free_spec pi (Z.to_nat NPAGES) 0) as Hs. cbv zeta in Hs.
  destruct Hs as (Hr & Hb & Hf).
  set (r := scan_free pi (Z.to_nat NPAGES) 0) in *.
  destruct (Z.eq_dec r NPAGES) as [Heq | Hne].
  - right. split; [| exact Heq]. intros j Hj. apply Hb. lia.
  - left. split; [lia | split].
    + apply Hf. lia.
    + intros j Hj. apply Hb. lia.
Qed.

Lemma physical_page_alloc_ok pi pn own :
  frames_cover -> frames_sized pi -> 0 <= pn < NPAGES ->
  refcount (pi_get pi pn) = 0 ->
  physical_page_alloc pi (pn * PAGESIZE) own
  = (0, pi_set pi pn (mk_pageinfo (to_int8 own) 1)).
Proof.
  intros (Hn & Hcover & Hlim) Hlen Hpn Hz. unfold physical_page_alloc.
  rewrite page_aligned_mul, PAGENUMBER_mul, Hz. cbn [Z.eqb negb orb].
  destruct (MEMSIZE_PHYSICAL <=? pn * PAGESIZE) eqn:E.
  { apply Z.leb_le in E. unfold PAGESIZE in *. lia. }
  cbn [orb]. f_equal. unfold set_owner, set_refcount.
  unfold frames_sized in Hlen.
  rewrite pi_get_set_eq by lia. rewrite pi_set_set. reflexivity.
Qed.

Lemma physical_page_alloc_beyond pi addr own :
  MEMSIZE_PHYSICAL <= addr -> physical_page_alloc pi addr own = (-1, pi).
Proof.
  intros Hge. unfold physical_page_alloc.
  apply Z.leb_le in Hge. rewrite Hge.
  now rewrite orb_true_r.
Qed.

(** A failing physical_page_alloc leaves the table as it was. *)
Lemma physical_page_alloc_fail pi addr own r pi' :
  physical_page_alloc pi addr own = (r, pi') -> r <> 0 -> pi' = pi /\ r = -1.
Proof.
  unfold physical_page_alloc. intros Heq Hr.
  destruct (_ || _ || _); inversion Heq; subst; [auto | lia].
Qed.

Lemma page_alloc_lite_first pi pid pn :
  frames_cover -> frames_sized pi -> first_free pi pn ->
  page_alloc_lite pi pid = (pn * PAGESIZE, pi_set pi pn (mk_pageinfo (to_int8 pid) 1)).
Proof.
  intros Hc Hlen Hff. unfold page_alloc_lite.
  pose proof Hc as (Hn & Hcover & Hlim).
  rewrite (find_free_first pi pn Hn Hff).
  destruct Hff as (Hpn & Hz & _).
  rewrite to_uint32_small by (unfold PAGESIZE in *; lia).
  rewrite physical_page_alloc_ok by assumption.
  cbn. rewrite to_int8_idem, PAGEADDRESS_mul. reflexivity.
Qed.

Lemma page_alloc_lite_exhausted pi pid :
  frames_cover -> exhausted pi -> page_alloc_lite pi pid = (0, pi).
Proof.
  intros (Hn & Hcover & Hlim) Hex. unfold page_alloc_lite.
  rewrite (find_free_exhausted pi Hn Hex).
  rewrite to_uint32_small by (unfold PAGESIZE in *; lia).
  rewrite physical_page_alloc_beyond by lia. reflexivity.
Qed.

End AllocatorFacts.

(** C5: page_alloc_lite scans the frame records in increasing frame-number
    order; when [pn] is the first frame with refcount 0 it returns the
    physical address of [pn] and the table differs from the old one in that
    one record only, which now holds the requested owner and refcount 1;
    when no frame is free it returns the null sentinel and the table is
    untouched; one of the two cases always applies; and as long as the frame
    of a first allocation stays referenced, a later successful allocation
    returns another frame. *)
Theorem C5_page_alloc_lite `{Config} (pi : pageinfo_t) (pid : Z) :
  frames_cover -> frames_sized pi -> -128 <= pid < 128 ->
  (first_free pi (find_free pi) \/ exhausted pi)
  /\ (forall pn, first_free pi pn ->
        page_alloc_lite pi pid
        = (PAGEADDRESS pn, <[Z.to_nat pn := mk_pageinfo pid 1]> pi)
        /\ pi_get (snd (page_alloc_lite pi pid)) pn <> pi_get pi pn
        /\ (forall j, j <> pn -> pi_get (snd (page_alloc_lite pi pid)) j = pi_get pi j))
  /\ (exhausted pi -> page_alloc_lite pi pid = (0, pi))
  /\ (forall pn pi' pid' pn',
        first_free pi pn -> frames_sized pi' -> first_free pi' pn' ->
        refcount (pi_get pi' pn) <> 0 ->
        fst (page_alloc_lite pi' pid') <> fst (page_alloc_lite pi pid))
  /\ (forall pn, first_free pi pn ->
        refcount (pi_get (snd (page_alloc_lite pi pid)) pn) = 1).
Proof.
  intros Hc Hlen Hpid. pose proof Hc as (Hn & Hcover & Hlim).
  assert (Hfirst : forall pn, first_free pi pn ->
            page_alloc_lite pi pid = (pn * PAGESIZE, pi_set pi pn (mk_pageinfo pid 1))).
  { intros pn Hff. rewrite (page_alloc_lite_first pi pid pn Hc Hlen Hff).
    now rewrite to_int8_small. }
  split; [| split; [| split; [| split]]].
  - destruct (find_free_cases pi Hn) as [Hff | [Hex _]]; [left | right]; assumption.
  - intros pn Hff. rewrite (Hfirst pn Hff). cbn [snd].
    pose proof Hff as (Hpn & Hz & _). unfold frames_sized in Hlen.
    split; [| split].
    + rewrite PAGEADDRESS_mul. unfold pi_set.
      destruct (pn <? 0) eqn:E; [lia | reflexivity].
    + rewrite pi_get_set_eq by lia. intros Heq. rewrite <- Heq in Hz. cbn in Hz. lia.
    + intros j Hj. apply pi_get_set_ne. congruence.
  - intros Hex. now apply page_alloc_lite_exhausted.
  - intros pn pi' pid' pn' Hff Hlen' Hff' Hbusy.
    rewrite (Hfirst pn Hff).
    rewrite (page_alloc_lite_first pi' pid' pn' Hc Hlen' Hff'). cbn [fst].
    destruct Hff' as (_ & Hz' & _).
    intros Heq. assert (pn' = pn) by (unfold PAGESIZE in Heq; lia). subst pn'.
    contradiction.
  - intros pn Hff. rewrite (Hfirst pn Hff). cbn [snd].
    pose proof Hff as (Hpn & _). unfold frames_sized in Hlen.
    now rewrite pi_get_set_eq by lia.
Qed.

(** On the frame table of a fresh boot, frame 0 is reserved and frame 1 is
    the first free one: process 1 is given address 0x1000.  On a table with
    no free frame the allocator gives the null pointer. *)
Lemma C5_page_alloc_lite_witness :
  @page_alloc_lite weensy (@pageinfo_init weensy) 1
  = (PAGEADDRESS 1, <[Z.to_nat 1 := mk_pageinfo 1 1]> (@pageinfo_init weensy))
  /\ @page_alloc_lite weensy full_pageinfo 1 = (0, full_pageinfo).
Proof.
  assert (Hc : @frames_cover weensy) by (repeat split; reflexivity).
  assert (Hpid : -128 <= 1 < 128) by lia.
  split.
  - assert (Hlen : @frames_sized weensy (@pageinfo_init weensy))
      by (vm_compute; reflexivity).
    assert (Hff : @first_free weensy (@pageinfo_init weensy) 1).
    { split; [cbn; lia | split; [vm_compute; reflexivity |]].
      intros j Hj. assert (j = 0) as -> by lia. vm_compute. discriminate. }
    destruct (@C5_page_alloc_lite weensy _ 1 Hc Hlen Hpid) as (_ & Hok & _).
    exact (proj1 (Hok 1 Hff)).
  - assert (Hlen : @frames_sized weensy full_pageinfo) by (vm_compute; reflexivity).
    assert (Hex : @exhausted weensy full_pageinfo).
    { intros j Hj. unfold full_pageinfo, pi_get. cbn in Hj.
      destruct (j <? 0) eqn:E; [lia |].
      rewrite lookup_replicate_2 by lia. cbn. discriminate. }
    destruct (@C5_page_alloc_lite weensy _ 1 Hc Hlen Hpid) as (_ & _ & Hno & _).
    exact (Hno Hex).
Defined.

(** ** The scheduler *)

Lemma procstate_eqb_eq a b : procstate_eqb a b = true <-> a = b.
Proof. destruct a, b; cbn; split; congruence. Qed.

Lemma procstate_eqb_neq a b : procstate_eqb a b = false <-> a <> b.
Proof. destruct a, b; cbn; split; congruence. Qed.

Section SchedulerFacts.
Context `{Config}.
Hypothesis NPROC_pos : 0 < NPROC.

Lemma scan_pid_step pid k :
  0 <= pid -> scan_pid (Z.rem (pid + 1) NPROC) k = scan_pid pid (k + 1).
Proof.
  intros Hpid. unfold scan_pid.
  rewrite Z.rem_mod_nonneg by lia.
  rewrite Zplus_mod_idemp_l. f_equal. lia.
Qed.

Lemma rem_step_nonneg pid : 0 <= pid -> 0 <= Z.rem (pid + 1) NPROC.
Proof.
  intros Hpid. rewrite Z.rem_mod_nonneg by lia.
  apply Z.mod_pos_bound. lia.
Qed.

Lemma rem_step_scan pid : 0 <= pid -> Z.rem (pid + 1) NPROC = scan_pid pid 1.
Proof. intros Hpid. unfold scan_pid. now rewrite Z.rem_mod_nonneg by lia. Qed.

(** The loop returns the first runnable pid of the scan, when the fuel
    reaches it. *)
Lemma schedule_loop_found ps fuel pid k :
  0 <= pid -> 1 <= k <= Z.of_nat fuel ->
  runnable_at ps (scan_pid pid k) ->
  (forall j, 1 <= j < k -> ~ runnable_at ps (scan_pid pid j)) ->
  schedule_loop ps fuel pid = Some (scan_pid pid k).
Proof.
  revert pid k. induction fuel as [| n IH]; intros pid k Hpid Hk Hrun Hnot; [lia |].
  cbn [schedule_loop]. rewrite (rem_step_scan pid Hpid).
  destruct (Z.eq_dec k 1) as [-> | Hk1].
  - apply procstate_eqb_eq in Hrun. now rewrite Hrun.
  - assert (Hn1 : ~ runnable_at ps (scan_pid pid 1)) by (apply Hnot; lia).
    apply procstate_eqb_neq in Hn1. rewrite Hn1.
    rewrite <- (rem_step_scan pid Hpid).
    replace (scan_pid pid k) with (scan_pid (Z.rem (pid + 1) NPROC) (k - 1))
      by (rewrite scan_pid_step by lia; f_equal; lia).
    apply IH.
    + now apply rem_step_nonneg.
    + lia.
    + rewrite scan_pid_step by lia. now replace (k - 1 + 1) with k by lia.
    + intros j Hj. rewrite scan_pid_step by lia. apply Hnot. lia.
Qed.

(** With nothing runnable among the pids it visits, the loop is still
    looking after any number of iterations. *)
Lemma schedule_loop_none ps fuel pid :
  0 <= pid ->
  (forall j, 1 <= j <= Z.of_nat fuel -> ~ runnable_at ps (scan_pid pid j)) ->
  schedule_loop ps fuel pid = None.
Proof.
  revert pid. induction fuel as [| n IH]; intros pid Hpid Hnot; [reflexivity |].
  cbn [schedule_loop]. rewrite (rem_step_scan pid Hpid).
  assert (Hn1 : ~ runnable_at ps (scan_pid pid 1)) by (apply Hnot; lia).
  apply procstate_eqb_neq in Hn1. rewrite Hn1.
  rewrite <- (rem_step_scan pid Hpid). apply IH.
  - now apply rem_step_nonneg.
  - intros j Hj. rewrite scan_pid_step by lia. apply Hnot. lia.
Qed.

(** One turn of the table visits every pid the scan can ever reach. *)
Lemma scan_pid_turn pid j :
  1 <= j -> exists j', 1 <= j' <= NPROC /\ scan_pid pid j = scan_pid pid j'.
Proof.
  intros Hj. unfold scan_pid.
  destruct (Z.eq_dec (j `mod` NPROC) 0) as [Hz | Hnz].
  - exists NPROC. split; [lia |].
    rewrite <- (Zplus_mod_idemp_r j), Hz, <- (Zplus_mod_idemp_r NPROC).
    now rewrite Z_mod_same_full.
  - exists (j `mod` NPROC). pose proof (Z.mod_pos_bound j NPROC NPROC_pos).
    split; [lia |]. now rewrite Zplus_mod_idemp_r.
Qed.

Lemma schedule_loop_spins ps pid :
  0 <= pid ->
  (forall j, 1 <= j <= NPROC -> ~ runnable_at ps (scan_pid pid j)) ->
  forall fuel, schedule_loop ps fuel pid = None.
Proof.
  intros Hpid Hnot fuel. apply schedule_loop_none; [exact Hpid |].
  intros j Hj. destruct (scan_pid_turn pid j) as (j' & Hj' & ->); [lia |].
  now apply Hnot.
Qed.

End SchedulerFacts.

(** C6: from any process table and current pid, schedule() hands control to
    the first Runnable descriptor met when scanning pids
    (current + 1) mod NPROC, (current + 2) mod NPROC, ... with wrap-around;
    when a full turn meets none, it never stops looking. *)
Theorem C6_schedule_round_robin `{Config} (s : kstate) :
  0 < NPROC -> 0 <= p_pid (cur s) ->
  (forall k, 1 <= k <= NPROC ->
     runnable_at (processes s) (scan_pid (p_pid (cur s)) k) ->
     (forall j, 1 <= j < k -> ~ runnable_at (processes s) (scan_pid (p_pid (cur s)) j)) ->
     schedule s = Resumed (upd_current s (scan_pid (p_pid (cur s)) k)))
  /\ ((forall j, 1 <= j <= NPROC -> ~ runnable_at (processes s) (scan_pid (p_pid (cur s)) j)) ->
      schedule s = Spins s
      /\ forall fuel, schedule_loop (processes s) fuel (p_pid (cur s)) = None).
Proof.
  intros Hn Hpid. split.
  - intros k Hk Hrun Hnot. unfold schedule.
    rewrite (schedule_loop_found Hn (processes s) (Z.to_nat NPROC) _ k) by (auto; lia).
    unfold run. apply procstate_eqb_eq in Hrun. now rewrite Hrun.
  - intros Hnot. split.
    + unfold schedule. now rewrite (schedule_loop_spins Hn) by assumption.
    + now apply schedule_loop_spins.
Qed.

(** With Runnable processes exactly at pids 2, 5 and 7 in a table of 8,
    the scheduler goes from 5 to 7, and from 7 wraps to 2. *)
Lemma C6_schedule_round_robin_witness :
  @schedule weensy8 (sched_example 5) = Resumed (upd_current (sched_example 5) 7)
  /\ @schedule weensy8 (sched_example 7) = Resumed (upd_current (sched_example 7) 2).
Proof.
  assert (Hn : 0 < @NPROC weensy8) by reflexivity.
  split.
  - assert (Hpid : 0 <= p_pid (cur (sched_example 5))) by (vm_compute; discriminate).
    destruct (@C6_schedule_round_robin weensy8 (sched_example 5) Hn Hpid) as [Hsel _].
    apply (Hsel 2).
    + cbn. lia.
    + reflexivity.
    + intros j Hj. assert (j = 1) as -> by lia. vm_compute. discriminate.
  - assert (Hpid : 0 <= p_pid (cur (sched_example 7))) by (vm_compute; discriminate).
    destruct (@C6_schedule_round_robin weensy8 (sched_example 7) Hn Hpid) as [Hsel _].
    apply (Hsel 3).
    + cbn. lia.
    + reflexivity.
    + intros j Hj. assert (j = 1 \/ j = 2) as [-> | ->] by lia; vm_compute; discriminate.
Defined.

(** ** The process table *)

Lemma length_proc_set ps pid p : length (proc_set ps pid p) = length ps.
Proof.
  unfold proc_set. destruct (pid <? 0); [reflexivity | apply length_insert].
Qed.

Lemma proc_get_set_eq ps pid p :
  0 <= pid < Z.of_nat (length ps) -> proc_get (proc_set ps pid p) pid = p.
Proof.
  intros Hpid. unfold proc_get, proc_set.
  destruct (pid <? 0) eqn:E; [lia |].
  rewrite list_lookup_insert_eq by lia. reflexivity.
Qed.

Lemma proc_get_set_ne ps pid pid' p :
  pid <> pid' -> proc_get (proc_set ps pid p) pid' = proc_get ps pid'.
Proof.
  intros Hne. unfold proc_get, proc_set.
  destruct (pid' <? 0) eqn:E'; [reflexivity |].
  destruct (pid <? 0) eqn:E; [reflexivity |].
  rewrite list_lookup_insert_ne by lia. reflexivity.
Qed.

Lemma proc_get_outside ps pid :
  ~ (0 <= pid < Z.of_nat (length ps)) -> proc_get ps pid = zero_proc.
Proof.
  intros Hpid. unfold proc_get. destruct (pid <? 0) eqn:E; [reflexivity |].
  rewrite lookup_ge_None_2 by lia. reflexivity.
Qed.

Lemma proc_set_outside ps pid p :
  ~ (0 <= pid < Z.of_nat (length ps)) -> proc_set ps pid p = ps.
Proof.
  intros Hpid. unfold proc_set. destruct (pid <? 0) eqn:E; [reflexivity |].
  apply list_insert_ge. lia.
Qed.

(** A store through [upd_proc] that keeps a field keeps it for every
    descriptor of the table. *)
Lemma proc_get_upd_field {A} (fld : proc -> A) ps pid f pid' :
  (forall p, fld (f p) = fld p) ->
  fld (proc_get (proc_set ps pid (f (proc_get ps pid))) pid') = fld (proc_get ps pid').
Proof.
  intros Hf. destruct (Z.eq_dec pid pid') as [<- | Hne].
  - destruct (Z_lt_dec pid 0) as [Hneg | Hpos];
      [rewrite proc_set_outside by lia; reflexivity |].
    destruct (Z_lt_dec pid (Z.of_nat (length ps))) as [Hin | Hout].
    + rewrite proc_get_set_eq by lia. apply Hf.
    + rewrite proc_set_outside by lia. reflexivity.
  - now rewrite proc_get_set_ne.
Qed.

Lemma upd_proc_state_registers s pid r pid' :
  p_state (proc_get (processes (upd_proc s pid (fun p => with_registers p (r p)))) pid')
  = p_state (proc_get (processes s) pid').
Proof.
  cbn. now apply (proc_get_upd_field p_state _ _ (fun p => with_registers p (r p))).
Qed.

Lemma cur_upd_proc_current s f :
  0 <= current s < Z.of_nat (length (processes s)) ->
  cur (upd_proc s (current s) f) = f (cur s).
Proof. intros Hc. unfold cur. cbn. now rewrite proc_get_set_eq. Qed.

Section ForkScan.
Context `{Config}.

Lemma fork_page_frame newpid s va :
  processes (fork_page newpid s va) = processes s
  /\ current (fork_page newpid s va) = current s
  /\ ticks (fork_page newpid s va) = ticks s.
Proof.
  unfold fork_page, fork_private, fork_shared.
  destruct (private_page s va).
  - destruct (page_alloc_lite (pageinfo s) newpid) as [page pi1]. now cbn.
  - destruct (shared_page s va); now cbn.
Qed.

Lemma fork_pages_frame newpid vas s :
  processes (fold_left (fork_page newpid) vas s) = processes s
  /\ current (fold_left (fork_page newpid) vas s) = current s
  /\ ticks (fold_left (fork_page newpid) vas s) = ticks s.
Proof.
  revert s. induction vas as [| va vas IH]; intros s; [now cbn |].
  cbn [fold_left]. destruct (IH (fork_page newpid s va)) as (-> & -> & ->).
  apply fork_page_frame.
Qed.

Lemma fork_claim_frame s newpid :
  current (fork_claim s newpid) = current s
  /\ length (processes (fork_claim s newpid)) = length (processes s).
Proof.
  unfold fork_claim. destruct (copy_pagetable _ _ _ _) as [[pt pi2] m2].
  cbn. now rewrite !length_proc_set.
Qed.

(** The register stores at the end of fork keep every other field of every
    descriptor. *)
Lemma fork_registers_field {A} (fld : proc -> A) s newpid q :
  (forall p r, fld (with_registers p r) = fld p) ->
  fld (proc_get (processes (fork_registers s newpid)) q) = fld (proc_get (processes s) q).
Proof.
  intros Hfld. unfold fork_registers. cbn.
  rewrite (proc_get_upd_field fld _ _
             (fun p => with_registers p (set_eax (p_registers p) newpid)))
    by (intros; apply Hfld).
  rewrite (proc_get_upd_field fld _ _
             (fun p => with_registers p (set_eax (p_registers p) 0)))
    by (intros; apply Hfld).
  now rewrite (proc_get_upd_field fld _ _
                 (fun p => with_registers p (p_registers (cur s))))
    by (intros; apply Hfld).
Qed.

(** The parent's return-value register after a fork that found a slot. *)
Lemma fork_child_eax s newpid :
  0 <= current s < Z.of_nat (length (processes s)) ->
  reg_eax (p_registers (cur (fork_child s newpid))) = to_uint32 newpid.
Proof.
  intros Hc. unfold fork_child, fork_registers.
  destruct (fork_claim_frame s newpid) as (Hcur2 & Hlen2).
  destruct (fork_pages_frame newpid (for_range PROC_START_ADDR MEMSIZE_VIRTUAL PAGESIZE)
              (fork_claim s newpid)) as (Hps & Hcur & _).
  fold (fork_pages (fork_claim s newpid) newpid) in Hps, Hcur.
  rewrite cur_upd_proc_current.
  - reflexivity.
  - cbn. rewrite !length_proc_set, Hps, Hcur, Hcur2, Hlen2. exact Hc.
Qed.

Lemma fork_failed_keeps_state s pid :
  p_state (proc_get (processes (fork_failed s)) pid) = p_state (proc_get (processes s) pid).
Proof. apply upd_proc_state_registers. Qed.

(** A scan over occupied slots that does not pass slot 15 changes nothing. *)
Lemma fork_scan_busy s l :
  (forall pid, pid ∈ l -> p_state (proc_get (processes s) pid) <> P_FREE) ->
  15 ∉ l -> fork_scan s l = s.
Proof.
  revert s. induction l as [| pid l IH]; intros s Hbusy H15; [reflexivity |].
  cbn [fork_scan].
  assert (Hp : p_state (proc_get (processes s) pid) <> P_FREE)
    by (apply Hbusy; left).
  apply procstate_eqb_neq in Hp. rewrite Hp.
  destruct (pid =? 15) eqn:E.
  - apply Z.eqb_eq in E. subst pid. exfalso. apply H15. left.
  - apply IH.
    + intros q Hq. apply Hbusy. now right.
    + intros Hin. apply H15. now right.
Qed.

(** A scan over occupied slots that passes slot 15 once reports failure. *)
Lemma fork_scan_busy15 s l1 l2 :
  (forall pid, pid ∈ l1 ++ 15 :: l2 -> p_state (proc_get (processes s) pid) <> P_FREE) ->
  15 ∉ l1 -> 15 ∉ l2 -> fork_scan s (l1 ++ 15 :: l2) = fork_failed s.
Proof.
  revert s. induction l1 as [| pid l1 IH]; intros s Hbusy H1 H2.
  - cbn [app fork_scan].
    assert (Hp : p_state (proc_get (processes s) 15) <> P_FREE)
      by (apply Hbusy; left).
    apply procstate_eqb_neq in Hp. rewrite Hp. cbn [Z.eqb Pos.eqb].
    apply fork_scan_busy; [| exact H2].
    intros q Hq. fold (fork_failed s). rewrite fork_failed_keeps_state.
    apply Hbusy. now right.
  - cbn [app fork_scan].
    assert (Hp : p_state (proc_get (processes s) pid) <> P_FREE)
      by (apply Hbusy; left).
    apply procstate_eqb_neq in Hp. rewrite Hp.
    destruct (pid =? 15) eqn:E.
    + apply Z.eqb_eq in E. subst pid. exfalso. apply H1. left.
    + apply IH; [| | exact H2].
      * intros q Hq. apply Hbusy. now right.
      * intros Hin. apply H1. now right.
Qed.

(** A scan that meets a Free slot before slot 15 forks into it. *)
Lemma fork_scan_free s l1 newpid l2 :
  (forall pid, pid ∈ l1 -> p_state (proc_get (processes s) pid) <> P_FREE) ->
  15 ∉ l1 ->
  p_state (proc_get (processes s) newpid) = P_FREE ->
  fork_scan s (l1 ++ newpid :: l2) = fork_child s newpid.
Proof.
  induction l1 as [| pid l1 IH]; intros Hbusy H15 Hfree.
  - cbn [app fork_scan]. apply procstate_eqb_eq in Hfree. now rewrite Hfree.
  - cbn [app fork_scan].
    assert (Hp : p_state (proc_get (processes s) pid) <> P_FREE)
      by (apply Hbusy; left).
    apply procstate_eqb_neq in Hp. rewrite Hp.
    destruct (pid =? 15) eqn:E.
    + apply Z.eqb_eq in E. subst pid. exfalso. apply H15. left.
    + apply IH; [| | exact Hfree].
      * intros q Hq. apply Hbusy. now right.
      * intros Hin. apply H15. now right.
Qed.

(** Either every slot of a range is occupied or the range has a first Free
    slot. *)
Lemma first_free_slot_search (ps : proctable) (n : nat) :
  (forall pid, 1 <= pid < 1 + Z.of_nat n -> p_state (proc_get ps pid) <> P_FREE)
  \/ exists pid, 1 <= pid < 1 + Z.of_nat n /\ p_state (proc_get ps pid) = P_FREE
       /\ forall j, 1 <= j < pid -> p_state (proc_get ps j) <> P_FREE.
Proof.
  induction n as [| n IH].
  - left. intros pid Hpid. lia.
  - destruct IH as [Hbusy | (pid & Hpid & Hfree & Hfirst)].
    + destruct (p_state (proc_get ps (1 + Z.of_nat n))) eqn:E.
      * right. exists (1 + Z.of_nat n). split; [lia | split; [exact E |]].
        intros j Hj. apply Hbusy. lia.
      * left. intros pid Hpid.
        destruct (Z.eq_dec pid (1 + Z.of_nat n)) as [-> | Hne];
          [congruence | apply Hbusy; lia].
      * left. intros pid Hpid.
        destruct (Z.eq_dec pid (1 + Z.of_nat n)) as [-> | Hne];
          [congruence | apply Hbusy; lia].
    + right. exists pid. split; [lia | split; assumption].
Qed.

Lemma free_slot_cases (ps : proctable) :
  1 <= NPROC -> no_free_slot ps \/ exists pid, first_free_slot ps pid.
Proof.
  intros Hn. unfold no_free_slot, first_free_slot.
  destruct (first_free_slot_search ps (Z.to_nat (NPROC - 1))) as [Hb | (pid & Hp & Hf)].
  - left. intros pid Hpid. apply Hb. lia.
  - right. exists pid. split; [lia | exact Hf].
Qed.

(** With 16 slots the literal 15 of the handler is the last pid scanned. *)
Lemma sys_fork_no_slot s :
  NPROC = 16 -> no_free_slot (processes s) -> sys_fork s = fork_failed s.
Proof.
  intros HN Hbusy. unfold sys_fork. rewrite HN.
  change (seqZ 1 (16 - 1)) with (seqZ 1 14 ++ 15 :: []).
  apply fork_scan_busy15.
  - intros pid Hpid. apply Hbusy. rewrite HN.
    change (seqZ 1 14 ++ [15]) with (seqZ 1 15) in Hpid.
    apply elem_of_seqZ in Hpid. lia.
  - rewrite elem_of_seqZ. lia.
  - apply not_elem_of_nil.
Qed.

Lemma sys_fork_slot s newpid :
  NPROC <= 16 -> first_free_slot (processes s) newpid ->
  sys_fork s = fork_child s newpid.
Proof.
  intros HN (Hpid & Hfree & Hfirst). unfold sys_fork.
  replace (seqZ 1 (NPROC - 1))
    with (seqZ 1 (newpid - 1) ++ newpid :: seqZ (newpid + 1) (NPROC - 1 - newpid)).
  - apply fork_scan_free; [| | exact Hfree].
    + intros q Hq. apply elem_of_seqZ in Hq. apply Hfirst. lia.
    + rewrite elem_of_seqZ. lia.
  - replace (NPROC - 1) with ((newpid - 1) + (1 + (NPROC - 1 - newpid))) at 2 by lia.
    rewrite (seqZ_app 1 (newpid - 1)) by lia.
    f_equal. rewrite (seqZ_cons (1 + (newpid - 1))) by lia. f_equal; [lia |].
    f_equal; lia.
Qed.

End ForkScan.

(** C3: with a process table of 16 slots, so that the literal 15 in the
    handler is the last pid of the scan, fork leaves the exhaustion error
    (-1, read as a 32-bit register value) in the caller's return-value
    register exactly when no slot among pids 1 .. NPROC - 1 is Free; on that
    failure the only store is that register: every descriptor keeps its pid,
    state and page table, every descriptor but the caller's is untouched,
    and the frame table, memory and [current] are unchanged. *)
Theorem C3_fork_exhaustion `{Config} (s : kstate) :
  NPROC = 16 -> procs_sized s ->
  (no_free_slot (processes s)
   <-> reg_eax (p_registers (cur (sys_fork s))) = to_uint32 (-1))
  /\ (no_free_slot (processes s) ->
      sys_fork s = fork_failed s
      /\ (forall pid,
            p_pid (proc_get (processes (sys_fork s)) pid) = p_pid (proc_get (processes s) pid)
            /\ p_state (proc_get (processes (sys_fork s)) pid)
               = p_state (proc_get (processes s) pid)
            /\ p_pagetable (proc_get (processes (sys_fork s)) pid)
               = p_pagetable (proc_get (processes s) pid))
      /\ (forall pid, pid <> current s ->
            proc_get (processes (sys_fork s)) pid = proc_get (processes s) pid)
      /\ pageinfo (sys_fork s) = pageinfo s /\ mem (sys_fork s) = mem s
      /\ current (sys_fork s) = current s)
  /\ (forall newpid, first_free_slot (processes s) newpid ->
        reg_eax (p_registers (cur (sys_fork s))) = newpid).
Proof.
  intros HN (Hlen & Hcur).
  assert (Hfail : no_free_slot (processes s) ->
                  reg_eax (p_registers (cur (sys_fork s))) = to_uint32 (-1)).
  { intros Hbusy. rewrite (sys_fork_no_slot s HN Hbusy). unfold fork_failed.
    rewrite cur_upd_proc_current by lia. reflexivity. }
  assert (Hok : forall newpid, first_free_slot (processes s) newpid ->
                  reg_eax (p_registers (cur (sys_fork s))) = newpid).
  { intros newpid Hff. rewrite (sys_fork_slot s newpid) by (assumption || lia).
    rewrite fork_child_eax by lia. destruct Hff as (Hp & _).
    apply to_uint32_small. lia. }
  split; [| split].
  - split; [exact Hfail |]. intros Heax.
    destruct (free_slot_cases (processes s)) as [Hb | (newpid & Hff)];
      [lia | exact Hb |].
    rewrite (Hok newpid Hff) in Heax. destruct Hff as (Hp & _).
    change (to_uint32 (-1)) with 4294967295 in Heax. lia.
  - intros Hbusy. rewrite (sys_fork_no_slot s HN Hbusy).
    split; [reflexivity |]. unfold fork_failed. cbn.
    split; [| split; [| repeat split]].
    + intros pid. repeat split.
      * now apply (proc_get_upd_field p_pid _ _
                     (fun p => with_registers p (set_eax (p_registers p) (-1)))).
      * now apply (proc_get_upd_field p_state _ _
                     (fun p => with_registers p (set_eax (p_registers p) (-1)))).
      * now apply (proc_get_upd_field p_pagetable _ _
                     (fun p => with_registers p (set_eax (p_registers p) (-1)))).
    + intros pid Hne. now apply proc_get_set_ne.
  - exact Hok.
Qed.

(** Checking a property on every member of an integer range by running it. *)
Lemma forallb_seqZ (P : Z -> bool) lo n :
  forallb P (seqZ lo n) = true -> forall k, lo <= k < lo + n -> P k = true.
Proof.
  intros Hall k Hk. rewrite forallb_forall in Hall.
  apply Hall, list_elem_of_In, elem_of_seqZ. exact Hk.
Qed.

Lemma busy_state_no_free_slot c : @no_free_slot weensy (processes (busy_state c)).
Proof.
  intros pid Hpid.
  assert (Hc : negb (procstate_eqb (p_state (proc_get (processes (busy_state c)) pid)) P_FREE)
               = true).
  { apply (forallb_seqZ
             (fun k => negb (procstate_eqb
                               (p_state (proc_get (processes (busy_state c)) k)) P_FREE))
             1 15); [reflexivity | exact Hpid]. }
  apply negb_true_iff, procstate_eqb_neq in Hc. exact Hc.
Qed.

(** With every slot from 1 to 15 occupied, a fork by process 1 stores
    0xFFFFFFFF in its return-value register and changes nothing else. *)
Lemma C3_fork_exhaustion_witness :
  reg_eax (p_registers (cur (@sys_fork weensy (busy_state 1)))) = to_uint32 (-1)
  /\ @sys_fork weensy (busy_state 1) = fork_failed (busy_state 1).
Proof.
  assert (HN : @NPROC weensy = 16) by reflexivity.
  assert (Hsz : @procs_sized weensy (busy_state 1)) by (split; [reflexivity | cbn; lia]).
  destruct (@C3_fork_exhaustion weensy (busy_state 1) HN Hsz) as (Hiff & Hfail & _).
  split.
  - apply Hiff, busy_state_no_free_slot.
  - apply Hfail, busy_state_no_free_slot.
Defined.

(** The literal 15 does not follow the capacity: in a table of 8 slots that
    are all occupied, the scan never reaches pid 15 and fork reports
    nothing; the caller's registers are what they were. *)
Lemma fork_literal_bound_below_capacity :
  @sys_fork weensy8 (busy_state8 1) = busy_state8 1.
Proof.
  unfold sys_fork. apply fork_scan_busy.
  - intros pid Hpid. apply elem_of_seqZ in Hpid. cbn in Hpid.
    assert (Hc : negb (procstate_eqb (p_state (proc_get (processes (busy_state8 1)) pid))
                         P_FREE) = true).
    { apply (forallb_seqZ
               (fun k => negb (procstate_eqb
                                 (p_state (proc_get (processes (busy_state8 1)) k)) P_FREE))
               1 7); [reflexivity | lia]. }
    apply negb_true_iff, procstate_eqb_neq in Hc. exact Hc.
  - rewrite elem_of_seqZ. cbn. lia.
Qed.

(** ** The interrupt dispatcher *)

Section DispatcherFacts.
Context `{Config}.

Lemma schedule_loop_runnable ps fuel pid p :
  schedule_loop ps fuel pid = Some p -> runnable_at ps p.
Proof.
  revert pid. induction fuel as [| n IH]; intros pid; cbn [schedule_loop]; [discriminate |].
  destruct (procstate_eqb _ _) eqn:E.
  - intros [= <-]. now apply procstate_eqb_eq in E.
  - apply IH.
Qed.

(** schedule() resumes a Runnable process or spins; it never panics. *)
Lemma schedule_cases s :
  (exists p, schedule s = Resumed (upd_current s p) /\ runnable_at (processes s) p)
  \/ schedule s = Spins s.
Proof.
  unfold schedule. destruct (schedule_loop _ _ _) as [p |] eqn:E; [left | now right].
  exists p. apply schedule_loop_runnable in E. split; [| exact E].
  unfold run. apply procstate_eqb_eq in E. now rewrite E.
Qed.

(** Drawing the two pictures changes memory and the viewer's statics
    only. *)
Lemma memshow_frame s s1 :
  memshow s = Some s1 ->
  processes s1 = processes s /\ current s1 = current s
  /\ ticks s1 = ticks s /\ pageinfo s1 = pageinfo s.
Proof.
  unfold memshow. destruct (memshow_physical s) as [m1 |]; [| discriminate].
  destruct (memshow_virtual_animate s (anim s)) as [a [[pagetable name] |]].
  - destruct (memshow_virtual _ _ _ _) as [m2 |]; [| discriminate].
    intros [= <-]. now cbn.
  - intros [= <-]. now cbn.
Qed.

Lemma memshow_cur s s1 : memshow s = Some s1 -> cur s1 = cur s.
Proof.
  intros Hs. destruct (memshow_frame s s1 Hs) as (Hps & Hc & _).
  unfold cur. now rewrite Hps, Hc.
Qed.

End DispatcherFacts.

(** ** Kernel entry *)

Section EntryFacts.
Context `{Config}.

(** The state the handlers of interrupt() work on, in terms of the state
    the kernel was entered in. *)
Lemma entry_drawn s reg s1 :
  0 <= current s < Z.of_nat (length (processes s)) ->
  memshow (upd_proc s (current s) (fun p => with_registers p reg)) = Some s1 ->
  processes s1 = proc_set (processes s) (current s) (with_registers (cur s) reg)
  /\ current s1 = current s /\ ticks s1 = ticks s /\ pageinfo s1 = pageinfo s
  /\ cur s1 = with_registers (cur s) reg
  /\ forall q, p_state (proc_get (processes s1) q) = p_state (proc_get (processes s) q).
Proof.
  intros Hin Hshow.
  destruct (memshow_frame _ _ Hshow) as (Hps & Hc & Ht & Hpi).
  repeat (split; [assumption |]). split.
  - rewrite (memshow_cur _ _ Hshow). now apply cur_upd_proc_current.
  - intros q. rewrite Hps. cbn [processes upd_proc upd_processes].
    now apply (proc_get_upd_field p_state _ _ (fun p => with_registers p reg)).
Qed.

Lemma interrupt_entry s reg s1 :
  virtual_memory_check (upd_proc s (current s) (fun p => with_registers p reg)) = true ->
  memshow (upd_proc s (current s) (fun p => with_registers p reg)) = Some s1 ->
  interrupt s reg
  = match reg_intno reg with
    | INT_SYS_PANIC => Panicked
    | INT_SYS_GETPID =>
        resume_or_schedule
          (upd_proc s1 (current s1)
             (fun p => with_registers p (set_eax (p_registers p) (p_pid p))))
    | INT_SYS_YIELD => schedule s1
    | INT_SYS_PAGE_ALLOC =>
        let '(r, pi', m') := sys_page_alloc_func (pageinfo s1) (mem s1)
                               (reg_eax (p_registers (cur s1)))
                               (p_pagetable (cur s1)) (p_pid (cur s1)) in
        resume_or_schedule
          (upd_proc (upd_mem (upd_pageinfo s1 pi') m') (current s1)
             (fun p => with_registers p (set_eax (p_registers p) r)))
    | INT_SYS_FORK => resume_or_schedule (sys_fork s1)
    | INT_TIMER => schedule (upd_ticks s1 (to_uint32 (ticks s1 + 1)))
    | INT_PAGEFAULT =>
        if Z.land (reg_err reg) PFERR_USER =? 0 then Panicked
        else resume_or_schedule (pagefault_user s1 reg)
    | INT_OTHER _ => Panicked
    end.
Proof. intros Hcheck Hshow. unfold interrupt. now rewrite Hcheck, Hshow. Qed.

(** Within one turn of the table the scan does not come back to where it
    started. *)
Lemma scan_pid_other c k :
  0 <= c < NPROC -> 1 <= k < NPROC -> scan_pid c k <> c.
Proof.
  intros Hc Hk. unfold scan_pid.
  destruct (Z_lt_dec (c + k) NPROC) as [Hlt | Hge].
  - rewrite Z.mod_small by lia. lia.
  - replace (c + k) with (c + k - NPROC + 1 * NPROC) by lia.
    rewrite Z_mod_plus_full, Z.mod_small by lia. lia.
Qed.

(** What the page-fault handler leaves of a state: the current process is
    Broken, every other descriptor and the frame table are as they were. *)
Lemma pagefault_user_frame s reg :
  0 <= current s < Z.of_nat (length (processes s)) ->
  cur (pagefault_user s reg) = with_state (cur s) P_BROKEN
  /\ current (pagefault_user s reg) = current s
  /\ pageinfo (pagefault_user s reg) = pageinfo s
  /\ ticks (pagefault_user s reg) = ticks s
  /\ forall pid, pid <> current s ->
       proc_get (processes (pagefault_user s reg)) pid = proc_get (processes s) pid.
Proof.
  intros Hin. unfold pagefault_user. split; [| repeat split].
  - apply (cur_upd_proc_current (upd_mem s _)). exact Hin.
  - intros pid Hne. cbn [processes upd_proc upd_processes upd_mem current].
    now rewrite proc_get_set_ne by congruence.
Qed.

End EntryFacts.


(** ** Fork: the child's descriptor *)

Section ForkChild.
Context `{Config}.

(** Whatever the clone returns, fork leaves the claimed slot Runnable with
    the returned pointer as its page table, and touches the state and page
    table of no other descriptor. *)
Lemma fork_child_descriptor s newpid :
  0 <= newpid < Z.of_nat (length (processes s)) ->
  p_state (proc_get (processes (fork_child s newpid)) newpid) = P_RUNNABLE
  /\ p_pagetable (proc_get (processes (fork_child s newpid)) newpid)
     = fork_clone_result s newpid
  /\ (forall q, q <> newpid ->
        p_state (proc_get (processes (fork_child s newpid)) q)
        = p_state (proc_get (processes s) q)
        /\ p_pagetable (proc_get (processes (fork_child s newpid)) q)
           = p_pagetable (proc_get (processes s) q)).
Proof.
  intros Hin. unfold fork_child.
  destruct (fork_pages_frame newpid (for_range PROC_START_ADDR MEMSIZE_VIRTUAL PAGESIZE)
              (fork_claim s newpid)) as (Hps & _).
  fold (fork_pages (fork_claim s newpid) newpid) in Hps.
  assert (Hfld : forall {A} (fld : proc -> A) q,
            (forall p r, fld (with_registers p r) = fld p) ->
            fld (proc_get (processes (fork_registers (fork_pages (fork_claim s newpid) newpid)
                                        newpid)) q)
            = fld (proc_get (processes (fork_claim s newpid)) q)).
  { intros A fld q Hf. now rewrite fork_registers_field, Hps. }
  rewrite !(Hfld _ p_state), !(Hfld _ p_pagetable) by reflexivity.
  assert (Hq : forall q, q <> newpid ->
            p_state (proc_get (processes (fork_registers
                       (fork_pages (fork_claim s newpid) newpid) newpid)) q)
            = p_state (proc_get (processes (fork_claim s newpid)) q)
            /\ p_pagetable (proc_get (processes (fork_registers
                       (fork_pages (fork_claim s newpid) newpid) newpid)) q)
            = p_pagetable (proc_get (processes (fork_claim s newpid)) q)).
  { intros q _. now rewrite (Hfld _ p_state), (Hfld _ p_pagetable). }
  unfold fork_claim, fork_clone_result in *.
  assert (Hcur : p_pagetable (cur (upd_proc s newpid (fun p => with_state p P_RUNNABLE)))
                 = p_pagetable (cur s)).
  { unfold cur. cbn.
    now apply (proc_get_upd_field p_pagetable _ _ (fun p => with_state p P_RUNNABLE)). }
  rewrite Hcur in *. cbn [pageinfo mem upd_proc upd_processes] in *.
  destruct (copy_pagetable _ _ _ _) as [[pt pi2] m2]. cbn [fst].
  cbn [processes upd_proc upd_processes upd_mem upd_pageinfo] in *.
  set (ps1 := proc_set (processes s) newpid _) in *.
  assert (Hlen1 : length ps1 = length (processes s)) by apply length_proc_set.
  split; [| split].
  - rewrite (proc_get_upd_field p_state _ _ (fun p => with_pagetable p pt)) by reflexivity.
    unfold ps1. now rewrite proc_get_set_eq.
  - rewrite proc_get_set_eq by (rewrite Hlen1; exact Hin). reflexivity.
  - intros q Hq'. destruct (Hq q Hq') as [-> ->].
    rewrite !proc_get_set_ne by congruence.
    unfold ps1. now rewrite !proc_get_set_ne by congruence.
Qed.

End ForkChild.


(** ** Boot: the frame table pageinfo_init builds *)

Section BootFacts.
Context `{Config}.

Lemma boot_owner_cases addr :
  boot_owner addr = PO_RESERVED \/ boot_owner addr = PO_KERNEL \/ boot_owner addr = PO_FREE.
Proof.
  unfold boot_owner. destruct (physical_memory_isreserved addr); [now left |].
  destruct (_ || _); [right; now left | right; now right].
Qed.

(** The record the loop body leaves for the frame at [addr]. *)
Lemma pageinfo_init_step_get pi k pn :
  0 <= k < Z.of_nat (length pi) ->
  pi_get (pageinfo_init_step pi (k * PAGESIZE)) pn
  = if pn =? k
    then mk_pageinfo (boot_owner (k * PAGESIZE))
                     (if boot_owner (k * PAGESIZE) =? PO_FREE then 0 else 1)
    else pi_get pi pn.
Proof.
  intros Hk. unfold pageinfo_init_step, set_refcount, set_owner.
  rewrite PAGENUMBER_mul.
  destruct (pn =? k) eqn:E.
  - apply Z.eqb_eq in E. subst pn.
    rewrite !pi_get_set_eq by (rewrite ?length_pi_set; lia). cbn [owner].
    destruct (boot_owner_cases (k * PAGESIZE)) as [-> | [-> | ->]]; reflexivity.
  - apply Z.eqb_neq in E. now rewrite !pi_get_set_ne by congruence.
Qed.

Lemma length_pageinfo_init_step pi addr :
  length (pageinfo_init_step pi addr) = length pi.
Proof. unfold pageinfo_init_step, set_refcount, set_owner. now rewrite !length_pi_set. Qed.

Lemma pageinfo_init_fold ks pi pn :
  (forall k, k ∈ ks -> 0 <= k < Z.of_nat (length pi)) ->
  length (fold_left pageinfo_init_step ((fun k => 0 + k * PAGESIZE) <$> ks) pi) = length pi
  /\ pi_get (fold_left pageinfo_init_step ((fun k => 0 + k * PAGESIZE) <$> ks) pi) pn
     = if bool_decide (pn ∈ ks)
       then mk_pageinfo (boot_owner (pn * PAGESIZE))
                        (if boot_owner (pn * PAGESIZE) =? PO_FREE then 0 else 1)
       else pi_get pi pn.
Proof.
  revert pi. induction ks as [| k ks IH]; intros pi Hin.
  - cbn. split; [reflexivity |]. rewrite bool_decide_eq_false_2; [reflexivity |].
    apply not_elem_of_nil.
  - cbn [fmap list_fmap fold_left]. rewrite Z.add_0_l.
    assert (Hk : 0 <= k < Z.of_nat (length pi)) by (apply Hin; left).
    destruct (IH (pageinfo_init_step pi (k * PAGESIZE))) as (Hlen & Hget).
    { intros q Hq. rewrite length_pageinfo_init_step. apply Hin. now right. }
    split; [now rewrite Hlen, length_pageinfo_init_step |].
    rewrite Hget, pageinfo_init_step_get by exact Hk.
    destruct (bool_decide (pn ∈ ks)) eqn:E1.
    + apply bool_decide_eq_true in E1.
      rewrite bool_decide_eq_true_2; [reflexivity | now right].
    + apply bool_decide_eq_false in E1.
      destruct (pn =? k) eqn:E2.
      * apply Z.eqb_eq in E2. subst pn.
        rewrite bool_decide_eq_true_2; [reflexivity | left].
      * apply Z.eqb_neq in E2.
        rewrite bool_decide_eq_false_2; [reflexivity |].
        intros [-> | Hin']%elem_of_cons; [congruence | contradiction].
Qed.

Lemma frames_cover_count :
  frames_cover ->
  PAGENUMBER MEMSIZE_PHYSICAL = NPAGES
  /\ (MEMSIZE_PHYSICAL - 0 + PAGESIZE - 1) `div` PAGESIZE = NPAGES.
Proof.
  intros (Hn & Hcover & Hlim). rewrite <- Hcover. split.
  - apply PAGENUMBER_mul.
  - unfold PAGESIZE. symmetry. apply Z.div_unique with (r := 4095); lia.
Qed.

(** After pageinfo_init the table has a record per frame, and each record is
    Reserved or Kernel with refcount 1, or Free with refcount 0. *)
Lemma pageinfo_init_spec :
  frames_cover ->
  frames_sized pageinfo_init
  /\ forall pn, 0 <= pn < NPAGES ->
       pi_get pageinfo_init pn
       = mk_pageinfo (boot_owner (pn * PAGESIZE))
                     (if boot_owner (pn * PAGESIZE) =? PO_FREE then 0 else 1).
Proof.
  intros Hc. destruct (frames_cover_count Hc) as (Hpn & Hcount).
  pose proof Hc as (Hn & _).
  unfold pageinfo_init, for_range, frames_sized. rewrite Hcount.
  assert (Hz : Z.of_nat (length pageinfo_zero) = NPAGES).
  { unfold pageinfo_zero. rewrite length_replicate, Hpn. lia. }
  assert (Hin : forall k, k ∈ seqZ 0 NPAGES -> 0 <= k < Z.of_nat (length pageinfo_zero)).
  { intros k Hk. apply elem_of_seqZ in Hk. lia. }
  split.
  - destruct (pageinfo_init_fold (seqZ 0 NPAGES) pageinfo_zero 0 Hin) as (-> & _).
    exact Hz.
  - intros pn Hpn'.
    destruct (pageinfo_init_fold (seqZ 0 NPAGES) pageinfo_zero pn Hin) as (_ & ->).
    rewrite bool_decide_eq_true_2; [reflexivity |].
    apply elem_of_seqZ. lia.
Qed.

End BootFacts.

(** ** The invariant checker *)

Section CheckerFacts.
Context `{Config}.

Lemma count_fold (b : Z -> bool) l a :
  fold_left (fun n pid => if b pid then n + 1 else n) l a
  = a + Z.of_nat (length (List.filter b l)).
Proof.
  revert a. induction l as [| x l IH]; intros a; cbn [fold_left List.filter].
  - cbn. lia.
  - rewrite IH. destruct (b x); cbn [length]; lia.
Qed.

Lemma boot_procs_get m0 pid :
  p_state (proc_get (processes (boot_state m0)) pid) = P_FREE
  /\ p_pagetable (proc_get (processes (boot_state m0)) pid) = 0.
Proof.
  cbn [boot_state processes]. unfold proc_get.
  destruct (pid <? 0); [now split |].
  rewrite list_lookup_fmap.
  destruct (seqZ 0 NPROC !! Z.to_nat pid); now split.
Qed.

Lemma boot_nobody_on_kernel_table m0 :
  List.filter (counts_on_kernel_table (processes (boot_state m0))) (seqZ 0 NPROC) = [].
Proof.
  induction (seqZ 0 NPROC) as [| pid l IH]; [reflexivity |].
  cbn [List.filter]. unfold counts_on_kernel_table at 1.
  destruct (boot_procs_get m0 pid) as (-> & _). exact IH.
Qed.

(** A frame of the kernel image is recorded as the kernel's, referenced
    once, by pageinfo_init. *)
Lemma pageinfo_init_kernel_frame pn :
  frames_cover -> kernel_frame pn ->
  pi_get pageinfo_init pn = mk_pageinfo PO_KERNEL 1.
Proof.
  intros Hc (Hpn & Hown).
  destruct (pageinfo_init_spec Hc) as (_ & Hget).
  now rewrite (Hget pn Hpn), Hown.
Qed.

Lemma boot_check_frame m0 pn :
  frames_cover -> 0 <= pn < NPAGES -> check_frame (boot_state m0) pn = true.
Proof.
  intros Hc Hpn. unfold check_frame. cbn [boot_state pageinfo].
  destruct (pageinfo_init_spec Hc) as (_ & Hget). rewrite (Hget pn Hpn).
  cbn [owner refcount].
  destruct (boot_owner_cases (pn * PAGESIZE)) as [-> | [-> | ->]]; reflexivity.
Qed.

Lemma check_pagetable_spec pi m pagetable eo er :
  check_pagetable pi m pagetable eo er = true ->
  owner (pi_get pi (PAGENUMBER pagetable)) = eo
  /\ refcount (pi_get pi (PAGENUMBER pagetable)) = er.
Proof.
  unfold check_pagetable. intros Hc.
  apply andb_prop in Hc as [Hc _]. apply andb_prop in Hc as [Ho Hr].
  apply Z.eqb_eq in Ho, Hr. now split.
Qed.

Lemma boot_check_kernel_table m0 :
  frames_cover -> kernel_tables_placed m0 ->
  check_pagetable (pageinfo (boot_state m0)) (mem (boot_state m0)) kernel_pagetable
    PO_KERNEL 1 = true.
Proof.
  intros Hc (Hk1 & Hk2). unfold check_pagetable. cbn [boot_state pageinfo].
  rewrite (pageinfo_init_kernel_frame _ Hc Hk1). cbn [owner refcount].
  cbn [Z.eqb Pos.eqb PO_KERNEL andb].
  apply forallb_forall. intros i Hi.
  apply list_elem_of_In, elem_of_seqZ in Hi.
  destruct (Z.land _ PTE_P =? 0) eqn:E; [reflexivity |].
  apply Z.eqb_neq in E. specialize (Hk2 i ltac:(lia) E).
  now rewrite (pageinfo_init_kernel_frame _ Hc Hk2).
Qed.

End CheckerFacts.

(** C8: virtual_memory_check computes the expected refcount of the kernel's
    level-1 table as 1 plus the number of descriptors that are not Free
    (Runnable or Broken) and whose page table is the kernel's; a check that
    passes has found the kernel table's frame owned by the kernel with
    exactly that refcount; and on the state start() builds before any
    process is set up the expected value is 1 and every assertion holds. *)
Theorem C8_checker_kernel_refcount `{Config} :
  0 <= NPROC -> frames_cover ->
  (forall ps,
     expected_kernel_refcount ps
     = 1 + Z.of_nat (length (List.filter (counts_on_kernel_table ps) (seqZ 0 NPROC))))
  /\ (forall s, virtual_memory_check s = true ->
        owner (pi_get (pageinfo s) (PAGENUMBER kernel_pagetable)) = PO_KERNEL
        /\ refcount (pi_get (pageinfo s) (PAGENUMBER kernel_pagetable))
           = expected_kernel_refcount (processes s))
  /\ (forall m0, kernel_tables_placed m0 ->
        expected_kernel_refcount (processes (boot_state m0)) = 1
        /\ refcount (pi_get (pageinfo (boot_state m0)) (PAGENUMBER kernel_pagetable)) = 1
        /\ virtual_memory_check (boot_state m0) = true).
Proof.
  intros HN Hc.
  assert (Hcount : forall ps,
            expected_kernel_refcount ps
            = 1 + Z.of_nat (length (List.filter (counts_on_kernel_table ps) (seqZ 0 NPROC)))).
  { intros ps. unfold expected_kernel_refcount. apply count_fold. }
  split; [exact Hcount | split].
  - intros s Hchk. unfold virtual_memory_check in Hchk.
    apply andb_prop in Hchk as [Hchk _]. apply andb_prop in Hchk as [_ Hprocs].
    rewrite forallb_forall in Hprocs.
    specialize (Hprocs (-1)). unfold check_process in Hprocs. cbn [Z.leb Z.ltb Z.compare andb orb] in Hprocs.
    apply (check_pagetable_spec _ (mem s)), Hprocs, list_elem_of_In, elem_of_seqZ. lia.
  - intros m0 Hplaced.
    assert (He : expected_kernel_refcount (processes (boot_state m0)) = 1).
    { rewrite Hcount, boot_nobody_on_kernel_table. reflexivity. }
    split; [exact He | split].
    + cbn [boot_state pageinfo].
      now rewrite (pageinfo_init_kernel_frame _ Hc (proj1 Hplaced)).
    + unfold virtual_memory_check.
      destruct (boot_procs_get m0 0) as (-> & _). cbn [procstate_eqb andb].
      apply andb_true_intro. split.
      * apply forallb_forall. intros pid Hpid. unfold check_process.
        destruct (boot_procs_get m0 pid) as (-> & _). cbn [procstate_eqb].
        destruct (0 <=? pid) eqn:E; [reflexivity |]. cbn [andb].
        apply Z.leb_gt in E. apply Z.ltb_lt in E. rewrite E. cbn [orb].
        rewrite He. now apply boot_check_kernel_table.
      * apply forallb_forall. intros pn Hpn.
        apply list_elem_of_In, elem_of_seqZ in Hpn.
        destruct (frames_cover_count Hc) as (Hpn' & _). rewrite Hpn' in Hpn.
        apply boot_check_frame; [exact Hc | lia].
Qed.

(** A Broken process left on the kernel's page table counts: the checker
    expects 2 where the count of Runnable processes gives 1, and with the
    kernel table's frame referenced twice every assertion holds. *)
Lemma C8_runnable_only_counterexample :
  @expected_kernel_refcount weensy (processes broken_alias_state) = 2
  /\ @spec_expected_kernel_refcount weensy (processes broken_alias_state) = 1
  /\ @virtual_memory_check weensy broken_alias_state = true.
Proof. by_compute. Qed.

Lemma weensy_frames_cover : @frames_cover weensy.
Proof. by_compute. Qed.

Lemma kernel_frameb_spec `{Config} pn : kernel_frameb pn = true -> kernel_frame pn.
Proof.
  unfold kernel_frameb, kernel_frame. intros Hb.
  apply andb_prop in Hb as [Hb Ho]. apply andb_prop in Hb as [H0 H1].
  apply Z.leb_le in H0. apply Z.ltb_lt in H1. apply Z.eqb_eq in Ho.
  split; [lia | exact Ho].
Qed.

Lemma kernel_tables_placedb_spec `{Config} m0 :
  kernel_tables_placedb (mem (boot_state m0)) = true -> kernel_tables_placed m0.
Proof.
  unfold kernel_tables_placedb. intros Hb. apply andb_prop in Hb as [Hk Hall].
  split; [now apply kernel_frameb_spec |].
  intros i Hi pte Hp.
  pose proof (forallb_seqZ _ 0 PAGETABLE_NENTRIES Hall i Hi) as Hb.
  cbv beta zeta in Hb. fold pte in Hb. clearbody pte.
  apply orb_prop in Hb as [Hb | Hb]; [apply Z.eqb_eq in Hb; contradiction |].
  now apply kernel_frameb_spec.
Qed.

Lemma weensy_kernel_tables_placed : @kernel_tables_placed weensy weensy_m0.
Proof. apply kernel_tables_placedb_spec. vm_compute. reflexivity. Qed.

(** On the concrete boot state the expected kernel refcount is 1, it is the
    refcount recorded, and the check passes. *)
Lemma C8_checker_kernel_refcount_witness :
  @expected_kernel_refcount weensy (processes (@boot_state weensy weensy_m0)) = 1
  /\ refcount (pi_get (pageinfo (@boot_state weensy weensy_m0))
                 (PAGENUMBER (@kernel_pagetable weensy))) = 1
  /\ @virtual_memory_check weensy (@boot_state weensy weensy_m0) = true.
Proof.
  assert (HN : 0 <= @NPROC weensy) by by_compute.
  exact (proj2 (proj2 (@C8_checker_kernel_refcount weensy HN weensy_frames_cover))
           weensy_m0 weensy_kernel_tables_placed).
Defined.

(** ** The page-table clone *)

Section CloneFacts.
Context `{Config}.

(** An allocation writes one record, and only one whose refcount is 0. *)
Lemma physical_page_alloc_keeps pi addr own j :
  refcount (pi_get pi j) <> 0 ->
  pi_get (snd (physical_page_alloc pi addr own)) j = pi_get pi j.
Proof.
  intros Hj. unfold physical_page_alloc.
  destruct (negb _ || _ || negb (refcount (pi_get pi (PAGENUMBER addr)) =? 0)) eqn:E;
    [reflexivity |].
  apply orb_false_elim in E as [_ E]. apply negb_false_iff, Z.eqb_eq in E.
  cbn [snd]. unfold set_owner, set_refcount.
  assert (Hne : PAGENUMBER addr <> j) by congruence.
  now rewrite !pi_get_set_ne.
Qed.

Lemma page_alloc_lite_keeps pi pid j :
  refcount (pi_get pi j) <> 0 ->
  pi_get (snd (page_alloc_lite pi pid)) j = pi_get pi j.
Proof.
  intros Hj. unfold page_alloc_lite.
  pose proof (physical_page_alloc_keeps pi (to_uint32 (find_free pi * PAGESIZE))
                (to_int8 pid) j Hj) as Hk.
  destruct (physical_page_alloc _ _ _) as [r pi']. cbn [snd] in Hk.
  now destruct (0 <=? r).
Qed.

Lemma length_physical_page_alloc pi addr own :
  length (snd (physical_page_alloc pi addr own)) = length pi.
Proof.
  unfold physical_page_alloc. destruct (_ || _ || _); [reflexivity |].
  cbn [snd]. unfold set_owner, set_refcount. now rewrite !length_pi_set.
Qed.

Lemma length_page_alloc_lite pi pid :
  length (snd (page_alloc_lite pi pid)) = length pi.
Proof.
  unfold page_alloc_lite.
  pose proof (length_physical_page_alloc pi (to_uint32 (find_free pi * PAGESIZE))
                (to_int8 pid)) as Hl.
  destruct (physical_page_alloc _ _ _) as [r pi']. cbn [snd] in Hl.
  now destruct (0 <=? r).
Qed.

(** The clone in terms of its two allocations. *)
Lemma copy_pagetable_unfold pi m pagetable own :
  let a1 := page_alloc_lite pi own in
  let a2 := page_alloc_lite (snd a1) own in
  (fst a1 = 0 /\ copy_pagetable pi m pagetable own = (0, snd a1, m))
  \/ (fst a1 <> 0 /\ fst a2 = 0 /\ copy_pagetable pi m pagetable own = (0, snd a2, m))
  \/ (fst a1 <> 0 /\ fst a2 <> 0
      /\ fst (fst (copy_pagetable pi m pagetable own)) = fst a1
      /\ snd (fst (copy_pagetable pi m pagetable own)) = snd a2).
Proof.
  intros a1 a2. unfold copy_pagetable. subst a1 a2.
  destruct (page_alloc_lite pi own) as [pagel1 pi1]. cbn [fst snd].
  destruct (pagel1 =? 0) eqn:E1.
  - left. apply Z.eqb_eq in E1. now split.
  - apply Z.eqb_neq in E1. right.
    destruct (page_alloc_lite pi1 own) as [pagel2 pi2]. cbn [fst snd].
    destruct (pagel2 =? 0) eqn:E2.
    + left. apply Z.eqb_eq in E2. now repeat split.
    + right. apply Z.eqb_neq in E2. now repeat split.
Qed.

Lemma copy_pagetable_keeps pi m pagetable own j :
  refcount (pi_get pi j) <> 0 ->
  pi_get (snd (fst (copy_pagetable pi m pagetable own))) j = pi_get pi j.
Proof.
  intros Hj.
  assert (H1 : pi_get (snd (page_alloc_lite pi own)) j = pi_get pi j)
    by now apply page_alloc_lite_keeps.
  assert (H2 : pi_get (snd (page_alloc_lite (snd (page_alloc_lite pi own)) own)) j
               = pi_get pi j).
  { rewrite page_alloc_lite_keeps; [exact H1 | now rewrite H1]. }
  destruct (copy_pagetable_unfold pi m pagetable own)
    as [(_ & ->) | [(_ & _ & ->) | (_ & _ & _ & ->)]]; assumption.
Qed.

Lemma length_copy_pagetable pi m pagetable own :
  length (snd (fst (copy_pagetable pi m pagetable own))) = length pi.
Proof.
  destruct (copy_pagetable_unfold pi m pagetable own)
    as [(_ & ->) | [(_ & _ & ->) | (_ & _ & _ & ->)]]; cbn [fst snd];
    now rewrite !length_page_alloc_lite.
Qed.

End CloneFacts.

(** C4: when either of its two frame allocations fails, copy_pagetable
    returns the null pointer, with memory untouched and with the record of
    every referenced frame (the source table's frame among them) as it was:
    it neither aliases the source nor increments a refcount.  With no free
    frame at all the whole frame table is unchanged.  The aliasing is the
    caller's: process_setup, on a null result, points the descriptor at the
    kernel's page table and increments the refcount of that table's
    frame. *)
Theorem C4_clone_failure `{Config} (pi : pageinfo_t) (m : memory) (pagetable own : Z) :
  fst (page_alloc_lite pi own) = 0
  \/ fst (page_alloc_lite (snd (page_alloc_lite pi own)) own) = 0 ->
  fst (fst (copy_pagetable pi m pagetable own)) = 0
  /\ snd (copy_pagetable pi m pagetable own) = m
  /\ (forall j, refcount (pi_get pi j) <> 0 ->
        pi_get (snd (fst (copy_pagetable pi m pagetable own))) j = pi_get pi j)
  /\ (frames_cover -> exhausted pi -> copy_pagetable pi m pagetable own = (0, pi, m))
  /\ (forall s pid,
        pageinfo s = pi -> mem s = m -> pagetable = kernel_pagetable -> own = to_int8 pid ->
        0 <= pid < Z.of_nat (length (processes s)) ->
        0 <= PAGENUMBER kernel_pagetable < Z.of_nat (length pi) ->
        refcount (pi_get pi (PAGENUMBER kernel_pagetable)) <> 0 ->
        p_pagetable (proc_get (processes (setup_pagetable s pid)) pid) = kernel_pagetable
        /\ refcount (pi_get (pageinfo (setup_pagetable s pid)) (PAGENUMBER kernel_pagetable))
           = to_int8 (refcount (pi_get pi (PAGENUMBER kernel_pagetable)) + 1)).
Proof.
  intros Hfail.
  assert (Hres : fst (fst (copy_pagetable pi m pagetable own)) = 0
                 /\ snd (copy_pagetable pi m pagetable own) = m).
  { destruct (copy_pagetable_unfold pi m pagetable own)
      as [(_ & ->) | [(_ & _ & ->) | (H1 & H2 & _)]]; [now split | now split |].
    destruct Hfail; contradiction. }
  destruct Hres as (Hnull & Hmem).
  split; [exact Hnull | split; [exact Hmem | split; [| split]]].
  - intros j Hj. now apply copy_pagetable_keeps.
  - intros Hc Hex. unfold copy_pagetable.
    now rewrite (page_alloc_lite_exhausted pi own Hc Hex).
  - intros s pid Hpi Hm -> -> Hpid Hk Href. subst pi m.
    unfold setup_pagetable. cbn [upd_proc upd_processes pageinfo mem].
    pose proof (copy_pagetable_keeps (pageinfo s) (mem s) kernel_pagetable (to_int8 pid)
                  _ Href) as Hkeep.
    pose proof (length_copy_pagetable (pageinfo s) (mem s) kernel_pagetable (to_int8 pid))
      as Hlen.
    destruct (copy_pagetable _ _ _ _) as [[pt pi2] m2].
    cbn [fst snd] in *. subst pt. cbn [Z.eqb negb].
    cbn [upd_proc upd_processes upd_pageinfo upd_mem processes pageinfo].
    split.
    + rewrite proc_get_set_eq by (rewrite !length_proc_set; exact Hpid). reflexivity.
    + unfold set_refcount. rewrite pi_get_set_eq by (rewrite Hlen; exact Hk).
      cbn [refcount]. now rewrite Hkeep.
Qed.

(** With frame 300 as the only free frame, cloning the kernel's table for
    process 1 reports failure: the result is the null pointer, not the
    source; the source table's frame (82) keeps refcount 1; and frame 300
    stays allocated to process 1. *)
Lemma C4_clone_failure_counterexample :
  fst (fst (@copy_pagetable weensy one_free_pageinfo weensy_m0 (@kernel_pagetable weensy) 1))
  = 0
  /\ @kernel_pagetable weensy <> 0
  /\ refcount (pi_get one_free_pageinfo (PAGENUMBER (@kernel_pagetable weensy))) = 1
  /\ refcount (pi_get (snd (fst (@copy_pagetable weensy one_free_pageinfo weensy_m0
                                   (@kernel_pagetable weensy) 1)))
                 (PAGENUMBER (@kernel_pagetable weensy))) = 1
  /\ pi_get one_free_pageinfo 300 = mk_pageinfo PO_FREE 0
  /\ pi_get (snd (fst (@copy_pagetable weensy one_free_pageinfo weensy_m0
                         (@kernel_pagetable weensy) 1))) 300
     = mk_pageinfo 1 1.
Proof. by_compute. Qed.

(** The same clone through the theorem: null result, memory as it was. *)
Lemma C4_clone_failure_witness :
  fst (fst (@copy_pagetable weensy one_free_pageinfo weensy_m0 (@kernel_pagetable weensy) 1))
  = 0
  /\ snd (@copy_pagetable weensy one_free_pageinfo weensy_m0 (@kernel_pagetable weensy) 1)
     = weensy_m0.
Proof.
  assert (Hfail : fst (@page_alloc_lite weensy one_free_pageinfo 1) = 0
                  \/ fst (@page_alloc_lite weensy
                            (snd (@page_alloc_lite weensy one_free_pageinfo 1)) 1) = 0)
    by (right; vm_compute; reflexivity).
  destruct (@C4_clone_failure weensy one_free_pageinfo weensy_m0 (@kernel_pagetable weensy)
              1 Hfail) as (H1 & H2 & _).
  exact (conj H1 H2).
Defined.

(** ** The frame-table invariant *)

Lemma frame_ok_zero : frame_ok (mk_pageinfo 0 0).
Proof. unfold frame_ok, PO_FREE. cbn. repeat split; lia. Qed.

Lemma frames_ok_get pi pn : frames_ok pi -> frame_ok (pi_get pi pn).
Proof.
  intros Hok. unfold pi_get. destruct (pn <? 0); [apply frame_ok_zero |].
  destruct (pi !! Z.to_nat pn) as [r |] eqn:E; [| apply frame_ok_zero].
  cbn. unfold frames_ok in Hok. rewrite Forall_lookup in Hok. now apply (Hok _ _ E).
Qed.

Lemma frames_ok_set pi pn r : frames_ok pi -> frame_ok r -> frames_ok (pi_set pi pn r).
Proof.
  intros Hok Hr. unfold pi_set. destruct (pn <? 0); [exact Hok |].
  now apply Forall_insert.
Qed.

Lemma frames_ok_inv pi : frames_ok pi -> refcount_owner_inv pi.
Proof. intros Hok pn. now destruct (frames_ok_get pi pn Hok) as (_ & _ & Hiff). Qed.

Lemma frame_okb_spec r : frame_okb r = true -> frame_ok r.
Proof.
  unfold frame_okb, frame_ok, PO_FREE. intros Hb.
  repeat (apply andb_prop in Hb as [Hb ?]).
  apply Z.leb_le in Hb.
  repeat match goal with
         | H : (_ <? _) = true |- _ => apply Z.ltb_lt in H
         | H : (_ <=? _) = true |- _ => apply Z.leb_le in H
         | H : Bool.eqb _ _ = true |- _ => apply eqb_prop in H
         end.
  repeat split; lia.
Qed.

Lemma frames_okb_spec pi : forallb frame_okb pi = true -> frames_ok pi.
Proof.
  intros Hb. apply Forall_forall. intros r Hr.
  apply frame_okb_spec. rewrite forallb_forall in Hb. now apply Hb, list_elem_of_In.
Qed.

(** The two stores of physical_page_alloc amount to one record. *)
Lemma alloc_record pi pn own :
  set_owner (set_refcount pi pn 1) pn own = pi_set pi pn (mk_pageinfo (to_int8 own) 1).
Proof.
  unfold set_owner, set_refcount.
  destruct (Z_lt_dec pn 0) as [Hneg | Hpos];
    [now rewrite !pi_set_outside by (rewrite ?pi_set_outside; lia) |].
  destruct (Z_lt_dec pn (Z.of_nat (length pi))) as [Hin | Hout].
  - rewrite pi_get_set_eq by lia. now rewrite pi_set_set.
  - now rewrite !pi_set_outside by (rewrite ?pi_set_outside; lia).
Qed.

Lemma frame_ok_allocated own : to_int8 own <> 0 -> frame_ok (mk_pageinfo (to_int8 own) 1).
Proof.
  intros Hown. unfold frame_ok, PO_FREE. cbn [owner refcount].
  pose proof (to_int8_range own). repeat split; lia.
Qed.

(** Incrementing the refcount of a referenced frame, short of overflow. *)
Lemma frames_ok_incr pi pn :
  frames_ok pi -> 0 < refcount (pi_get pi pn) < 127 ->
  frames_ok (set_refcount pi pn (refcount (pi_get pi pn) + 1)).
Proof.
  intros Hok Hr. unfold set_refcount. apply frames_ok_set; [exact Hok |].
  destruct (frames_ok_get pi pn Hok) as (Ho & _ & Hiff).
  unfold frame_ok. cbn [owner refcount].
  rewrite to_int8_small by lia. repeat split; lia.
Qed.

Section FrameInvariant.
Context `{Config}.

Lemma physical_page_alloc_frames_ok pi addr own :
  frames_ok pi -> to_int8 own <> 0 -> frames_ok (snd (physical_page_alloc pi addr own)).
Proof.
  intros Hok Hown. unfold physical_page_alloc.
  destruct (_ || _ || _); [exact Hok |]. cbn [snd].
  rewrite alloc_record. apply frames_ok_set; [exact Hok | now apply frame_ok_allocated].
Qed.

Lemma page_alloc_lite_frames_ok pi pid :
  frames_ok pi -> to_int8 pid <> 0 -> frames_ok (snd (page_alloc_lite pi pid)).
Proof.
  intros Hok Hpid. unfold page_alloc_lite.
  pose proof (physical_page_alloc_frames_ok pi (to_uint32 (find_free pi * PAGESIZE))
                (to_int8 pid) Hok) as Hp.
  rewrite to_int8_idem in Hp. specialize (Hp Hpid).
  destruct (physical_page_alloc _ _ _) as [r pi']. cbn [snd] in Hp.
  now destruct (0 <=? r).
Qed.

Lemma copy_pagetable_frames_ok pi m pagetable own :
  frames_ok pi -> to_int8 own <> 0 ->
  frames_ok (snd (fst (copy_pagetable pi m pagetable own))).
Proof.
  intros Hok Hown.
  assert (H1 : frames_ok (snd (page_alloc_lite pi own)))
    by now apply page_alloc_lite_frames_ok.
  assert (H2 : frames_ok (snd (page_alloc_lite (snd (page_alloc_lite pi own)) own)))
    by now apply page_alloc_lite_frames_ok.
  destruct (copy_pagetable_unfold pi m pagetable own)
    as [(_ & ->) | [(_ & _ & ->) | (_ & _ & _ & ->)]]; assumption.
Qed.

Lemma sys_page_alloc_func_frames_ok pi m addr pagetable pid :
  frames_ok pi -> to_int8 pid <> 0 ->
  frames_ok (snd (fst (sys_page_alloc_func pi m addr pagetable pid))).
Proof.
  intros Hok Hpid. unfold sys_page_alloc_func.
  pose proof (physical_page_alloc_frames_ok pi (to_uint32 (find_free pi * PAGESIZE))
                (to_int8 pid) Hok) as Hp.
  rewrite to_int8_idem in Hp. specialize (Hp Hpid).
  destruct (physical_page_alloc _ _ _) as [r pi']. cbn [snd] in Hp.
  now destruct (0 <=? r).
Qed.

Lemma program_load_pages_frames_ok pi pid pages :
  frames_ok pi -> to_int8 pid <> 0 ->
  frames_ok (snd (program_load_pages pi pid pages)).
Proof.
  intros Hok Hpid. revert pi Hok.
  induction pages as [| a rest IH]; intros pi Hok; cbn [program_load_pages]; [exact Hok |].
  pose proof (physical_page_alloc_frames_ok pi a (to_int8 pid) Hok) as Hp.
  rewrite to_int8_idem in Hp. specialize (Hp Hpid).
  destruct (physical_page_alloc pi a (to_int8 pid)) as [r pi']. cbn [snd] in Hp.
  destruct (r <? 0); [exact Hp | now apply IH].
Qed.

Lemma fork_page_frames_ok newpid s va :
  frames_ok (pageinfo s) -> to_int8 newpid <> 0 -> share_fits newpid s va = true ->
  frames_ok (pageinfo (fork_page newpid s va)).
Proof.
  intros Hok Hpid Hfit. unfold fork_page, share_fits in *.
  destruct (private_page s va).
  - unfold fork_private.
    pose proof (page_alloc_lite_frames_ok (pageinfo s) newpid Hok Hpid) as Hp.
    destruct (page_alloc_lite (pageinfo s) newpid) as [page pi1]. exact Hp.
  - destruct (shared_page s va); [| exact Hok].
    unfold fork_shared. cbn [pageinfo upd_mem upd_pageinfo].
    apply andb_prop in Hfit as [H0 H1]. apply Z.ltb_lt in H0, H1.
    now apply frames_ok_incr.
Qed.

Lemma fork_pages_frames_ok newpid vas s :
  frames_ok (pageinfo s) -> to_int8 newpid <> 0 -> fork_pages_fit newpid s vas = true ->
  frames_ok (pageinfo (fold_left (fork_page newpid) vas s)).
Proof.
  intros Hok Hpid. revert s Hok.
  induction vas as [| va vas IH]; intros s Hok Hfit; [exact Hok |].
  cbn [fold_left fork_pages_fit] in *. apply andb_prop in Hfit as [Hva Hrest].
  apply IH; [| exact Hrest]. now apply fork_page_frames_ok.
Qed.

Lemma fork_claim_frames_ok s newpid :
  frames_ok (pageinfo s) -> to_int8 newpid <> 0 ->
  frames_ok (pageinfo (fork_claim s newpid)).
Proof.
  intros Hok Hpid. unfold fork_claim. cbn [pageinfo mem upd_proc upd_processes].
  pose proof (copy_pagetable_frames_ok (pageinfo s) (mem s)
                (p_pagetable (cur (upd_proc s newpid (fun p => with_state p P_RUNNABLE))))
                (to_int8 newpid) Hok) as Hc.
  rewrite to_int8_idem in Hc. specialize (Hc Hpid).
  cbn [upd_proc upd_processes] in Hc.
  destruct (copy_pagetable _ _ _ _) as [[pt pi2] m2]. exact Hc.
Qed.

Lemma fork_child_frames_ok s newpid :
  frames_ok (pageinfo s) -> to_int8 newpid <> 0 -> fork_child_fits s newpid = true ->
  frames_ok (pageinfo (fork_child s newpid)).
Proof.
  intros Hok Hpid Hfit. unfold fork_child, fork_registers.
  cbn [pageinfo upd_proc upd_processes]. unfold fork_pages.
  apply fork_pages_frames_ok; [| exact Hpid | exact Hfit].
  now apply fork_claim_frames_ok.
Qed.

Lemma fork_scan_frames_ok s pids :
  frames_ok (pageinfo s) -> (forall pid, pid ∈ pids -> to_int8 pid <> 0) ->
  fork_scan_fits s pids = true ->
  frames_ok (pageinfo (fork_scan s pids)).
Proof.
  revert s. induction pids as [| newpid rest IH]; intros s Hok Hpids Hfit; [exact Hok |].
  cbn [fork_scan fork_scan_fits] in *.
  destruct (procstate_eqb _ _).
  - apply fork_child_frames_ok; [exact Hok | apply Hpids; left | exact Hfit].
  - apply IH; [| intros q Hq; apply Hpids; now right | exact Hfit].
    now destruct (newpid =? 15).
Qed.

Lemma sys_fork_frames_ok s :
  NPROC <= 128 -> frames_ok (pageinfo s) -> sys_fork_fits s = true ->
  frames_ok (pageinfo (sys_fork s)).
Proof.
  intros HN Hok Hfit. apply fork_scan_frames_ok; [exact Hok | | exact Hfit].
  intros pid Hpid. apply elem_of_seqZ in Hpid. rewrite to_int8_small; lia.
Qed.

End FrameInvariant.

(** ** The kernel between interrupts *)

Section KernelInvariant.
Context `{Config}.

(** A store into one descriptor that keeps its pid, and keeps the state of
    slot 0, keeps the table well-formed. *)
Lemma procs_ok_upd ps pid f :
  procs_ok ps ->
  (forall p, p_pid (f p) = p_pid p) ->
  (pid = 0 -> forall p, p_state (f p) = p_state p) ->
  procs_ok (proc_set ps pid (f (proc_get ps pid))).
Proof.
  intros (Hlen & Hpid & H0) Hfp Hfs. split; [| split].
  - now rewrite length_proc_set.
  - intros i Hi. rewrite (proc_get_upd_field p_pid) by exact Hfp. now apply Hpid.
  - destruct (Z.eq_dec pid 0) as [-> | Hne].
    + rewrite (proc_get_upd_field p_state) by (apply Hfs; reflexivity). exact H0.
    + now rewrite proc_get_set_ne.
Qed.

Lemma procs_ok_registers ps pid r :
  procs_ok ps -> procs_ok (proc_set ps pid (with_registers (proc_get ps pid) (r (proc_get ps pid)))).
Proof.
  intros Hok. now apply (procs_ok_upd ps pid (fun p => with_registers p (r p))).
Qed.

(** The process resumed is a real one: its slot is in range, not slot 0,
    and its pid is the slot's index. *)
Lemma running_current s :
  kernel_running s -> 1 <= current s < NPROC /\ p_pid (cur s) = current s.
Proof.
  intros ((_ & Hlen & Hpid & H0) & Hrun). unfold cur in *.
  assert (Hin : 0 <= current s < NPROC).
  { destruct (Z_lt_dec (current s) 0) as [Hneg | Hpos];
      [rewrite proc_get_outside in Hrun by lia; discriminate |].
    destruct (Z_lt_dec (current s) NPROC) as [Hlt | Hge]; [lia |].
    rewrite proc_get_outside in Hrun by lia. discriminate. }
  assert (Hne : current s <> 0) by (intros Hz; rewrite Hz in Hrun; congruence).
  split; [lia | now apply Hpid].
Qed.

Lemma schedule_resumed s s' :
  schedule s = Resumed s' ->
  exists p, s' = upd_current s p /\ runnable_at (processes s) p.
Proof.
  intros Hs. destruct (schedule_cases s) as [(p & Hres & Hp) | Hspin].
  - rewrite Hres in Hs. injection Hs as <-. now exists p.
  - rewrite Hspin in Hs. discriminate.
Qed.

Lemma resume_or_schedule_resumed s s' :
  resume_or_schedule s = Resumed s' ->
  exists p, s' = upd_current s p /\ runnable_at (processes s) p.
Proof.
  unfold resume_or_schedule. destruct (procstate_eqb (p_state (cur s)) P_RUNNABLE) eqn:E.
  - unfold run. unfold cur in E. rewrite E. intros [= <-].
    exists (current s). split; [reflexivity |]. now apply procstate_eqb_eq in E.
  - apply schedule_resumed.
Qed.

Lemma kernel_running_resumed s p :
  kernel_ok s -> runnable_at (processes s) p -> kernel_running (upd_current s p).
Proof. intros Hok Hp. split; [exact Hok | exact Hp]. Qed.

(** Fork and the process table. *)
Lemma fork_claim_field {A} (fld : proc -> A) s newpid q :
  (forall p st, fld (with_state p st) = fld p) ->
  (forall p pt, fld (with_pagetable p pt) = fld p) ->
  fld (proc_get (processes (fork_claim s newpid)) q) = fld (proc_get (processes s) q).
Proof.
  intros Hst Hpt. unfold fork_claim.
  destruct (copy_pagetable _ _ _ _) as [[pt pi2] m2].
  cbn [processes upd_proc upd_processes upd_mem upd_pageinfo].
  rewrite (proc_get_upd_field fld _ _ (fun p => with_pagetable p pt)) by (intros; apply Hpt).
  now rewrite (proc_get_upd_field fld _ _ (fun p => with_state p P_RUNNABLE))
    by (intros; apply Hst).
Qed.

Lemma fork_child_pid s newpid q :
  p_pid (proc_get (processes (fork_child s newpid)) q) = p_pid (proc_get (processes s) q).
Proof.
  unfold fork_child. rewrite fork_registers_field by reflexivity.
  destruct (fork_pages_frame newpid (for_range PROC_START_ADDR MEMSIZE_VIRTUAL PAGESIZE)
              (fork_claim s newpid)) as (Hps & _).
  fold (fork_pages (fork_claim s newpid) newpid) in Hps. rewrite Hps.
  now apply fork_claim_field.
Qed.

Lemma length_fork_child s newpid :
  length (processes (fork_child s newpid)) = length (processes s).
Proof.
  unfold fork_child, fork_registers. cbn [processes upd_proc upd_processes].
  rewrite !length_proc_set.
  destruct (fork_pages_frame newpid (for_range PROC_START_ADDR MEMSIZE_VIRTUAL PAGESIZE)
              (fork_claim s newpid)) as (Hps & _).
  fold (fork_pages (fork_claim s newpid) newpid) in Hps. rewrite Hps.
  now destruct (fork_claim_frame s newpid) as (_ & ->).
Qed.

Lemma fork_child_procs_ok s newpid :
  procs_ok (processes s) -> 1 <= newpid < NPROC ->
  procs_ok (processes (fork_child s newpid)).
Proof.
  intros (Hlen & Hpid & H0) Hnew. split; [| split].
  - now rewrite length_fork_child.
  - intros i Hi. rewrite fork_child_pid. now apply Hpid.
  - destruct (fork_child_descriptor s newpid) as (_ & _ & Hq); [lia |].
    destruct (Hq 0) as (-> & _); [lia | exact H0].
Qed.

Lemma fork_failed_procs_ok s :
  procs_ok (processes s) -> procs_ok (processes (fork_failed s)).
Proof.
  intros Hok. unfold fork_failed. cbn [processes upd_proc upd_processes].
  now apply (procs_ok_registers _ _ (fun p => set_eax (p_registers p) (-1))).
Qed.

Lemma fork_scan_procs_ok s pids :
  procs_ok (processes s) -> (forall pid, pid ∈ pids -> 1 <= pid < NPROC) ->
  procs_ok (processes (fork_scan s pids)).
Proof.
  revert s. induction pids as [| newpid rest IH]; intros s Hok Hpids; [exact Hok |].
  cbn [fork_scan]. destruct (procstate_eqb _ _).
  - apply fork_child_procs_ok; [exact Hok | apply Hpids; left].
  - apply IH; [| intros q Hq; apply Hpids; now right].
    destruct (newpid =? 15); [now apply fork_failed_procs_ok | exact Hok].
Qed.

Lemma sys_fork_kernel_ok s :
  NPROC <= 128 -> kernel_ok s -> sys_fork_fits s = true -> kernel_ok (sys_fork s).
Proof.
  intros HN (Hf & Hp) Hfit. split.
  - now apply sys_fork_frames_ok.
  - apply fork_scan_procs_ok; [exact Hp |].
    intros pid Hpid. apply elem_of_seqZ in Hpid. lia.
Qed.

(** Every handler that resumes a process does so in a well-formed state. *)
Lemma interrupt_kernel_running s reg s' :
  NPROC <= 128 -> kernel_running s -> interrupt_fits s reg = true ->
  interrupt s reg = Resumed s' -> kernel_running s'.
Proof.
  intros HN Hrun Hfit Hint.
  destruct (running_current s Hrun) as (Hcur & Hcpid).
  destruct Hrun as ((Hf & Hp) & Hst). pose proof Hp as (Hlen & Hpids & H0).
  unfold interrupt, interrupt_fits in *.
  set (s0 := upd_proc s (current s) (fun p => with_registers p reg)) in *.
  assert (Hok0 : kernel_ok s0).
  { split; [exact Hf |]. cbn [s0 processes upd_proc upd_processes].
    now apply (procs_ok_registers _ _ (fun _ => reg)). }
  assert (Hcur0 : cur s0 = with_registers (cur s) reg).
  { unfold s0. apply cur_upd_proc_current. lia. }
  destruct (negb (virtual_memory_check s0)); [discriminate |].
  destruct (memshow s0) as [s1 |] eqn:Hshow; [| discriminate].
  destruct (memshow_frame s0 s1 Hshow) as (Hps1 & Hc1 & _ & Hpi1).
  assert (Hok1 : kernel_ok s1).
  { split; [rewrite Hpi1 | rewrite Hps1]; apply Hok0. }
  assert (Hcur1 : cur s1 = with_registers (cur s) reg).
  { rewrite (memshow_cur s0 s1 Hshow). exact Hcur0. }
  assert (Hfin : forall t, kernel_ok t -> resume_or_schedule t = Resumed s' ->
                           kernel_running s').
  { intros t Hokt Ht. destruct (resume_or_schedule_resumed t s' Ht) as (p & -> & Hp').
    now apply kernel_running_resumed. }
  assert (Hsched : forall t, kernel_ok t -> schedule t = Resumed s' -> kernel_running s').
  { intros t Hokt Ht. destruct (schedule_resumed t s' Ht) as (p & -> & Hp').
    now apply kernel_running_resumed. }
  destruct (reg_intno reg) eqn:Eint; try discriminate.
  - (* getpid *)
    refine (Hfin _ _ Hint).
    split; [apply Hok1 |]. cbn [processes upd_proc upd_processes].
    apply (procs_ok_registers _ _ (fun p => set_eax (p_registers p) (p_pid p))).
    apply Hok1.
  - (* yield *)
    now apply (Hsched s1).
  - (* page alloc *)
    destruct (sys_page_alloc_func _ _ _ _ _) as [[r pi'] m'] eqn:Ealloc.
    refine (Hfin _ _ Hint). split.
    + cbn [pageinfo upd_proc upd_processes upd_mem upd_pageinfo].
      pose proof (sys_page_alloc_func_frames_ok (pageinfo s1) (mem s1)
                    (reg_eax (p_registers (cur s1))) (p_pagetable (cur s1))
                    (p_pid (cur s1)) (proj1 Hok1)) as Hpa.
      rewrite Ealloc in Hpa. apply Hpa.
      rewrite Hcur1. cbn [p_pid with_registers]. rewrite Hcpid.
      rewrite to_int8_small; lia.
    + cbn [processes upd_proc upd_processes upd_mem upd_pageinfo].
      apply (procs_ok_registers _ _ (fun p => set_eax (p_registers p) r)).
      apply Hok1.
  - (* fork *)
    refine (Hfin _ _ Hint). now apply sys_fork_kernel_ok.
  - (* timer *)
    now apply (Hsched (upd_ticks s1 (to_uint32 (ticks s1 + 1)))).
  - (* page fault *)
    destruct (Z.land (reg_err reg) PFERR_USER =? 0); [discriminate |].
    refine (Hfin _ _ Hint). unfold pagefault_user. split; [apply Hok1 |].
    cbn [processes upd_proc upd_processes upd_mem].
    apply (procs_ok_upd _ _ (fun p => with_state p P_BROKEN)); [apply Hok1 | reflexivity |].
    rewrite Hc1. cbn [s0 current upd_proc upd_processes]. lia.
Qed.

End KernelInvariant.

(** ** start(): from reset to the first process *)

Section BootInvariant.
Context `{Config}.

Lemma pageinfo_init_frames_ok : frames_cover -> frames_ok pageinfo_init.
Proof.
  intros Hc. destruct (pageinfo_init_spec Hc) as (Hlen & Hget).
  unfold frames_sized in Hlen.
  apply Forall_lookup. intros i r Hi.
  assert (Hlt : (i < length pageinfo_init)%nat) by (apply lookup_lt_is_Some; eauto).
  assert (Hr : pi_get pageinfo_init (Z.of_nat i) = r).
  { unfold pi_get. destruct (Z.of_nat i <? 0) eqn:E; [lia |].
    now rewrite Nat2Z.id, Hi. }
  rewrite Hget in Hr by lia. subst r. unfold frame_ok, PO_FREE. cbn [owner refcount].
  destruct (boot_owner_cases (Z.of_nat i * PAGESIZE)) as [-> | [-> | ->]];
    unfold PO_RESERVED, PO_KERNEL, PO_FREE; cbn; repeat split; lia.
Qed.

Lemma boot_procs_pid m0 i :
  0 <= i < NPROC -> p_pid (proc_get (processes (boot_state m0)) i) = i.
Proof.
  intros Hi. cbn [boot_state processes]. unfold proc_get.
  destruct (i <? 0) eqn:E; [lia |].
  rewrite list_lookup_fmap.
  assert (Hl : seqZ 0 NPROC !! Z.to_nat i = Some i).
  { apply lookup_seqZ. split; lia. }
  now rewrite Hl.
Qed.

Lemma boot_state_booting m0 :
  frames_cover -> 0 <= NPROC -> kernel_frame (PAGENUMBER kernel_pagetable) ->
  kernel_booting (boot_state m0) 1.
Proof.
  intros Hc HN Hk. split; [split; [| split; [| split]] |].
  - now apply pageinfo_init_frames_ok.
  - cbn [boot_state processes]. rewrite length_fmap, length_seqZ. lia.
  - intros i Hi. now apply boot_procs_pid.
  - now destruct (boot_procs_get m0 0) as (-> & _).
  - cbn [boot_state pageinfo]. rewrite (pageinfo_init_kernel_frame _ Hc Hk). cbn. lia.
Qed.

Lemma sys_page_alloc_func_keeps pi m addr pagetable pid j :
  refcount (pi_get pi j) <> 0 ->
  pi_get (snd (fst (sys_page_alloc_func pi m addr pagetable pid))) j = pi_get pi j.
Proof.
  intros Hj. unfold sys_page_alloc_func.
  pose proof (physical_page_alloc_keeps pi (to_uint32 (find_free pi * PAGESIZE))
                (to_int8 pid) j Hj) as Hk.
  destruct (physical_page_alloc _ _ _) as [r pi']. cbn [snd] in Hk.
  now destruct (0 <=? r).
Qed.

Lemma program_load_pages_keeps pi pid pages j :
  refcount (pi_get pi j) <> 0 ->
  pi_get (snd (program_load_pages pi pid pages)) j = pi_get pi j.
Proof.
  revert pi. induction pages as [| a rest IH]; intros pi Hj;
    cbn [program_load_pages]; [reflexivity |].
  pose proof (physical_page_alloc_keeps pi a (to_int8 pid) j Hj) as Hk.
  destruct (physical_page_alloc pi a (to_int8 pid)) as [r pi']. cbn [snd] in Hk.
  destruct (r <? 0); [exact Hk |].
  rewrite IH by (rewrite Hk; exact Hj). exact Hk.
Qed.

(** The page-table part of process_setup keeps the state well-formed; the
    refcount of the kernel table's frame grows by one at most. *)
Lemma setup_pagetable_booting s pid b :
  NPROC <= 128 -> 1 <= pid < NPROC -> b < 127 ->
  kernel_booting s b -> kernel_booting (setup_pagetable s pid) (b + 1).
Proof.
  intros HN Hpid Hb ((Hf & Hp) & Hk). unfold setup_pagetable.
  cbn [pageinfo mem upd_proc upd_processes].
  assert (Hown : to_int8 (to_int8 pid) <> 0) by (rewrite to_int8_idem, to_int8_small; lia).
  pose proof (copy_pagetable_frames_ok (pageinfo s) (mem s) kernel_pagetable (to_int8 pid)
                Hf Hown) as Hcf.
  assert (Href : refcount (pi_get (pageinfo s) (PAGENUMBER kernel_pagetable)) <> 0) by lia.
  pose proof (copy_pagetable_keeps (pageinfo s) (mem s) kernel_pagetable (to_int8 pid)
                (PAGENUMBER kernel_pagetable) Href) as Hck.
  destruct (copy_pagetable _ _ _ _) as [[pt pi2] m2]. cbn [fst snd] in Hcf, Hck.
  assert (Hp1 : procs_ok (proc_set (processes s) pid (process_init (proc_get (processes s) pid)))).
  { apply (procs_ok_upd _ _ process_init); [exact Hp | reflexivity | lia]. }
  set (ps1 := proc_set (processes s) pid _) in *.
  assert (Hp2 : procs_ok (proc_set ps1 pid (with_pagetable (proc_get ps1 pid) pt))).
  { apply (procs_ok_upd _ _ (fun p => with_pagetable p pt)); [exact Hp1 | reflexivity | lia]. }
  destruct (negb (pt =? 0)).
  - split; [split; [exact Hcf | exact Hp2] |].
    cbn [pageinfo upd_mem upd_proc upd_processes upd_pageinfo]. rewrite Hck. lia.
  - cbn [pageinfo processes upd_mem upd_proc upd_processes upd_pageinfo].
    set (ps2 := proc_set ps1 pid _) in *.
    split; [split |].
    + apply frames_ok_incr; [exact Hcf |]. rewrite Hck. lia.
    + apply (procs_ok_upd _ _ (fun p => with_pagetable p kernel_pagetable));
        [exact Hp2 | reflexivity | lia].
    + unfold set_refcount. cbn [pageinfo upd_pageinfo].
      destruct (Z_lt_dec (PAGENUMBER kernel_pagetable) 0) as [Hneg | Hpos].
      { rewrite pi_set_outside by lia. rewrite Hck. lia. }
      destruct (Z_lt_dec (PAGENUMBER kernel_pagetable) (Z.of_nat (length pi2))) as [Hin | Hout].
      * rewrite pi_get_set_eq by lia. cbn [refcount]. rewrite Hck.
        rewrite to_int8_small by lia. lia.
      * rewrite pi_set_outside by lia. rewrite Hck. lia.
Qed.

Lemma process_setup_booting s pid prog s' b :
  NPROC <= 128 -> 1 <= pid < NPROC -> b < 127 ->
  kernel_booting s b -> process_setup s pid prog = Some s' ->
  kernel_booting s' (b + 1).
Proof.
  intros HN Hpid Hb Hboot. unfold process_setup.
  pose proof (setup_pagetable_booting s pid b HN Hpid Hb Hboot) as ((Hf3 & Hp3) & Hk3).
  set (s3 := setup_pagetable s pid) in *.
  set (s4 := upd_proc s3 pid (fun p => with_state p P_RUNNABLE)).
  assert (Hp4 : procs_ok (processes s4)).
  { cbn [s4 processes upd_proc upd_processes].
    apply (procs_ok_upd _ _ (fun p => with_state p P_RUNNABLE)); [exact Hp3 | reflexivity | lia]. }
  assert (Hpid4 : p_pid (proc_get (processes s4) pid) = pid) by (apply Hp4; lia).
  unfold program_load. rewrite Hpid4. cbn [s4 pageinfo upd_proc upd_processes].
  assert (Hown : to_int8 pid <> 0) by (rewrite to_int8_small; lia).
  pose proof (program_load_pages_frames_ok (pageinfo s3) pid (program_pages prog) Hf3 Hown)
    as Hf5.
  assert (Href3 : refcount (pi_get (pageinfo s3) (PAGENUMBER kernel_pagetable)) <> 0) by lia.
  pose proof (program_load_pages_keeps (pageinfo s3) pid (program_pages prog)
                (PAGENUMBER kernel_pagetable) Href3) as Hk5.
  destruct (program_load_pages _ _ _) as [r pi5]. cbn [snd] in Hf5, Hk5.
  destruct (r <? 0); [discriminate |].
  cbn [pageinfo mem processes upd_proc upd_processes upd_pageinfo].
  assert (Href5 : refcount (pi_get pi5 (PAGENUMBER kernel_pagetable)) <> 0)
    by (rewrite Hk5; exact Href3).
  match goal with
  | |- context [sys_page_alloc_func ?a ?b ?c ?d ?e] =>
      pose proof (sys_page_alloc_func_frames_ok a b c d e Hf5 Hown) as Hf7;
      pose proof (sys_page_alloc_func_keeps a b c d e (PAGENUMBER kernel_pagetable)
                    Href5) as Hk7;
      destruct (sys_page_alloc_func a b c d e) as [[r7 pi7] m7]
  end.
  cbn [fst snd] in Hf7, Hk7. intros [= <-].
  split; [split; [exact Hf7 |] |].
  - cbn [processes upd_mem upd_pageinfo upd_proc upd_processes].
    apply (procs_ok_registers _ _ (fun p => set_esp (p_registers p) MEMSIZE_VIRTUAL)).
    exact Hp4.
  - cbn [pageinfo upd_mem upd_pageinfo]. rewrite Hk7, Hk5. exact Hk3.
Qed.

Lemma setup_all_booting l s s' b :
  NPROC <= 128 -> (forall pid prog, (pid, prog) ∈ l -> 1 <= pid < NPROC) ->
  b + Z.of_nat (length l) <= 127 ->
  kernel_booting s b -> setup_all s l = Some s' ->
  kernel_booting s' (b + Z.of_nat (length l)).
Proof.
  intros HN. revert s b. induction l as [| [pid prog] rest IH]; intros s b Hl Hb Hboot.
  - cbn. intros [= <-]. now rewrite Z.add_0_r.
  - cbn [setup_all length] in *.
    destruct (process_setup s pid prog) as [s1 |] eqn:E; [| discriminate].
    intros Hrest.
    replace (b + Z.of_nat (S (length rest))) with ((b + 1) + Z.of_nat (length rest)) by lia.
    apply (IH s1); [intros q pr Hq; apply (Hl q pr); now right | lia | | exact Hrest].
    apply (process_setup_booting s pid prog); [exact HN | | lia | exact Hboot | exact E].
    apply (Hl pid prog). left.
Qed.

Lemma boot_programs_pids command pid prog :
  (pid, prog) ∈ boot_programs command -> 1 <= pid <= 4.
Proof.
  unfold boot_programs.
  assert (Hdef : (pid, prog) ∈ [(1, 0); (2, 1); (3, 2); (4, 3)] -> 1 <= pid <= 4).
  { intros Hin. repeat (apply elem_of_cons in Hin as [[= -> ->] | Hin]; [lia |]).
    now apply elem_of_nil in Hin. }
  destruct command as [c |]; [| exact Hdef].
  destruct (String.eqb c "fork");
    [intros Hin; apply list_elem_of_singleton in Hin as [= -> ->]; lia |].
  destruct (String.eqb c "forkexit");
    [intros Hin; apply list_elem_of_singleton in Hin as [= -> ->]; lia | exact Hdef].
Qed.

Lemma boot_programs_length command : (length (boot_programs command) <= 4)%nat.
Proof.
  unfold boot_programs. destruct command as [c |]; [| cbn; lia].
  destruct (String.eqb c "fork"); [cbn; lia |].
  destruct (String.eqb c "forkexit"); cbn; lia.
Qed.

(** The state in which start() resumes the first process is well-formed. *)
Lemma start_kernel_running m0 command s :
  frames_cover -> 4 < NPROC <= 128 -> kernel_frame (PAGENUMBER kernel_pagetable) ->
  start m0 command = Resumed s -> kernel_running s.
Proof.
  intros Hc HN Hk. unfold start.
  destruct (setup_all (boot_state m0) (boot_programs command)) as [s1 |] eqn:E;
    [| discriminate].
  pose proof (boot_programs_length command) as Hlen.
  assert (Hboot : kernel_booting s1 (1 + Z.of_nat (length (boot_programs command)))).
  { apply (setup_all_booting _ (boot_state m0)); [lia | | lia | | exact E].
    - intros pid prog Hin. apply boot_programs_pids in Hin. lia.
    - apply boot_state_booting; [exact Hc | lia | exact Hk]. }
  unfold run. destruct (procstate_eqb _ _) eqn:Erun; [| discriminate].
  intros [= <-]. apply kernel_running_resumed; [apply Hboot |].
  now apply procstate_eqb_eq in Erun.
Qed.

(** Between interrupts the kernel is in a well-formed state with a process
    resumed. *)
Lemma kernel_reach_running s :
  frames_cover -> 4 < NPROC <= 128 -> kernel_frame (PAGENUMBER kernel_pagetable) ->
  kernel_reach s -> kernel_running s.
Proof.
  intros Hc HN Hk Hreach. induction Hreach as [m0 command s Hs | s m a Hr IH | s reg s' Hr IH Hfit Hint].
  - now apply (start_kernel_running m0 command).
  - exact IH.
  - apply (interrupt_kernel_running s reg); [lia | exact IH | exact Hfit | exact Hint].
Qed.

End BootInvariant.

(** C1: a frame record has refcount 0 exactly when its owner is Free.  The
    table pageinfo_init builds satisfies this, and so does the table of
    every state the kernel is in between interrupts.  Each operation takes a
    table of well-formed records (refcount 0 iff owner Free, refcounts not
    negative, fields within int8_t) to such a table: physical_page_alloc,
    page_alloc_lite, copy_pagetable and sys_page_alloc_func for an owner
    other than the Free tag (process ids start at 1), process_setup during
    boot, and fork when the refcounts it increments fit an int8_t. *)
Theorem C1_refcount_owner_invariant `{Config} :
  frames_cover -> 4 < NPROC <= 128 -> kernel_frame (PAGENUMBER kernel_pagetable) ->
  (forall pi, frames_ok pi -> refcount_owner_inv pi)
  /\ frames_ok pageinfo_init
  /\ (forall s, kernel_reach s -> frames_ok (pageinfo s))
  /\ (forall pi addr own, frames_ok pi -> to_int8 own <> PO_FREE ->
        frames_ok (snd (physical_page_alloc pi addr own)))
  /\ (forall pi pid, frames_ok pi -> to_int8 pid <> PO_FREE ->
        frames_ok (snd (page_alloc_lite pi pid)))
  /\ (forall pi m pagetable own, frames_ok pi -> to_int8 own <> PO_FREE ->
        frames_ok (snd (fst (copy_pagetable pi m pagetable own))))
  /\ (forall pi m addr pagetable pid, frames_ok pi -> to_int8 pid <> PO_FREE ->
        frames_ok (snd (fst (sys_page_alloc_func pi m addr pagetable pid))))
  /\ (forall s pid prog s' b,
        kernel_booting s b -> b < 127 -> 1 <= pid < NPROC ->
        process_setup s pid prog = Some s' -> frames_ok (pageinfo s'))
  /\ (forall s, kernel_ok s -> sys_fork_fits s = true -> frames_ok (pageinfo (sys_fork s))).
Proof.
  intros Hc HN Hk.
  split; [exact frames_ok_inv |].
  split; [now apply pageinfo_init_frames_ok |].
  split; [intros s Hs; now apply (kernel_reach_running s Hc HN Hk Hs) |].
  split; [intros pi addr own; apply physical_page_alloc_frames_ok |].
  split; [intros pi pid; apply page_alloc_lite_frames_ok |].
  split; [intros pi m pagetable own; apply copy_pagetable_frames_ok |].
  split; [intros pi m addr pagetable pid; apply sys_page_alloc_func_frames_ok |].
  split.
  - intros s pid prog s' b Hboot Hb Hpid Hsetup.
    assert (HN' : NPROC <= 128) by lia.
    now apply (process_setup_booting s pid prog s' b HN' Hpid Hb Hboot Hsetup).
  - intros s (Hf & Hp) Hfit. apply sys_fork_frames_ok; [lia | exact Hf | exact Hfit].
Qed.

Lemma weensy_running_reach : @kernel_reach weensy weensy_running.
Proof.
  assert (Hres : is_resumed (@start weensy weensy_m0 None) = true)
    by (vm_compute; reflexivity).
  unfold weensy_running.
  destruct (@start weensy weensy_m0 None) as [s | | s] eqn:E;
    [| discriminate Hres | discriminate Hres].
  exact (@reach_start weensy weensy_m0 None s E).
Qed.

Lemma weensy_kernel_frame : @kernel_frame weensy (PAGENUMBER (@kernel_pagetable weensy)).
Proof. by_compute. Qed.

(** In the booted system, and after process 1 forks in it, every frame
    record has refcount 0 exactly when its owner is Free. *)
Lemma C1_refcount_owner_invariant_witness :
  refcount_owner_inv (pageinfo weensy_running)
  /\ refcount_owner_inv (pageinfo (@sys_fork weensy weensy_running)).
Proof.
  assert (HN : 4 < @NPROC weensy <= 128) by by_compute.
  destruct (@C1_refcount_owner_invariant weensy weensy_frames_cover HN weensy_kernel_frame)
    as (Hinv & _ & Hreach & _ & _ & _ & _ & _ & Hfork).
  split.
  - apply Hinv, Hreach, weensy_running_reach.
  - apply Hinv, Hfork.
    + apply (@kernel_reach_running weensy _ weensy_frames_cover HN weensy_kernel_frame
               weensy_running_reach).
    + vm_compute. reflexivity.
Defined.

(** ** Page-table entries *)

Lemma land_aligned_low q r : 0 <= r < 4096 -> Z.land (q * 4096) r = 0.
Proof.
  intros Hr.
  assert (Hr' : r = Z.land r (Z.ones 12)).
  { rewrite Z.land_ones by lia. change (2 ^ 12) with 4096. now rewrite Z.mod_small. }
  rewrite Hr', (Z.land_comm r), Z.land_assoc, (Z.land_ones (q * 4096)) by lia.
  change (2 ^ 12) with 4096. rewrite Z.mod_mul by lia. apply Z.land_0_l.
Qed.

Lemma lor_aligned_low q r : 0 <= r < 4096 -> Z.lor (q * 4096) r = q * 4096 + r.
Proof.
  intros Hr. pose proof (land_aligned_low q r Hr) as Hl.
  rewrite <- Z.lxor_lor by exact Hl. symmetry. now apply Z.add_nocarry_lxor.
Qed.

Lemma PAGENUMBER_split q r : 0 <= r < 4096 -> PAGENUMBER (q * 4096 + r) = q.
Proof.
  intros Hr. unfold PAGENUMBER. rewrite Z.shiftr_div_pow2 by lia.
  change (2 ^ 12) with 4096. rewrite Z.add_comm, Z.div_add by lia.
  rewrite Z.div_small by lia. reflexivity.
Qed.

Lemma PTE_ADDR_eq e : PTE_ADDR e = e `div` 4096 * 4096.
Proof.
  unfold PTE_ADDR. rewrite <- Z.ldiff_land. change 4095 with (Z.ones 12).
  rewrite Z.ldiff_ones_r by lia.
  rewrite Z.shiftl_mul_pow2, Z.shiftr_div_pow2 by lia. reflexivity.
Qed.

Lemma PTE_FLAGS_eq e : PTE_FLAGS e = e `mod` 4096.
Proof. unfold PTE_FLAGS. change 4095 with (Z.ones 12). now rewrite Z.land_ones by lia. Qed.

Lemma PAGENUMBER_eq e : PAGENUMBER e = e `div` 4096.
Proof. unfold PAGENUMBER. now rewrite Z.shiftr_div_pow2 by lia. Qed.

Lemma PAGENUMBER_PTE_ADDR e : PAGENUMBER (PTE_ADDR e) = PAGENUMBER e.
Proof. rewrite PTE_ADDR_eq, !PAGENUMBER_eq. now rewrite Z.div_mul by lia. Qed.

(** An entry is its frame address or-ed with its flags. *)
Lemma pte_recompose e : Z.lor (PTE_ADDR e) (PTE_FLAGS e) = e.
Proof.
  rewrite PTE_ADDR_eq, PTE_FLAGS_eq.
  pose proof (Z.mod_pos_bound e 4096 ltac:(lia)) as Hb.
  rewrite lor_aligned_low by exact Hb.
  pose proof (Z.div_mod e 4096 ltac:(lia)). lia.
Qed.

Lemma pte_present_flags e : Z.land (PTE_FLAGS e) PTE_P = Z.land e PTE_P.
Proof.
  unfold PTE_FLAGS, PTE_P. rewrite <- Z.land_assoc. reflexivity.
Qed.

(** Decoding an entry built from a page address and a permission set. *)
Lemma pte_build pn perm :
  0 <= perm < 4096 ->
  PAGENUMBER (Z.lor (pn * PAGESIZE) perm) = pn
  /\ PTE_ADDR (Z.lor (pn * PAGESIZE) perm) = pn * PAGESIZE
  /\ PTE_FLAGS (Z.lor (pn * PAGESIZE) perm) = perm.
Proof.
  intros Hp. unfold PAGESIZE. rewrite lor_aligned_low by exact Hp.
  split; [now apply PAGENUMBER_split | split].
  - rewrite PTE_ADDR_eq. rewrite Z.add_comm, Z.div_add, Z.div_small by lia. lia.
  - rewrite PTE_FLAGS_eq. rewrite Z.add_comm, Z.mod_add, Z.mod_small by lia. reflexivity.
Qed.

Lemma PTE_FLAGS_range e : 0 <= PTE_FLAGS e < 4096.
Proof. rewrite PTE_FLAGS_eq. apply Z.mod_pos_bound. lia. Qed.

Lemma L1PAGEINDEX_low va : 0 <= va < 2 ^ 22 -> L1PAGEINDEX va = 0.
Proof.
  intros Hva. unfold L1PAGEINDEX. rewrite Z.shiftr_div_pow2 by lia.
  apply Z.div_small. exact Hva.
Qed.

Lemma L2PAGEINDEX_low va : 0 <= va < 2 ^ 22 -> L2PAGEINDEX va = va `div` 4096.
Proof.
  intros Hva. unfold L2PAGEINDEX. change 1023 with (Z.ones 10).
  rewrite Z.land_ones, Z.shiftr_div_pow2 by lia.
  change (2 ^ 12) with 4096. apply Z.mod_small.
  change (2 ^ 22) with (4096 * 1024) in Hva. change (2 ^ 10) with 1024.
  split; [apply Z.div_pos; lia | apply Z.div_lt_upper_bound; lia].
Qed.

Lemma PAGEOFFSET_aligned va : va `mod` PAGESIZE = 0 -> PAGEOFFSET va = 0.
Proof.
  intros Hva. unfold PAGEOFFSET. change 4095 with (Z.ones 12).
  rewrite Z.land_ones by lia. exact Hva.
Qed.

(** A lookup below 4 MiB decodes the leaf behind entry 0. *)
Lemma lookup_leaf m pagetable va :
  0 <= va < 2 ^ 22 -> Z.land (m (PAGENUMBER pagetable) 0) PTE_P <> 0 ->
  virtual_memory_lookup m pagetable va = decode_leaf (leaf_entry m pagetable va) va.
Proof.
  intros Hva Hp. unfold virtual_memory_lookup, decode_leaf, leaf_entry, mem_load.
  rewrite (L1PAGEINDEX_low va Hva).
  destruct (Z.land (m (PAGENUMBER pagetable) 0) PTE_P =? 0) eqn:E;
    [apply Z.eqb_eq in E; contradiction |].
  reflexivity.
Qed.

(** Mapping one page below 4 MiB stores the leaf behind entry 0. *)
Lemma map_one_page m pagetable va pa perm :
  0 <= va < 2 ^ 22 -> Z.land (m (PAGENUMBER pagetable) 0) PTE_P <> 0 ->
  virtual_memory_map m pagetable va pa PAGESIZE perm
  = mem_store m (PTE_ADDR (m (PAGENUMBER pagetable) 0)) (L2PAGEINDEX va) (Z.lor pa perm).
Proof.
  intros Hva Hp. unfold virtual_memory_map.
  change (PAGESIZE `div` PAGESIZE) with 1. change (seqZ 0 1) with [0].
  cbn [fold_left]. rewrite !Z.mul_0_l, !Z.add_0_r.
  unfold map_page, mem_load. rewrite (L1PAGEINDEX_low va Hva).
  destruct (Z.land (m (PAGENUMBER pagetable) 0) PTE_P =? 0) eqn:E;
    [apply Z.eqb_eq in E; contradiction | reflexivity].
Qed.

Lemma mem_store_get m p i v f j :
  mem_store m p i v f j = if (f =? PAGENUMBER p) && (j =? i) then v else m f j.
Proof. reflexivity. Qed.

Lemma memcpy_page_get m dst src f j :
  memcpy_page m dst src f j = if f =? PAGENUMBER dst then m (PAGENUMBER src) j else m f j.
Proof. reflexivity. Qed.

Lemma mem_store_other_frame m p i v f j :
  f <> PAGENUMBER p -> mem_store m p i v f j = m f j.
Proof.
  intros Hne. rewrite mem_store_get.
  destruct (f =? PAGENUMBER p) eqn:E; [apply Z.eqb_eq in E; contradiction | reflexivity].
Qed.

Lemma memcpy_page_other_frame m dst src f j :
  f <> PAGENUMBER dst -> memcpy_page m dst src f j = m f j.
Proof.
  intros Hne. rewrite memcpy_page_get.
  destruct (f =? PAGENUMBER dst) eqn:E; [apply Z.eqb_eq in E; contradiction | reflexivity].
Qed.

(** ** Fork: the loop over the user pages *)

(** ** Fork: the loop over the user pages *)

Lemma land_child_entry c2 : Z.land (c2 * PAGESIZE + 7) PTE_P <> 0.
Proof.
  unfold PAGESIZE, PTE_P. rewrite <- (lor_aligned_low c2 7) by lia.
  rewrite Z.land_lor_distr_l, land_aligned_low by lia. vm_compute. discriminate.
Qed.

Lemma child_entry_frame c2 : PAGENUMBER (PTE_ADDR (c2 * PAGESIZE + 7)) = c2.
Proof. rewrite PAGENUMBER_PTE_ADDR. unfold PAGESIZE. apply PAGENUMBER_split. lia. Qed.

Lemma frame_ok_owned pi f own :
  frames_ok pi -> owner (pi_get pi f) = own -> own <> 0 -> refcount (pi_get pi f) <> 0.
Proof.
  intros Hok Ho Hne. destruct (frames_ok_get pi f Hok) as (_ & _ & Hiff).
  intros Hz. apply Hiff in Hz. unfold PO_FREE in Hz. congruence.
Qed.

Lemma frame_ok_free pi f :
  frames_ok pi -> refcount (pi_get pi f) = 0 -> owner (pi_get pi f) = 0.
Proof.
  intros Hok Hz. destruct (frames_ok_get pi f Hok) as (_ & _ & Hiff). now apply Hiff.
Qed.

Section ForkLoop.
Context `{Config}.
Variables newpid cpid ppt c1 c2 : Z.

Lemma step_frames_inv t t1 :
  fork_inv newpid cpid ppt c1 c2 t -> step_frames newpid cpid c2 t t1 ->
  fork_inv newpid cpid ppt c1 c2 t1.
Proof.
  intros (Hsz & Hok & Hppt & Hcpid & Hcpt & Ho1 & Hp & Ho2 & Ho0 & Hoc1 & Hoc2
          & Hc1 & Hc2 & Hc12 & He & Hcz & Hnz & Hcn & Hnr)
         (Hps & Hcur & Hsz1 & Hok1 & Hk1 & Hk2 & Hm).
  assert (Hown : forall f own, own <> 0 -> owner (pi_get (pageinfo t) f) = own ->
                               owner (pi_get (pageinfo t1) f) = own).
  { intros f own Hne Hf. destruct (Hk1 f) as [(-> & _) | (Hz & _)]; [exact Hf |].
    apply (frame_ok_free _ _ Hok) in Hz. congruence. }
  assert (Hnot : forall f, owner (pi_get (pageinfo t) f) <> cpid ->
                           owner (pi_get (pageinfo t1) f) <> cpid).
  { intros f Hf. destruct (Hk1 f) as [(-> & _) | (_ & ->)]; [exact Hf |].
    cbn [owner]. congruence. }
  assert (Hmem : forall f j, owner (pi_get (pageinfo t) f) = cpid ->
                             mem t1 f j = mem t f j).
  { intros f j Hf. apply Hm.
    - intros ->. contradiction.
    - intros ->. congruence.
    - now apply (frame_ok_owned _ _ cpid Hok). }
  unfold cur in *. rewrite <- Hps, <- Hcur in Hppt, Hcpid. rewrite <- Hps in Hcpt.
  unfold fork_inv, cur.
  repeat match goal with |- _ /\ _ => split end; try assumption;
    try (now apply Hown); try (now apply Hnot); try (now rewrite Hmem); try lia.
  - rewrite Hmem by exact Ho1. now apply Hown.
  - rewrite Hm; [exact He | exact Hc1 | exact Hc12 |].
    now apply (frame_ok_owned _ _ newpid Hok).
Qed.

(** The caller's mapping of [va], read off the leaf of its level-2 table. *)
Lemma fork_inv_lookup t va :
  fork_inv newpid cpid ppt c1 c2 t -> 0 <= va < 2 ^ 22 ->
  virtual_memory_lookup (mem t) (p_pagetable (cur t)) va
  = decode_leaf (leaf_entry (mem t) ppt va) va.
Proof.
  intros (_ & _ & Hppt & _ & _ & _ & Hp & _) Hva. rewrite Hppt.
  now apply lookup_leaf.
Qed.

(** The caller's leaf for [va] reads the same in a memory that agrees with
    the current one on the caller's two table frames. *)
Lemma fork_inv_leaf_stable t m va :
  fork_inv newpid cpid ppt c1 c2 t ->
  (forall f j, f <> 0 -> f <> c2 -> refcount (pi_get (pageinfo t) f) <> 0 ->
               m f j = mem t f j) ->
  m (PAGENUMBER ppt) 0 = mem t (PAGENUMBER ppt) 0
  /\ leaf_entry m ppt va = leaf_entry (mem t) ppt va.
Proof.
  intros (_ & Hok & _ & _ & _ & Ho1 & _ & Ho2 & Ho0 & _ & Hoc2 & _ & _ & _ & _
          & Hcz & _ & Hcn & _) Hm.
  assert (Hmem : forall f j, owner (pi_get (pageinfo t) f) = cpid -> m f j = mem t f j).
  { intros f j Hf. apply Hm.
    - intros ->. contradiction.
    - intros ->. congruence.
    - now apply (frame_ok_owned _ _ cpid Hok). }
  split; [now apply Hmem |].
  unfold leaf_entry. rewrite (Hmem _ 0 Ho1). apply Hmem.
  now rewrite PAGENUMBER_PTE_ADDR.
Qed.

(** What a store through the child's page table does below 4 MiB. *)
Lemma child_map_page t m va pa perm :
  fork_inv newpid cpid ppt c1 c2 t -> 0 <= va < 2 ^ 22 ->
  m c1 0 = mem t c1 0 ->
  forall f j,
    virtual_memory_map m (p_pagetable (proc_get (processes t) newpid)) va pa PAGESIZE perm f j
    = if (f =? c2) && (j =? L2PAGEINDEX va) then Z.lor pa perm else m f j.
Proof.
  intros (_ & _ & _ & _ & Hcpt & _ & _ & _ & _ & _ & _ & _ & _ & _ & He & _) Hva Hm f j.
  rewrite Hcpt. rewrite map_one_page; rewrite ?PAGENUMBER_mul, ?Hm, ?He;
    [| exact Hva | apply land_child_entry].
  rewrite mem_store_get, child_entry_frame. reflexivity.
Qed.

Lemma fork_private_step t va :
  frames_cover -> fork_inv newpid cpid ppt c1 c2 t -> 0 <= va < 2 ^ 22 ->
  step_frames newpid cpid c2 t (fork_private newpid t va)
  /\ (forall j, j <> L2PAGEINDEX va -> mem (fork_private newpid t va) c2 j = mem t c2 j).
Proof.
  intros Hc Hinv Hva.
  pose proof Hinv as (Hsz & Hok & Hppt & Hcpid & Hcpt & Ho1 & Hp & Ho2 & Ho0 & Hoc1 & Hoc2
                      & Hc1 & Hc2 & Hc12 & He & Hcz & Hnz & Hcn & Hnr).
  pose proof Hc as (Hn & _).
  assert (Hn8 : to_int8 newpid = newpid) by now apply to_int8_small.
  assert (Hr1 : refcount (pi_get (pageinfo t) c1) <> 0)
    by now apply (frame_ok_owned _ _ newpid Hok).
  assert (Hr2 : refcount (pi_get (pageinfo t) c2) <> 0)
    by now apply (frame_ok_owned _ _ newpid Hok).
  unfold fork_private.
  set (vam := virtual_memory_lookup (mem t) (p_pagetable (cur t)) va).
  assert (Hcases :
    exists fp pi1,
      page_alloc_lite (pageinfo t) newpid = (fp * PAGESIZE, pi1)
      /\ frames_sized pi1 /\ frames_ok pi1
      /\ fp <> c1 /\ fp <> c2
      /\ (fp = 0 \/ refcount (pi_get (pageinfo t) fp) = 0)
      /\ (forall f, pi_get pi1 f = pi_get (pageinfo t) f
                    \/ (refcount (pi_get (pageinfo t) f) = 0 /\ f = fp
                        /\ pi_get pi1 f = mk_pageinfo newpid 1))).
  { destruct (find_free_cases (pageinfo t) Hn) as [Hff | (Hex & _)].
    - exists (find_free (pageinfo t)), (pi_set (pageinfo t) (find_free (pageinfo t))
                                          (mk_pageinfo newpid 1)).
      pose proof Hff as (Hpn & Hz & _). unfold frames_sized in Hsz.
      rewrite (page_alloc_lite_first _ newpid _ Hc Hsz Hff), Hn8.
      split; [reflexivity |].
      split; [unfold frames_sized; now rewrite length_pi_set |].
      split; [apply frames_ok_set; [exact Hok |];
              rewrite <- Hn8; apply frame_ok_allocated; congruence |].
      split; [congruence | split; [congruence | split; [now right |]]].
      intros f. destruct (Z.eq_dec f (find_free (pageinfo t))) as [-> | Hne].
      + right. split; [exact Hz | split; [reflexivity |]].
        apply pi_get_set_eq. lia.
      + left. apply pi_get_set_ne. congruence.
    - exists 0, (pageinfo t).
      rewrite (page_alloc_lite_exhausted _ newpid Hc Hex).
      repeat split; try assumption; try congruence; [now left | now left]. }
  destruct Hcases as (fp & pi1 & -> & Hsz1 & Hok1 & Hf1 & Hf2 & Hfree & Hrec).
  cbn [pageinfo mem upd_mem upd_pageinfo processes current].
  assert (Hmem : forall f j,
    virtual_memory_map (memcpy_page (mem t) (fp * PAGESIZE) (vam_pa vam))
      (p_pagetable (proc_get (processes t) newpid)) va (fp * PAGESIZE) PAGESIZE (vam_perm vam) f j
    = if (f =? c2) && (j =? L2PAGEINDEX va) then Z.lor (fp * PAGESIZE) (vam_perm vam)
      else if f =? fp then mem t (PAGENUMBER (vam_pa vam)) j else mem t f j).
  { intros f j. rewrite (child_map_page t _ va _ _ Hinv Hva).
    - rewrite memcpy_page_get, PAGENUMBER_mul. reflexivity.
    - rewrite memcpy_page_other_frame; [reflexivity | rewrite PAGENUMBER_mul; congruence]. }
  split.
  - unfold step_frames. cbn [pageinfo mem upd_mem upd_pageinfo processes current].
    split; [reflexivity | split; [reflexivity | split; [exact Hsz1 | split; [exact Hok1 |]]]].
    split; [| split].
    + intros f. destruct (Hrec f) as [-> | (Hz & _ & Hr)]; [left; now split | now right].
    + intros f Hf _. destruct (Hrec f) as [-> | (Hz & _)]; [reflexivity | contradiction].
    + intros f j Hf0 Hfc2 Hfr. rewrite Hmem.
      destruct (f =? c2) eqn:E2; [apply Z.eqb_eq in E2; contradiction |]. cbn [andb].
      destruct (f =? fp) eqn:E; [| reflexivity].
      apply Z.eqb_eq in E. subst f. destruct Hfree; contradiction.
  - intros j Hj. rewrite Hmem. rewrite Z.eqb_refl. cbn [andb].
    destruct (j =? L2PAGEINDEX va) eqn:E; [apply Z.eqb_eq in E; contradiction |].
    destruct (c2 =? fp) eqn:E2; [apply Z.eqb_eq in E2; congruence | reflexivity].
Qed.

(** A lookup through the child's table decodes the leaf in [c2]. *)
Lemma child_lookup t va :
  fork_inv newpid cpid ppt c1 c2 t -> 0 <= va < 2 ^ 22 ->
  virtual_memory_lookup (mem t) (p_pagetable (proc_get (processes t) newpid)) va
  = decode_leaf (mem t c2 (L2PAGEINDEX va)) va.
Proof.
  intros (_ & _ & _ & _ & Hcpt & _ & _ & _ & _ & _ & _ & _ & _ & _ & He & _) Hva.
  rewrite Hcpt. rewrite lookup_leaf; rewrite ?PAGENUMBER_mul, ?He;
    [| exact Hva | apply land_child_entry].
  unfold leaf_entry. now rewrite PAGENUMBER_mul, He, child_entry_frame.
Qed.

(** A frame the caller owns keeps its owner and its contents over a step. *)
Lemma step_frames_owned t t1 f :
  fork_inv newpid cpid ppt c1 c2 t -> step_frames newpid cpid c2 t t1 ->
  owner (pi_get (pageinfo t) f) = cpid ->
  owner (pi_get (pageinfo t1) f) = cpid /\ forall j, mem t1 f j = mem t f j.
Proof.
  intros (_ & Hok & _ & _ & _ & _ & _ & _ & Ho0 & _ & Hoc2 & _ & _ & _ & _ & Hcz & _ & Hcn & _)
         (_ & _ & _ & _ & Hk1 & _ & Hm) Hf.
  pose proof (frame_ok_owned _ _ cpid Hok Hf Hcz) as Hr.
  split.
  - destruct (Hk1 f) as [(-> & _) | (Hz & _)]; [exact Hf | contradiction].
  - intros j. apply Hm; [intros -> | intros -> | exact Hr]; congruence.
Qed.

Lemma referenced_in_range (pi : list physical_pageinfo) f :
  refcount (pi_get pi f) <> 0 -> 0 <= f < Z.of_nat (length pi).
Proof.
  intros Hr. destruct (Z_lt_dec f 0) as [Hneg | Hpos];
    [rewrite pi_get_outside in Hr by lia; now contradiction Hr |].
  destruct (Z_lt_dec f (Z.of_nat (length pi))) as [Hin | Hout]; [lia |].
  rewrite pi_get_outside in Hr by lia. now contradiction Hr.
Qed.

(** A page the loop takes a branch for is mapped in the caller's
    table. *)
Lemma decode_leaf_perm pe va :
  vam_perm (decode_leaf pe va) <> 0 ->
  Z.land pe PTE_P <> 0
  /\ decode_leaf pe va = mk_vamapping (PAGENUMBER pe) (PTE_ADDR pe + PAGEOFFSET va) (PTE_FLAGS pe).
Proof.
  unfold decode_leaf. destruct (Z.land pe PTE_P =? 0) eqn:E.
  - cbn. intros Hx. now contradiction Hx.
  - intros _. apply Z.eqb_neq in E. now split.
Qed.

Lemma fork_shared_step t va :
  fork_inv newpid cpid ppt c1 c2 t -> 0 <= va < 2 ^ 22 ->
  shared_page t va = true ->
  0 < refcount (pi_get (pageinfo t) (shared_frame newpid t va)) < 127 ->
  shared_frame newpid t va = vam_pn (virtual_memory_lookup (mem t) (p_pagetable (cur t)) va)
  /\ step_frames newpid cpid c2 t (fork_shared newpid t va)
  /\ (forall j, j <> L2PAGEINDEX va -> mem (fork_shared newpid t va) c2 j = mem t c2 j)
  /\ pageinfo (fork_shared newpid t va)
     = set_refcount (pageinfo t) (shared_frame newpid t va)
         (refcount (pi_get (pageinfo t) (shared_frame newpid t va)) + 1).
Proof.
  intros Hinv Hva Hsh Hfit.
  pose proof Hinv as (Hsz & Hok & Hppt & Hcpid & Hcpt & Ho1 & Hp & Ho2 & Ho0 & Hoc1 & Hoc2
                      & Hc1 & Hc2 & Hc12 & He & Hcz & Hnz & Hcn & Hnr).
  set (vam := virtual_memory_lookup (mem t) (p_pagetable (cur t)) va) in *.
  assert (Hmem : forall f j,
    virtual_memory_map (mem t) (p_pagetable (proc_get (processes t) newpid)) va
      (vam_pa vam) PAGESIZE (vam_perm vam) f j
    = if (f =? c2) && (j =? L2PAGEINDEX va) then Z.lor (vam_pa vam) (vam_perm vam)
      else mem t f j).
  { intros f j. now rewrite (child_map_page t _ va _ _ Hinv Hva). }
  assert (Hother : forall f j, f <> c2 ->
    virtual_memory_map (mem t) (p_pagetable (proc_get (processes t) newpid)) va
      (vam_pa vam) PAGESIZE (vam_perm vam) f j = mem t f j).
  { intros f j Hf. rewrite Hmem.
    destruct (f =? c2) eqn:E; [apply Z.eqb_eq in E; contradiction | reflexivity]. }
  assert (Hframe : shared_frame newpid t va = vam_pn vam).
  { unfold shared_frame. fold vam. rewrite Hppt.
    destruct (fork_inv_leaf_stable t
                (virtual_memory_map (mem t) (p_pagetable (proc_get (processes t) newpid)) va
                   (vam_pa vam) PAGESIZE (vam_perm vam)) va Hinv) as (Hl1 & Hleaf).
    { intros f j _ Hf _. now apply Hother. }
    rewrite lookup_leaf by (rewrite ?Hl1; assumption).
    rewrite Hleaf. unfold vam. now rewrite (fork_inv_lookup t va Hinv Hva). }
  assert (Hown : owner (pi_get (pageinfo t) (vam_pn vam)) = cpid).
  { unfold shared_page in Hsh. fold vam in Hsh.
    apply andb_prop in Hsh as [_ Ho]. apply Z.eqb_eq in Ho. now rewrite Ho. }
  split; [exact Hframe |].
  unfold fork_shared. fold vam. rewrite Hframe in *.
  set (pn := vam_pn vam) in *.
  set (pi1 := set_refcount (pageinfo t) pn (refcount (pi_get (pageinfo t) pn) + 1)).
  assert (Hrec : forall f, f <> pn -> pi_get pi1 f = pi_get (pageinfo t) f).
  { intros f Hf. unfold pi1, set_refcount. apply pi_get_set_ne. congruence. }
  assert (Hpn : owner (pi_get pi1 pn) = owner (pi_get (pageinfo t) pn)
                /\ refcount (pi_get pi1 pn) <> 0).
  { unfold pi1, set_refcount.
    destruct (Z_lt_dec pn 0) as [Hneg | Hpos];
      [rewrite pi_set_outside by lia; split; [reflexivity | lia] |].
    destruct (Z_lt_dec pn (Z.of_nat (length (pageinfo t)))) as [Hin | Hout].
    - rewrite pi_get_set_eq by lia. cbn [owner refcount].
      rewrite to_int8_small by lia. split; [reflexivity | lia].
    - rewrite pi_set_outside by lia. split; [reflexivity | lia]. }
  split; [| split; [| reflexivity]].
  - unfold step_frames. cbn [pageinfo mem upd_mem upd_pageinfo processes current].
    fold pi1.
    split; [reflexivity | split; [reflexivity |]].
    split; [unfold frames_sized, pi1, set_refcount; now rewrite length_pi_set |].
    split; [now apply frames_ok_incr |].
    split; [| split].
    + intros f. left. destruct (Z.eq_dec f pn) as [-> | Hne].
      * destruct Hpn as (-> & Hr). now split.
      * rewrite (Hrec f Hne). now split.
    + intros f _ Hf. apply Hrec. congruence.
    + intros f j _ Hf _. now apply Hother.
  - intros j Hj. cbn [mem upd_mem]. rewrite Hmem. rewrite Z.eqb_refl. cbn [andb].
    destruct (j =? L2PAGEINDEX va) eqn:E; [apply Z.eqb_eq in E; contradiction | reflexivity].
Qed.

Lemma step_frames_refl t :
  fork_inv newpid cpid ppt c1 c2 t -> step_frames newpid cpid c2 t t.
Proof.
  intros (Hsz & Hok & _). unfold step_frames.
  repeat split; try assumption; try reflexivity.
  intros f. left. now split.
Qed.

(** One iteration of the loop. *)
Lemma fork_page_step t va :
  frames_cover -> fork_inv newpid cpid ppt c1 c2 t -> 0 <= va < 2 ^ 22 ->
  share_fits newpid t va = true ->
  step_frames newpid cpid c2 t (fork_page newpid t va)
  /\ (forall j, j <> L2PAGEINDEX va -> mem (fork_page newpid t va) c2 j = mem t c2 j).
Proof.
  intros Hc Hinv Hva Hfit. unfold fork_page, share_fits in *.
  destruct (private_page t va); [now apply fork_private_step |].
  destruct (shared_page t va) eqn:Esh; [| split; [now apply step_frames_refl | reflexivity]].
  apply andb_prop in Hfit as [H0 H1]. apply Z.ltb_lt in H0, H1.
  destruct (fork_shared_step t va Hinv Hva Esh (conj H0 H1)) as (_ & Hs & Hm & _).
  now split.
Qed.

Lemma step_frames_trans t t1 t2 :
  frames_ok (pageinfo t) ->
  newpid <> 0 -> cpid <> newpid ->
  step_frames newpid cpid c2 t t1 -> step_frames newpid cpid c2 t1 t2 ->
  step_frames newpid cpid c2 t t2.
Proof.
  intros Hok Hnz Hcn (Hps & Hcur & Hsz1 & Hok1 & Hk1 & Hk2 & Hm)
         (Hps' & Hcur' & Hsz2 & Hok2 & Hk1' & Hk2' & Hm').
  unfold step_frames.
  split; [congruence | split; [congruence | split; [exact Hsz2 | split; [exact Hok2 |]]]].
  split; [| split].
  - intros f. destruct (Hk1 f) as [(Ho & Hr) | (Hz & Hrec)].
    + destruct (Hk1' f) as [(Ho' & Hr') | (Hz' & Hrec')].
      * left. split; [congruence | auto].
      * right. split; [| exact Hrec'].
        destruct (Z.eq_dec (refcount (pi_get (pageinfo t) f)) 0) as [Hz | Hnzr];
          [exact Hz | now apply Hr in Hnzr].
    + destruct (Hk1' f) as [(Ho' & Hr') | (Hz' & Hrec')].
      * right. split; [exact Hz |].
        rewrite Hk2'; [exact Hrec | rewrite Hrec; cbn; lia | rewrite Hrec; cbn; congruence].
      * rewrite Hrec in Hz'. cbn in Hz'. lia.
  - intros f Hf Hfo. destruct (Hk1 f) as [(Ho & Hr) | (Hz & _)]; [| contradiction].
    rewrite Hk2'; [now apply Hk2 | auto | congruence].
  - intros f j Hf0 Hfc Hfr. destruct (Hk1 f) as [(Ho & Hr) | (Hz & _)]; [| contradiction].
    rewrite Hm' by auto. now apply Hm.
Qed.

(** The loop over any run of pages below 4 MiB. *)
Lemma fork_pages_steps vas t :
  frames_cover -> fork_inv newpid cpid ppt c1 c2 t ->
  (forall va, va ∈ vas -> 0 <= va < 2 ^ 22) ->
  fork_pages_fit newpid t vas = true ->
  fork_inv newpid cpid ppt c1 c2 (fold_left (fork_page newpid) vas t)
  /\ step_frames newpid cpid c2 t (fold_left (fork_page newpid) vas t)
  /\ (forall j, (forall va, va ∈ vas -> j <> L2PAGEINDEX va) ->
                mem (fold_left (fork_page newpid) vas t) c2 j = mem t c2 j).
Proof.
  intros Hc. revert t. induction vas as [| va vas IH]; intros t Hinv Hvas Hfit.
  - cbn. split; [exact Hinv | split; [now apply step_frames_refl | reflexivity]].
  - cbn [fold_left fork_pages_fit] in *. apply andb_prop in Hfit as [Hfva Hfrest].
    assert (Hva : 0 <= va < 2 ^ 22) by (apply Hvas; left).
    destruct (fork_page_step t va Hc Hinv Hva Hfva) as (Hstep & Hm2).
    pose proof (step_frames_inv t _ Hinv Hstep) as Hinv1.
    destruct (IH (fork_page newpid t va) Hinv1) as (Hinv2 & Hsteps & Hm2s);
      [intros v Hv; apply Hvas; now right | exact Hfrest |].
    pose proof Hinv as (_ & Hok & _ & _ & _ & _ & _ & _ & _ & _ & _ & _ & _ & _ & _
                        & _ & Hnz & Hcn & _).
    split; [exact Hinv2 | split].
    + now apply (step_frames_trans t (fork_page newpid t va)).
    + intros j Hj. rewrite Hm2s by (intros v Hv; apply Hj; now right).
      apply Hm2, Hj. left.
Qed.

(** The caller's view of its pages is the same before and after a step:
    the lookups in its table, and which frames it owns. *)
Lemma step_frames_owner t t1 f :
  fork_inv newpid cpid ppt c1 c2 t -> step_frames newpid cpid c2 t t1 ->
  (owner (pi_get (pageinfo t1) f) =? cpid) = (owner (pi_get (pageinfo t) f) =? cpid).
Proof.
  intros (_ & Hok & _ & _ & _ & _ & _ & _ & _ & _ & _ & _ & _ & _ & _ & Hcz & _ & Hcn & _)
         (_ & _ & _ & _ & Hk1 & _).
  destruct (Hk1 f) as [(-> & _) | (Hz & ->)]; [reflexivity |].
  apply (frame_ok_free _ _ Hok) in Hz. rewrite Hz. cbn [owner].
  destruct (newpid =? cpid) eqn:E1; [apply Z.eqb_eq in E1; congruence |].
  destruct (0 =? cpid) eqn:E2; [apply Z.eqb_eq in E2; congruence | reflexivity].
Qed.

Lemma step_frames_view t t1 va :
  fork_inv newpid cpid ppt c1 c2 t -> step_frames newpid cpid c2 t t1 ->
  0 <= va < 2 ^ 22 ->
  virtual_memory_lookup (mem t1) (p_pagetable (cur t1)) va
  = virtual_memory_lookup (mem t) (p_pagetable (cur t)) va
  /\ private_page t1 va = private_page t va
  /\ shared_page t1 va = shared_page t va.
Proof.
  intros Hinv Hstep Hva.
  pose proof (step_frames_inv t t1 Hinv Hstep) as Hinv1.
  assert (Hl : virtual_memory_lookup (mem t1) (p_pagetable (cur t1)) va
               = virtual_memory_lookup (mem t) (p_pagetable (cur t)) va).
  { rewrite (fork_inv_lookup t1 va Hinv1 Hva), (fork_inv_lookup t va Hinv Hva).
    destruct (fork_inv_leaf_stable t (mem t1) va Hinv) as (_ & ->); [| reflexivity].
    now destruct Hstep as (_ & _ & _ & _ & _ & _ & Hm). }
  assert (Hpid : p_pid (cur t1) = p_pid (cur t)).
  { destruct Hinv1 as (_ & _ & _ & -> & _). now destruct Hinv as (_ & _ & _ & -> & _). }
  assert (Hcp : p_pid (cur t) = cpid) by now destruct Hinv as (_ & _ & _ & -> & _).
  split; [exact Hl | split].
  - unfold private_page. rewrite Hl, Hpid, Hcp.
    now rewrite (step_frames_owner t t1 _ Hinv Hstep).
  - unfold shared_page. rewrite Hl, Hpid, Hcp.
    now rewrite (step_frames_owner t t1 _ Hinv Hstep).
Qed.

(** A step leaves the record of a referenced frame alone unless it is the
    frame the step shares. *)
Lemma fork_page_record t va f :
  frames_cover -> fork_inv newpid cpid ppt c1 c2 t -> 0 <= va < 2 ^ 22 ->
  share_fits newpid t va = true ->
  refcount (pi_get (pageinfo t) f) <> 0 ->
  (private_page t va = false -> shared_page t va = true ->
   vam_pn (virtual_memory_lookup (mem t) (p_pagetable (cur t)) va) <> f) ->
  pi_get (pageinfo (fork_page newpid t va)) f = pi_get (pageinfo t) f.
Proof.
  intros Hc Hinv Hva Hfit Hf Hne. unfold fork_page, share_fits in *.
  destruct (private_page t va) eqn:Epr.
  - destruct (fork_private_step t va Hc Hinv Hva) as ((_ & _ & _ & _ & Hk1 & _) & _).
    unfold fork_private in *.
    pose proof (page_alloc_lite_keeps (pageinfo t) newpid f Hf) as Hk.
    destruct (page_alloc_lite (pageinfo t) newpid) as [page pi1]. exact Hk.
  - destruct (shared_page t va) eqn:Esh; [| reflexivity].
    apply andb_prop in Hfit as [H0 H1]. apply Z.ltb_lt in H0, H1.
    destruct (fork_shared_step t va Hinv Hva Esh (conj H0 H1)) as (Hfr & _ & _ & ->).
    unfold set_refcount. apply pi_get_set_ne. rewrite Hfr. now apply Hne.
Qed.

Lemma fork_pages_record vas t f :
  frames_cover -> fork_inv newpid cpid ppt c1 c2 t ->
  (forall va, va ∈ vas -> 0 <= va < 2 ^ 22) ->
  fork_pages_fit newpid t vas = true ->
  refcount (pi_get (pageinfo t) f) <> 0 ->
  (forall va, va ∈ vas -> private_page t va = false -> shared_page t va = true ->
              vam_pn (virtual_memory_lookup (mem t) (p_pagetable (cur t)) va) <> f) ->
  pi_get (pageinfo (fold_left (fork_page newpid) vas t)) f = pi_get (pageinfo t) f.
Proof.
  intros Hc. revert t. induction vas as [| va vas IH]; intros t Hinv Hvas Hfit Hf Hne;
    [reflexivity |].
  cbn [fold_left fork_pages_fit] in *. apply andb_prop in Hfit as [Hfva Hfrest].
  assert (Hva : 0 <= va < 2 ^ 22) by (apply Hvas; left).
  destruct (fork_page_step t va Hc Hinv Hva Hfva) as (Hstep & _).
  pose proof (step_frames_inv t _ Hinv Hstep) as Hinv1.
  assert (Hrec : pi_get (pageinfo (fork_page newpid t va)) f = pi_get (pageinfo t) f).
  { apply fork_page_record; try assumption. apply Hne. left. }
  rewrite IH; [exact Hrec | exact Hinv1 | intros v Hv; apply Hvas; now right
              | exact Hfrest | now rewrite Hrec |].
  intros v Hv Hpr Hsh.
  assert (Hv' : 0 <= v < 2 ^ 22) by (apply Hvas; now right).
  destruct (step_frames_view t _ v Hinv Hstep Hv') as (-> & Hpr' & Hsh').
  apply Hne; [now right | congruence | congruence].
Qed.

(** The copying branch when the allocation gives a frame. *)
Lemma fork_private_result t va :
  frames_cover -> fork_inv newpid cpid ppt c1 c2 t -> 0 <= va < 2 ^ 22 ->
  fst (page_alloc_lite (pageinfo t) newpid) <> 0 ->
  exists pn,
    fst (page_alloc_lite (pageinfo t) newpid) = pn * PAGESIZE
    /\ refcount (pi_get (pageinfo t) pn) = 0 /\ pn <> 0 /\ pn <> c2
    /\ pi_get (pageinfo (fork_private newpid t va)) pn = mk_pageinfo newpid 1
    /\ mem (fork_private newpid t va) c2 (L2PAGEINDEX va)
       = Z.lor (pn * PAGESIZE)
           (vam_perm (virtual_memory_lookup (mem t) (p_pagetable (cur t)) va))
    /\ forall j, mem (fork_private newpid t va) pn j
                 = mem t (PAGENUMBER
                            (vam_pa (virtual_memory_lookup (mem t) (p_pagetable (cur t)) va))) j.
Proof.
  intros Hc Hinv Hva Hpage.
  pose proof Hinv as (Hsz & Hok & Hppt & Hcpid & Hcpt & Ho1 & Hp & Ho2 & Ho0 & Hoc1 & Hoc2
                      & Hc1 & Hc2 & Hc12 & He & Hcz & Hnz & Hcn & Hnr).
  pose proof Hc as (Hn & _).
  destruct (find_free_cases (pageinfo t) Hn) as [Hff | (Hex & _)];
    [| rewrite (page_alloc_lite_exhausted _ newpid Hc Hex) in Hpage; now contradiction Hpage].
  set (pn := find_free (pageinfo t)) in *.
  pose proof (page_alloc_lite_first _ newpid pn Hc Hsz Hff) as Ha.
  rewrite to_int8_small in Ha by exact Hnr.
  pose proof Hff as (Hr & Hz & _). unfold frames_sized in Hsz.
  rewrite Ha in Hpage. cbn [fst] in Hpage.
  assert (Hpn0 : pn <> 0) by (intros Hx; rewrite Hx in Hpage; now contradiction Hpage).
  assert (Hpn1 : pn <> c1).
  { intros ->. apply (frame_ok_owned _ _ newpid Hok Hoc1 Hnz). exact Hz. }
  assert (Hpn2 : pn <> c2).
  { intros ->. apply (frame_ok_owned _ _ newpid Hok Hoc2 Hnz). exact Hz. }
  exists pn. rewrite Ha. cbn [fst].
  split; [reflexivity | split; [exact Hz | split; [exact Hpn0 | split; [exact Hpn2 |]]]].
  unfold fork_private. rewrite Ha.
  cbn [pageinfo mem upd_mem upd_pageinfo].
  set (vam := virtual_memory_lookup (mem t) (p_pagetable (cur t)) va).
  assert (Hmem : forall f j,
    virtual_memory_map (memcpy_page (mem t) (pn * PAGESIZE) (vam_pa vam))
      (p_pagetable (proc_get (processes t) newpid)) va (pn * PAGESIZE) PAGESIZE (vam_perm vam) f j
    = if (f =? c2) && (j =? L2PAGEINDEX va) then Z.lor (pn * PAGESIZE) (vam_perm vam)
      else if f =? pn then mem t (PAGENUMBER (vam_pa vam)) j else mem t f j).
  { intros f j. rewrite (child_map_page t _ va _ _ Hinv Hva).
    - rewrite memcpy_page_get, PAGENUMBER_mul. reflexivity.
    - rewrite memcpy_page_other_frame; [reflexivity | rewrite PAGENUMBER_mul; congruence]. }
  split; [apply pi_get_set_eq; lia | split].
  - now rewrite Hmem, !Z.eqb_refl.
  - intros j. rewrite Hmem.
    destruct (pn =? c2) eqn:E; [apply Z.eqb_eq in E; contradiction |].
    cbn [andb]. now rewrite Z.eqb_refl.
Qed.

(** The sharing branch stores the caller's own leaf. *)
Lemma fork_shared_result t va :
  fork_inv newpid cpid ppt c1 c2 t -> 0 <= va < 2 ^ 22 -> va `mod` PAGESIZE = 0 ->
  shared_page t va = true ->
  mem (fork_shared newpid t va) c2 (L2PAGEINDEX va) = leaf_entry (mem t) ppt va.
Proof.
  intros Hinv Hva Hal Hsh. unfold fork_shared. cbn [mem upd_mem].
  rewrite (child_map_page t _ va _ _ Hinv Hva) by reflexivity.
  rewrite !Z.eqb_refl. cbn [andb].
  unfold shared_page in Hsh. rewrite (fork_inv_lookup t va Hinv Hva) in *.
  apply andb_prop in Hsh as [Hperm _]. apply negb_true_iff, Z.eqb_neq in Hperm.
  destruct (decode_leaf_perm _ _ Hperm) as (_ & ->). cbn [vam_pa vam_perm].
  rewrite (PAGEOFFSET_aligned va Hal), Z.add_0_r. apply pte_recompose.
Qed.

End ForkLoop.

(** ** Fork: the clone of the caller's page table *)

Section ForkClaim.
Context `{Config}.

(** A clone that succeeds took the two lowest free frames, [c1] for the new
    level-1 table and [c2] for the new level-2 table. *)
Lemma copy_pagetable_success pi m pagetable own :
  frames_cover -> frames_sized pi -> pagetable `mod` PAGESIZE = 0 ->
  fst (fst (copy_pagetable pi m pagetable own)) <> 0 ->
  exists c1 c2,
    first_free pi c1 /\ c1 <> 0 /\ c2 <> 0 /\ c1 <> c2
    /\ 0 <= c2 < NPAGES /\ refcount (pi_get pi c2) = 0
    /\ copy_pagetable pi m pagetable own
       = (c1 * PAGESIZE,
          pi_set (pi_set pi c1 (mk_pageinfo (to_int8 own) 1)) c2 (mk_pageinfo (to_int8 own) 1),
          let m2 := mem_store (memcpy_page m (c1 * PAGESIZE) pagetable) (c1 * PAGESIZE) 0
                      (c2 * PAGESIZE + 7) in
          let e0 := mem_load m2 pagetable 0 in
          memcpy_page m2 (c2 * PAGESIZE) (e0 - e0 `mod` PAGESIZE)).
Proof.
  intros Hc Hsz Hal Hres. pose proof Hc as (Hn & Hcover & Hlim).
  destruct (copy_pagetable_unfold pi m pagetable own)
    as [(_ & Heq) | [(_ & _ & Heq) | (H1 & H2 & _)]];
    [rewrite Heq in Hres; now contradiction Hres
    | rewrite Heq in Hres; now contradiction Hres |].
  destruct (find_free_cases pi Hn) as [Hff1 | (Hex & _)];
    [| rewrite (page_alloc_lite_exhausted pi own Hc Hex) in H1; now contradiction H1].
  set (c1 := find_free pi) in *.
  pose proof (page_alloc_lite_first pi own c1 Hc Hsz Hff1) as Ha1.
  rewrite Ha1 in H1, H2. cbn [fst snd] in H1, H2.
  set (pi1 := pi_set pi c1 (mk_pageinfo (to_int8 own) 1)) in *.
  assert (Hsz1 : frames_sized pi1) by (unfold frames_sized, pi1; now rewrite length_pi_set).
  destruct (find_free_cases pi1 Hn) as [Hff2 | (Hex & _)];
    [| rewrite (page_alloc_lite_exhausted pi1 own Hc Hex) in H2; now contradiction H2].
  set (c2 := find_free pi1) in *.
  pose proof (page_alloc_lite_first pi1 own c2 Hc Hsz1 Hff2) as Ha2.
  rewrite Ha2 in H2. cbn [fst] in H2.
  pose proof Hff1 as (Hr1 & Hz1 & _). pose proof Hff2 as (Hr2 & Hz2 & _).
  unfold frames_sized in Hsz.
  assert (Hne : c1 <> c2).
  { intros Heq. rewrite <- Heq in Hz2. unfold pi1 in Hz2.
    rewrite pi_get_set_eq in Hz2 by lia. cbn in Hz2. lia. }
  exists c1, c2.
  split; [exact Hff1 |].
  split; [intros Hx; rewrite Hx in H1; now contradiction H1 |].
  split; [intros Hx; rewrite Hx in H2; now contradiction H2 |].
  split; [exact Hne | split; [exact Hr2 |]].
  split; [unfold pi1 in Hz2; now rewrite pi_get_set_ne in Hz2 by exact Hne |].
  unfold copy_pagetable. rewrite Ha1. fold pi1. rewrite Ha2.
  destruct (c1 * PAGESIZE =? 0) eqn:E1; [apply Z.eqb_eq in E1; contradiction |].
  destruct (c2 * PAGESIZE =? 0) eqn:E2; [apply Z.eqb_eq in E2; contradiction |].
  rewrite Hal, Z.mul_0_r, Z.sub_0_r.
  change (Z.lor (Z.lor PTE_P PTE_W) PTE_U) with 7.
  unfold PAGESIZE at 3. rewrite lor_aligned_low by lia.
  rewrite to_uint32_small by (unfold PAGESIZE in *; lia).
  reflexivity.
Qed.

Lemma PAGENUMBER_round e : PAGENUMBER (e - e `mod` PAGESIZE) = PAGENUMBER e.
Proof.
  unfold PAGESIZE. rewrite !PAGENUMBER_eq.
  pose proof (Z.div_mod e 4096 ltac:(lia)) as Hd.
  replace (e - e `mod` 4096) with (e `div` 4096 * 4096) by lia.
  now rewrite Z.div_mul by lia.
Qed.

(** After the clone the fork loop's assumptions hold: the child's tables
    are two frames that were free, its level-2 table is a copy of the
    caller's, and nothing else has changed. *)
Lemma fork_claim_inv s newpid :
  frames_cover -> NPROC <= 128 -> kernel_running s -> frames_sized (pageinfo s) ->
  parent_tables_ok s -> 1 <= newpid < NPROC ->
  p_state (proc_get (processes s) newpid) = P_FREE ->
  fork_clone_result s newpid <> 0 ->
  exists c1 c2,
    fork_clone_result s newpid = c1 * PAGESIZE
    /\ fork_inv newpid (p_pid (cur s)) (p_pagetable (cur s)) c1 c2 (fork_claim s newpid)
    /\ refcount (pi_get (pageinfo s) c1) = 0 /\ refcount (pi_get (pageinfo s) c2) = 0
    /\ (forall f, f <> c1 -> f <> c2 ->
                  pi_get (pageinfo (fork_claim s newpid)) f = pi_get (pageinfo s) f)
    /\ (forall f j, f <> c1 -> f <> c2 -> mem (fork_claim s newpid) f j = mem s f j)
    /\ (forall j, mem (fork_claim s newpid) c2 j
                  = mem s (PAGENUMBER (mem s (PAGENUMBER (p_pagetable (cur s))) 0)) j).
Proof.
  intros Hc HN Hrun Hsz (Hal & Ho1 & Hp & Ho2 & Ho0) Hnew Hfree Hres.
  destruct (running_current s Hrun) as (Hcur & Hcpid).
  pose proof Hrun as ((Hok & Hlen & Hpids & H0) & Hst).
  assert (Hcn : current s <> newpid).
  { intros Heq. unfold cur in Hst. rewrite Heq in Hst. congruence. }
  assert (Hcur1 : cur (upd_proc s newpid (fun p => with_state p P_RUNNABLE)) = cur s).
  { unfold cur. cbn. apply proc_get_set_ne. congruence. }
  assert (Hn8 : to_int8 (to_int8 newpid) = newpid)
    by (rewrite to_int8_idem; apply to_int8_small; lia).
  unfold fork_clone_result in *.
  destruct (copy_pagetable_success (pageinfo s) (mem s) (p_pagetable (cur s))
              (to_int8 newpid) Hc Hsz Hal Hres)
    as (c1 & c2 & Hff1 & Hc1 & Hc2 & Hc12 & Hr2 & Hz2 & Hcopy).
  pose proof Hff1 as (Hr1 & Hz1 & _).
  rewrite Hn8 in Hcopy.
  exists c1, c2. rewrite Hcopy. cbn [fst].
  split; [reflexivity |].
  unfold fork_claim. rewrite Hcur1. cbn [pageinfo mem upd_proc upd_processes].
  rewrite Hcopy.
  cbn [pageinfo mem processes current upd_proc upd_processes upd_mem upd_pageinfo].
  set (ppt := p_pagetable (cur s)) in *. set (cpid := p_pid (cur s)) in *.
  set (pi2 := pi_set (pi_set (pageinfo s) c1 (mk_pageinfo newpid 1)) c2 (mk_pageinfo newpid 1)).
  unfold frames_sized in Hsz.
  assert (Hrec : forall f, f <> c1 -> f <> c2 -> pi_get pi2 f = pi_get (pageinfo s) f).
  { intros f Hf1 Hf2. unfold pi2. now rewrite !pi_get_set_ne by congruence. }
  assert (Hrec1 : pi_get pi2 c1 = mk_pageinfo newpid 1).
  { unfold pi2. rewrite pi_get_set_ne by congruence. apply pi_get_set_eq. lia. }
  assert (Hrec2 : pi_get pi2 c2 = mk_pageinfo newpid 1).
  { unfold pi2. apply pi_get_set_eq. rewrite length_pi_set. lia. }
  assert (Hcz : cpid <> 0) by lia.
  assert (Hused : forall f, owner (pi_get (pageinfo s) f) = cpid -> f <> c1 /\ f <> c2).
  { intros f Hf. pose proof (frame_ok_owned _ _ cpid Hok Hf Hcz) as Hr.
    split; intros ->; contradiction. }
  destruct (Hused _ Ho1) as (Hp1 & Hp2).
  destruct (Hused _ Ho2) as (Hl1 & Hl2).
  set (l2 := PAGENUMBER (mem s (PAGENUMBER ppt) 0)) in *.
  set (m2 := mem_store (memcpy_page (mem s) (c1 * PAGESIZE) ppt) (c1 * PAGESIZE) 0
               (c2 * PAGESIZE + 7)).
  assert (Hm2 : forall f j, f <> c1 -> m2 f j = mem s f j).
  { intros f j Hf. unfold m2.
    rewrite mem_store_other_frame by (rewrite PAGENUMBER_mul; exact Hf).
    apply memcpy_page_other_frame. rewrite PAGENUMBER_mul. exact Hf. }
  assert (He0 : mem_load m2 ppt 0 = mem s (PAGENUMBER ppt) 0)
    by (unfold mem_load; now apply Hm2).
  rewrite He0.
  set (m3 := memcpy_page m2 (c2 * PAGESIZE) _).
  assert (Hm3 : forall f j, m3 f j = if f =? c2 then mem s l2 j else m2 f j).
  { intros f j. unfold m3. rewrite memcpy_page_get, PAGENUMBER_mul, PAGENUMBER_round.
    fold l2. destruct (f =? c2); [now apply Hm2 | reflexivity]. }
  assert (Hm3o : forall f j, f <> c1 -> f <> c2 -> m3 f j = mem s f j).
  { intros f j Hf1 Hf2. rewrite Hm3.
    destruct (f =? c2) eqn:E; [apply Z.eqb_eq in E; contradiction | now apply Hm2]. }
  assert (Hm3c2 : forall j, m3 c2 j = mem s l2 j).
  { intros j. now rewrite Hm3, Z.eqb_refl. }
  assert (Hm3c1 : m3 c1 0 = c2 * PAGESIZE + 7).
  { rewrite Hm3. destruct (c1 =? c2) eqn:E; [apply Z.eqb_eq in E; contradiction |].
    unfold m2. rewrite mem_store_get, PAGENUMBER_mul, !Z.eqb_refl. reflexivity. }
  split; [| split; [exact Hz1 | split; [exact Hz2 | split; [exact Hrec |
            split; [exact Hm3o | exact Hm3c2]]]]].
  unfold fork_inv, cur.
  cbn [pageinfo mem processes current upd_proc upd_processes upd_mem upd_pageinfo].
  rewrite !(proc_get_set_ne _ newpid (current s)) by congruence.
  rewrite proc_get_set_eq by (rewrite length_proc_set; lia).
  cbn [p_pagetable with_pagetable]. fold (cur s). fold ppt cpid.
  rewrite !Hm3o by assumption. fold l2. rewrite !Hrec by (assumption || congruence).
  rewrite Hrec1, Hrec2. cbn [owner].
  assert (Hok2 : frames_ok pi2).
  { unfold pi2. apply frames_ok_set; [apply frames_ok_set; [exact Hok |] |];
      rewrite <- (to_int8_small newpid) by lia; apply frame_ok_allocated;
      rewrite to_int8_small; lia. }
  repeat match goal with |- _ /\ _ => split end;
    try assumption; try reflexivity; try lia.
  unfold frames_sized, pi2. now rewrite !length_pi_set.
Qed.

End ForkClaim.

(** ** The addresses a page loop visits *)

Lemma for_range_count lo hi k :
  0 <= k -> lo + k * PAGESIZE < hi ->
  (lo + k * PAGESIZE - lo + PAGESIZE - 1) `div` PAGESIZE = k
  /\ (hi - (lo + k * PAGESIZE + PAGESIZE) + PAGESIZE - 1) `div` PAGESIZE
     = (hi - lo + PAGESIZE - 1) `div` PAGESIZE - k - 1
  /\ k < (hi - lo + PAGESIZE - 1) `div` PAGESIZE.
Proof.
  intros Hk Hlt. unfold PAGESIZE in *.
  repeat split; Z.div_mod_to_equations; lia.
Qed.

Lemma elem_of_for_range lo hi v :
  v ∈ for_range lo hi PAGESIZE <-> exists k, 0 <= k /\ v = lo + k * PAGESIZE /\ v < hi.
Proof.
  unfold for_range. rewrite list_elem_of_fmap. split.
  - intros (k & -> & Hk). apply elem_of_seqZ in Hk. exists k.
    split; [lia | split; [reflexivity |]]. unfold PAGESIZE in *.
    Z.div_mod_to_equations. lia.
  - intros (k & Hk & -> & Hlt). exists k. split; [reflexivity |].
    apply elem_of_seqZ. destruct (for_range_count lo hi k Hk Hlt) as (_ & _ & Hc). lia.
Qed.

(** The loop's run splits at any address it visits. *)
Lemma for_range_split lo hi k :
  0 <= k -> lo + k * PAGESIZE < hi ->
  for_range lo hi PAGESIZE
  = for_range lo (lo + k * PAGESIZE) PAGESIZE
    ++ (lo + k * PAGESIZE) :: for_range (lo + k * PAGESIZE + PAGESIZE) hi PAGESIZE.
Proof.
  intros Hk Hlt. destruct (for_range_count lo hi k Hk Hlt) as (Hc1 & Hc2 & Hc3).
  unfold for_range. rewrite Hc1, Hc2.
  set (n := (hi - lo + PAGESIZE - 1) `div` PAGESIZE) in *.
  replace n with (k + (n - k)) at 1 by lia.
  rewrite (seqZ_app 0 k (n - k)) by lia. rewrite fmap_app. f_equal.
  rewrite Z.add_0_l. rewrite (seqZ_cons k) by lia. rewrite fmap_cons. f_equal.
  replace (Z.pred (n - k)) with (n - k - 1) by lia.
  replace (Z.succ k) with (Z.succ k + 0) by lia.
  rewrite <- (fmap_add_seqZ (Z.succ k) 0), <- list_fmap_compose.
  apply list_fmap_ext. intros _ j _. cbn. lia.
Qed.

Lemma L2PAGEINDEX_inj v1 v2 :
  0 <= v1 < 2 ^ 22 -> 0 <= v2 < 2 ^ 22 ->
  v1 `mod` PAGESIZE = 0 -> v2 `mod` PAGESIZE = 0 ->
  L2PAGEINDEX v1 = L2PAGEINDEX v2 -> v1 = v2.
Proof.
  intros H1 H2 Ha1 Ha2. rewrite !L2PAGEINDEX_low by assumption.
  unfold PAGESIZE in *. intros Heq.
  pose proof (Z.div_mod v1 4096 ltac:(lia)). pose proof (Z.div_mod v2 4096 ltac:(lia)).
  lia.
Qed.

Lemma fork_pages_fit_app `{Config} newpid t l1 l2 :
  fork_pages_fit newpid t (l1 ++ l2)
  = fork_pages_fit newpid t l1 && fork_pages_fit newpid (fold_left (fork_page newpid) l1 t) l2.
Proof.
  revert t. induction l1 as [| v l1 IH]; intros t; [reflexivity |].
  cbn [app fold_left fork_pages_fit]. rewrite IH. now rewrite andb_assoc.
Qed.

Section ForkView.
Context `{Config}.

(** The clone leaves the caller's view of its own pages as it was. *)
Lemma fork_claim_view s newpid c1 c2 va :
  kernel_running s -> parent_tables_ok s ->
  fork_inv newpid (p_pid (cur s)) (p_pagetable (cur s)) c1 c2 (fork_claim s newpid) ->
  refcount (pi_get (pageinfo s) c1) = 0 -> refcount (pi_get (pageinfo s) c2) = 0 ->
  (forall f, f <> c1 -> f <> c2 ->
             pi_get (pageinfo (fork_claim s newpid)) f = pi_get (pageinfo s) f) ->
  (forall f j, f <> c1 -> f <> c2 -> mem (fork_claim s newpid) f j = mem s f j) ->
  0 <= va < 2 ^ 22 ->
  virtual_memory_lookup (mem (fork_claim s newpid)) (p_pagetable (cur (fork_claim s newpid))) va
  = virtual_memory_lookup (mem s) (p_pagetable (cur s)) va
  /\ private_page (fork_claim s newpid) va = private_page s va
  /\ shared_page (fork_claim s newpid) va = shared_page s va.
Proof.
  intros Hrun (Hal & Ho1 & Hp & Ho2 & Ho0) Hinv Hz1 Hz2 Hrec Hmem Hva.
  set (s1 := fork_claim s newpid) in *.
  pose proof Hinv as (_ & Hok1 & Hppt & Hcpid & _ & _ & _ & _ & _ & Hoc1 & Hoc2 & _ & _ & _ & _
                      & Hcz & Hnz & Hcn & _).
  pose proof Hrun as ((Hok & _) & _).
  assert (Hused : forall f, owner (pi_get (pageinfo s) f) = p_pid (cur s) ->
                            f <> c1 /\ f <> c2).
  { intros f Hf. pose proof (frame_ok_owned _ _ _ Hok Hf Hcz) as Hr.
    split; intros ->; contradiction. }
  destruct (Hused _ Ho1) as (Hp1 & Hp2). destruct (Hused _ Ho2) as (Hl1 & Hl2).
  assert (Hl : virtual_memory_lookup (mem s1) (p_pagetable (cur s1)) va
               = virtual_memory_lookup (mem s) (p_pagetable (cur s)) va).
  { rewrite (fork_inv_lookup _ _ _ _ _ s1 va Hinv Hva).
    rewrite lookup_leaf by assumption. f_equal. unfold leaf_entry.
    rewrite PAGENUMBER_PTE_ADDR in *.
    rewrite (Hmem _ 0 Hp1 Hp2). rewrite PAGENUMBER_PTE_ADDR. now apply Hmem. }
  assert (Hown : forall f, (owner (pi_get (pageinfo s1) f) =? p_pid (cur s))
                           = (owner (pi_get (pageinfo s) f) =? p_pid (cur s))).
  { intros f. destruct (Z.eq_dec f c1) as [-> | Hf1].
    - rewrite Hoc1, (frame_ok_free _ _ Hok Hz1).
      destruct (newpid =? p_pid (cur s)) eqn:E1; [apply Z.eqb_eq in E1; congruence |].
      destruct (0 =? p_pid (cur s)) eqn:E2; [apply Z.eqb_eq in E2; congruence | reflexivity].
    - destruct (Z.eq_dec f c2) as [-> | Hf2]; [| now rewrite Hrec].
      rewrite Hoc2, (frame_ok_free _ _ Hok Hz2).
      destruct (newpid =? p_pid (cur s)) eqn:E1; [apply Z.eqb_eq in E1; congruence |].
      destruct (0 =? p_pid (cur s)) eqn:E2; [apply Z.eqb_eq in E2; congruence | reflexivity]. }
  split; [exact Hl | split].
  - unfold private_page. now rewrite Hl, Hcpid, Hown.
  - unfold shared_page. now rewrite Hl, Hcpid, Hown.
Qed.

End ForkView.

(** ** Fork: what the child is given, page by page *)

Section ForkPages.
Context `{Config}.

Lemma fork_registers_frame s newpid :
  mem (fork_registers s newpid) = mem s
  /\ pageinfo (fork_registers s newpid) = pageinfo s
  /\ p_pagetable (cur (fork_registers s newpid)) = p_pagetable (cur s)
  /\ p_pagetable (proc_get (processes (fork_registers s newpid)) newpid)
     = p_pagetable (proc_get (processes s) newpid).
Proof.
  split; [reflexivity | split; [reflexivity | split]].
  - unfold cur. change (current (fork_registers s newpid)) with (current s).
    now apply fork_registers_field.
  - now apply fork_registers_field.
Qed.

Lemma user_va_ok k :
  user_region_ok -> 0 <= k -> PROC_START_ADDR + k * PAGESIZE < MEMSIZE_VIRTUAL ->
  0 <= PROC_START_ADDR + k * PAGESIZE < 2 ^ 22
  /\ (PROC_START_ADDR + k * PAGESIZE) `mod` PAGESIZE = 0.
Proof.
  intros (H0 & Hal & Hmv) Hk Hlt. split; [unfold PAGESIZE in *; lia |].
  now rewrite Z_mod_plus_full.
Qed.

Lemma user_range_ok lo v :
  user_region_ok -> (exists k0, 0 <= k0 /\ lo = PROC_START_ADDR + k0 * PAGESIZE) ->
  v ∈ for_range lo MEMSIZE_VIRTUAL PAGESIZE \/ (exists hi, hi <= MEMSIZE_VIRTUAL
                                                  /\ v ∈ for_range lo hi PAGESIZE) ->
  0 <= v < 2 ^ 22 /\ v `mod` PAGESIZE = 0.
Proof.
  intros Hur (k0 & Hk0 & ->) Hin.
  assert (Hv : exists k, 0 <= k /\ v = PROC_START_ADDR + k * PAGESIZE /\ v < MEMSIZE_VIRTUAL).
  { destruct Hin as [Hin | (hi & Hhi & Hin)];
      apply elem_of_for_range in Hin as (k & Hk & -> & Hlt);
      exists (k0 + k); (split; [lia | split; [lia | lia]]). }
  destruct Hv as (k & Hk & -> & Hlt). now apply user_va_ok.
Qed.

End ForkPages.

(** A lookup that finds some permission found a present leaf. *)
Lemma lookup_mapped m pt va :
  vam_perm (virtual_memory_lookup m pt va) <> 0 ->
  exists pe, Z.land pe PTE_P <> 0
             /\ virtual_memory_lookup m pt va
                = mk_vamapping (PAGENUMBER pe) (PTE_ADDR pe + PAGEOFFSET va) (PTE_FLAGS pe).
Proof.
  unfold virtual_memory_lookup.
  destruct (Z.land (mem_load m pt (L1PAGEINDEX va)) PTE_P =? 0); [now cbn |].
  destruct (Z.land (mem_load m (PTE_ADDR (mem_load m pt (L1PAGEINDEX va))) (L2PAGEINDEX va))
                   PTE_P =? 0) eqn:E; [now cbn |].
  intros _. eexists. split; [| reflexivity]. now apply Z.eqb_neq.
Qed.

Lemma lookup_mapped_aligned m pt va :
  va `mod` PAGESIZE = 0 -> vam_perm (virtual_memory_lookup m pt va) <> 0 ->
  PAGENUMBER (vam_pa (virtual_memory_lookup m pt va)) = vam_pn (virtual_memory_lookup m pt va)
  /\ forall pn, decode_leaf (Z.lor (pn * PAGESIZE) (vam_perm (virtual_memory_lookup m pt va))) va
                = mk_vamapping pn (pn * PAGESIZE) (vam_perm (virtual_memory_lookup m pt va)).
Proof.
  intros Hal Hperm. destruct (lookup_mapped m pt va Hperm) as (pe & Hpe & ->). cbn.
  rewrite (PAGEOFFSET_aligned va Hal), Z.add_0_r. split; [apply PAGENUMBER_PTE_ADDR |].
  intros pn. destruct (pte_build pn (PTE_FLAGS pe) (PTE_FLAGS_range pe)) as (Hn & Ha & Hf).
  assert (Hp : Z.land (Z.lor (pn * PAGESIZE) (PTE_FLAGS pe)) PTE_P <> 0).
  { rewrite <- pte_present_flags, Hf, pte_present_flags. exact Hpe. }
  unfold decode_leaf. apply Z.eqb_neq in Hp. rewrite Hp.
  rewrite Hn, Ha, Hf, (PAGEOFFSET_aligned va Hal), Z.add_0_r. reflexivity.
Qed.

Lemma writable_perm perm : negb (Z.land perm PTE_W =? 0) = true -> perm <> 0.
Proof. intros Hw ->. now rewrite Z.land_0_l in Hw. Qed.

Section ForkResult.
Context `{Config}.

(** The frame table and memory a fork leaves, for the page at the [k]-th
    address of the user region. *)
Lemma fork_child_pages s newpid k :
  frames_cover -> user_region_ok -> NPROC <= 128 ->
  kernel_running s -> frames_sized (pageinfo s) -> parent_tables_ok s ->
  1 <= newpid < NPROC -> p_state (proc_get (processes s) newpid) = P_FREE ->
  fork_clone_result s newpid <> 0 -> fork_child_fits s newpid = true ->
  0 <= k -> PROC_START_ADDR + k * PAGESIZE < MEMSIZE_VIRTUAL ->
  forall va vam s' child page,
    va = PROC_START_ADDR + k * PAGESIZE ->
    vam = virtual_memory_lookup (mem s) (p_pagetable (cur s)) va ->
    s' = fork_child s newpid ->
    child = p_pagetable (proc_get (processes s') newpid) ->
    page = fork_fresh_page s newpid va ->
    child = fork_clone_result s newpid
    /\ virtual_memory_lookup (mem s') (p_pagetable (cur s')) va = vam
    /\ (private_page s va = true -> page <> 0 ->
        virtual_memory_lookup (mem s') child va
        = mk_vamapping (PAGENUMBER page) page (vam_perm vam)
        /\ refcount (pi_get (pageinfo s) (PAGENUMBER page)) = 0
        /\ pi_get (pageinfo s') (PAGENUMBER page) = mk_pageinfo newpid 1
        /\ PAGENUMBER page <> vam_pn vam
        /\ forall j, mem s' (PAGENUMBER page) j = mem s (vam_pn vam) j
                     /\ mem s' (vam_pn vam) j = mem s (vam_pn vam) j)
    /\ (private_page s va = false -> virtual_memory_lookup (mem s') child va = vam)
    /\ (private_page s va = false -> shared_page s va = true ->
        (forall v, v ∈ for_range PROC_START_ADDR MEMSIZE_VIRTUAL PAGESIZE -> v <> va ->
                   private_page s v = false -> shared_page s v = true ->
                   vam_pn (virtual_memory_lookup (mem s) (p_pagetable (cur s)) v)
                   <> vam_pn vam) ->
        refcount (pi_get (pageinfo s') (vam_pn vam))
        = refcount (pi_get (pageinfo s) (vam_pn vam)) + 1).
Proof.
  intros Hc Hur HN Hrun Hsz Hpar Hnew Hfree Hres Hfit Hk Hlt va vam s' child page
         -> -> -> -> ->.
  set (va := PROC_START_ADDR + k * PAGESIZE) in *.
  destruct (user_va_ok k Hur Hk Hlt) as (Hva & Hval). fold va in Hva, Hval.
  destruct (fork_claim_inv s newpid Hc HN Hrun Hsz Hpar Hnew Hfree Hres)
    as (c1 & c2 & Hptr & Hinv1 & Hz1 & Hz2 & Hrec1 & Hmem1 & Hcopy).
  set (cpid := p_pid (cur s)) in *. set (ppt := p_pagetable (cur s)) in *.
  set (s1 := fork_claim s newpid) in *.
  pose proof (for_range_split PROC_START_ADDR MEMSIZE_VIRTUAL k Hk Hlt) as Hsplit.
  fold va in Hsplit.
  set (before := for_range PROC_START_ADDR va PAGESIZE) in *.
  set (after := for_range (va + PAGESIZE) MEMSIZE_VIRTUAL PAGESIZE) in *.
  assert (Hall : forall v, v ∈ for_range PROC_START_ADDR MEMSIZE_VIRTUAL PAGESIZE ->
                           0 <= v < 2 ^ 22 /\ v `mod` PAGESIZE = 0).
  { intros v Hv. apply elem_of_for_range in Hv as (j & Hj & -> & Hjlt).
    now apply user_va_ok. }
  assert (Hbr : forall v, v ∈ before -> (0 <= v < 2 ^ 22 /\ v `mod` PAGESIZE = 0) /\ v <> va).
  { intros v Hv. split.
    - apply Hall. rewrite Hsplit. apply elem_of_app. now left.
    - apply elem_of_for_range in Hv as (j & Hj & -> & Hjlt). lia. }
  assert (Har : forall v, v ∈ after -> (0 <= v < 2 ^ 22 /\ v `mod` PAGESIZE = 0) /\ v <> va).
  { intros v Hv. split.
    - apply Hall. rewrite Hsplit. apply elem_of_app. right. now right.
    - apply elem_of_for_range in Hv as (j & Hj & -> & Hjlt). unfold PAGESIZE. lia. }
  assert (Hidx : forall v, (0 <= v < 2 ^ 22 /\ v `mod` PAGESIZE = 0) /\ v <> va ->
                           L2PAGEINDEX va <> L2PAGEINDEX v).
  { intros v ((Hv & Hvl) & Hne) Heq. apply Hne. symmetry.
    now apply L2PAGEINDEX_inj. }
  unfold fork_child_fits in Hfit. fold s1 in Hfit.
  rewrite Hsplit, fork_pages_fit_app in Hfit. cbn [fork_pages_fit] in Hfit.
  apply andb_prop in Hfit as [Hfb Hfit]. apply andb_prop in Hfit as [Hfva Hfa].
  destruct (fork_pages_steps newpid cpid ppt c1 c2 before s1 Hc Hinv1) as (Hinvt & Hstept & Hc2t);
    [intros v Hv; now apply Hbr | exact Hfb |].
  set (t := fold_left (fork_page newpid) before s1) in *.
  destruct (fork_page_step newpid cpid ppt c1 c2 t va Hc Hinvt Hva Hfva) as (Hstep1 & Hc2s).
  pose proof (step_frames_inv newpid cpid ppt c1 c2 t _ Hinvt Hstep1) as Hinvt1.
  set (t1 := fork_page newpid t va) in *.
  destruct (fork_pages_steps newpid cpid ppt c1 c2 after t1 Hc Hinvt1) as (Hinve & Hstepe & Hc2e);
    [intros v Hv; now apply Har | exact Hfa |].
  set (te := fold_left (fork_page newpid) after t1) in *.
  assert (Hte : fork_pages s1 newpid = te).
  { unfold fork_pages. rewrite Hsplit, fold_left_app. reflexivity. }
  destruct (fork_registers_frame te newpid) as (Hmem' & Hpi' & Hppt' & Hcpt').
  unfold fork_child. fold s1. rewrite Hte, Hmem', Hpi', Hppt', Hcpt'.
  pose proof Hrun as ((Hoks & _) & _).
  pose proof Hinv1 as (_ & Hok1 & _ & _ & _ & _ & _ & _ & _ & Ho1c1 & Ho1c2 & _ & _ & _ & _
                       & Hcp0 & Hnp0 & Hcn & _).
  assert (Hview1 : forall v, 0 <= v < 2 ^ 22 ->
            virtual_memory_lookup (mem s1) (p_pagetable (cur s1)) v
            = virtual_memory_lookup (mem s) ppt v
            /\ private_page s1 v = private_page s v /\ shared_page s1 v = shared_page s v).
  { intros v Hv. apply (fork_claim_view s newpid c1 c2 v); assumption. }
  assert (Hviewt : forall v, 0 <= v < 2 ^ 22 ->
            virtual_memory_lookup (mem t) (p_pagetable (cur t)) v
            = virtual_memory_lookup (mem s) ppt v
            /\ private_page t v = private_page s v /\ shared_page t v = shared_page s v).
  { intros v Hv. destruct (Hview1 v Hv) as (<- & <- & <-).
    exact (step_frames_view newpid cpid ppt c1 c2 s1 t v Hinv1 Hstept Hv). }
  assert (Hviewt1 : forall v, 0 <= v < 2 ^ 22 ->
            virtual_memory_lookup (mem t1) (p_pagetable (cur t1)) v
            = virtual_memory_lookup (mem s) ppt v
            /\ private_page t1 v = private_page s v /\ shared_page t1 v = shared_page s v).
  { intros v Hv. destruct (Hviewt v Hv) as (<- & <- & <-).
    exact (step_frames_view newpid cpid ppt c1 c2 t t1 v Hinvt Hstep1 Hv). }
  assert (Hviewe : forall v, 0 <= v < 2 ^ 22 ->
            virtual_memory_lookup (mem te) (p_pagetable (cur te)) v
            = virtual_memory_lookup (mem s) ppt v).
  { intros v Hv. destruct (Hviewt1 v Hv) as (<- & _).
    apply (step_frames_view newpid cpid ppt c1 c2 t1 te v Hinvt1 Hstepe Hv). }
  assert (Hown : forall f, owner (pi_get (pageinfo s) f) = cpid ->
            refcount (pi_get (pageinfo s) f) <> 0
            /\ pi_get (pageinfo s1) f = pi_get (pageinfo s) f
            /\ (forall j, mem t f j = mem s f j) /\ (forall j, mem te f j = mem s f j)).
  { intros f Hf.
    assert (Hr : refcount (pi_get (pageinfo s) f) <> 0)
      by exact (frame_ok_owned _ f cpid Hoks Hf Hcp0).
    assert (Hf1 : f <> c1) by (intros ->; contradiction).
    assert (Hf2 : f <> c2) by (intros ->; contradiction).
    pose proof (Hrec1 f Hf1 Hf2) as Hrf.
    assert (Ho1 : owner (pi_get (pageinfo s1) f) = cpid) by now rewrite Hrf.
    destruct (step_frames_owned newpid cpid ppt c1 c2 s1 t f Hinv1 Hstept Ho1) as (Hot & Hmt).
    destruct (step_frames_owned newpid cpid ppt c1 c2 t t1 f Hinvt Hstep1 Hot) as (Hot1 & Hmt1).
    destruct (step_frames_owned newpid cpid ppt c1 c2 t1 te f Hinvt1 Hstepe Hot1) as (_ & Hme).
    repeat split; [exact Hr | exact Hrf | |].
    - intros j. now rewrite Hmt, Hmem1.
    - intros j. now rewrite Hme, Hmt1, Hmt, Hmem1. }
  assert (Hchild : virtual_memory_lookup (mem te) (p_pagetable (proc_get (processes te) newpid)) va
                   = decode_leaf (mem t1 c2 (L2PAGEINDEX va)) va).
  { rewrite (child_lookup newpid cpid ppt c1 c2 te va Hinve Hva). f_equal.
    apply Hc2e. intros v Hv. apply Hidx. now apply Har. }
  set (vam := virtual_memory_lookup (mem s) ppt va) in *.
  destruct (Hviewt va Hva) as (Hlkt & Hprt & Hsht). fold vam in Hlkt.
  split; [|split; [|split; [|split]]].
  - destruct Hinve as (_ & _ & _ & _ & -> & _). now rewrite Hptr.
  - now apply Hviewe.
  - intros Hpriv Hpage.
    change (fork_fresh_page s newpid va) with (fst (page_alloc_lite (pageinfo t) newpid)) in *.
    destruct (fork_private_result newpid cpid ppt c1 c2 t va Hc Hinvt Hva Hpage)
      as (pn & Hpn & Hr0 & Hpn0 & Hpnc2 & Hrecpn & Hleaf & Hcont).
    rewrite Hlkt in Hleaf, Hcont.
    assert (Ht1 : t1 = fork_private newpid t va).
    { unfold t1, fork_page. now rewrite Hprt, Hpriv. }
    rewrite <- Ht1 in Hrecpn, Hleaf, Hcont.
    unfold private_page in Hpriv. fold ppt vam cpid in Hpriv.
    apply andb_prop in Hpriv as [Hw Hownf]. apply Z.eqb_eq in Hownf.
    pose proof (writable_perm _ Hw) as Hperm.
    destruct (lookup_mapped_aligned (mem s) ppt va Hval Hperm) as (Hpa & Hdec).
    fold vam in Hpa, Hdec.
    destruct (Hown _ Hownf) as (Hrf & Hrf1 & Hmt & Hme).
    assert (Hrs1 : refcount (pi_get (pageinfo s1) pn) = 0).
    { destruct Hstept as (_ & _ & _ & _ & K1 & _).
      destruct (K1 pn) as [(_ & Hkeep) | (Hzero & _)]; [| exact Hzero].
      destruct (Z.eq_dec (refcount (pi_get (pageinfo s1) pn)) 0) as [E | E]; [exact E |].
      now apply Hkeep in E. }
    assert (Hpnc1 : pn <> c1).
    { intros ->. apply (frame_ok_owned _ c1 newpid Hok1 Ho1c1 Hnp0). exact Hrs1. }
    assert (Hrs : refcount (pi_get (pageinfo s) pn) = 0) by now rewrite <- (Hrec1 pn Hpnc1 Hpnc2).
    rewrite Hpn, PAGENUMBER_mul, Hchild, Hleaf, Hdec.
    split; [reflexivity |]. split; [exact Hrs |]. split.
    { destruct Hstepe as (_ & _ & _ & _ & _ & K2 & _).
      rewrite K2; [exact Hrecpn | |]; rewrite Hrecpn; cbn; [discriminate | congruence]. }
    split; [intros E; rewrite E in Hrs; contradiction |].
    intros j. split; [| apply Hme].
    destruct Hstepe as (_ & _ & _ & _ & _ & _ & M).
    rewrite M; [| exact Hpn0 | exact Hpnc2 | rewrite Hrecpn; cbn; discriminate].
    rewrite Hcont, Hpa. apply Hmt.
  - intros Hpriv. rewrite Hchild.
    destruct (shared_page s va) eqn:Hsh.
    + assert (Ht1 : t1 = fork_shared newpid t va).
      { unfold t1, fork_page. now rewrite Hprt, Hpriv, Hsht. }
      rewrite Ht1, (fork_shared_result newpid cpid ppt c1 c2 t va Hinvt Hva Hval);
        [| now rewrite Hsht].
      rewrite <- Hlkt.
      symmetry. apply (fork_inv_lookup newpid cpid ppt c1 c2 t va Hinvt Hva).
    + assert (Ht1 : t1 = t).
      { unfold t1, fork_page. now rewrite Hprt, Hpriv, Hsht. }
      rewrite Ht1, Hc2t; [| intros v Hv; apply Hidx; now apply Hbr].
      rewrite Hcopy. destruct Hpar as (_ & _ & Hp & _).
      unfold vam. rewrite (lookup_leaf (mem s) ppt va Hva Hp).
      unfold leaf_entry. now rewrite PAGENUMBER_PTE_ADDR.
  - intros Hpriv Hsh Huniq.
    pose proof Hsh as Hsh'. unfold shared_page in Hsh'. fold ppt vam cpid in Hsh'.
    apply andb_prop in Hsh' as [_ Hownf]. apply Z.eqb_eq in Hownf.
    destruct (Hown _ Hownf) as (Hrf & Hrf1 & _ & _).
    assert (Hrect : pi_get (pageinfo t) (vam_pn vam) = pi_get (pageinfo s) (vam_pn vam)).
    { rewrite <- Hrf1.
      apply (fork_pages_record newpid cpid ppt c1 c2 before s1 (vam_pn vam) Hc Hinv1).
      - intros v Hv. now apply Hbr.
      - exact Hfb.
      - now rewrite Hrf1.
      - intros v Hv Hp Hs_. destruct (Hbr v Hv) as ((Hv1 & _) & Hne).
        destruct (Hview1 v Hv1) as (Hl & Hp1 & Hs1). rewrite Hl.
        apply Huniq; [rewrite Hsplit; apply elem_of_app; now left | exact Hne
                     | now rewrite <- Hp1 | now rewrite <- Hs1]. }
    assert (Hsht' : shared_page t va = true) by now rewrite Hsht.
    assert (Hfits : 0 < refcount (pi_get (pageinfo t) (shared_frame newpid t va)) < 127).
    { unfold share_fits in Hfva. rewrite Hprt, Hpriv, Hsht' in Hfva.
      apply andb_prop in Hfva as [F1 F2]. apply Z.ltb_lt in F1, F2. lia. }
    destruct (fork_shared_step newpid cpid ppt c1 c2 t va Hinvt Hva Hsht' Hfits)
      as (Hsf & _ & _ & Hpi1).
    rewrite Hlkt in Hsf. rewrite Hsf in Hpi1, Hfits.
    assert (Ht1 : t1 = fork_shared newpid t va).
    { unfold t1, fork_page. now rewrite Hprt, Hpriv, Hsht'. }
    rewrite <- Ht1 in Hpi1.
    assert (Hrect1 : pi_get (pageinfo t1) (vam_pn vam)
                     = mk_pageinfo (owner (pi_get (pageinfo s) (vam_pn vam)))
                                   (refcount (pi_get (pageinfo s) (vam_pn vam)) + 1)).
    { rewrite Hpi1. unfold set_refcount. rewrite pi_get_set_eq.
      - rewrite Hrect in *. rewrite to_int8_small by lia. reflexivity.
      - apply referenced_in_range. lia. }
    unfold te. rewrite (fork_pages_record newpid cpid ppt c1 c2 after t1 (vam_pn vam) Hc Hinvt1).
    + now rewrite Hrect1.
    + intros v Hv. now apply Har.
    + exact Hfa.
    + rewrite Hrect1. cbn. rewrite Hrect in Hfits. lia.
    + intros v Hv Hp Hs_. destruct (Har v Hv) as ((Hv1 & _) & Hne).
      destruct (Hviewt1 v Hv1) as (Hl & Hp1 & Hs1). rewrite Hl.
      apply Huniq; [rewrite Hsplit; apply elem_of_app; right; now right | exact Hne
                   | now rewrite <- Hp1 | now rewrite <- Hs1].
Qed.

End ForkResult.

(** ** Fork: what the child receives *)

Lemma kernel_running_upd_mem `{Config} s m : kernel_running s -> kernel_running (upd_mem s m).
Proof. intros Hrun. exact Hrun. Qed.

Lemma shared_once_spec `{Config} s va v :
  shared_once s va = true ->
  v ∈ for_range PROC_START_ADDR MEMSIZE_VIRTUAL PAGESIZE -> v <> va ->
  private_page s v = false -> shared_page s v = true ->
  vam_pn (current_mapping s v) <> vam_pn (current_mapping s va).
Proof.
  intros Hall Hv Hne Hp Hs Heq. unfold shared_once in Hall.
  rewrite forallb_forall in Hall. apply list_elem_of_In in Hv.
  specialize (Hall v Hv). unfold shared_elsewhere in Hall.
  rewrite Hp, Hs, Heq, Z.eqb_refl in Hall.
  apply Z.eqb_neq in Hne. rewrite Hne in Hall. discriminate Hall.
Qed.

Lemma not_owned_not_private s va :
  owner (pi_get (pageinfo s) (vam_pn (current_mapping s va))) <> p_pid (cur s) ->
  private_page s va = false.
Proof.
  intros Hne. unfold private_page. fold (current_mapping s va).
  apply Z.eqb_neq in Hne. rewrite Hne. apply andb_false_r.
Qed.

(** C2 (amended): a fork that finds the Free slot [newpid] and whose clone
    of the caller's page table succeeds stores [newpid] in the caller's eax
    and leaves the caller's mapping of every user page as it was.  For the
    user page at [user_page k]:
    - when the caller owns the frame and the mapping is writable, and the
      loop's allocation for this page gives a frame, the child maps the
      address to that frame with the caller's permissions; the frame was
      free before the fork, is now the child's with refcount 1, is not the
      caller's frame, and holds the contents of the caller's page, which are
      unchanged;
    - when the caller owns the frame and the mapping has some permission
      but not write, the child maps the address to the identical frame with
      the same permissions, and the frame's refcount has grown by exactly 1
      when the caller shares that frame at this address only;
    - when the caller does not own the frame, the child has the mapping the
      caller has: the clone copied the entry and the loop leaves it. *)
Theorem C2_fork_pages `{Config} (s : kstate) (newpid k : Z) :
  frames_cover -> user_region_ok -> NPROC <= 16 ->
  kernel_running s -> frames_sized (pageinfo s) -> parent_tables_ok s ->
  first_free_slot (processes s) newpid ->
  fork_clone_result s newpid <> 0 ->
  fork_child_fits s newpid = true ->
  0 <= k -> user_page k < MEMSIZE_VIRTUAL ->
  reg_eax (p_registers (cur (sys_fork s))) = newpid
  /\ current_mapping (sys_fork s) (user_page k) = current_mapping s (user_page k)
  /\ (private_page s (user_page k) = true ->
      fork_fresh_page s newpid (user_page k) <> 0 ->
      mapping_of (sys_fork s) newpid (user_page k)
      = mk_vamapping (PAGENUMBER (fork_fresh_page s newpid (user_page k)))
                     (fork_fresh_page s newpid (user_page k))
                     (vam_perm (current_mapping s (user_page k)))
      /\ refcount (pi_get (pageinfo s) (PAGENUMBER (fork_fresh_page s newpid (user_page k))))
         = 0
      /\ pi_get (pageinfo (sys_fork s)) (PAGENUMBER (fork_fresh_page s newpid (user_page k)))
         = mk_pageinfo newpid 1
      /\ PAGENUMBER (fork_fresh_page s newpid (user_page k))
         <> vam_pn (current_mapping s (user_page k))
      /\ forall j,
           mem (sys_fork s) (PAGENUMBER (fork_fresh_page s newpid (user_page k))) j
           = mem s (vam_pn (current_mapping s (user_page k))) j
           /\ mem (sys_fork s) (vam_pn (current_mapping s (user_page k))) j
              = mem s (vam_pn (current_mapping s (user_page k))) j)
  /\ (private_page s (user_page k) = false -> shared_page s (user_page k) = true ->
      mapping_of (sys_fork s) newpid (user_page k) = current_mapping s (user_page k)
      /\ (shared_once s (user_page k) = true ->
          refcount (pi_get (pageinfo (sys_fork s)) (vam_pn (current_mapping s (user_page k))))
          = refcount (pi_get (pageinfo s) (vam_pn (current_mapping s (user_page k)))) + 1))
  /\ (owner (pi_get (pageinfo s) (vam_pn (current_mapping s (user_page k)))) <> p_pid (cur s) ->
      mapping_of (sys_fork s) newpid (user_page k) = current_mapping s (user_page k)).
Proof.
  intros Hc Hur HN Hrun Hsz Hpar Hff Hres Hfit Hk Hlt.
  pose proof Hff as (Hnew & Hfree & _).
  assert (HN' : NPROC <= 128) by lia.
  destruct (running_current s Hrun) as (Hcur & _).
  pose proof Hrun as ((_ & Hlen & _) & _).
  rewrite (sys_fork_slot s newpid HN Hff).
  destruct (fork_child_pages s newpid k Hc Hur HN' Hrun Hsz Hpar Hnew Hfree Hres Hfit Hk Hlt
              _ _ _ _ _ eq_refl eq_refl eq_refl eq_refl eq_refl)
    as (_ & Hparent & Hprivate & Hkeep & Hshare).
  unfold current_mapping, mapping_of, user_page in *.
  split; [| split; [exact Hparent | split; [exact Hprivate | split]]].
  - rewrite fork_child_eax by lia. apply to_uint32_small. lia.
  - intros Hp Hs. split; [now apply Hkeep |].
    intros Honce. apply Hshare; [exact Hp | exact Hs |].
    intros v Hv Hne Hpv Hsv.
    exact (shared_once_spec s _ v Honce Hv Hne Hpv Hsv).
  - intros Hne. apply Hkeep. now apply not_owned_not_private.
Qed.

Lemma weensy_first_free_slot s :
  forallb (fun j => negb (procstate_eqb (p_state (proc_get (processes s) j)) P_FREE))
          [1; 2; 3; 4] = true ->
  p_state (proc_get (processes s) 5) = P_FREE ->
  @first_free_slot weensy (processes s) 5.
Proof.
  intros Hbusy Hfree. split; [by_compute | split; [exact Hfree |]].
  intros j Hj Hf. rewrite forallb_forall in Hbusy.
  assert (Hin : In j [1; 2; 3; 4]) by (cbn [In]; lia).
  specialize (Hbusy j Hin). rewrite Hf in Hbusy. discriminate Hbusy.
Qed.

Lemma weensy_user_region : @user_region_ok weensy.
Proof. by_compute. Qed.

Lemma weensy_running_ok : @kernel_running weensy weensy_running.
Proof.
  assert (HN : 4 < @NPROC weensy <= 128) by by_compute.
  exact (@kernel_reach_running weensy _ weensy_frames_cover HN weensy_kernel_frame
           weensy_running_reach).
Qed.

(** In the booted system process 1 forks into slot 5.  Its first page (at
    0x100000, writable, frame 256) is copied into the frame at 0xF000; in
    the variant where its second page (frame 257) is read-only, the child
    maps that address to frame 257 as well and the frame's refcount goes
    from 1 to 2. *)
Lemma C2_fork_pages_witness :
  (reg_eax (p_registers (cur (@sys_fork weensy weensy_running))) = 5
   /\ mapping_of (@sys_fork weensy weensy_running) 5 (@user_page weensy 0)
      = mk_vamapping (PAGENUMBER 61440) 61440 7
   /\ pi_get (pageinfo (@sys_fork weensy weensy_running)) (PAGENUMBER 61440)
      = mk_pageinfo 5 1
   /\ PAGENUMBER 61440 <> 256)
  /\ (mapping_of (@sys_fork weensy weensy_readonly) 5 (@user_page weensy 1)
      = mk_vamapping 257 1052672 5
      /\ refcount (pi_get (pageinfo (@sys_fork weensy weensy_readonly)) 257) = 1 + 1).
Proof.
  assert (HN : @NPROC weensy <= 16) by by_compute.
  split.
  - assert (Hsz : @frames_sized weensy (pageinfo weensy_running)) by by_compute.
    assert (Hpar : parent_tables_ok weensy_running) by by_compute.
    assert (Hff : @first_free_slot weensy (processes weensy_running) 5)
      by (apply weensy_first_free_slot; vm_compute; reflexivity).
    assert (Hres : @fork_clone_result weensy weensy_running 5 <> 0)
      by (vm_compute; discriminate).
    assert (Hfit : @fork_child_fits weensy weensy_running 5 = true)
      by (vm_compute; reflexivity).
    assert (Hk : 0 <= 0) by lia.
    assert (Hlt : @user_page weensy 0 < @MEMSIZE_VIRTUAL weensy) by by_compute.
    destruct (@C2_fork_pages weensy weensy_running 5 0 weensy_frames_cover weensy_user_region
                HN weensy_running_ok Hsz Hpar Hff Hres Hfit Hk Hlt)
      as (Heax & _ & Hprivate & _).
    assert (Hp : private_page weensy_running (@user_page weensy 0) = true)
      by (vm_compute; reflexivity).
    assert (Hpage : @fork_fresh_page weensy weensy_running 5 (@user_page weensy 0) = 61440)
      by (vm_compute; reflexivity).
    assert (Hperm : vam_perm (current_mapping weensy_running (@user_page weensy 0)) = 7)
      by (vm_compute; reflexivity).
    assert (Hpn : vam_pn (current_mapping weensy_running (@user_page weensy 0)) = 256)
      by (vm_compute; reflexivity).
    rewrite Hpage, Hperm, Hpn in Hprivate.
    assert (Hfresh : 61440 <> 0) by discriminate.
    destruct (Hprivate Hp Hfresh) as (Hmap & _ & Hrec & Hother & _).
    exact (conj Heax (conj Hmap (conj Hrec Hother))).
  - assert (Hsz : @frames_sized weensy (pageinfo weensy_readonly)) by by_compute.
    assert (Hpar : parent_tables_ok weensy_readonly) by by_compute.
    assert (Hrun : @kernel_running weensy weensy_readonly)
      by exact (@kernel_running_upd_mem weensy weensy_running _ weensy_running_ok).
    assert (Hff : @first_free_slot weensy (processes weensy_readonly) 5)
      by (apply weensy_first_free_slot; vm_compute; reflexivity).
    assert (Hres : @fork_clone_result weensy weensy_readonly 5 <> 0)
      by (vm_compute; discriminate).
    assert (Hfit : @fork_child_fits weensy weensy_readonly 5 = true)
      by (vm_compute; reflexivity).
    assert (Hk : 0 <= 1) by lia.
    assert (Hlt : @user_page weensy 1 < @MEMSIZE_VIRTUAL weensy) by by_compute.
    destruct (@C2_fork_pages weensy weensy_readonly 5 1 weensy_frames_cover weensy_user_region
                HN Hrun Hsz Hpar Hff Hres Hfit Hk Hlt)
      as (_ & _ & _ & Hshared & _).
    assert (Hp : private_page weensy_readonly (@user_page weensy 1) = false)
      by (vm_compute; reflexivity).
    assert (Hs : shared_page weensy_readonly (@user_page weensy 1) = true)
      by (vm_compute; reflexivity).
    assert (Honce : @shared_once weensy weensy_readonly (@user_page weensy 1) = true)
      by (vm_compute; reflexivity).
    assert (Hcm : current_mapping weensy_readonly (@user_page weensy 1)
                  = mk_vamapping 257 1052672 5) by (vm_compute; reflexivity).
    assert (Hrc : refcount (pi_get (pageinfo weensy_readonly) 257) = 1)
      by (vm_compute; reflexivity).
    rewrite Hcm in Hshared. cbn [vam_pn] in Hshared. rewrite Hrc in Hshared.
    destruct (Hshared Hp Hs) as (Hmap & Hcount).
    exact (conj Hmap (Hcount Honce)).
Defined.

(** In the system booted with one-page program images, process 1 maps the
    page at 0x101000 writable to frame 257, a free frame it does not own
    (process_setup maps two pages whatever the image holds).  Neither
    condition of the fork loop holds for it, the fork succeeds with child 5,
    and the child maps 0x101000 to frame 257 all the same. *)
Lemma C2_unowned_page_counterexample :
  reg_eax (p_registers (cur (@sys_fork weensy1 weensy1_running))) = 5
  /\ @fork_clone_result weensy1 weensy1_running 5 = 53248
  /\ p_pid (cur weensy1_running) = 1
  /\ current_mapping weensy1_running 1052672 = mk_vamapping 257 1052672 7
  /\ pi_get (pageinfo weensy1_running) 257 = mk_pageinfo PO_FREE 0
  /\ private_page weensy1_running 1052672 = false
  /\ shared_page weensy1_running 1052672 = false
  /\ mapping_of (@sys_fork weensy1 weensy1_running) 5 1052672 = mk_vamapping 257 1052672 7.
Proof. by_compute. Qed.

(** C10 fails: in the booted system, after process 1 has asked for pages
    until two frames are left, the frame table and page tables pass every
    check, and process 1 forks.  The clone takes the last two frames; the
    loop finds the page at 0x100000 owned and writable, page_alloc_lite
    gives the null pointer, and the handler copies to it and maps it: the
    child's 0x100000 is physical page 0, a reserved frame, writable from
    user mode, and the parent is told the fork succeeded. *)
Theorem C10_fork_copy_null_allocation :
  @virtual_memory_check weensy weensy_two_left = true
  /\ @fork_clone_result weensy weensy_two_left 5 = 2088960
  /\ private_page (@fork_state_before weensy weensy_two_left 5 1048576) 1048576 = true
  /\ @fork_fresh_page weensy weensy_two_left 5 1048576 = 0
  /\ mapping_of (@sys_fork weensy weensy_two_left) 5 1048576 = mk_vamapping 0 0 7
  /\ pi_get (pageinfo (@sys_fork weensy weensy_two_left)) 0 = mk_pageinfo PO_RESERVED 1
  /\ p_state (proc_get (processes (@sys_fork weensy weensy_two_left)) 5) = P_RUNNABLE
  /\ reg_eax (p_registers (cur (@sys_fork weensy weensy_two_left))) = 5.
Proof. by_compute. Qed.

(** ** The allocators on their own *)

Section AllocatorFacts.
Context `{Config}.

Lemma land_4095_mod addr : Z.land addr 4095 = addr `mod` PAGESIZE.
Proof. change 4095 with (Z.ones 12). now rewrite Z.land_ones by lia. Qed.

Lemma frame_in_table pi addr :
  frames_cover -> frames_sized pi -> 0 <= addr < MEMSIZE_PHYSICAL ->
  0 <= PAGENUMBER addr < Z.of_nat (length pi).
Proof.
  intros (Hn & Hm & _) Hsz Ha. unfold frames_sized in Hsz. rewrite Hsz, PAGENUMBER_eq.
  unfold PAGESIZE in Hm. split; [apply Z.div_pos; lia |].
  apply Z.div_lt_upper_bound; lia.
Qed.

Lemma physical_page_alloc_cases pi addr own :
  (physical_page_alloc pi addr own = (-1, pi)
   /\ (addr `mod` PAGESIZE <> 0 \/ MEMSIZE_PHYSICAL <= addr
       \/ refcount (pi_get pi (PAGENUMBER addr)) <> 0))
  \/ (physical_page_alloc pi addr own
      = (0, set_owner (set_refcount pi (PAGENUMBER addr) 1) (PAGENUMBER addr) own)
      /\ addr `mod` PAGESIZE = 0 /\ addr < MEMSIZE_PHYSICAL
      /\ refcount (pi_get pi (PAGENUMBER addr)) = 0).
Proof.
  unfold physical_page_alloc. rewrite land_4095_mod.
  destruct (addr `mod` PAGESIZE =? 0) eqn:E1; cbn [negb orb].
  - destruct (MEMSIZE_PHYSICAL <=? addr) eqn:E2; cbn [orb].
    + left. split; [reflexivity |]. apply Z.leb_le in E2. tauto.
    + destruct (refcount (pi_get pi (PAGENUMBER addr)) =? 0) eqn:E3; cbn [negb].
      * right. apply Z.eqb_eq in E1, E3. apply Z.leb_gt in E2. tauto.
      * left. split; [reflexivity |]. apply Z.eqb_neq in E3. tauto.
  - left. split; [reflexivity |]. apply Z.eqb_neq in E1. tauto.
Qed.

Lemma claimed_record pi pn own :
  0 <= pn < Z.of_nat (length pi) ->
  set_owner (set_refcount pi pn 1) pn own = pi_set pi pn (mk_pageinfo (to_int8 own) 1).
Proof.
  intros Hpn. unfold set_owner, set_refcount.
  rewrite pi_get_set_eq by exact Hpn. cbn [refcount]. rewrite pi_set_set.
  reflexivity.
Qed.

End AllocatorFacts.

(** X1: physical_page_alloc(addr, owner) succeeds exactly when [addr] is
    page-aligned, lies below MEMSIZE_PHYSICAL and its frame has refcount 0.
    A refused call returns -1 and leaves the frame table as it was.  A
    successful call returns 0, gives the frame the record (owner, 1), leaves
    every other record alone, and makes any further allocation of the same
    address fail: no frame is handed out twice. *)
Theorem X1_physical_page_alloc `{Config} (pi : pageinfo_t) (addr own : Z) :
  frames_cover -> frames_sized pi -> 0 <= addr ->
  (fst (physical_page_alloc pi addr own) = 0
   <-> addr `mod` PAGESIZE = 0 /\ addr < MEMSIZE_PHYSICAL
       /\ refcount (pi_get pi (PAGENUMBER addr)) = 0)
  /\ (fst (physical_page_alloc pi addr own) <> 0 ->
      physical_page_alloc pi addr own = (-1, pi))
  /\ (fst (physical_page_alloc pi addr own) = 0 ->
      pi_get (snd (physical_page_alloc pi addr own)) (PAGENUMBER addr)
      = mk_pageinfo (to_int8 own) 1
      /\ (forall j, j <> PAGENUMBER addr ->
            pi_get (snd (physical_page_alloc pi addr own)) j = pi_get pi j)
      /\ forall own',
           physical_page_alloc (snd (physical_page_alloc pi addr own)) addr own'
           = (-1, snd (physical_page_alloc pi addr own))).
Proof.
  intros Hc Hsz Ha.
  destruct (physical_page_alloc_cases pi addr own) as [(E & Hwhy) | (E & Hal & Hlt & Hfree)];
    rewrite E; cbn [fst snd].
  - split; [split; [discriminate | lia] |]. split; [reflexivity | discriminate].
  - assert (Hpn : 0 <= PAGENUMBER addr < Z.of_nat (length pi))
      by (apply frame_in_table; [exact Hc | exact Hsz | lia]).
    rewrite (claimed_record pi _ own Hpn).
    split; [split; [intros _; repeat split; assumption | reflexivity] |].
    split; [intros Hne; now contradiction Hne |]. intros _.
    split; [now apply pi_get_set_eq |].
    split; [intros j Hj; apply pi_get_set_ne; congruence |].
    intros own'.
    destruct (physical_page_alloc_cases (pi_set pi (PAGENUMBER addr)
                                           (mk_pageinfo (to_int8 own) 1)) addr own')
      as [(E' & _) | (_ & _ & _ & Hfree')]; [exact E' |].
    rewrite pi_get_set_eq in Hfree' by exact Hpn. discriminate Hfree'.
Qed.

(** Frame 300, the one free frame of the table, is claimed for process 3;
    the records of its neighbours stay, and claiming it again is refused. *)
Lemma X1_physical_page_alloc_witness :
  fst (@physical_page_alloc weensy one_free_pageinfo 1228800 3) = 0
  /\ pi_get (snd (@physical_page_alloc weensy one_free_pageinfo 1228800 3)) (PAGENUMBER 1228800)
     = mk_pageinfo (to_int8 3) 1
  /\ @physical_page_alloc weensy (snd (@physical_page_alloc weensy one_free_pageinfo 1228800 3))
       1228800 4
     = (-1, snd (@physical_page_alloc weensy one_free_pageinfo 1228800 3)).
Proof.
  assert (Hsz : @frames_sized weensy one_free_pageinfo) by by_compute.
  assert (Ha : 0 <= 1228800) by lia.
  destruct (@X1_physical_page_alloc weensy one_free_pageinfo 1228800 3
              weensy_frames_cover Hsz Ha) as (Hiff & _ & Hok).
  assert (Hfree : 1228800 `mod` PAGESIZE = 0 /\ 1228800 < @MEMSIZE_PHYSICAL weensy
                  /\ refcount (pi_get one_free_pageinfo (PAGENUMBER 1228800)) = 0)
    by by_compute.
  pose proof (proj2 Hiff Hfree) as Hr.
  destruct (Hok Hr) as (Hrec & _ & Hagain).
  exact (conj Hr (conj Hrec (Hagain 4))).
Defined.

Section MappingFacts.
Context `{Config}.

Lemma first_free_address pn pi :
  frames_cover -> first_free pi pn -> to_uint32 (pn * PAGESIZE) = pn * PAGESIZE.
Proof.
  intros (Hn & Hm & Hlt) (Hpn & _). apply to_uint32_small. unfold PAGESIZE in *. lia.
Qed.

Lemma sys_page_alloc_func_first pi m addr pagetable pid pn :
  frames_cover -> frames_sized pi -> first_free pi pn ->
  sys_page_alloc_func pi m addr pagetable pid
  = (0, pi_set pi pn (mk_pageinfo (to_int8 pid) 1),
     virtual_memory_map m pagetable addr (pn * PAGESIZE) PAGESIZE
       (Z.lor (Z.lor PTE_P PTE_W) PTE_U)).
Proof.
  intros Hc Hsz Hff. pose proof Hc as (Hn & _). pose proof Hff as (Hpn & Hfree & _).
  unfold sys_page_alloc_func.
  rewrite (find_free_first pi pn Hn Hff), (first_free_address pn pi Hc Hff).
  rewrite (physical_page_alloc_ok pi pn _ Hc Hsz Hpn Hfree), to_int8_idem.
  reflexivity.
Qed.

Lemma sys_page_alloc_func_exhausted pi m addr pagetable pid :
  frames_cover -> exhausted pi ->
  sys_page_alloc_func pi m addr pagetable pid = (-1, pi, m).
Proof.
  intros Hc Hex. pose proof Hc as (Hn & Hm & Hlt).
  unfold sys_page_alloc_func. rewrite (find_free_exhausted pi Hn Hex).
  rewrite Hm. unfold PAGESIZE in Hm. rewrite to_uint32_small by lia.
  rewrite physical_page_alloc_beyond by lia. reflexivity.
Qed.

(** The leaf a single-page mapping stores is what a lookup of that address
    then decodes; the other leaves of the table are as before. *)
Lemma lookup_after_map m pagetable va pn perm :
  0 <= va < 2 ^ 22 -> Z.land (m (PAGENUMBER pagetable) 0) PTE_P <> 0 ->
  PAGENUMBER (m (PAGENUMBER pagetable) 0) <> PAGENUMBER pagetable ->
  0 <= perm < 4096 -> Z.land perm PTE_P <> 0 ->
  virtual_memory_lookup (virtual_memory_map m pagetable va (pn * PAGESIZE) PAGESIZE perm)
    pagetable va
  = mk_vamapping pn (pn * PAGESIZE + PAGEOFFSET va) perm
  /\ forall va', 0 <= va' < 2 ^ 22 -> L2PAGEINDEX va' <> L2PAGEINDEX va ->
       virtual_memory_lookup (virtual_memory_map m pagetable va (pn * PAGESIZE) PAGESIZE perm)
         pagetable va'
       = virtual_memory_lookup m pagetable va'.
Proof.
  intros Hva Hp Hne Hperm Hpp.
  rewrite (map_one_page m pagetable va _ perm Hva Hp).
  set (l1e := m (PAGENUMBER pagetable) 0) in *.
  set (m' := mem_store m (PTE_ADDR l1e) (L2PAGEINDEX va) (Z.lor (pn * PAGESIZE) perm)).
  assert (Hl1 : m' (PAGENUMBER pagetable) 0 = l1e).
  { unfold m'. rewrite mem_store_other_frame; [reflexivity |].
    rewrite PAGENUMBER_PTE_ADDR. congruence. }
  assert (Hp' : Z.land (m' (PAGENUMBER pagetable) 0) PTE_P <> 0) by now rewrite Hl1.
  split.
  - rewrite (lookup_leaf m' pagetable va Hva Hp'). unfold leaf_entry. rewrite Hl1.
    unfold m'. rewrite mem_store_get, !Z.eqb_refl. cbn [andb].
    destruct (pte_build pn perm Hperm) as (Hn & Ha & Hf).
    assert (Hpres : Z.land (Z.lor (pn * PAGESIZE) perm) PTE_P <> 0)
      by (rewrite <- pte_present_flags, Hf; exact Hpp).
    unfold decode_leaf. apply Z.eqb_neq in Hpres. rewrite Hpres, Hn, Ha, Hf. reflexivity.
  - intros va' Hva' Hidx.
    rewrite (lookup_leaf m' pagetable va' Hva' Hp'), (lookup_leaf m pagetable va' Hva' Hp).
    unfold leaf_entry. rewrite Hl1. fold l1e. unfold m'. rewrite mem_store_get.
    apply Z.eqb_neq in Hidx. rewrite Hidx, andb_false_r. reflexivity.
Qed.

End MappingFacts.

(** X2: sys_page_alloc_func claims the first free frame for the process,
    maps [addr] to it with PTE_P|PTE_W|PTE_U and returns 0: a lookup of
    [addr] in that page table then gives the new frame, and every other
    page below 4 MiB maps to what it mapped to before.  The frame that was
    mapped at [addr] before keeps its record (only the claimed frame's
    record changes).  With no free frame it returns -1 and changes neither
    the frame table nor memory.  The address is not validated. *)
Theorem X2_sys_page_alloc_func `{Config} (pi : pageinfo_t) (m : memory)
    (addr pagetable pid : Z) :
  frames_cover -> frames_sized pi ->
  (forall pn, first_free pi pn ->
     sys_page_alloc_func pi m addr pagetable pid
     = (0, pi_set pi pn (mk_pageinfo (to_int8 pid) 1),
        virtual_memory_map m pagetable addr (pn * PAGESIZE) PAGESIZE
          (Z.lor (Z.lor PTE_P PTE_W) PTE_U))
     /\ (forall j, j <> pn ->
           pi_get (snd (fst (sys_page_alloc_func pi m addr pagetable pid))) j = pi_get pi j)
     /\ (0 <= addr < 2 ^ 22 -> Z.land (m (PAGENUMBER pagetable) 0) PTE_P <> 0 ->
         PAGENUMBER (m (PAGENUMBER pagetable) 0) <> PAGENUMBER pagetable ->
         virtual_memory_lookup (snd (sys_page_alloc_func pi m addr pagetable pid))
           pagetable addr
         = mk_vamapping pn (pn * PAGESIZE + PAGEOFFSET addr) 7
         /\ forall va, 0 <= va < 2 ^ 22 -> L2PAGEINDEX va <> L2PAGEINDEX addr ->
              virtual_memory_lookup (snd (sys_page_alloc_func pi m addr pagetable pid))
                pagetable va
              = virtual_memory_lookup m pagetable va))
  /\ (exhausted pi -> sys_page_alloc_func pi m addr pagetable pid = (-1, pi, m)).
Proof.
  intros Hc Hsz. split.
  - intros pn Hff. rewrite (sys_page_alloc_func_first pi m addr pagetable pid pn Hc Hsz Hff).
    cbn [fst snd]. split; [reflexivity |].
    split; [intros j Hj; apply pi_get_set_ne; congruence |].
    intros Ha Hp Hne.
    apply (lookup_after_map m pagetable addr pn 7 Ha Hp Hne); [lia | vm_compute; discriminate].
  - now apply sys_page_alloc_func_exhausted.
Qed.

Lemma weensy_boot_first_free : @first_free weensy (@pageinfo_init weensy) 1.
Proof.
  split; [by_compute | split; [vm_compute; reflexivity |]].
  intros j Hj. assert (j = 0) as -> by lia. vm_compute. discriminate.
Qed.

Lemma weensy_boot_sized : @frames_sized weensy (@pageinfo_init weensy).
Proof. by_compute. Qed.

(** On the frame table of a fresh boot, with the kernel's page table: the
    page at 0x100000 is mapped to frame 1, the first free frame; on the full
    table the call is refused. *)
Lemma X2_sys_page_alloc_func_witness :
  virtual_memory_lookup
    (snd (@sys_page_alloc_func weensy (@pageinfo_init weensy) weensy_m0 1048576
            (@kernel_pagetable weensy) 1))
    (@kernel_pagetable weensy) 1048576
  = mk_vamapping 1 (1 * PAGESIZE + PAGEOFFSET 1048576) 7
  /\ @sys_page_alloc_func weensy full_pageinfo weensy_m0 1048576 (@kernel_pagetable weensy) 1
     = (-1, full_pageinfo, weensy_m0).
Proof.
  split.
  - destruct (@X2_sys_page_alloc_func weensy (@pageinfo_init weensy) weensy_m0 1048576
                (@kernel_pagetable weensy) 1 weensy_frames_cover weensy_boot_sized)
      as (Hok & _).
    destruct (Hok 1 weensy_boot_first_free) as (_ & _ & Hmap).
    assert (Ha : 0 <= 1048576 < 2 ^ 22) by lia.
    assert (Hp : Z.land (weensy_m0 (PAGENUMBER (@kernel_pagetable weensy)) 0) PTE_P <> 0)
      by (vm_compute; discriminate).
    assert (Hne : PAGENUMBER (weensy_m0 (PAGENUMBER (@kernel_pagetable weensy)) 0)
                  <> PAGENUMBER (@kernel_pagetable weensy))
      by (vm_compute; discriminate).
    exact (proj1 (Hmap Ha Hp Hne)).
  - assert (Hsz : @frames_sized weensy full_pageinfo) by by_compute.
    assert (Hex : @exhausted weensy full_pageinfo).
    { intros j Hj. unfold full_pageinfo, pi_get. cbn in Hj.
      destruct (j <? 0) eqn:E; [lia |].
      rewrite lookup_replicate_2 by lia. cbn. discriminate. }
    destruct (@X2_sys_page_alloc_func weensy full_pageinfo weensy_m0 1048576
                (@kernel_pagetable weensy) 1 weensy_frames_cover Hsz) as (_ & Hno).
    exact (Hno Hex).
Defined.

Section CloneFacts.
Context `{Config}.

Lemma referenced_not_free (pi : pageinfo_t) f c :
  refcount (pi_get pi f) <> 0 -> refcount (pi_get pi c) = 0 -> f <> c.
Proof. intros Hf Hc ->. contradiction. Qed.

End CloneFacts.

(** X3: a clone that succeeds is a faithful copy.  copy_pagetable takes two
    frames that were free, [c1] for the level-1 table it returns and [c2] for
    the level-2 table, and records both for [own] with refcount 1; no other
    record and no other frame's contents change.  Entry 0 of the new level-1
    table points at [c2] with PTE_P|PTE_W|PTE_U, its other entries are the
    source's, and every address below 4 MiB looks up through the clone to
    exactly what it looks up to through the source.  (The source's tables
    are frames in use, so the allocator cannot return them.) *)
Theorem X3_copy_pagetable_clone `{Config} (pi : pageinfo_t) (m : memory)
    (pagetable own : Z) :
  frames_cover -> frames_sized pi -> pagetable `mod` PAGESIZE = 0 ->
  refcount (pi_get pi (PAGENUMBER pagetable)) <> 0 ->
  Z.land (m (PAGENUMBER pagetable) 0) PTE_P <> 0 ->
  refcount (pi_get pi (PAGENUMBER (m (PAGENUMBER pagetable) 0))) <> 0 ->
  fst (fst (copy_pagetable pi m pagetable own)) <> 0 ->
  exists c1 c2,
    fst (fst (copy_pagetable pi m pagetable own)) = c1 * PAGESIZE
    /\ c1 <> c2
    /\ refcount (pi_get pi c1) = 0 /\ refcount (pi_get pi c2) = 0
    /\ pi_get (snd (fst (copy_pagetable pi m pagetable own))) c1 = mk_pageinfo (to_int8 own) 1
    /\ pi_get (snd (fst (copy_pagetable pi m pagetable own))) c2 = mk_pageinfo (to_int8 own) 1
    /\ (forall f, f <> c1 -> f <> c2 ->
          pi_get (snd (fst (copy_pagetable pi m pagetable own))) f = pi_get pi f)
    /\ (forall f j, f <> c1 -> f <> c2 ->
          snd (copy_pagetable pi m pagetable own) f j = m f j)
    /\ snd (copy_pagetable pi m pagetable own) c1 0 = c2 * PAGESIZE + 7
    /\ (forall i, i <> 0 ->
          snd (copy_pagetable pi m pagetable own) c1 i = m (PAGENUMBER pagetable) i)
    /\ (forall va, 0 <= va < 2 ^ 22 ->
          virtual_memory_lookup (snd (copy_pagetable pi m pagetable own)) (c1 * PAGESIZE) va
          = virtual_memory_lookup m pagetable va).
Proof.
  intros Hc Hsz Hal Hr1 Hp Hr2 Hres.
  destruct (copy_pagetable_success pi m pagetable own Hc Hsz Hal Hres)
    as (c1 & c2 & Hff & Hc10 & Hc20 & Hne & Hc2 & Hfree2 & E).
  pose proof Hff as (Hc1 & Hfree1 & _).
  exists c1, c2. rewrite E. cbn [fst snd]. cbv zeta.
  unfold frames_sized in Hsz.
  set (src1 := PAGENUMBER pagetable) in *.
  set (e0 := m src1 0) in *.
  assert (Hs1c1 : src1 <> c1) by exact (referenced_not_free pi _ _ Hr1 Hfree1).
  assert (Hs2c1 : PAGENUMBER e0 <> c1) by exact (referenced_not_free pi _ _ Hr2 Hfree1).
  assert (Hs2c2 : PAGENUMBER e0 <> c2) by exact (referenced_not_free pi _ _ Hr2 Hfree2).
  assert (He0 : mem_load (mem_store (memcpy_page m (c1 * PAGESIZE) pagetable)
                            (c1 * PAGESIZE) 0 (c2 * PAGESIZE + 7)) pagetable 0 = e0).
  { unfold mem_load. fold src1. rewrite mem_store_get, PAGENUMBER_mul.
    apply Z.eqb_neq in Hs1c1. rewrite Hs1c1. cbn [andb].
    rewrite memcpy_page_get, PAGENUMBER_mul, Hs1c1. reflexivity. }
  rewrite He0.
  set (m' := memcpy_page (mem_store (memcpy_page m (c1 * PAGESIZE) pagetable)
                            (c1 * PAGESIZE) 0 (c2 * PAGESIZE + 7))
               (c2 * PAGESIZE) (e0 - e0 `mod` PAGESIZE)).
  assert (Hm' : forall f j,
            m' f j = if f =? c2 then m (PAGENUMBER e0) j
                     else if (f =? c1) && (j =? 0) then c2 * PAGESIZE + 7
                     else if f =? c1 then m src1 j else m f j).
  { intros f j. unfold m'.
    rewrite memcpy_page_get, !mem_store_get, !memcpy_page_get, !PAGENUMBER_mul,
      PAGENUMBER_round.
    fold src1.
    apply Z.eqb_neq in Hs2c1. rewrite Hs2c1. cbn [andb]. reflexivity. }
  assert (Hn12 : (c1 =? c2) = false) by now apply Z.eqb_neq.
  split; [reflexivity |]. split; [exact Hne |]. split; [exact Hfree1 |].
  split; [exact Hfree2 |].
  split; [rewrite pi_get_set_ne by congruence; apply pi_get_set_eq; lia |].
  split; [apply pi_get_set_eq; rewrite length_pi_set; lia |].
  split; [intros f Hf1 Hf2; rewrite !pi_get_set_ne by congruence; reflexivity |].
  split.
  { intros f j Hf1 Hf2. rewrite Hm'. apply Z.eqb_neq in Hf1, Hf2. now rewrite Hf1, Hf2. }
  split; [rewrite Hm', Hn12, !Z.eqb_refl; reflexivity |].
  split.
  { intros i Hi. rewrite Hm', Hn12, Z.eqb_refl. apply Z.eqb_neq in Hi. now rewrite Hi. }
  intros va Hva.
  assert (Hl1 : m' (PAGENUMBER (c1 * PAGESIZE)) 0 = c2 * PAGESIZE + 7)
    by (rewrite PAGENUMBER_mul, Hm', Hn12, !Z.eqb_refl; reflexivity).
  rewrite (lookup_leaf m' (c1 * PAGESIZE) va Hva) by (rewrite Hl1; apply land_child_entry).
  rewrite (lookup_leaf m pagetable va Hva Hp).
  unfold leaf_entry. rewrite Hl1, child_entry_frame, Hm', Z.eqb_refl.
  fold src1 e0. now rewrite PAGENUMBER_PTE_ADDR.
Qed.

(** Cloning the kernel's page table for process 1 on the frame table of a
    fresh boot: the clone resolves every address below 4 MiB as the kernel's
    table does. *)
Lemma X3_copy_pagetable_clone_witness :
  exists c1 c2,
    fst (fst (@copy_pagetable weensy (@pageinfo_init weensy) weensy_m0
                (@kernel_pagetable weensy) 1)) = c1 * PAGESIZE
    /\ c1 <> c2
    /\ forall va, 0 <= va < 2 ^ 22 ->
         virtual_memory_lookup
           (snd (@copy_pagetable weensy (@pageinfo_init weensy) weensy_m0
                   (@kernel_pagetable weensy) 1)) (c1 * PAGESIZE) va
         = virtual_memory_lookup weensy_m0 (@kernel_pagetable weensy) va.
Proof.
  assert (Hal : @kernel_pagetable weensy `mod` PAGESIZE = 0) by by_compute.
  assert (Hr1 : refcount (pi_get (@pageinfo_init weensy) (PAGENUMBER (@kernel_pagetable weensy)))
                <> 0) by (vm_compute; discriminate).
  assert (Hp : Z.land (weensy_m0 (PAGENUMBER (@kernel_pagetable weensy)) 0) PTE_P <> 0)
    by (vm_compute; discriminate).
  assert (Hr2 : refcount (pi_get (@pageinfo_init weensy)
                            (PAGENUMBER (weensy_m0 (PAGENUMBER (@kernel_pagetable weensy)) 0)))
                <> 0) by (vm_compute; discriminate).
  assert (Hres : fst (fst (@copy_pagetable weensy (@pageinfo_init weensy) weensy_m0
                             (@kernel_pagetable weensy) 1)) <> 0)
    by (vm_compute; discriminate).
  destruct (@X3_copy_pagetable_clone weensy (@pageinfo_init weensy) weensy_m0
              (@kernel_pagetable weensy) 1 weensy_frames_cover weensy_boot_sized
              Hal Hr1 Hp Hr2 Hres)
    as (c1 & c2 & H1 & H2 & _ & _ & _ & _ & _ & _ & _ & _ & Hlook).
  exists c1, c2. exact (conj H1 (conj H2 Hlook)).
Defined.

(** ** Frames in use stay in use *)

Section FramesKept.
Context `{Config}.

Lemma frames_kept_refl pi : frames_kept pi pi.
Proof. intros pn _. split; [reflexivity | lia]. Qed.

Lemma frames_kept_trans pi1 pi2 pi3 :
  frames_kept pi1 pi2 -> frames_kept pi2 pi3 -> frames_kept pi1 pi3.
Proof.
  intros H12 H23 pn Hpn. destruct (H12 pn Hpn) as (Ho & Hr).
  destruct (H23 pn) as (Ho' & Hr'); [lia |]. split; [congruence | lia].
Qed.

Lemma frames_kept_same pi pi' :
  (forall j, refcount (pi_get pi j) <> 0 -> pi_get pi' j = pi_get pi j) ->
  frames_kept pi pi'.
Proof. intros Hsame pn Hpn. rewrite Hsame by lia. split; [reflexivity | lia]. Qed.

Lemma frames_kept_incr pi pn :
  0 < refcount (pi_get pi pn) < 127 ->
  frames_kept pi (set_refcount pi pn (refcount (pi_get pi pn) + 1)).
Proof.
  intros Hr j Hj. unfold set_refcount.
  destruct (Z.eq_dec j pn) as [-> | Hne].
  - rewrite pi_get_set_eq by (apply referenced_in_range; lia).
    cbn [owner refcount]. rewrite to_int8_small by lia. split; [reflexivity | lia].
  - rewrite pi_get_set_ne by congruence. split; [reflexivity | lia].
Qed.

Lemma fork_page_kept newpid s va :
  share_fits newpid s va = true ->
  frames_kept (pageinfo s) (pageinfo (fork_page newpid s va)).
Proof.
  intros Hfit. unfold fork_page, share_fits in *.
  destruct (private_page s va).
  - unfold fork_private. apply frames_kept_same. intros j Hj.
    pose proof (page_alloc_lite_keeps (pageinfo s) newpid j Hj) as Hk.
    destruct (page_alloc_lite (pageinfo s) newpid) as [page pi1]. exact Hk.
  - destruct (shared_page s va); [| apply frames_kept_refl].
    unfold fork_shared. cbn [pageinfo upd_mem upd_pageinfo].
    apply andb_prop in Hfit as [H0 H1]. apply Z.ltb_lt in H0, H1.
    now apply frames_kept_incr.
Qed.

Lemma fork_pages_kept newpid vas s :
  fork_pages_fit newpid s vas = true ->
  frames_kept (pageinfo s) (pageinfo (fold_left (fork_page newpid) vas s)).
Proof.
  revert s. induction vas as [| va vas IH]; intros s Hfit; [apply frames_kept_refl |].
  cbn [fold_left fork_pages_fit] in *. apply andb_prop in Hfit as [Hva Hrest].
  apply (frames_kept_trans _ (pageinfo (fork_page newpid s va))).
  - now apply fork_page_kept.
  - now apply IH.
Qed.

Lemma fork_claim_kept s newpid :
  frames_kept (pageinfo s) (pageinfo (fork_claim s newpid)).
Proof.
  apply frames_kept_same. intros j Hj. unfold fork_claim.
  cbn [pageinfo mem upd_proc upd_processes].
  pose proof (copy_pagetable_keeps (pageinfo s) (mem s)
                (p_pagetable (cur (upd_proc s newpid (fun p => with_state p P_RUNNABLE))))
                (to_int8 newpid) j Hj) as Hk.
  cbn [upd_proc upd_processes] in Hk.
  destruct (copy_pagetable _ _ _ _) as [[pt pi2] m2]. exact Hk.
Qed.

Lemma fork_child_kept s newpid :
  fork_child_fits s newpid = true ->
  frames_kept (pageinfo s) (pageinfo (fork_child s newpid)).
Proof.
  intros Hfit. unfold fork_child, fork_registers.
  cbn [pageinfo upd_proc upd_processes]. unfold fork_pages.
  apply (frames_kept_trans _ (pageinfo (fork_claim s newpid))).
  - apply fork_claim_kept.
  - now apply fork_pages_kept.
Qed.

Lemma fork_scan_kept s pids :
  fork_scan_fits s pids = true ->
  frames_kept (pageinfo s) (pageinfo (fork_scan s pids)).
Proof.
  revert s. induction pids as [| newpid rest IH]; intros s Hfit; [apply frames_kept_refl |].
  cbn [fork_scan fork_scan_fits] in *.
  destruct (procstate_eqb _ _).
  - now apply fork_child_kept.
  - specialize (IH _ Hfit). now destruct (newpid =? 15).
Qed.

Lemma interrupt_kept s reg s' :
  interrupt_fits s reg = true -> interrupt s reg = Resumed s' ->
  frames_kept (pageinfo s) (pageinfo s').
Proof.
  intros Hfit Hint. unfold interrupt, interrupt_fits in *.
  set (s0 := upd_proc s (current s) (fun p => with_registers p reg)) in *.
  destruct (negb (virtual_memory_check s0)); [discriminate |].
  destruct (memshow s0) as [s1 |] eqn:Hshow; [| discriminate].
  destruct (memshow_frame s0 s1 Hshow) as (_ & _ & _ & Hpi1).
  change (pageinfo s) with (pageinfo s0). rewrite <- Hpi1.
  assert (Hfin : forall t, resume_or_schedule t = Resumed s' -> pageinfo s' = pageinfo t).
  { intros t Ht. now destruct (resume_or_schedule_resumed t s' Ht) as (p & -> & _). }
  assert (Hsched : forall t, schedule t = Resumed s' -> pageinfo s' = pageinfo t).
  { intros t Ht. now destruct (schedule_resumed t s' Ht) as (p & -> & _). }
  destruct (reg_intno reg) eqn:Eint; try discriminate.
  - rewrite (Hfin _ Hint). apply frames_kept_refl.
  - rewrite (Hsched _ Hint). apply frames_kept_refl.
  - destruct (sys_page_alloc_func _ _ _ _ _) as [[r pi'] m'] eqn:Ealloc.
    rewrite (Hfin _ Hint). cbn [pageinfo upd_proc upd_processes upd_mem upd_pageinfo].
    apply frames_kept_same. intros j Hj.
    pose proof (sys_page_alloc_func_keeps (pageinfo s1) (mem s1)
                  (reg_eax (p_registers (cur s1))) (p_pagetable (cur s1))
                  (p_pid (cur s1)) j Hj) as Hk.
    now rewrite Ealloc in Hk.
  - rewrite (Hfin _ Hint). now apply (fork_scan_kept s1).
  - rewrite (Hsched _ Hint). apply frames_kept_refl.
  - destruct (Z.land (reg_err reg) PFERR_USER =? 0); [discriminate |].
    rewrite (Hfin _ Hint). apply frames_kept_refl.
Qed.

End FramesKept.

Section BootKept.
Context `{Config}.

Lemma setup_pagetable_kept s pid b :
  b < 127 -> kernel_booting s b ->
  frames_kept (pageinfo s) (pageinfo (setup_pagetable s pid)).
Proof.
  intros Hb (_ & Hk). unfold setup_pagetable.
  cbn [pageinfo mem upd_proc upd_processes].
  assert (Href : refcount (pi_get (pageinfo s) (PAGENUMBER kernel_pagetable)) <> 0) by lia.
  pose proof (copy_pagetable_keeps (pageinfo s) (mem s) kernel_pagetable (to_int8 pid)) as Hck.
  destruct (copy_pagetable _ _ _ _) as [[pt pi2] m2]. cbn [fst snd] in Hck.
  assert (Hk2 : frames_kept (pageinfo s) pi2) by (apply frames_kept_same; exact Hck).
  destruct (negb (pt =? 0)); [exact Hk2 |].
  cbn [pageinfo processes upd_mem upd_proc upd_processes upd_pageinfo].
  apply (frames_kept_trans _ pi2); [exact Hk2 |].
  apply frames_kept_incr. rewrite (Hck _ Href). lia.
Qed.

Lemma process_setup_kept s pid prog s' b :
  b < 127 -> kernel_booting s b -> process_setup s pid prog = Some s' ->
  frames_kept (pageinfo s) (pageinfo s').
Proof.
  intros Hb Hboot. unfold process_setup.
  pose proof (setup_pagetable_kept s pid b Hb Hboot) as Hk3.
  set (s3 := setup_pagetable s pid) in *.
  unfold program_load. cbn [pageinfo upd_proc upd_processes].
  pose proof (program_load_pages_keeps (pageinfo s3)
                (p_pid (proc_get (processes (upd_proc s3 pid (fun p => with_state p P_RUNNABLE)))
                          pid))
                (program_pages prog)) as Hk5.
  cbn [processes upd_proc upd_processes] in Hk5.
  destruct (program_load_pages _ _ _) as [r pi5]. cbn [snd] in Hk5.
  destruct (r <? 0); [discriminate |].
  cbn [pageinfo mem processes upd_proc upd_processes upd_pageinfo].
  match goal with
  | |- context [sys_page_alloc_func ?a ?b ?c ?d ?e] =>
      pose proof (sys_page_alloc_func_keeps a b c d e) as Hk7;
      destruct (sys_page_alloc_func a b c d e) as [[r7 pi7] m7]
  end.
  cbn [fst snd] in Hk7. intros [= <-]. cbn [pageinfo upd_mem upd_pageinfo].
  apply (frames_kept_trans _ (pageinfo s3)); [exact Hk3 |].
  apply (frames_kept_trans _ pi5); apply frames_kept_same; assumption.
Qed.

Lemma setup_all_kept l s s' b :
  NPROC <= 128 -> (forall pid prog, (pid, prog) ∈ l -> 1 <= pid < NPROC) ->
  b + Z.of_nat (length l) <= 127 ->
  kernel_booting s b -> setup_all s l = Some s' ->
  frames_kept (pageinfo s) (pageinfo s').
Proof.
  intros HN. revert s b. induction l as [| [pid prog] rest IH]; intros s b Hl Hb Hboot.
  - cbn. intros [= <-]. apply frames_kept_refl.
  - cbn [setup_all length] in *.
    destruct (process_setup s pid prog) as [s1 |] eqn:E; [| discriminate].
    intros Hrest.
    apply (frames_kept_trans _ (pageinfo s1)).
    + apply (process_setup_kept s pid prog s1 b); [lia | exact Hboot | exact E].
    + apply (IH s1 (b + 1)); [intros q pr Hq; apply (Hl q pr); now right | lia | | exact Hrest].
      apply (process_setup_booting s pid prog); [exact HN | | lia | exact Hboot | exact E].
      apply (Hl pid prog). left.
Qed.

Lemma start_kept m0 command s :
  frames_cover -> 4 < NPROC <= 128 -> kernel_frame (PAGENUMBER kernel_pagetable) ->
  start m0 command = Resumed s -> frames_kept pageinfo_init (pageinfo s).
Proof.
  intros Hc HN Hk. unfold start.
  destruct (setup_all (boot_state m0) (boot_programs command)) as [s1 |] eqn:E;
    [| discriminate].
  pose proof (boot_programs_length command) as Hlen.
  assert (Hkept : frames_kept pageinfo_init (pageinfo s1)).
  { apply (setup_all_kept (boot_programs command) (boot_state m0) s1 1);
      [lia | | lia | | exact E].
    - intros pid prog Hin. apply boot_programs_pids in Hin. lia.
    - apply boot_state_booting; [exact Hc | lia | exact Hk]. }
  unfold run. destruct (procstate_eqb _ _); [| discriminate].
  intros [= <-]. exact Hkept.
Qed.

Lemma kernel_reach_kept s :
  frames_cover -> 4 < NPROC <= 128 -> kernel_frame (PAGENUMBER kernel_pagetable) ->
  kernel_reach s -> frames_kept pageinfo_init (pageinfo s).
Proof.
  intros Hc HN Hk Hreach.
  induction Hreach as [m0 command s Hs | s m a Hr IH | s reg s' Hr IH Hfit Hint].
  - now apply (start_kept m0 command).
  - exact IH.
  - apply (frames_kept_trans _ (pageinfo s)); [exact IH |].
    now apply (interrupt_kept s reg).
Qed.

End BootKept.

(** X4: no kernel entry frees a frame or gives it to another owner.  When
    interrupt() resumes a process, every frame that was in use at entry is
    still in use, has the owner it had and at least as many references (the
    refcounts fork increments staying within an int8_t).  The kernel has no
    path that releases memory. *)
Theorem X4_interrupt_keeps_frames `{Config} (s s' : kstate) (reg : x86_registers) (pn : Z) :
  interrupt_fits s reg = true -> interrupt s reg = Resumed s' ->
  0 < refcount (pi_get (pageinfo s) pn) ->
  owner (pi_get (pageinfo s') pn) = owner (pi_get (pageinfo s) pn)
  /\ refcount (pi_get (pageinfo s) pn) <= refcount (pi_get (pageinfo s') pn).
Proof. intros Hfit Hint. exact (interrupt_kept s reg s' Hfit Hint pn). Qed.

(** X5: kernel and reserved memory is never handed out.  In every state the
    kernel is in between interrupts, a frame that pageinfo_init marked as
    the kernel's or as reserved still has that owner and is still
    referenced, and page_alloc_lite leaves its record alone. *)
Theorem X5_kernel_frames_stay `{Config} (s : kstate) (pn : Z) :
  frames_cover -> 4 < NPROC <= 128 -> kernel_frame (PAGENUMBER kernel_pagetable) ->
  kernel_reach s -> 0 <= pn < NPAGES -> boot_owner (pn * PAGESIZE) <> PO_FREE ->
  owner (pi_get (pageinfo s) pn) = boot_owner (pn * PAGESIZE)
  /\ 0 < refcount (pi_get (pageinfo s) pn)
  /\ forall pid, pi_get (snd (page_alloc_lite (pageinfo s) pid)) pn = pi_get (pageinfo s) pn.
Proof.
  intros Hc HN Hk Hreach Hpn Hown.
  destruct (pageinfo_init_spec Hc) as (_ & Hinit). specialize (Hinit pn Hpn).
  apply Z.eqb_neq in Hown. rewrite Hown in Hinit.
  destruct (kernel_reach_kept s Hc HN Hk Hreach pn) as (Ho & Hr);
    [rewrite Hinit; cbn; lia |].
  rewrite Hinit in Ho, Hr. cbn [owner refcount] in Ho, Hr.
  split; [exact Ho | split; [lia |]].
  intros pid. apply page_alloc_lite_keeps. lia.
Qed.

(** The scaled-down configuration meets what the theorems ask of the
    constants, and start() resumes its first process. *)
Lemma mini_frames_cover : @frames_cover mini.
Proof. by_compute. Qed.

Lemma mini_kernel_frame : @kernel_frame mini (PAGENUMBER (@kernel_pagetable mini)).
Proof. by_compute. Qed.

Lemma mini_NPROC : 4 < @NPROC mini <= 128.
Proof. by_compute. Qed.

Lemma mini_running_reach : @kernel_reach mini mini_running.
Proof.
  assert (Hres : is_resumed (@start mini mini_m0 (Some "fork"%string)) = true)
    by (vm_compute; reflexivity).
  unfold mini_running.
  destruct (@start mini mini_m0 (Some "fork"%string)) as [s | | s] eqn:E;
    [| discriminate Hres | discriminate Hres].
  exact (@reach_start mini mini_m0 (Some "fork"%string) s E).
Qed.

Lemma mini_running_ok : @kernel_running mini mini_running.
Proof.
  exact (@kernel_reach_running mini _ mini_frames_cover mini_NPROC mini_kernel_frame
           mini_running_reach).
Qed.

(** Process 1 of the scaled-down system forks: frame 16, its first page, is
    still its own afterwards. *)
Lemma X4_interrupt_keeps_frames_witness :
  exists s',
    @interrupt mini mini_running (trap INT_SYS_FORK 0) = Resumed s'
    /\ owner (pi_get (pageinfo s') 16) = owner (pi_get (pageinfo mini_running) 16)
    /\ refcount (pi_get (pageinfo mini_running) 16) <= refcount (pi_get (pageinfo s') 16).
Proof.
  assert (Hres : is_resumed (@interrupt mini mini_running (trap INT_SYS_FORK 0)) = true)
    by (vm_compute; reflexivity).
  assert (Hfit : @interrupt_fits mini mini_running (trap INT_SYS_FORK 0) = true)
    by (vm_compute; reflexivity).
  assert (Hused : 0 < refcount (pi_get (pageinfo mini_running) 16))
    by (vm_compute; reflexivity).
  pose proof (fun s' => @X4_interrupt_keeps_frames mini mini_running s'
                          (trap INT_SYS_FORK 0) 16 Hfit) as Hkeep.
  destruct (@interrupt mini mini_running (trap INT_SYS_FORK 0)) as [s' | | s'];
    [| discriminate Hres | discriminate Hres].
  exists s'. split; [reflexivity |]. exact (Hkeep s' eq_refl Hused).
Defined.

(** Frame 82, which holds the kernel's level-1 page table, is the kernel's
    in the booted system. *)
Lemma X5_kernel_frames_stay_witness :
  owner (pi_get (pageinfo weensy_running) 82) = @boot_owner weensy (82 * PAGESIZE)
  /\ 0 < refcount (pi_get (pageinfo weensy_running) 82).
Proof.
  assert (HN : 4 < @NPROC weensy <= 128) by by_compute.
  assert (Hpn : 0 <= 82 < @NPAGES weensy) by by_compute.
  assert (Hown : @boot_owner weensy (82 * PAGESIZE) <> PO_FREE) by (vm_compute; discriminate).
  destruct (@X5_kernel_frames_stay weensy weensy_running 82 weensy_frames_cover HN
              weensy_kernel_frame weensy_running_reach Hpn Hown) as (Ho & Hr & _).
  exact (conj Ho Hr).
Defined.

(** X6: between interrupts the process table is well-formed and the current
    process can be resumed.  In every state the kernel reaches, the table
    has NPROC descriptors, each holding its own index as p_pid; slot 0 is
    Free (the first assertion of virtual_memory_check); and [current] points
    at a slot from 1 to NPROC - 1 whose state is Runnable, so the assertion
    in run() holds for it. *)
Theorem X6_process_table_invariant `{Config} (s : kstate) :
  frames_cover -> 4 < NPROC <= 128 -> kernel_frame (PAGENUMBER kernel_pagetable) ->
  kernel_reach s ->
  Z.of_nat (length (processes s)) = NPROC
  /\ (forall i, 0 <= i < NPROC -> p_pid (proc_get (processes s) i) = i)
  /\ p_state (proc_get (processes s) 0) = P_FREE
  /\ 1 <= current s < NPROC
  /\ p_state (cur s) = P_RUNNABLE
  /\ run s (current s) = Resumed (upd_current s (current s)).
Proof.
  intros Hc HN Hk Hreach.
  pose proof (kernel_reach_running s Hc HN Hk Hreach) as Hrun.
  destruct (running_current s Hrun) as (Hcur & _).
  destruct Hrun as ((_ & Hlen & Hpids & H0) & Hst).
  repeat (split; [assumption || lia |]).
  unfold run. fold (cur s). now rewrite Hst.
Qed.

Lemma X6_process_table_invariant_witness :
  1 <= current weensy_running < @NPROC weensy
  /\ p_state (cur weensy_running) = P_RUNNABLE.
Proof.
  assert (HN : 4 < @NPROC weensy <= 128) by by_compute.
  destruct (@X6_process_table_invariant weensy weensy_running weensy_frames_cover HN
              weensy_kernel_frame weensy_running_reach) as (_ & _ & _ & Hcur & Hst & _).
  exact (conj Hcur Hst).
Defined.

(** ** System calls that return to their caller *)

Section SyscallFacts.
Context `{Config}.

Lemma length_fork_failed s : length (processes (fork_failed s)) = length (processes s).
Proof. unfold fork_failed. cbn [processes upd_proc upd_processes]. apply length_proc_set. Qed.

Lemma fork_child_current s newpid : current (fork_child s newpid) = current s.
Proof.
  unfold fork_child, fork_registers. cbn [current upd_proc upd_processes].
  destruct (fork_pages_frame newpid (for_range PROC_START_ADDR MEMSIZE_VIRTUAL PAGESIZE)
              (fork_claim s newpid)) as (_ & Hcur & _).
  fold (fork_pages (fork_claim s newpid) newpid) in Hcur. rewrite Hcur.
  apply fork_claim_frame.
Qed.

Lemma fork_scan_current s pids : current (fork_scan s pids) = current s.
Proof.
  revert s. induction pids as [| newpid rest IH]; intros s; [reflexivity |].
  cbn [fork_scan]. destruct (procstate_eqb _ _); [apply fork_child_current |].
  rewrite IH. now destruct (newpid =? 15).
Qed.

(** A slot that is not Free is not the one fork takes: its state stays. *)
Lemma fork_scan_state s pids q :
  (forall pid, pid ∈ pids -> 0 <= pid < Z.of_nat (length (processes s))) ->
  p_state (proc_get (processes s) q) <> P_FREE ->
  p_state (proc_get (processes (fork_scan s pids)) q) = p_state (proc_get (processes s) q).
Proof.
  revert s. induction pids as [| newpid rest IH]; intros s Hpids Hq; [reflexivity |].
  cbn [fork_scan]. destruct (procstate_eqb _ _) eqn:E.
  - apply procstate_eqb_eq in E.
    assert (Hne : q <> newpid) by (intros ->; contradiction).
    destruct (fork_child_descriptor s newpid) as (_ & _ & Hother); [apply Hpids; left |].
    now apply Hother.
  - assert (Hrest : forall pid, pid ∈ rest -> 0 <= pid < Z.of_nat (length (processes s)))
      by (intros pid Hin; apply Hpids; now right).
    destruct (newpid =? 15).
    + rewrite IH.
      * apply fork_failed_keeps_state.
      * now rewrite length_fork_failed.
      * now rewrite fork_failed_keeps_state.
    + now apply IH.
Qed.

Lemma sys_page_alloc_func_result pi m addr pagetable pid :
  fst (fst (sys_page_alloc_func pi m addr pagetable pid)) = 0
  \/ fst (fst (sys_page_alloc_func pi m addr pagetable pid)) = -1.
Proof.
  unfold sys_page_alloc_func.
  destruct (physical_page_alloc_cases pi (to_uint32 (find_free pi * PAGESIZE)) (to_int8 pid))
    as [(E & _) | (E & _)]; rewrite E; cbn; tauto.
Qed.

End SyscallFacts.

Section ForkReturns.
Context `{Config}.

(** Fork leaves its caller Runnable, so the tail of interrupt() resumes
    the caller. *)
Lemma sys_fork_resumes s :
  Z.of_nat (length (processes s)) = NPROC -> 0 <= current s < NPROC ->
  p_state (cur s) = P_RUNNABLE ->
  current (sys_fork s) = current s
  /\ p_state (cur (sys_fork s)) = P_RUNNABLE
  /\ (forall q, p_state (proc_get (processes s) q) <> P_FREE ->
        p_state (proc_get (processes (sys_fork s)) q) = p_state (proc_get (processes s) q))
  /\ resume_or_schedule (sys_fork s) = Resumed (upd_current (sys_fork s) (current s)).
Proof.
  intros Hlen Hcur Hst.
  assert (Hqs : forall q, p_state (proc_get (processes s) q) <> P_FREE ->
                  p_state (proc_get (processes (sys_fork s)) q)
                  = p_state (proc_get (processes s) q)).
  { intros q Hq. apply fork_scan_state; [| exact Hq].
    intros pid Hpid. apply elem_of_seqZ in Hpid. lia. }
  assert (Hcf : current (sys_fork s) = current s)
    by exact (fork_scan_current s (seqZ 1 (NPROC - 1))).
  assert (Hrf : p_state (cur (sys_fork s)) = P_RUNNABLE).
  { unfold cur. rewrite Hcf, Hqs; fold (cur s); [exact Hst | congruence]. }
  split; [exact Hcf |]. split; [exact Hrf |]. split; [exact Hqs |].
  unfold resume_or_schedule, run. rewrite Hrf. cbn [procstate_eqb].
  fold (cur (sys_fork s)). rewrite Hrf, Hcf. reflexivity.
Qed.

End ForkReturns.

(** X7: getpid, page_alloc and fork return to the process that called them.
    From a state with a Runnable current process that passes the
    consistency check and whose two pictures are drawn without a failed
    assertion (state [s1], which differs from the state at entry in memory
    and in the viewer's statics only), interrupt() for one of these three
    traps resumes the same process, and no process changes state except the
    slot a fork claims.  getpid leaves the caller's pid in eax and changes
    neither the frame table nor the memory the drawing left; page_alloc
    leaves 0 or 0xFFFFFFFF in eax, and the frame table and memory are those
    sys_page_alloc_func produced, from the memory the drawing left, for the
    address in eax, the caller's page table and the caller's pid.  When the
    check fails or a picture cannot be drawn, the kernel panics instead. *)
Theorem X7_syscalls_return `{Config} (s : kstate) (reg : x86_registers) :
  NPROC <= 128 -> kernel_running s ->
  reg_intno reg = INT_SYS_GETPID \/ reg_intno reg = INT_SYS_PAGE_ALLOC
  \/ reg_intno reg = INT_SYS_FORK ->
  (virtual_memory_check (upd_proc s (current s) (fun p => with_registers p reg)) = false
   \/ memshow (upd_proc s (current s) (fun p => with_registers p reg)) = None ->
   interrupt s reg = Panicked)
  /\ forall s1,
    virtual_memory_check (upd_proc s (current s) (fun p => with_registers p reg)) = true ->
    memshow (upd_proc s (current s) (fun p => with_registers p reg)) = Some s1 ->
    exists s',
      interrupt s reg = Resumed s'
      /\ current s' = current s
      /\ p_state (cur s') = P_RUNNABLE
      /\ (forall q, p_state (proc_get (processes s) q) <> P_FREE ->
            p_state (proc_get (processes s') q) = p_state (proc_get (processes s) q))
      /\ (reg_intno reg = INT_SYS_GETPID ->
          reg_eax (p_registers (cur s')) = current s
          /\ pageinfo s' = pageinfo s /\ mem s' = mem s1)
      /\ (reg_intno reg = INT_SYS_PAGE_ALLOC ->
          (reg_eax (p_registers (cur s')) = 0 \/ reg_eax (p_registers (cur s')) = 4294967295)
          /\ (pageinfo s', mem s')
             = (snd (fst (sys_page_alloc_func (pageinfo s) (mem s1) (reg_eax reg)
                            (p_pagetable (cur s)) (current s))),
                snd (sys_page_alloc_func (pageinfo s) (mem s1) (reg_eax reg)
                       (p_pagetable (cur s)) (current s)))
          /\ reg_eax (p_registers (cur s'))
             = to_uint32 (fst (fst (sys_page_alloc_func (pageinfo s) (mem s1) (reg_eax reg)
                                      (p_pagetable (cur s)) (current s))))).
Proof.
  intros HN Hrun Hkind. split.
  { intros Hfail. unfold interrupt. destruct Hfail as [-> | ->]; [reflexivity |].
    now destruct (negb _). }
  intros s1 Hcheck Hshow.
  destruct (running_current s Hrun) as (Hcur & Hcpid).
  destruct Hrun as ((Hf & Hp) & Hst). pose proof Hp as (Hlen & Hpids & H0).
  assert (Hin : 0 <= current s < Z.of_nat (length (processes s))) by lia.
  rewrite (interrupt_entry s reg s1 Hcheck Hshow).
  destruct (entry_drawn s reg s1 Hin Hshow) as (Hps1 & Hc1 & _ & Hpi1 & Hcur1 & Hst1).
  assert (Hlen1 : length (processes s1) = length (processes s))
    by (rewrite Hps1; apply length_proc_set).
  assert (Hin1 : 0 <= current s1 < Z.of_nat (length (processes s1)))
    by (rewrite Hc1, Hlen1; exact Hin).
  (* a handler that leaves the caller Runnable resumes it *)
  assert (Hfin : forall t, current t = current s -> p_state (cur t) = P_RUNNABLE ->
                   resume_or_schedule t = Resumed (upd_current t (current s))).
  { intros t Hct Hrt. unfold resume_or_schedule, run. fold (cur t).
    rewrite Hrt, Hct. reflexivity. }
  destruct Hkind as [Hk | [Hk | Hk]]; rewrite Hk.
  - (* getpid *)
    set (t := upd_proc s1 (current s1)
                (fun p => with_registers p (set_eax (p_registers p) (p_pid p)))).
    assert (Hcurt : cur t = with_registers (cur s1) (set_eax (p_registers (cur s1)) (p_pid (cur s1))))
      by (unfold t; now apply cur_upd_proc_current).
    assert (Hqt : forall q, p_state (proc_get (processes t) q) = p_state (proc_get (processes s) q)).
    { intros q. rewrite <- Hst1. unfold t. cbn [processes upd_proc upd_processes].
      now apply (proc_get_upd_field p_state _ _
                   (fun p => with_registers p (set_eax (p_registers p) (p_pid p)))). }
    exists (upd_current t (current s)).
    split; [apply Hfin; [exact Hc1 |] |].
    { rewrite Hcurt, Hcur1. exact Hst. }
    split; [reflexivity |].
    assert (Hcc : cur (upd_current t (current s)) = cur t).
    { unfold cur. cbn [current upd_current processes]. unfold t.
      cbn [current upd_proc upd_processes]. now rewrite Hc1. }
    rewrite Hcc, Hcurt, Hcur1. cbn [p_state p_registers with_registers p_pid reg_eax set_eax].
    split; [exact Hst |]. split; [intros q _; apply Hqt |].
    split; [| intros [=]].
    intros _. rewrite Hcpid. split; [apply to_uint32_small; lia |].
    split; [exact Hpi1 | reflexivity].
  - (* page_alloc *)
    rewrite Hcur1. cbn [p_registers p_pagetable p_pid with_registers]. rewrite Hcpid, Hpi1.
    pose proof (sys_page_alloc_func_result (pageinfo s) (mem s1) (reg_eax reg)
                  (p_pagetable (cur s)) (current s)) as Hr.
    destruct (sys_page_alloc_func _ _ _ _ _) as [[r pi'] m'].
    cbn [fst snd] in *.
    set (t := upd_proc (upd_mem (upd_pageinfo s1 pi') m') (current s1)
                (fun p => with_registers p (set_eax (p_registers p) r))).
    assert (Hcurt : cur t = with_registers (cur s1) (set_eax (p_registers (cur s1)) r)).
    { unfold t. apply (cur_upd_proc_current (upd_mem (upd_pageinfo s1 pi') m')).
      cbn [current processes upd_mem upd_pageinfo]. exact Hin1. }
    assert (Hqt : forall q, p_state (proc_get (processes t) q) = p_state (proc_get (processes s) q)).
    { intros q. rewrite <- Hst1. unfold t. cbn [processes upd_proc upd_processes upd_mem upd_pageinfo].
      now apply (proc_get_upd_field p_state _ _
                   (fun p => with_registers p (set_eax (p_registers p) r))). }
    exists (upd_current t (current s)).
    split; [apply Hfin; [exact Hc1 |] |].
    { rewrite Hcurt, Hcur1. exact Hst. }
    split; [reflexivity |].
    assert (Hcc : cur (upd_current t (current s)) = cur t).
    { unfold cur. cbn [current upd_current processes]. unfold t.
      cbn [current upd_proc upd_processes upd_mem upd_pageinfo]. now rewrite Hc1. }
    rewrite Hcc, Hcurt, Hcur1. cbn [p_state p_registers with_registers p_pid reg_eax set_eax].
    split; [exact Hst |]. split; [intros q _; apply Hqt |].
    split; [intros [=] |]. intros _.
    split; [destruct Hr as [-> | ->]; [left | right]; reflexivity |].
    split; reflexivity.
  - (* fork *)
    destruct (sys_fork_resumes s1) as (Hcf & Hrf & Hqs & Hres).
    + rewrite Hlen1. exact Hlen.
    + rewrite Hc1. lia.
    + rewrite Hcur1. exact Hst.
    + rewrite Hc1 in Hcf, Hres.
      exists (upd_current (sys_fork s1) (current s)).
      split; [exact Hres |]. split; [reflexivity |].
      split.
      { change (cur (upd_current (sys_fork s1) (current s)))
          with (proc_get (processes (sys_fork s1)) (current s)).
        unfold cur in Hrf. rewrite Hcf in Hrf. exact Hrf. }
      split; [| split; intros [=]].
      intros q Hq. cbn [processes upd_current].
      rewrite Hqs; rewrite Hst1; [reflexivity | exact Hq].
Qed.

(** In the scaled-down booted system, process 1 asks for its pid and gets
    1 back in eax, still running.  With a leaf of its page table pointing
    beyond physical memory the same trap panics in the memory viewer. *)
Lemma X7_syscalls_return_witness :
  (exists s',
     @interrupt mini mini_running (trap INT_SYS_GETPID 0) = Resumed s'
     /\ current s' = current mini_running
     /\ reg_eax (p_registers (cur s')) = current mini_running)
  /\ @interrupt mini mini_stray (trap INT_SYS_GETPID 0) = Panicked.
Proof.
  assert (HN : @NPROC mini <= 128) by by_compute.
  assert (Hcheck : @virtual_memory_check mini
                     (upd_proc mini_running (current mini_running)
                        (fun p => with_registers p (trap INT_SYS_GETPID 0))) = true)
    by (vm_compute; reflexivity).
  assert (Hdrawn : is_Some (@memshow mini
                      (upd_proc mini_running (current mini_running)
                         (fun p => with_registers p (trap INT_SYS_GETPID 0)))))
    by (vm_compute; eexists; reflexivity).
  assert (Hstray : @memshow mini (upd_proc mini_stray (current mini_stray)
                                    (fun p => with_registers p (trap INT_SYS_GETPID 0)))
                   = None)
    by (vm_compute; reflexivity).
  assert (Hkind : reg_intno (trap INT_SYS_GETPID 0) = INT_SYS_GETPID
                  \/ reg_intno (trap INT_SYS_GETPID 0) = INT_SYS_PAGE_ALLOC
                  \/ reg_intno (trap INT_SYS_GETPID 0) = INT_SYS_FORK)
    by (left; reflexivity).
  pose proof (@kernel_running_upd_mem mini mini_running
                (mem_store (mem mini_running) 8192 (L2PAGEINDEX 73728) (Z.lor 131072 7))
                mini_running_ok) as Hok'.
  destruct Hdrawn as [s1 Hshow].
  destruct (@X7_syscalls_return mini mini_stray (trap INT_SYS_GETPID 0) HN Hok' Hkind)
    as (Hfail & _).
  destruct (@X7_syscalls_return mini mini_running (trap INT_SYS_GETPID 0) HN mini_running_ok
              Hkind) as (_ & Hret).
  destruct (Hret s1 Hcheck Hshow) as (s' & Hint & Hcur & _ & _ & Hpid & _).
  destruct (Hpid eq_refl) as (Heax & _).
  split; [exists s'; exact (conj Hint (conj Hcur Heax)) |].
  exact (Hfail (or_intror Hstray)).
Defined.

(** ** Fork when the clone fails *)

Section OrphanFacts.
Context `{Config}.

(** Whether the clone succeeds is decided by the frame table alone. *)
Lemma copy_pagetable_result_frames pi m m' pagetable pagetable' own :
  fst (fst (copy_pagetable pi m pagetable own))
  = fst (fst (copy_pagetable pi m' pagetable' own)).
Proof.
  unfold copy_pagetable. destruct (page_alloc_lite pi own) as [p1 pi1].
  destruct (p1 =? 0); [reflexivity |].
  destruct (page_alloc_lite pi1 own) as [p2 pi2].
  destruct (p2 =? 0); reflexivity.
Qed.

(** A descriptor in use whose page table is the null pointer fails the
    consistency check, unless frame 0 is its own. *)
Lemma null_pagetable_fails_check s pid :
  0 <= pid < NPROC -> kernel_pagetable <> 0 ->
  p_state (proc_get (processes s) pid) <> P_FREE ->
  p_pagetable (proc_get (processes s) pid) = 0 ->
  owner (pi_get (pageinfo s) 0) <> pid ->
  virtual_memory_check s = false.
Proof.
  intros Hpid Hk Hst Hpt Hown. unfold virtual_memory_check.
  destruct (forallb (check_process s) (seqZ (-1) (NPROC + 1))) eqn:E;
    [exfalso | now rewrite andb_false_r].
  pose proof (forallb_seqZ (check_process s) (-1) (NPROC + 1) E pid ltac:(lia)) as Hc.
  unfold check_process in Hc.
  apply procstate_eqb_neq in Hst. rewrite Hst, andb_false_r, Hpt in Hc.
  apply Z.eqb_neq in Hk. rewrite Z.eqb_sym, Hk in Hc.
  assert (Hneg : (pid <? 0) = false) by (apply Z.ltb_ge; lia).
  rewrite Hneg in Hc. cbn [orb] in Hc.
  unfold check_pagetable in Hc. change (PAGENUMBER 0) with 0 in Hc.
  apply Z.eqb_neq in Hown. now rewrite Hown in Hc.
Qed.

End OrphanFacts.

(** C9: when the clone inside fork fails (it hands back the null pointer),
    fork still leaves the claimed slot Runnable, with a null page-table
    pointer and no fallback, and the caller is told the fork succeeded:
    the fork trap resumes the caller with the child's pid in eax.  The
    child is never run, though.  Frame 0, which the null pointer designates,
    is in use and not the child's, so at the next kernel entry, whatever
    the trap and whatever user code did to memory in between, the
    consistency check fails on the child's descriptor and the kernel
    panics before any handler or the scheduler runs. *)
Theorem C9_fork_without_pagetable `{Config} (s s1 : kstate) (reg : x86_registers)
    (newpid : Z) :
  NPROC <= 16 -> procs_sized s -> p_state (cur s) = P_RUNNABLE ->
  reg_intno reg = INT_SYS_FORK ->
  virtual_memory_check (upd_proc s (current s) (fun p => with_registers p reg)) = true ->
  memshow (upd_proc s (current s) (fun p => with_registers p reg)) = Some s1 ->
  interrupt_fits s reg = true ->
  first_free_slot (processes s) newpid ->
  fork_clone_result s newpid = 0 ->
  kernel_pagetable <> 0 ->
  0 < refcount (pi_get (pageinfo s) 0) -> owner (pi_get (pageinfo s) 0) <> newpid ->
  exists s',
    interrupt s reg = Resumed s'
    /\ current s' = current s
    /\ p_state (cur s') = P_RUNNABLE
    /\ reg_eax (p_registers (cur s')) = newpid
    /\ p_state (proc_get (processes s') newpid) = P_RUNNABLE
    /\ p_pagetable (proc_get (processes s') newpid) = 0
    /\ forall m a reg', interrupt (upd_cr2 (upd_mem s' m) a) reg' = Panicked.
Proof.
  intros HN (Hlen & Hcur) Hst Hint Hcheck Hshow Hfit Hff Hnull Hk Hused Hown.
  assert (Hin : 0 <= current s < Z.of_nat (length (processes s))) by lia.
  destruct (entry_drawn s reg s1 Hin Hshow) as (Hps1 & Hc1 & _ & Hpi1 & Hcur1 & Hst1).
  assert (Hlen1 : Z.of_nat (length (processes s1)) = NPROC)
    by (rewrite Hps1, length_proc_set; exact Hlen).
  pose proof Hff as (Hpid & Hfree & Hfirst).
  assert (Hff1 : first_free_slot (processes s1) newpid).
  { split; [exact Hpid |]. split; [now rewrite Hst1 |].
    intros j Hj. rewrite Hst1. now apply Hfirst. }
  assert (Hnull1 : fork_clone_result s1 newpid = 0).
  { unfold fork_clone_result in *. rewrite Hpi1.
    now rewrite (copy_pagetable_result_frames _ _ (mem s) _ (p_pagetable (cur s))). }
  destruct (sys_fork_resumes s1) as (Hcf & Hrf & _ & Hres);
    [exact Hlen1 | rewrite Hc1; exact Hcur | rewrite Hcur1; exact Hst |].
  rewrite Hc1 in Hcf, Hres.
  assert (Hkept : frames_kept (pageinfo s1) (pageinfo (sys_fork s1))).
  { apply fork_scan_kept. unfold interrupt_fits in Hfit.
    now rewrite Hint, Hshow in Hfit. }
  destruct (Hkept 0) as (Hown0 & _); [now rewrite Hpi1 |].
  rewrite Hpi1 in Hown0.
  pose proof (sys_fork_slot s1 newpid HN Hff1) as Hslot.
  destruct (fork_child_descriptor s1 newpid) as (Hcst & Hcpt & _); [lia |].
  rewrite <- Hslot in Hcst, Hcpt.
  assert (Heax : reg_eax (p_registers (cur (sys_fork s1))) = newpid).
  { rewrite Hslot, fork_child_eax by (rewrite Hc1; lia). apply to_uint32_small. lia. }
  exists (upd_current (sys_fork s1) (current s)).
  assert (Hcc : cur (upd_current (sys_fork s1) (current s)) = cur (sys_fork s1)).
  { unfold cur. cbn [current upd_current processes]. now rewrite Hcf. }
  split; [rewrite (interrupt_entry s reg s1 Hcheck Hshow), Hint; exact Hres |].
  split; [reflexivity |]. rewrite Hcc.
  split; [exact Hrf |]. split; [exact Heax |].
  cbn [processes upd_current].
  split; [exact Hcst |]. split; [congruence |].
  intros m a reg'. unfold interrupt.
  rewrite (null_pagetable_fails_check _ newpid); [reflexivity | lia | exact Hk | | |].
  - cbn [processes upd_proc upd_processes upd_mem upd_cr2 upd_current current].
    rewrite (proc_get_upd_field p_state _ _ (fun p => with_registers p reg')) by reflexivity.
    congruence.
  - cbn [processes upd_proc upd_processes upd_mem upd_cr2 upd_current current].
    rewrite (proc_get_upd_field p_pagetable _ _ (fun p => with_registers p reg')) by reflexivity.
    congruence.
  - cbn [pageinfo upd_proc upd_processes upd_mem upd_cr2 upd_current]. congruence.
Qed.

(** In the scaled-down system process 1 forks with every frame taken (slot
    5 is the Free one, and the clone hands back the null pointer).  The
    fork trap resumes process 1 with 5 in eax and leaves slot 5 Runnable
    with a null page table; the traps that would enter the scheduler,
    yield and the timer, then panic, so slot 5 is never scheduled. *)
Lemma C9_child_not_scheduled_counterexample :
  p_state (proc_get (processes mini_exhausted) 5) = P_FREE
  /\ @fork_clone_result mini mini_exhausted 5 = 0
  /\ @interrupt mini mini_exhausted (trap INT_SYS_FORK 0) = Resumed mini_orphan
  /\ current mini_orphan = 1
  /\ reg_eax (p_registers (cur mini_orphan)) = 5
  /\ p_state (proc_get (processes mini_orphan) 5) = P_RUNNABLE
  /\ p_pagetable (proc_get (processes mini_orphan) 5) = 0
  /\ @interrupt mini mini_orphan (trap INT_SYS_YIELD 0) = Panicked
  /\ @interrupt mini mini_orphan (trap INT_TIMER 0) = Panicked.
Proof.
  assert (Hres : is_resumed (@interrupt mini mini_exhausted (trap INT_SYS_FORK 0)) = true)
    by (vm_compute; reflexivity).
  assert (Hfork : @interrupt mini mini_exhausted (trap INT_SYS_FORK 0) = Resumed mini_orphan).
  { unfold mini_orphan, after_trap.
    destruct (@interrupt mini mini_exhausted (trap INT_SYS_FORK 0));
      [reflexivity | discriminate Hres | discriminate Hres]. }
  split; [vm_compute; reflexivity |]. split; [vm_compute; reflexivity |].
  split; [exact Hfork |]. by_compute.
Qed.

(** Process 1 of the scaled-down system forks with every frame taken: it is
    resumed with 5 in eax, slot 5 is Runnable with a null page table, and
    the next yield panics. *)
Lemma C9_fork_without_pagetable_witness :
  exists s',
    @interrupt mini mini_exhausted (trap INT_SYS_FORK 0) = Resumed s'
    /\ current s' = current mini_exhausted
    /\ reg_eax (p_registers (cur s')) = 5
    /\ p_state (proc_get (processes s') 5) = P_RUNNABLE
    /\ p_pagetable (proc_get (processes s') 5) = 0
    /\ @interrupt mini (upd_cr2 (upd_mem s' (mem s')) 0) (trap INT_SYS_YIELD 0) = Panicked.
Proof.
  assert (HN : @NPROC mini <= 16) by by_compute.
  assert (Hsz : @procs_sized mini mini_exhausted) by by_compute.
  assert (Hst : p_state (cur mini_exhausted) = P_RUNNABLE) by (vm_compute; reflexivity).
  assert (Hcheck : @virtual_memory_check mini
                     (upd_proc mini_exhausted (current mini_exhausted)
                        (fun p => with_registers p (trap INT_SYS_FORK 0))) = true)
    by (vm_compute; reflexivity).
  assert (Hdrawn : is_Some (@memshow mini
                      (upd_proc mini_exhausted (current mini_exhausted)
                         (fun p => with_registers p (trap INT_SYS_FORK 0)))))
    by (vm_compute; eexists; reflexivity).
  assert (Hfit : @interrupt_fits mini mini_exhausted (trap INT_SYS_FORK 0) = true)
    by (vm_compute; reflexivity).
  assert (Hbusy : let ps := processes mini_exhausted in
                  forallb (fun j => negb (procstate_eqb (p_state (proc_get ps j)) P_FREE))
                    (seqZ 1 4) = true)
    by (vm_compute; reflexivity).
  cbv zeta in Hbusy.
  assert (Hfree : p_state (proc_get (processes mini_exhausted) 5) = P_FREE)
    by (vm_compute; reflexivity).
  assert (Hff : @first_free_slot mini (processes mini_exhausted) 5).
  { split; [by_compute | split; [exact Hfree |]].
    intros j Hj.
    pose proof (forallb_seqZ _ 1 4 Hbusy j ltac:(lia)) as Hj'.
    apply negb_true_iff, procstate_eqb_neq in Hj'. exact Hj'. }
  assert (Hnull : @fork_clone_result mini mini_exhausted 5 = 0) by (vm_compute; reflexivity).
  assert (Hk : @kernel_pagetable mini <> 0) by (vm_compute; discriminate).
  assert (Hused : 0 < refcount (pi_get (pageinfo mini_exhausted) 0))
    by (vm_compute; reflexivity).
  assert (Hown : owner (pi_get (pageinfo mini_exhausted) 0) <> 5)
    by (vm_compute; discriminate).
  destruct Hdrawn as [s1 Hshow].
  destruct (@C9_fork_without_pagetable mini mini_exhausted s1 (trap INT_SYS_FORK 0) 5
              HN Hsz Hst eq_refl Hcheck Hshow Hfit Hff Hnull Hk Hused Hown)
    as (s' & Hint & Hcur & _ & Heax & Hcst & Hcpt & Hpanic).
  exists s'.
  exact (conj Hint (conj Hcur (conj Heax (conj Hcst (conj Hcpt
           (Hpanic (mem s') 0 (trap INT_SYS_YIELD 0))))))).
Defined.


(** ** Fork: the two contexts, and what fork leaves alone *)

Section ForkContexts.
Context `{Config}.

Lemma fork_claim_other s newpid q :
  q <> newpid -> proc_get (processes (fork_claim s newpid)) q = proc_get (processes s) q.
Proof.
  intros Hne. unfold fork_claim.
  destruct (copy_pagetable _ _ _ _) as [[pt pi2] m2].
  cbn [processes upd_proc upd_processes upd_mem upd_pageinfo].
  rewrite !proc_get_set_ne by congruence. reflexivity.
Qed.

Lemma fork_child_contexts s newpid :
  0 <= newpid < Z.of_nat (length (processes s)) ->
  0 <= current s < Z.of_nat (length (processes s)) -> current s <> newpid ->
  p_registers (proc_get (processes (fork_child s newpid)) newpid)
  = set_eax (p_registers (cur s)) 0
  /\ p_registers (cur (fork_child s newpid)) = set_eax (p_registers (cur s)) newpid
  /\ forall q, q <> newpid -> q <> current s ->
       proc_get (processes (fork_child s newpid)) q = proc_get (processes s) q.
Proof.
  intros Hnew Hcur Hne.
  destruct (fork_pages_frame newpid (for_range PROC_START_ADDR MEMSIZE_VIRTUAL PAGESIZE)
              (fork_claim s newpid)) as (Hps & Hct & _).
  fold (fork_pages (fork_claim s newpid) newpid) in Hps, Hct.
  destruct (fork_claim_frame s newpid) as (Hc1 & Hl1).
  unfold cur at 2. rewrite fork_child_current.
  unfold fork_child, fork_registers.
  set (t := fork_pages (fork_claim s newpid) newpid) in *.
  assert (Hcurt : cur t = proc_get (processes s) (current s)).
  { unfold cur. rewrite Hct, Hc1, Hps. apply fork_claim_other. exact Hne. }
  cbn [processes current upd_proc upd_processes].
  rewrite Hct, Hc1, Hcurt, Hps.
  set (ps1 := processes (fork_claim s newpid)) in *.
  assert (Hlen1 : 0 <= newpid < Z.of_nat (length ps1)) by (rewrite Hl1; exact Hnew).
  assert (Hlenc : 0 <= current s < Z.of_nat (length ps1)) by (rewrite Hl1; exact Hcur).
  fold (cur s).
  split; [| split].
  - rewrite proc_get_set_ne by congruence.
    rewrite proc_get_set_eq by (rewrite length_proc_set; exact Hlen1).
    rewrite proc_get_set_eq by exact Hlen1. reflexivity.
  - rewrite proc_get_set_eq by (rewrite !length_proc_set; exact Hlenc).
    rewrite !proc_get_set_ne by congruence. cbn [p_registers with_registers].
    unfold ps1. rewrite (fork_claim_other s newpid (current s) Hne). reflexivity.
  - intros q Hq Hqc. rewrite !proc_get_set_ne by congruence.
    unfold ps1. now apply fork_claim_other.
Qed.

End ForkContexts.

(** X8: fork returns twice.  When fork finds the Free slot [newpid], the
    child's saved registers are the caller's registers at the trap with eax
    set to 0, the caller's are the same with eax set to [newpid]; the child
    is Runnable and keeps its slot number as pid; every other descriptor is
    exactly as it was. *)
Theorem X8_fork_contexts `{Config} (s : kstate) (newpid : Z) :
  NPROC <= 16 -> kernel_running s -> first_free_slot (processes s) newpid ->
  p_registers (proc_get (processes (sys_fork s)) newpid) = set_eax (p_registers (cur s)) 0
  /\ p_registers (cur (sys_fork s)) = set_eax (p_registers (cur s)) newpid
  /\ p_state (proc_get (processes (sys_fork s)) newpid) = P_RUNNABLE
  /\ p_pid (proc_get (processes (sys_fork s)) newpid) = newpid
  /\ (forall q, q <> newpid -> q <> current s ->
        proc_get (processes (sys_fork s)) q = proc_get (processes s) q).
Proof.
  intros HN Hrun Hff. rewrite (sys_fork_slot s newpid HN Hff).
  destruct (running_current s Hrun) as (Hcur & _).
  destruct Hrun as ((_ & Hlen & Hpids & _) & Hst).
  destruct Hff as (Hnew & Hfree & _).
  assert (Hne : current s <> newpid).
  { intros Heq. unfold cur in Hst. rewrite Heq in Hst. congruence. }
  destruct (fork_child_contexts s newpid) as (Hchild & Hparent & Hothers); [lia | lia | exact Hne |].
  destruct (fork_child_descriptor s newpid) as (Hrunnable & _); [lia |].
  split; [exact Hchild | split; [exact Hparent | split; [exact Hrunnable | split]]];
    [| exact Hothers].
  rewrite fork_child_pid. apply Hpids. lia.
Qed.

Lemma mini_first_free_slot : @first_free_slot mini (processes mini_running) 2.
Proof.
  split; [by_compute | split; [vm_compute; reflexivity |]].
  intros j Hj. assert (j = 1) as -> by lia. vm_compute. discriminate.
Qed.

(** Process 1 of the scaled-down system forks into slot 2. *)
Lemma X8_fork_contexts_witness :
  p_registers (proc_get (processes (@sys_fork mini mini_running)) 2)
  = set_eax (p_registers (cur mini_running)) 0
  /\ p_registers (cur (@sys_fork mini mini_running))
     = set_eax (p_registers (cur mini_running)) 2.
Proof.
  assert (HN : @NPROC mini <= 16) by by_compute.
  destruct (@X8_fork_contexts mini mini_running 2 HN mini_running_ok mini_first_free_slot)
    as (Hchild & Hparent & _).
  exact (conj Hchild Hparent).
Defined.

Section ForkIsolation.
Context `{Config}.

Lemma fork_child_untouched s newpid f :
  frames_cover -> user_region_ok -> NPROC <= 128 ->
  kernel_running s -> frames_sized (pageinfo s) -> parent_tables_ok s ->
  1 <= newpid < NPROC -> p_state (proc_get (processes s) newpid) = P_FREE ->
  fork_clone_result s newpid <> 0 -> fork_child_fits s newpid = true ->
  refcount (pi_get (pageinfo s) f) <> 0 ->
  (owner (pi_get (pageinfo s) f) <> p_pid (cur s) ->
   pi_get (pageinfo (fork_child s newpid)) f = pi_get (pageinfo s) f)
  /\ (f <> 0 -> forall j, mem (fork_child s newpid) f j = mem s f j).
Proof.
  intros Hc Hur HN Hrun Hsz Hpar Hnew Hfree Hres Hfit Hused.
  destruct (fork_claim_inv s newpid Hc HN Hrun Hsz Hpar Hnew Hfree Hres)
    as (c1 & c2 & _ & Hinv1 & Hz1 & Hz2 & Hrec1 & Hmem1 & _).
  assert (Hf1 : f <> c1) by (intros ->; contradiction).
  assert (Hf2 : f <> c2) by (intros ->; contradiction).
  destruct (fork_pages_steps newpid (p_pid (cur s)) (p_pagetable (cur s)) c1 c2
              (for_range PROC_START_ADDR MEMSIZE_VIRTUAL PAGESIZE) (fork_claim s newpid)
              Hc Hinv1) as (_ & Hstep & _).
  { intros v Hv. apply elem_of_for_range in Hv as (k & Hk & -> & Hlt).
    now apply user_va_ok. }
  { exact Hfit. }
  destruct (fork_registers_frame (fork_pages (fork_claim s newpid) newpid) newpid)
    as (Hmem' & Hpi' & _).
  unfold fork_child. rewrite Hmem', Hpi'. unfold fork_pages.
  destruct Hstep as (_ & _ & _ & _ & _ & K2 & M).
  pose proof (Hrec1 f Hf1 Hf2) as Hrf.
  split.
  - intros Hown. rewrite K2; [exact Hrf | now rewrite Hrf | now rewrite Hrf].
  - intros Hf0 j. rewrite M; [now apply Hmem1 | exact Hf0 | exact Hf2 | now rewrite Hrf].
Qed.

End ForkIsolation.

(** X9: what fork leaves alone.  For a fork that finds a Free slot and whose
    clone succeeds, taken by a caller whose page tables are its own frames:
    every frame that was in use keeps its contents, physical page 0 apart
    (the caller's pages are copied, never moved or written); and the record
    of every frame in use that the caller does not own is unchanged, so no
    other process and no kernel frame gains or loses a reference. *)
Theorem X9_fork_isolation `{Config} (s : kstate) (newpid f : Z) :
  frames_cover -> user_region_ok -> NPROC <= 16 ->
  kernel_running s -> frames_sized (pageinfo s) -> parent_tables_ok s ->
  first_free_slot (processes s) newpid ->
  fork_clone_result s newpid <> 0 -> fork_child_fits s newpid = true ->
  refcount (pi_get (pageinfo s) f) <> 0 ->
  (owner (pi_get (pageinfo s) f) <> p_pid (cur s) ->
   pi_get (pageinfo (sys_fork s)) f = pi_get (pageinfo s) f)
  /\ (f <> 0 -> forall j, mem (sys_fork s) f j = mem s f j).
Proof.
  intros Hc Hur HN Hrun Hsz Hpar Hff Hres Hfit Hused.
  rewrite (sys_fork_slot s newpid HN Hff). destruct Hff as (Hnew & Hfree & _).
  apply fork_child_untouched; try assumption. lia.
Qed.

Lemma mini_user_region : @user_region_ok mini.
Proof. by_compute. Qed.

(** Process 1 of the scaled-down system forks: the frame of its first page
    (16) keeps its contents, and the record of the kernel's page-table
    frame (5) is unchanged. *)
Lemma X9_fork_isolation_witness :
  (forall j, mem (@sys_fork mini mini_running) 16 j = mem mini_running 16 j)
  /\ pi_get (pageinfo (@sys_fork mini mini_running)) 5 = pi_get (pageinfo mini_running) 5.
Proof.
  assert (HN : @NPROC mini <= 16) by by_compute.
  assert (Hsz : @frames_sized mini (pageinfo mini_running)) by by_compute.
  assert (Hpar : parent_tables_ok mini_running) by by_compute.
  assert (Hres : @fork_clone_result mini mini_running 2 <> 0) by (vm_compute; discriminate).
  assert (Hfit : @fork_child_fits mini mini_running 2 = true) by (vm_compute; reflexivity).
  split.
  - assert (Hused : refcount (pi_get (pageinfo mini_running) 16) <> 0)
      by (vm_compute; discriminate).
    destruct (@X9_fork_isolation mini mini_running 2 16 mini_frames_cover mini_user_region HN
                mini_running_ok Hsz Hpar mini_first_free_slot Hres Hfit Hused) as (_ & Hmem).
    apply Hmem. discriminate.
  - assert (Hused : refcount (pi_get (pageinfo mini_running) 5) <> 0)
      by (vm_compute; discriminate).
    assert (Hown : owner (pi_get (pageinfo mini_running) 5) <> p_pid (cur mini_running))
      by (vm_compute; discriminate).
    destruct (@X9_fork_isolation mini mini_running 2 5 mini_frames_cover mini_user_region HN
                mini_running_ok Hsz Hpar mini_first_free_slot Hres Hfit Hused) as (Hrec & _).
    exact (Hrec Hown).
Defined.

(** ** The memory viewer *)

Section ViewerFacts.
Context `{Config}.
Hypothesis NPROC_pos : 0 < NPROC.

Lemma animate_skip_spec ps fuel sh :
  sh <= animate_skip ps fuel sh <= sh + Z.of_nat fuel
  /\ (forall j, sh <= j < animate_skip ps fuel sh ->
        j <= 2 * NPROC /\ p_state (proc_get ps (Z.rem j NPROC)) = P_FREE)
  /\ (animate_skip ps fuel sh < sh + Z.of_nat fuel ->
      ~ (animate_skip ps fuel sh <= 2 * NPROC
         /\ p_state (proc_get ps (Z.rem (animate_skip ps fuel sh) NPROC)) = P_FREE)).
Proof.
  revert sh. induction fuel as [| k IH]; intros sh.
  - cbn [animate_skip]. split; [lia | split; [intros j Hj; lia | lia]].
  - cbn [animate_skip].
    destruct ((sh <=? 2 * NPROC)
              && procstate_eqb (p_state (proc_get ps (Z.rem sh NPROC))) P_FREE) eqn:E.
    + apply andb_prop in E as [E1 E2]. apply Z.leb_le in E1. apply procstate_eqb_eq in E2.
      destruct (IH (sh + 1)) as (Hr & Hfree & Hexit).
      split; [lia |]. split.
      * intros j Hj. destruct (Z.eq_dec j sh) as [-> | Hne]; [now split |].
        apply Hfree. lia.
      * intros Hlt. apply Hexit. lia.
    + split; [lia |]. split; [intros j Hj; lia |].
      intros _ (H1 & H2). apply Z.leb_le in H1. apply procstate_eqb_eq in H2.
      rewrite H1, H2 in E. discriminate E.
Qed.

(** Among any [NPROC] consecutive numbers from [sh] on, each slot number
    appears. *)
Lemma residue_in_window sh q :
  0 <= sh -> 0 <= q < NPROC ->
  exists j, sh <= j < sh + NPROC /\ Z.rem j NPROC = q.
Proof.
  intros Hsh Hq. exists (sh + (q - sh) `mod` NPROC).
  pose proof (Z.mod_pos_bound (q - sh) NPROC NPROC_pos) as Hb.
  split; [lia |]. rewrite Z.rem_mod_nonneg by lia.
  rewrite Zplus_mod_idemp_r. replace (sh + (q - sh)) with q by lia.
  apply Z.mod_small. exact Hq.
Qed.

End ViewerFacts.

(** X10: which process the memory viewer draws.  Started with its counter
    between 0 and NPROC (as it is at first, and after every call), the loop
    of memshow_virtual_animate ends within its bound of 2*NPROC, the
    counter it leaves is a slot number below NPROC, and memshow_virtual is
    called only for a slot that is not Free, with that slot's page table.
    If any slot is in use, one is drawn: the first one in use counting
    cyclically from the counter; if none is, nothing is drawn. *)
Theorem X10_memshow_virtual_animate `{Config} (s : kstate) (a : animation) :
  0 < NPROC -> 0 <= showing a <= NPROC ->
  0 <= showing (fst (memshow_virtual_animate s a)) < NPROC
  /\ (forall pt p, snd (memshow_virtual_animate s a) = Some (pt, p) ->
        p = showing (fst (memshow_virtual_animate s a))
        /\ p_state (proc_get (processes s) p) <> P_FREE
        /\ pt = p_pagetable (proc_get (processes s) p))
  /\ ((exists q, 0 <= q < NPROC /\ p_state (proc_get (processes s) q) <> P_FREE) ->
      exists k, 0 <= k < NPROC
        /\ showing (fst (memshow_virtual_animate s a))
           = (showing (animate_tick s a) + k) `mod` NPROC
        /\ snd (memshow_virtual_animate s a)
           = Some (p_pagetable (proc_get (processes s)
                                  (showing (fst (memshow_virtual_animate s a)))),
                   showing (fst (memshow_virtual_animate s a)))
        /\ forall j, 0 <= j < k ->
             p_state (proc_get (processes s) ((showing (animate_tick s a) + j) `mod` NPROC))
             = P_FREE)
  /\ ((forall q, 0 <= q < NPROC -> p_state (proc_get (processes s) q) = P_FREE) ->
      snd (memshow_virtual_animate s a) = None).
Proof.
  intros HN Ha. unfold memshow_virtual_animate. cbn [fst snd showing].
  set (a1 := animate_tick s a).
  assert (Ha1 : 0 <= showing a1 <= NPROC + 1).
  { unfold a1, animate_tick. destruct (_ || _); cbn [showing]; lia. }
  set (fuel := Z.to_nat (2 * NPROC + 1 - showing a1)).
  destruct (animate_skip_spec (processes s) fuel (showing a1)) as (Hr & Hfree & Hexit).
  set (r := animate_skip (processes s) fuel (showing a1)) in *.
  assert (Hfuel : showing a1 + Z.of_nat fuel = 2 * NPROC + 1) by (unfold fuel; lia).
  assert (Hrem : Z.rem r NPROC = r `mod` NPROC) by (apply Z.rem_mod_nonneg; lia).
  pose proof (Z.mod_pos_bound r NPROC HN) as Hb.
  rewrite Hrem.
  split; [exact Hb |]. split; [| split].
  - intros pt p. destruct (procstate_eqb _ _) eqn:E; [discriminate |].
    intros [= <- <-]. apply procstate_eqb_neq in E. now split.
  - intros (q & Hq & Hused).
    assert (Hlt : r < showing a1 + NPROC).
    { destruct (Z_lt_dec r (showing a1 + NPROC)) as [Hlt | Hge]; [exact Hlt |].
      destruct (residue_in_window HN (showing a1) q) as (j & Hj & Hjq); [lia | exact Hq |].
      destruct (Hfree j) as (_ & Hjf); [lia |]. rewrite Hjq in Hjf. contradiction. }
    assert (Hnf : p_state (proc_get (processes s) (r `mod` NPROC)) <> P_FREE).
    { intros Hf. apply Hexit; [lia |]. rewrite Hrem. split; [lia | exact Hf]. }
    exists (r - showing a1). split; [lia |].
    split; [f_equal; lia |]. split.
    + apply procstate_eqb_neq in Hnf. now rewrite Hnf.
    + intros j Hj. destruct (Hfree (showing a1 + j)) as (_ & Hjf); [lia |].
      rewrite Z.rem_mod_nonneg in Hjf by lia. exact Hjf.
  - intros Hnone. rewrite (Hnone _ Hb). reflexivity.
Qed.

(** With eight slots of which 2, 5 and 7 are in use, the viewer's first call
    moves its counter from 1 to 2 and draws process 2. *)
Lemma X10_memshow_virtual_animate_witness :
  0 <= showing (fst (@memshow_virtual_animate weensy8 (sched_example 2) animation_start))
    < @NPROC weensy8
  /\ snd (@memshow_virtual_animate weensy8 (sched_example 2) animation_start) = Some (0, 2).
Proof.
  assert (HN : 0 < @NPROC weensy8) by by_compute.
  assert (Ha : 0 <= showing animation_start <= @NPROC weensy8) by by_compute.
  destruct (@X10_memshow_virtual_animate weensy8 (sched_example 2) animation_start HN Ha)
    as (Hrange & _).
  split; [exact Hrange | vm_compute; reflexivity].
Defined.

(** ** The null pointer as an allocation result *)

(** X11: page_alloc_lite's result is ambiguous when frame 0 is free.  The
    allocator returns the address of the frame it claimed, and the address
    of frame 0 is the null pointer: on a table whose first free frame is
    frame 0 it claims that frame and returns null, and copy_pagetable then
    reports failure while the frame stays claimed.  On a table where frame 0
    is in use (as where page 0 is reserved) the result is null exactly when
    no frame is free, and then the table is unchanged. *)
Theorem X11_null_result `{Config} (pi : pageinfo_t) (m : memory) (pagetable pid : Z) :
  frames_cover -> frames_sized pi ->
  (first_free pi 0 ->
   page_alloc_lite pi pid = (0, pi_set pi 0 (mk_pageinfo (to_int8 pid) 1))
   /\ copy_pagetable pi m pagetable pid
      = (0, pi_set pi 0 (mk_pageinfo (to_int8 pid) 1), m))
  /\ (refcount (pi_get pi 0) <> 0 ->
      (fst (page_alloc_lite pi pid) = 0 <-> exhausted pi)
      /\ (fst (page_alloc_lite pi pid) = 0 -> snd (page_alloc_lite pi pid) = pi)).
Proof.
  intros Hc Hsz. pose proof Hc as (Hn & _). split.
  - intros Hff. pose proof (page_alloc_lite_first pi pid 0 Hc Hsz Hff) as Ha.
    rewrite Z.mul_0_l in Ha. split; [exact Ha |].
    destruct (copy_pagetable_unfold pi m pagetable pid) as [(_ & E) | [(Hne & _) | (Hne & _)]].
    + rewrite E, Ha. reflexivity.
    + rewrite Ha in Hne. now contradiction Hne.
    + rewrite Ha in Hne. now contradiction Hne.
  - intros Hused.
    destruct (find_free_cases pi Hn) as [Hff | (Hex & _)].
    + pose proof Hff as (Hpn & Hfree & _).
      assert (Hne : find_free pi <> 0) by (intros E; rewrite E in Hfree; contradiction).
      rewrite (page_alloc_lite_first pi pid _ Hc Hsz Hff). cbn [fst snd].
      assert (Hptr : find_free pi * PAGESIZE <> 0) by (unfold PAGESIZE; lia).
      split; [split; [intros E; contradiction | intros Hex; exfalso] | intros E; contradiction].
      apply (Hex (find_free pi) Hpn Hfree).
    + rewrite (page_alloc_lite_exhausted pi pid Hc Hex). cbn [fst snd].
      split; [split; [intros _; exact Hex | reflexivity] | reflexivity].
Qed.

(** On the zero-initialised table of the concrete layout frame 0 is free and
    is claimed with a null result; on the table pageinfo_init builds frame 0
    is reserved and the first allocation is not null. *)
Lemma X11_null_result_witness :
  @page_alloc_lite weensy (@pageinfo_zero weensy) 1
  = (0, pi_set (@pageinfo_zero weensy) 0 (mk_pageinfo (to_int8 1) 1))
  /\ (fst (@page_alloc_lite weensy (@pageinfo_init weensy) 1) = 0
      <-> @exhausted weensy (@pageinfo_init weensy)).
Proof.
  split.
  - assert (Hsz : @frames_sized weensy (@pageinfo_zero weensy)) by by_compute.
    assert (Hff : @first_free weensy (@pageinfo_zero weensy) 0).
    { split; [by_compute | split; [vm_compute; reflexivity | intros j Hj; lia]]. }
    destruct (@X11_null_result weensy (@pageinfo_zero weensy) weensy_m0 0 1
                weensy_frames_cover Hsz) as (Hzero & _).
    exact (proj1 (Hzero Hff)).
  - assert (Hused : refcount (pi_get (@pageinfo_init weensy) 0) <> 0)
      by (vm_compute; discriminate).
    destruct (@X11_null_result weensy (@pageinfo_init weensy) weensy_m0 0 1
                weensy_frames_cover weensy_boot_sized) as (_ & Hnz).
    exact (proj1 (Hnz Hused)).
Defined.

(** ** What a passing consistency check says *)

Section CheckerMeaning.
Context `{Config}.

Lemma forallb_eq_in {A} (f g : A -> bool) l :
  (forall x, In x l -> f x = g x) -> forallb f l = forallb g l.
Proof.
  induction l as [| x l IH]; intros Heq; [reflexivity |].
  cbn [forallb]. rewrite (Heq x) by now left.
  rewrite IH; [reflexivity |]. intros y Hy. apply Heq. now right.
Qed.

Lemma check_pagetable_entries pi m pagetable eo er :
  check_pagetable pi m pagetable eo er = true ->
  pi_get pi (PAGENUMBER pagetable) = mk_pageinfo eo er
  /\ forall i, 0 <= i < PAGETABLE_NENTRIES ->
       Z.land (mem_load m pagetable i) PTE_P <> 0 ->
       pi_get pi (PAGENUMBER (mem_load m pagetable i)) = mk_pageinfo eo 1.
Proof.
  unfold check_pagetable. intros Hc.
  apply andb_prop in Hc as [Hc Hall]. apply andb_prop in Hc as [Ho Hr].
  apply Z.eqb_eq in Ho, Hr. split.
  - destruct (pi_get pi (PAGENUMBER pagetable)) as [o r]. cbn in *. congruence.
  - intros i Hi Hp.
    pose proof (forallb_seqZ _ 0 PAGETABLE_NENTRIES Hall i Hi) as Hb.
    cbv beta zeta in Hb. apply Z.eqb_neq in Hp. rewrite Hp in Hb.
    apply andb_prop in Hb as [Ho' Hr']. apply Z.eqb_eq in Ho', Hr'.
    destruct (pi_get pi (PAGENUMBER (mem_load m pagetable i))) as [o r]. cbn in *. congruence.
Qed.

Lemma check_pagetable_mem pi m m' pagetable eo er :
  (forall i, m' (PAGENUMBER pagetable) i = m (PAGENUMBER pagetable) i) ->
  check_pagetable pi m' pagetable eo er = check_pagetable pi m pagetable eo er.
Proof.
  intros Heq. unfold check_pagetable. f_equal.
  apply forallb_eq_in. intros i _. unfold mem_load. now rewrite Heq.
Qed.

End CheckerMeaning.

(** X12: what a passing virtual_memory_check establishes.  Slot 0 is Free.
    The kernel's level-1 table and every level-2 table it points to are
    frames owned by the kernel, the level-2 tables with refcount 1.  Every
    process that is not Free and has a page table of its own holds it in a
    frame owned by that process with refcount 1, and so are the level-2
    tables it points to; hence two such processes never have their level-1
    table in the same frame.  Every frame in use whose owner is a process
    number belongs to a process that is not Free. *)
Theorem X12_check_guarantees `{Config} (s : kstate) :
  0 <= NPROC -> virtual_memory_check s = true ->
  p_state (proc_get (processes s) 0) = P_FREE
  /\ owner (pi_get (pageinfo s) (PAGENUMBER kernel_pagetable)) = PO_KERNEL
  /\ (forall i, 0 <= i < PAGETABLE_NENTRIES ->
        Z.land (mem_load (mem s) kernel_pagetable i) PTE_P <> 0 ->
        pi_get (pageinfo s) (PAGENUMBER (mem_load (mem s) kernel_pagetable i))
        = mk_pageinfo PO_KERNEL 1)
  /\ (forall pid, 0 <= pid < NPROC ->
        p_state (proc_get (processes s) pid) <> P_FREE ->
        p_pagetable (proc_get (processes s) pid) <> kernel_pagetable ->
        pi_get (pageinfo s) (PAGENUMBER (p_pagetable (proc_get (processes s) pid)))
        = mk_pageinfo pid 1
        /\ forall i, 0 <= i < PAGETABLE_NENTRIES ->
             Z.land (mem_load (mem s) (p_pagetable (proc_get (processes s) pid)) i) PTE_P <> 0 ->
             pi_get (pageinfo s)
               (PAGENUMBER (mem_load (mem s) (p_pagetable (proc_get (processes s) pid)) i))
             = mk_pageinfo pid 1)
  /\ (forall pid pid', 0 <= pid < NPROC -> 0 <= pid' < NPROC -> pid <> pid' ->
        p_state (proc_get (processes s) pid) <> P_FREE ->
        p_state (proc_get (processes s) pid') <> P_FREE ->
        p_pagetable (proc_get (processes s) pid) <> kernel_pagetable ->
        p_pagetable (proc_get (processes s) pid') <> kernel_pagetable ->
        PAGENUMBER (p_pagetable (proc_get (processes s) pid))
        <> PAGENUMBER (p_pagetable (proc_get (processes s) pid')))
  /\ (forall pn, 0 <= pn < PAGENUMBER MEMSIZE_PHYSICAL ->
        0 < refcount (pi_get (pageinfo s) pn) -> 0 <= owner (pi_get (pageinfo s) pn) ->
        p_state (proc_get (processes s) (owner (pi_get (pageinfo s) pn))) <> P_FREE).
Proof.
  intros HN Hcheck. unfold virtual_memory_check in Hcheck.
  apply andb_prop in Hcheck as [Hcheck Hframes]. apply andb_prop in Hcheck as [H0 Hprocs].
  apply procstate_eqb_eq in H0.
  assert (Hproc : forall pid, -1 <= pid < NPROC -> check_process s pid = true).
  { intros pid Hpid. apply (forallb_seqZ _ (-1) (NPROC + 1) Hprocs). lia. }
  assert (Hkernel : check_pagetable (pageinfo s) (mem s) kernel_pagetable PO_KERNEL
                      (expected_kernel_refcount (processes s)) = true).
  { pose proof (Hproc (-1)) as Hk. unfold check_process in Hk. cbn in Hk. apply Hk. lia. }
  destruct (check_pagetable_entries _ _ _ _ _ Hkernel) as (Hk1 & Hk2).
  assert (Hown : forall pid, 0 <= pid < NPROC ->
            p_state (proc_get (processes s) pid) <> P_FREE ->
            p_pagetable (proc_get (processes s) pid) <> kernel_pagetable ->
            check_pagetable (pageinfo s) (mem s) (p_pagetable (proc_get (processes s) pid))
              pid 1 = true).
  { intros pid Hpid Hst Hpt. pose proof (Hproc pid) as Hp. unfold check_process in Hp.
    apply procstate_eqb_neq in Hst. rewrite Hst, andb_false_r in Hp.
    apply Z.eqb_neq in Hpt. rewrite Hpt, orb_false_r in Hp.
    destruct (pid <? 0) eqn:E; [apply Z.ltb_lt in E; lia |]. apply Hp. lia. }
  split; [exact H0 |]. split; [now rewrite Hk1 |]. split; [exact Hk2 |].
  split; [intros pid Hpid Hst Hpt;
          exact (check_pagetable_entries _ _ _ _ _ (Hown pid Hpid Hst Hpt)) |].
  split.
  - intros pid pid' Hpid Hpid' Hne Hst Hst' Hpt Hpt' Heq.
    destruct (check_pagetable_entries _ _ _ _ _ (Hown pid Hpid Hst Hpt)) as (Hr & _).
    destruct (check_pagetable_entries _ _ _ _ _ (Hown pid' Hpid' Hst' Hpt')) as (Hr' & _).
    rewrite Heq in Hr. rewrite Hr in Hr'. congruence.
  - intros pn Hpn Hr Ho.
    pose proof (forallb_seqZ _ 0 (PAGENUMBER MEMSIZE_PHYSICAL) Hframes pn) as Hb.
    unfold check_frame in Hb. apply Z.ltb_lt in Hr. apply Z.leb_le in Ho.
    rewrite Hr, Ho in Hb. cbn [andb] in Hb.
    apply procstate_eqb_neq. apply negb_true_iff. apply Hb. lia.
Qed.

Lemma mini_check : @virtual_memory_check mini mini_running = true.
Proof. vm_compute. reflexivity. Qed.

(** The scaled-down booted system passes the check; process 1 holds its
    level-1 table in frame 1, its own. *)
Lemma X12_check_guarantees_witness :
  pi_get (pageinfo mini_running) (PAGENUMBER (p_pagetable (proc_get (processes mini_running) 1)))
  = mk_pageinfo 1 1.
Proof.
  assert (HN : 0 <= @NPROC mini) by by_compute.
  destruct (@X12_check_guarantees mini mini_running HN mini_check) as (_ & _ & _ & Hown & _).
  assert (Hpid : 0 <= 1 < @NPROC mini) by by_compute.
  assert (Hst : p_state (proc_get (processes mini_running) 1) <> P_FREE)
    by (vm_compute; discriminate).
  assert (Hpt : p_pagetable (proc_get (processes mini_running) 1) <> @kernel_pagetable mini)
    by (vm_compute; discriminate).
  exact (proj1 (Hown 1 Hpid Hst Hpt)).
Defined.

(** X13: the consistency check never reads a level-2 table.  Its verdict
    depends on memory only through the kernel's level-1 table and the
    level-1 tables of the processes that are not Free: replacing memory by
    one that agrees on those frames leaves the verdict as it is.  What the
    user pages of a process map to is not examined. *)
Theorem X13_check_reads_level1_only `{Config} (s : kstate) (m' : memory) :
  (forall i, m' (PAGENUMBER kernel_pagetable) i = mem s (PAGENUMBER kernel_pagetable) i) ->
  (forall pid i, 0 <= pid < NPROC -> p_state (proc_get (processes s) pid) <> P_FREE ->
     m' (PAGENUMBER (p_pagetable (proc_get (processes s) pid))) i
     = mem s (PAGENUMBER (p_pagetable (proc_get (processes s) pid))) i) ->
  virtual_memory_check (upd_mem s m') = virtual_memory_check s.
Proof.
  intros Hk Hp.
  assert (Hprocs : forallb (check_process (upd_mem s m')) (seqZ (-1) (NPROC + 1))
                   = forallb (check_process s) (seqZ (-1) (NPROC + 1)));
    [| unfold virtual_memory_check; rewrite Hprocs; reflexivity].
  apply forallb_eq_in. intros pid Hin. apply list_elem_of_In, elem_of_seqZ in Hin.
  unfold check_process. cbn [processes pageinfo mem upd_mem].
  destruct ((0 <=? pid) && procstate_eqb (p_state (proc_get (processes s) pid)) P_FREE) eqn:E;
    [reflexivity |].
  destruct ((pid <? 0) || (p_pagetable (proc_get (processes s) pid) =? kernel_pagetable)) eqn:E2.
  - now apply check_pagetable_mem.
  - apply check_pagetable_mem. intros i. apply orb_false_elim in E2 as [E2 _].
    apply Z.ltb_ge in E2. apply Hp; [lia |].
    apply Z.leb_le in E2. rewrite E2 in E. cbn [andb] in E. now apply procstate_eqb_neq.
Qed.

(** In the scaled-down booted system, pointing the leaf for process 1's
    first page at physical page 0 does not change the verdict. *)
Lemma X13_check_reads_level1_only_witness :
  @virtual_memory_check mini
    (upd_mem mini_running (mem_store (mem mini_running) 8192 (L2PAGEINDEX 65536) 7))
  = @virtual_memory_check mini mini_running.
Proof.
  apply (@X13_check_reads_level1_only mini mini_running).
  - intros i. reflexivity.
  - intros pid i Hpid Hst.
    assert (pid = 0 \/ pid = 1 \/ pid = 2 \/ pid = 3 \/ pid = 4 \/ pid = 5)
      as [-> | [-> | [-> | [-> | [-> | ->]]]]] by (cbn in Hpid; lia);
      try (exfalso; apply Hst; vm_compute; reflexivity).
    reflexivity.
Defined.

(** ** Yield and the timer *)

Section YieldFacts.
Context `{Config}.

Lemma first_runnable_search (ps : proctable) (c : Z) (n : nat) :
  (forall j, 1 <= j <= Z.of_nat n -> ~ runnable_at ps (scan_pid c j))
  \/ exists k, 1 <= k <= Z.of_nat n /\ runnable_at ps (scan_pid c k)
       /\ forall j, 1 <= j < k -> ~ runnable_at ps (scan_pid c j).
Proof.
  induction n as [| n IH].
  - left. intros j Hj. lia.
  - destruct IH as [Hnone | (k & Hk & Hrun & Hfirst)].
    + destruct (p_state (proc_get ps (scan_pid c (Z.of_nat (S n))))) eqn:E.
      * left. intros j Hj. destruct (Z.eq_dec j (Z.of_nat (S n))) as [-> | Hne];
          [unfold runnable_at; congruence | apply Hnone; lia].
      * right. exists (Z.of_nat (S n)). split; [lia | split; [exact E |]].
        intros j Hj. apply Hnone. lia.
      * left. intros j Hj. destruct (Z.eq_dec j (Z.of_nat (S n))) as [-> | Hne];
          [unfold runnable_at; congruence | apply Hnone; lia].
    + right. exists k. split; [lia | split; assumption].
Qed.

Lemma scan_pid_full_turn c : 0 < NPROC -> 0 <= c < NPROC -> scan_pid c NPROC = c.
Proof.
  intros HN Hc. unfold scan_pid.
  rewrite <- (Z.mul_1_l NPROC) at 1. rewrite Z_mod_plus_full. now apply Z.mod_small.
Qed.

(** With the caller Runnable, schedule() resumes the first Runnable slot
    after it in round-robin order, which is the caller at the latest. *)
Lemma schedule_from_runnable s :
  0 < NPROC -> 0 <= current s < NPROC -> p_pid (cur s) = current s ->
  p_state (cur s) = P_RUNNABLE ->
  exists k, 1 <= k <= NPROC
    /\ schedule s = Resumed (upd_current s (scan_pid (current s) k))
    /\ runnable_at (processes s) (scan_pid (current s) k)
    /\ forall j, 1 <= j < k -> ~ runnable_at (processes s) (scan_pid (current s) j).
Proof.
  intros HN Hc Hpid Hst.
  destruct (first_runnable_search (processes s) (current s) (Z.to_nat NPROC))
    as [Hnone | (k & Hk & Hrun & Hfirst)].
  - exfalso. apply (Hnone NPROC); [lia |].
    rewrite (scan_pid_full_turn _ HN Hc). exact Hst.
  - exists k. split; [lia |]. split; [| split; assumption].
    unfold schedule. rewrite Hpid.
    rewrite (schedule_loop_found HN _ (Z.to_nat NPROC) _ k); [| lia | lia | exact Hrun | exact Hfirst].
    unfold run. apply procstate_eqb_eq in Hrun. now rewrite Hrun.
Qed.

End YieldFacts.

(** ** Page faults *)

(** C7: on a page-fault trap taken in kernel mode the handler panics; so
    does any page-fault trap at whose entry the consistency check fails or
    a picture of the memory viewer cannot be drawn.  Taken in user mode by
    a Runnable current process, with the check passing and the pictures
    drawn (state [s1]), the handler writes its message and moves the
    current process to Broken; the state of every other descriptor and the
    frame table stay as they were.  The scheduler then decides: the kernel
    resumes the first slot after the faulting one, in the order
    (current + k) mod NPROC, that is Runnable, which is a slot other than
    the faulting one; only when no other slot is Runnable does it spin.
    The faulting process is not resumed. *)
Theorem C7_pagefault `{Config} (s : kstate) (reg : x86_registers) :
  reg_intno reg = INT_PAGEFAULT -> procs_sized s -> p_pid (cur s) = current s ->
  (Z.land (reg_err reg) PFERR_USER = 0 -> interrupt s reg = Panicked)
  /\ (virtual_memory_check (upd_proc s (current s) (fun p => with_registers p reg)) = false
      \/ memshow (upd_proc s (current s) (fun p => with_registers p reg)) = None ->
      interrupt s reg = Panicked)
  /\ (forall s1,
        Z.land (reg_err reg) PFERR_USER <> 0 ->
        p_state (cur s) = P_RUNNABLE ->
        virtual_memory_check (upd_proc s (current s) (fun p => with_registers p reg)) = true ->
        memshow (upd_proc s (current s) (fun p => with_registers p reg)) = Some s1 ->
        p_state (cur (pagefault_user s1 reg)) = P_BROKEN
        /\ current (pagefault_user s1 reg) = current s
        /\ (forall pid, pid <> current s ->
              p_state (proc_get (processes (pagefault_user s1 reg)) pid)
              = p_state (proc_get (processes s) pid))
        /\ pageinfo (pagefault_user s1 reg) = pageinfo s
        /\ (forall k, 1 <= k < NPROC ->
              runnable_at (processes s) (scan_pid (current s) k) ->
              (forall j, 1 <= j < k -> ~ runnable_at (processes s) (scan_pid (current s) j)) ->
              scan_pid (current s) k <> current s
              /\ interrupt s reg
                 = Resumed (upd_current (pagefault_user s1 reg) (scan_pid (current s) k)))
        /\ ((forall k, 1 <= k < NPROC ->
               ~ runnable_at (processes s) (scan_pid (current s) k)) ->
            interrupt s reg = Spins (pagefault_user s1 reg))).
Proof.
  intros Hint (Hlen & Hcur) Hpid. split.
  - intros Hk. unfold interrupt. rewrite Hint.
    destruct (negb _); [reflexivity |].
    destruct (memshow _); [| reflexivity].
    apply Z.eqb_eq in Hk. now rewrite Hk.
  - split.
    { intros Hfail. unfold interrupt. destruct Hfail as [-> | ->]; [reflexivity |].
      now destruct (negb _). }
    intros s1 Hu Hrun Hchk Hshow.
    assert (Hin : 0 <= current s < Z.of_nat (length (processes s))) by lia.
    assert (HN : 0 < NPROC) by lia.
    destruct (entry_drawn s reg s1 Hin Hshow) as (Hps1 & Hc1 & _ & Hpi1 & Hcur1 & Hst1).
    assert (Hin1 : 0 <= current s1 < Z.of_nat (length (processes s1))).
    { rewrite Hc1, Hps1, length_proc_set. exact Hin. }
    destruct (pagefault_user_frame s1 reg Hin1) as (Hcb & Hccb & Hpib & _ & Hothers).
    set (sb := pagefault_user s1 reg) in *.
    assert (Hbroken : p_state (cur sb) = P_BROKEN) by now rewrite Hcb.
    assert (Hstb : forall pid, pid <> current s ->
              p_state (proc_get (processes sb) pid) = p_state (proc_get (processes s) pid)).
    { intros pid Hne. rewrite Hothers by congruence. apply Hst1. }
    assert (Hpidb : p_pid (cur sb) = current s).
    { rewrite Hcb, Hcur1. exact Hpid. }
    assert (Hstep : interrupt s reg = schedule sb).
    { rewrite (interrupt_entry s reg s1 Hchk Hshow), Hint.
      apply Z.eqb_neq in Hu. rewrite Hu. fold sb.
      unfold resume_or_schedule. now rewrite Hbroken. }
    split; [exact Hbroken |]. split; [congruence |]. split; [exact Hstb |].
    split; [congruence |]. split.
    + intros k Hk Hr Hfirst.
      pose proof (scan_pid_other (current s) k Hcur Hk) as Hne.
      split; [exact Hne |]. rewrite Hstep. unfold schedule. rewrite Hpidb.
      rewrite (schedule_loop_found HN _ (Z.to_nat NPROC) _ k).
      * unfold run. rewrite (Hstb _ Hne). unfold runnable_at in Hr. now rewrite Hr.
      * lia.
      * lia.
      * unfold runnable_at. now rewrite (Hstb _ Hne).
      * intros j Hj. unfold runnable_at.
        rewrite (Hstb _ (scan_pid_other (current s) j Hcur ltac:(lia))).
        now apply Hfirst.
    + intros Hnone. rewrite Hstep. unfold schedule. rewrite Hpidb.
      rewrite (schedule_loop_spins HN); [reflexivity | lia |].
      intros j Hj. destruct (Z.eq_dec j NPROC) as [-> | Hjn].
      * rewrite (scan_pid_full_turn _ HN Hcur). unfold runnable_at.
        unfold cur in Hbroken. rewrite Hccb, Hc1 in Hbroken. congruence.
      * unfold runnable_at.
        rewrite (Hstb _ (scan_pid_other (current s) j Hcur ltac:(lia))).
        apply Hnone. lia.
Qed.

(** In the scaled-down system with processes 1 and 2, process 1 takes a
    write fault in user mode: it becomes Broken and process 2, the next
    Runnable slot, is resumed.  The same trap in kernel mode panics, and so
    does the user-mode fault when a leaf of the page table on display
    points beyond physical memory. *)
Lemma C7_pagefault_witness :
  exists s1,
    @memshow mini (upd_proc mini_forked (current mini_forked)
                     (fun p => with_registers p user_fault)) = Some s1
    /\ current mini_forked = 1
    /\ @interrupt mini mini_forked user_fault
       = Resumed (upd_current (@pagefault_user mini s1 user_fault) 2)
    /\ p_state (cur (@pagefault_user mini s1 user_fault)) = P_BROKEN
    /\ current (@pagefault_user mini s1 user_fault) = current mini_forked
    /\ @interrupt mini mini_forked kernel_fault = Panicked
    /\ @interrupt mini mini_stray user_fault = Panicked.
Proof.
  assert (Hsz : @procs_sized mini mini_forked) by by_compute.
  assert (Hpid : p_pid (cur mini_forked) = current mini_forked) by (vm_compute; reflexivity).
  assert (Hc : current mini_forked = 1) by (vm_compute; reflexivity).
  assert (Hu : Z.land (reg_err user_fault) PFERR_USER <> 0) by (vm_compute; discriminate).
  assert (Hrun : p_state (cur mini_forked) = P_RUNNABLE) by (vm_compute; reflexivity).
  assert (Hchk : @virtual_memory_check mini
                   (upd_proc mini_forked (current mini_forked)
                      (fun p => with_registers p user_fault)) = true)
    by (vm_compute; reflexivity).
  assert (Hdrawn : is_Some (@memshow mini
                      (upd_proc mini_forked (current mini_forked)
                         (fun p => with_registers p user_fault))))
    by (vm_compute; eexists; reflexivity).
  assert (Hk : 1 <= 1 < @NPROC mini) by by_compute.
  assert (Hnext : @scan_pid mini (current mini_forked) 1 = 2) by (vm_compute; reflexivity).
  assert (Hr : @runnable_at (processes mini_forked) (@scan_pid mini (current mini_forked) 1))
    by (vm_compute; reflexivity).
  assert (Hfirst : forall j, 1 <= j < 1 ->
            ~ @runnable_at (processes mini_forked) (@scan_pid mini (current mini_forked) j))
    by (intros j Hj; lia).
  assert (Hsz' : @procs_sized mini mini_stray) by by_compute.
  assert (Hpid' : p_pid (cur mini_stray) = current mini_stray) by (vm_compute; reflexivity).
  assert (Hstray : @memshow mini (upd_proc mini_stray (current mini_stray)
                                    (fun p => with_registers p user_fault)) = None)
    by (vm_compute; reflexivity).
  destruct Hdrawn as [s1 Hshow]. exists s1.
  destruct (@C7_pagefault mini mini_stray user_fault eq_refl Hsz' Hpid')
    as (_ & Hfail & _).
  destruct (@C7_pagefault mini mini_forked user_fault eq_refl Hsz Hpid) as (_ & _ & Huser).
  destruct (Huser s1 Hu Hrun Hchk Hshow) as (Hb & Hcb & _ & _ & Hres & _).
  destruct (Hres 1 Hk Hr Hfirst) as (_ & Hint).
  rewrite Hnext in Hint.
  destruct (@C7_pagefault mini mini_forked kernel_fault eq_refl Hsz Hpid) as (Hkernel & _).
  exact (conj Hshow (conj Hc (conj Hint (conj Hb (conj Hcb
           (conj (Hkernel eq_refl) (Hfail (or_intror Hstray)))))))).
Defined.

(** X14: yield and the timer hand the CPU on, and always to someone.  From a
    state with a Runnable current process that passes the consistency
    check and whose two pictures are drawn without a failed assertion
    (state [s1]), interrupt() for INT_SYS_YIELD or INT_TIMER resumes the
    first Runnable slot after the caller in the order
    (current + k) mod NPROC; as the caller itself is Runnable the kernel
    never spins here, and a caller that is the only Runnable process is
    resumed itself.  Only the caller's saved registers change in the
    process table; the frame table is untouched and memory is as the
    drawing left it; the timer adds 1 to ticks modulo 2^32 and yield leaves
    ticks alone.  When the check fails or a picture cannot be drawn, the
    kernel panics instead. *)
Theorem X14_yield_and_timer `{Config} (s : kstate) (reg : x86_registers) :
  kernel_running s ->
  reg_intno reg = INT_SYS_YIELD \/ reg_intno reg = INT_TIMER ->
  (virtual_memory_check (upd_proc s (current s) (fun p => with_registers p reg)) = false
   \/ memshow (upd_proc s (current s) (fun p => with_registers p reg)) = None ->
   interrupt s reg = Panicked)
  /\ forall s1,
    virtual_memory_check (upd_proc s (current s) (fun p => with_registers p reg)) = true ->
    memshow (upd_proc s (current s) (fun p => with_registers p reg)) = Some s1 ->
    exists k s',
      1 <= k <= NPROC
      /\ interrupt s reg = Resumed s'
      /\ current s' = scan_pid (current s) k
      /\ runnable_at (processes s) (current s')
      /\ (forall j, 1 <= j < k -> ~ runnable_at (processes s) (scan_pid (current s) j))
      /\ ((forall q, q <> current s -> ~ runnable_at (processes s) q) -> current s' = current s)
      /\ processes s'
         = proc_set (processes s) (current s) (with_registers (cur s) reg)
      /\ pageinfo s' = pageinfo s /\ mem s' = mem s1 /\ anim s' = anim s1
      /\ ticks s' = (if reg_intno reg is INT_TIMER then to_uint32 (ticks s + 1) else ticks s).
Proof.
  intros Hrun Hkind. split.
  { intros Hfail. unfold interrupt. destruct Hfail as [-> | ->]; [reflexivity |].
    now destruct (negb _). }
  intros s1 Hcheck Hshow.
  destruct (running_current s Hrun) as (Hcur & Hcpid).
  destruct Hrun as ((Hf & Hp) & Hst). pose proof Hp as (Hlen & Hpids & H0).
  assert (Hin : 0 <= current s < Z.of_nat (length (processes s))) by lia.
  assert (HN : 0 < NPROC) by lia.
  rewrite (interrupt_entry s reg s1 Hcheck Hshow).
  destruct (entry_drawn s reg s1 Hin Hshow) as (Hps1 & Hc1 & Ht1 & Hpi1 & Hcur1 & Hst1).
  assert (Hsched : forall t, processes t = processes s1 -> current t = current s ->
            exists k, 1 <= k <= NPROC
              /\ schedule t = Resumed (upd_current t (scan_pid (current s) k))
              /\ runnable_at (processes s) (scan_pid (current s) k)
              /\ forall j, 1 <= j < k -> ~ runnable_at (processes s) (scan_pid (current s) j)).
  { intros t Hpt Hct.
    assert (Hcurt : cur t = cur s1) by (unfold cur; now rewrite Hpt, Hct, Hc1).
    destruct (schedule_from_runnable t HN) as (k & Hk & Hs & Hr & Hfirst).
    - rewrite Hct. lia.
    - rewrite Hcurt, Hcur1, Hct. exact Hcpid.
    - rewrite Hcurt, Hcur1. exact Hst.
    - rewrite Hct in *. exists k. split; [exact Hk | split; [exact Hs |]].
      unfold runnable_at in *. rewrite Hpt in *. split; [now rewrite <- Hst1 |].
      intros j Hj. rewrite <- Hst1. now apply Hfirst. }
  assert (Honly : forall k, 1 <= k <= NPROC ->
            runnable_at (processes s) (scan_pid (current s) k) ->
            (forall q, q <> current s -> ~ runnable_at (processes s) q) ->
            scan_pid (current s) k = current s).
  { intros k Hk Hr Hq. destruct (Z.eq_dec (scan_pid (current s) k) (current s)) as [E | E];
      [exact E | now apply Hq in Hr]. }
  destruct Hkind as [Hk | Hk]; rewrite Hk.
  - destruct (Hsched s1 eq_refl Hc1) as (k & Hkr & Hs & Hr & Hfirst).
    exists k, (upd_current s1 (scan_pid (current s) k)).
    repeat (split; [first [exact Hkr | exact Hs | exact Hr | exact Hfirst | reflexivity] |]).
    split; [now apply Honly |]. cbn [processes pageinfo mem anim ticks upd_current].
    repeat split; assumption.
  - destruct (Hsched (upd_ticks s1 (to_uint32 (ticks s1 + 1))) eq_refl Hc1)
      as (k & Hkr & Hs & Hr & Hfirst).
    exists k, (upd_current (upd_ticks s1 (to_uint32 (ticks s1 + 1))) (scan_pid (current s) k)).
    repeat (split; [first [exact Hkr | exact Hs | exact Hr | exact Hfirst | reflexivity] |]).
    split; [now apply Honly |]. cbn [processes pageinfo mem anim ticks upd_current upd_ticks].
    rewrite Ht1. repeat split; assumption.
Qed.

(** In the scaled-down booted system the timer interrupt resumes a Runnable
    process and ticks goes from 0 to 1.  With a leaf of the page table on
    display pointing beyond physical memory the same trap panics. *)
Lemma X14_yield_and_timer_witness :
  (exists s',
     @interrupt mini mini_running (trap INT_TIMER 0) = Resumed s'
     /\ runnable_at (processes mini_running) (current s')
     /\ ticks s' = to_uint32 (ticks mini_running + 1))
  /\ @interrupt mini mini_stray (trap INT_TIMER 0) = Panicked.
Proof.
  assert (Hcheck : @virtual_memory_check mini
                     (upd_proc mini_running (current mini_running)
                        (fun p => with_registers p (trap INT_TIMER 0))) = true)
    by (vm_compute; reflexivity).
  assert (Hdrawn : is_Some (@memshow mini
                      (upd_proc mini_running (current mini_running)
                         (fun p => with_registers p (trap INT_TIMER 0)))))
    by (vm_compute; eexists; reflexivity).
  assert (Hstray : @memshow mini (upd_proc mini_stray (current mini_stray)
                                    (fun p => with_registers p (trap INT_TIMER 0)))
                   = None)
    by (vm_compute; reflexivity).
  assert (Hkind : reg_intno (trap INT_TIMER 0) = INT_SYS_YIELD
                  \/ reg_intno (trap INT_TIMER 0) = INT_TIMER) by (right; reflexivity).
  pose proof (@kernel_running_upd_mem mini mini_running
                (mem_store (mem mini_running) 8192 (L2PAGEINDEX 73728) (Z.lor 131072 7))
                mini_running_ok) as Hok'.
  destruct Hdrawn as [s1 Hshow].
  destruct (@X14_yield_and_timer mini mini_stray (trap INT_TIMER 0) Hok' Hkind)
    as (Hfail & _).
  destruct (@X14_yield_and_timer mini mini_running (trap INT_TIMER 0) mini_running_ok
              Hkind) as (_ & Hret).
  destruct (Hret s1 Hcheck Hshow)
    as (k & s' & _ & Hint & _ & Hr & _ & _ & _ & _ & _ & _ & Hticks).
  split; [exists s'; exact (conj Hint (conj Hr Hticks)) |].
  exact (Hfail (or_intror Hstray)).
Defined.


(** ** Boot *)

(** X15: the frame table pageinfo_init builds.  It has one record per frame.
    A frame whose address is reserved gets (PO_RESERVED, 1), also when it
    lies inside the kernel image; otherwise a frame of the kernel image or
    the kernel stack page gets (PO_KERNEL, 1); every other frame gets
    (PO_FREE, 0).  The first allocation after boot therefore returns the
    lowest frame that is neither reserved nor the kernel's. *)
Theorem X15_pageinfo_init `{Config} :
  frames_cover ->
  frames_sized pageinfo_init
  /\ (forall pn, 0 <= pn < NPAGES ->
        (physical_memory_isreserved (pn * PAGESIZE) = true ->
         pi_get pageinfo_init pn = mk_pageinfo PO_RESERVED 1)
        /\ (physical_memory_isreserved (pn * PAGESIZE) = false ->
            KERNEL_START_ADDR <= pn * PAGESIZE < kernel_end
            \/ pn * PAGESIZE = KERNEL_STACK_TOP - PAGESIZE ->
            pi_get pageinfo_init pn = mk_pageinfo PO_KERNEL 1)
        /\ (physical_memory_isreserved (pn * PAGESIZE) = false ->
            ~ (KERNEL_START_ADDR <= pn * PAGESIZE < kernel_end
               \/ pn * PAGESIZE = KERNEL_STACK_TOP - PAGESIZE) ->
            pi_get pageinfo_init pn = mk_pageinfo PO_FREE 0))
  /\ (forall pn pid, 0 <= pn < NPAGES ->
        boot_owner (pn * PAGESIZE) = PO_FREE ->
        (forall j, 0 <= j < pn -> boot_owner (j * PAGESIZE) <> PO_FREE) ->
        page_alloc_lite pageinfo_init pid
        = (pn * PAGESIZE, pi_set pageinfo_init pn (mk_pageinfo (to_int8 pid) 1))).
Proof.
  intros Hc. destruct (pageinfo_init_spec Hc) as (Hsz & Hget).
  split; [exact Hsz |]. split.
  - intros pn Hpn. rewrite (Hget pn Hpn). unfold boot_owner.
    destruct (physical_memory_isreserved (pn * PAGESIZE)).
    + split; [reflexivity |]. split; discriminate.
    + split; [discriminate |].
      destruct (((KERNEL_START_ADDR <=? pn * PAGESIZE) && (pn * PAGESIZE <? kernel_end))
                || (pn * PAGESIZE =? KERNEL_STACK_TOP - PAGESIZE)) eqn:E.
      * split; [reflexivity |]. intros _ Hno. exfalso. apply Hno.
        apply orb_prop in E as [E | E].
        -- left. apply andb_prop in E as [E1 E2]. apply Z.leb_le in E1. apply Z.ltb_lt in E2. lia.
        -- right. now apply Z.eqb_eq in E.
      * split; [| reflexivity]. intros _ Hk. exfalso.
        apply orb_false_elim in E as [E1 E2].
        destruct Hk as [Hk | Hk].
        -- apply andb_false_iff in E1 as [E1 | E1];
             [apply Z.leb_gt in E1 | apply Z.ltb_ge in E1]; lia.
        -- apply Z.eqb_neq in E2. contradiction.
  - intros pn pid Hpn Hfree Hfirst.
    apply (page_alloc_lite_first pageinfo_init pid pn Hc Hsz).
    split; [exact Hpn |]. split.
    + rewrite (Hget pn Hpn), Hfree. reflexivity.
    + intros j Hj. rewrite (Hget j) by lia.
      specialize (Hfirst j Hj). apply Z.eqb_neq in Hfirst. rewrite Hfirst. cbn. discriminate.
Qed.

(** In the concrete layout frame 0 is reserved, frame 82 (the kernel's page
    table) is the kernel's, and frame 1 is free. *)
(** In the concrete layout frame 0 is reserved, frame 82 (the kernel's page
    table) is the kernel's, and frame 1 is free. *)
Lemma X15_pageinfo_init_witness :
  pi_get (@pageinfo_init weensy) 0 = mk_pageinfo PO_RESERVED 1
  /\ pi_get (@pageinfo_init weensy) 82 = mk_pageinfo PO_KERNEL 1
  /\ pi_get (@pageinfo_init weensy) 1 = mk_pageinfo PO_FREE 0.
Proof.
  assert (H0 : 0 <= 0 < @NPAGES weensy) by by_compute.
  assert (H82 : 0 <= 82 < @NPAGES weensy) by by_compute.
  assert (H1 : 0 <= 1 < @NPAGES weensy) by by_compute.
  assert (K : @KERNEL_START_ADDR weensy <= 82 * PAGESIZE < @kernel_end weensy
              \/ 82 * PAGESIZE = @KERNEL_STACK_TOP weensy - PAGESIZE)
    by (left; vm_compute; split; [discriminate | reflexivity]).
  assert (F : ~ (@KERNEL_START_ADDR weensy <= 1 * PAGESIZE < @kernel_end weensy
                 \/ 1 * PAGESIZE = @KERNEL_STACK_TOP weensy - PAGESIZE)).
  { vm_compute. intros [[Hle _] | Heq]; [apply Hle; reflexivity | discriminate Heq]. }
  destruct (@X15_pageinfo_init weensy weensy_frames_cover) as (_ & Hrec & _).
  destruct (Hrec 0 H0) as (Hr & _).
  destruct (Hrec 82 H82) as (_ & Hk & _).
  destruct (Hrec 1 H1) as (_ & _ & Hf).
  exact (conj (Hr eq_refl) (conj (Hk eq_refl K) (Hf eq_refl F))).
Defined.

Section BootDescriptors.
Context `{Config}.

Lemma setup_pagetable_descriptor s pid :
  0 <= pid < Z.of_nat (length (processes s)) ->
  length (processes (setup_pagetable s pid)) = length (processes s)
  /\ current (setup_pagetable s pid) = current s
  /\ p_pid (proc_get (processes (setup_pagetable s pid)) pid) = p_pid (proc_get (processes s) pid)
  /\ (kernel_pagetable <> 0 ->
      p_pagetable (proc_get (processes (setup_pagetable s pid)) pid) <> 0)
  /\ (forall q, q <> pid ->
        proc_get (processes (setup_pagetable s pid)) q = proc_get (processes s) q).
Proof.
  intros Hpid. unfold setup_pagetable.
  cbn [pageinfo mem upd_proc upd_processes].
  destruct (copy_pagetable _ _ _ _) as [[pt pi2] m2].
  destruct (negb (pt =? 0)) eqn:E;
    cbn [processes current upd_proc upd_processes upd_mem upd_pageinfo];
    rewrite ?length_proc_set.
  - split; [reflexivity |]. split; [reflexivity |].
    rewrite proc_get_set_eq by (rewrite length_proc_set; exact Hpid).
    rewrite proc_get_set_eq by exact Hpid. cbn [p_pid p_pagetable with_pagetable process_init with_registers].
    split; [reflexivity |]. split.
    + intros _. apply negb_true_iff, Z.eqb_neq in E. exact E.
    + intros q Hq. rewrite !proc_get_set_ne by congruence. reflexivity.
  - split; [reflexivity |]. split; [reflexivity |].
    rewrite proc_get_set_eq by (rewrite !length_proc_set; exact Hpid).
    rewrite proc_get_set_eq by (rewrite length_proc_set; exact Hpid).
    rewrite proc_get_set_eq by exact Hpid. cbn [p_pid p_pagetable with_pagetable process_init with_registers].
    split; [reflexivity |]. split; [intros Hk; exact Hk |].
    intros q Hq. rewrite !proc_get_set_ne by congruence. reflexivity.
Qed.

Lemma process_setup_descriptor s pid prog s' :
  0 <= pid < Z.of_nat (length (processes s)) ->
  process_setup s pid prog = Some s' ->
  length (processes s') = length (processes s)
  /\ current s' = current s
  /\ p_state (proc_get (processes s') pid) = P_RUNNABLE
  /\ reg_esp (p_registers (proc_get (processes s') pid)) = to_uint32 MEMSIZE_VIRTUAL
  /\ p_pid (proc_get (processes s') pid) = p_pid (proc_get (processes s) pid)
  /\ (kernel_pagetable <> 0 -> p_pagetable (proc_get (processes s') pid) <> 0)
  /\ (forall q, q <> pid -> proc_get (processes s') q = proc_get (processes s) q).
Proof.
  intros Hpid. unfold process_setup.
  destruct (setup_pagetable_descriptor s pid Hpid) as (Hl3 & Hc3 & Hp3 & Hpt3 & Ho3).
  set (s3 := setup_pagetable s pid) in *.
  unfold program_load. cbn [pageinfo upd_proc upd_processes processes].
  destruct (program_load_pages _ _ _) as [r pi5].
  destruct (r <? 0); [discriminate |].
  cbn [pageinfo mem processes upd_proc upd_processes upd_pageinfo].
  destruct (sys_page_alloc_func _ _ _ _ _) as [[r7 pi7] m7].
  intros [= <-]. cbn [processes current upd_mem upd_pageinfo upd_proc upd_processes].
  rewrite !length_proc_set.
  assert (Hpid3 : 0 <= pid < Z.of_nat (length (processes s3))) by (rewrite Hl3; exact Hpid).
  split; [exact Hl3 |]. split; [exact Hc3 |].
  rewrite proc_get_set_eq by (rewrite length_proc_set; exact Hpid3).
  rewrite proc_get_set_eq by exact Hpid3.
  cbn [p_state p_registers p_pid p_pagetable with_state with_registers set_esp reg_esp].
  split; [reflexivity |]. split; [reflexivity |]. split; [exact Hp3 |]. split; [exact Hpt3 |].
  intros q Hq. rewrite !proc_get_set_ne by congruence. now apply Ho3.
Qed.

Lemma setup_all_descriptors l s s' :
  (forall pid prog, (pid, prog) ∈ l -> 0 <= pid < Z.of_nat (length (processes s))) ->
  NoDup (l.*1) ->
  setup_all s l = Some s' ->
  length (processes s') = length (processes s)
  /\ current s' = current s
  /\ (forall pid prog, (pid, prog) ∈ l ->
        p_state (proc_get (processes s') pid) = P_RUNNABLE
        /\ reg_esp (p_registers (proc_get (processes s') pid)) = to_uint32 MEMSIZE_VIRTUAL
        /\ p_pid (proc_get (processes s') pid) = p_pid (proc_get (processes s) pid)
        /\ (kernel_pagetable <> 0 -> p_pagetable (proc_get (processes s') pid) <> 0))
  /\ (forall q, q ∉ l.*1 -> proc_get (processes s') q = proc_get (processes s) q).
Proof.
  revert s. induction l as [| [pid prog] rest IH]; intros s Hin Hnd.
  - cbn. intros [= <-]. split; [reflexivity |]. split; [reflexivity |].
    split; [intros pid prog Hp; now apply elem_of_nil in Hp | reflexivity].
  - cbn [setup_all]. destruct (process_setup s pid prog) as [s1 |] eqn:E; [| discriminate].
    intros Hrest. cbn [fmap list_fmap fst] in Hnd. apply NoDup_cons in Hnd as [Hfresh Hnd].
    destruct (process_setup_descriptor s pid prog s1) as (Hl1 & Hc1 & Hst1 & Hesp1 & Hp1 & Hpt1 & Ho1);
      [apply (Hin pid prog); left | exact E |].
    destruct (IH s1) as (Hl & Hc & Hset & Hother); [| exact Hnd | exact Hrest |].
    { intros q pr Hq. rewrite Hl1. apply (Hin q pr). now right. }
    split; [congruence |]. split; [congruence |]. split.
    + intros q pr Hq. apply elem_of_cons in Hq as [[= -> ->] | Hq].
      * rewrite (Hother pid Hfresh). now repeat split.
      * destruct (Hset q pr Hq) as (H1 & H2 & H3 & H4).
        assert (Hne : q <> pid).
        { intros ->. apply Hfresh. apply list_elem_of_fmap. now exists (pid, pr). }
        rewrite (Ho1 q Hne) in H3. now repeat split.
    + intros q Hq. cbn [fmap list_fmap fst] in Hq. apply not_elem_of_cons in Hq as [Hne Hq].
      rewrite (Hother q Hq). now apply Ho1.
Qed.

Lemma boot_programs_nodup command : NoDup ((boot_programs command).*1).
Proof.
  unfold boot_programs.
  assert (H4 : NoDup ([(1, 0); (2, 1); (3, 2); (4, 3)].*1 : list Z)).
  { cbn. repeat (apply NoDup_cons; split; [rewrite ?elem_of_cons, elem_of_nil; lia |]).
    apply NoDup_nil_2. }
  assert (H1 : forall prog : Z, NoDup ([(1, prog)].*1 : list Z)).
  { intros prog. cbn. apply NoDup_singleton. }
  destruct command as [c |]; [| exact H4].
  destruct (String.eqb c "fork"); [apply H1 |].
  destruct (String.eqb c "forkexit"); [apply H1 | exact H4].
Qed.

End BootDescriptors.

(** X16: the process table start() hands to the first process.  When
    start() resumes a process it is process 1.  Every process the boot
    command loads (1 to 4 by default, only 1 for "fork" and "forkexit") is
    Runnable, has its index as pid, its stack pointer at MEMSIZE_VIRTUAL
    and, the kernel's page table not being at address 0, a page table that
    is not null.  Every other slot is as the initialisation loop left it:
    Free, registers zeroed, no page table. *)
Theorem X16_start_process_table `{Config} (m0 : memory) (command : option string)
    (s : kstate) :
  4 < NPROC -> start m0 command = Resumed s ->
  current s = 1
  /\ Z.of_nat (length (processes s)) = NPROC
  /\ (forall pid prog, (pid, prog) ∈ boot_programs command ->
        p_state (proc_get (processes s) pid) = P_RUNNABLE
        /\ reg_esp (p_registers (proc_get (processes s) pid)) = to_uint32 MEMSIZE_VIRTUAL
        /\ p_pid (proc_get (processes s) pid) = pid
        /\ (kernel_pagetable <> 0 -> p_pagetable (proc_get (processes s) pid) <> 0))
  /\ (forall q, 0 <= q < NPROC -> (forall prog, (q, prog) ∉ boot_programs command) ->
        proc_get (processes s) q = mk_proc q zero_registers P_FREE 0).
Proof.
  intros HN. unfold start.
  destruct (setup_all (boot_state m0) (boot_programs command)) as [s1 |] eqn:E;
    [| discriminate].
  assert (Hlen0 : Z.of_nat (length (processes (boot_state m0))) = NPROC).
  { cbn [boot_state processes]. rewrite length_fmap, length_seqZ. lia. }
  assert (Hget0 : forall q, 0 <= q < NPROC ->
            proc_get (processes (boot_state m0)) q = mk_proc q zero_registers P_FREE 0).
  { intros q Hq. cbn [boot_state processes]. unfold proc_get.
    destruct (q <? 0) eqn:Eq; [apply Z.ltb_lt in Eq; lia |].
    rewrite list_lookup_fmap, lookup_seqZ_lt by lia. cbn. f_equal. lia. }
  destruct (setup_all_descriptors (boot_programs command) (boot_state m0) s1)
    as (Hl & Hc & Hset & Hother); [| apply boot_programs_nodup | exact E |].
  { intros pid prog Hin. apply boot_programs_pids in Hin. lia. }
  unfold run. destruct (procstate_eqb _ _); [| discriminate].
  intros [= <-]. cbn [current processes upd_current].
  split; [reflexivity |]. split; [congruence |]. split.
  - intros pid prog Hin. destruct (Hset pid prog Hin) as (H1 & H2 & H3 & H4).
    split; [exact H1 |]. split; [exact H2 |]. split; [| exact H4].
    rewrite H3, Hget0; [reflexivity |]. apply boot_programs_pids in Hin. lia.
  - intros q Hq Hnot. rewrite Hother; [now apply Hget0 |].
    intros Hin. apply list_elem_of_fmap in Hin as ([q' prog] & -> & Hin). now apply (Hnot prog).
Qed.

(** The scaled-down system booted with "fork": process 1 is Runnable with
    its stack pointer at the top of virtual memory, and process 1 is
    current. *)
Lemma X16_start_process_table_witness :
  current mini_running = 1
  /\ p_state (proc_get (processes mini_running) 1) = P_RUNNABLE
  /\ reg_esp (p_registers (proc_get (processes mini_running) 1))
     = to_uint32 (@MEMSIZE_VIRTUAL mini).
Proof.
  assert (HN : 4 < @NPROC mini) by by_compute.
  assert (Hres : is_resumed (@start mini mini_m0 (Some "fork"%string)) = true)
    by (vm_compute; reflexivity).
  pose proof (fun s => @X16_start_process_table mini mini_m0 (Some "fork"%string) s HN) as Hpost.
  unfold mini_running.
  destruct (@start mini mini_m0 (Some "fork"%string)) as [s | | s];
    [| discriminate Hres | discriminate Hres].
  destruct (Hpost s eq_refl) as (Hcur & _ & Hset & _).
  assert (Hin : (1, 4) ∈ @boot_programs (Some "fork"%string)) by (cbn; left).
  destruct (Hset 1 4 Hin) as (Hst & Hesp & _).
  exact (conj Hcur (conj Hst Hesp)).
Defined.

(** ** Owner fields stay in range *)

Section OwnerBounds.
Context `{Config}.

Lemma pi_get_set_cases pi pn r j :
  pi_get (pi_set pi pn r) j = r \/ pi_get (pi_set pi pn r) j = pi_get pi j.
Proof.
  destruct (Z.eq_dec j pn) as [-> | Hne].
  - destruct (Z_lt_dec pn 0) as [Hneg | Hpos]; [right; now rewrite pi_set_outside by lia |].
    destruct (Z_lt_dec pn (Z.of_nat (length pi))) as [Hin | Hout].
    + left. apply pi_get_set_eq. lia.
    + right. now rewrite pi_set_outside by lia.
  - right. apply pi_get_set_ne. congruence.
Qed.

Lemma owners_bounded_set pi pn r :
  owners_bounded pi -> PO_KERNEL <= owner r < NPROC -> owners_bounded (pi_set pi pn r).
Proof.
  intros Hb Hr j. destruct (pi_get_set_cases pi pn r j) as [-> | ->]; [exact Hr | apply Hb].
Qed.

Lemma owners_bounded_refcount pi pn v :
  owners_bounded pi -> owners_bounded (set_refcount pi pn v).
Proof. intros Hb. apply owners_bounded_set; [exact Hb | apply Hb]. Qed.

Lemma physical_page_alloc_owners pi addr own :
  owners_bounded pi -> PO_KERNEL <= to_int8 own < NPROC ->
  owners_bounded (snd (physical_page_alloc pi addr own)).
Proof.
  intros Hb Hown.
  destruct (physical_page_alloc_cases pi addr own) as [(E & _) | (E & _)];
    rewrite E; cbn [snd]; [exact Hb |].
  unfold set_owner. apply owners_bounded_set; [now apply owners_bounded_refcount | exact Hown].
Qed.

Lemma pid_owner pid : 0 <= pid < NPROC -> NPROC <= 128 -> PO_KERNEL <= to_int8 (to_int8 pid) < NPROC.
Proof. intros Hpid HN. rewrite to_int8_idem, to_int8_small by lia. unfold PO_KERNEL. lia. Qed.

Lemma page_alloc_lite_owners pi pid :
  NPROC <= 128 -> 0 <= pid < NPROC -> owners_bounded pi ->
  owners_bounded (snd (page_alloc_lite pi pid)).
Proof.
  intros HN Hpid Hb. unfold page_alloc_lite.
  pose proof (physical_page_alloc_owners pi (to_uint32 (find_free pi * PAGESIZE))
                (to_int8 pid) Hb (pid_owner pid Hpid HN)) as Hp.
  destruct (physical_page_alloc _ _ _) as [r pi']. cbn [snd] in Hp.
  now destruct (0 <=? r).
Qed.

Lemma copy_pagetable_owners pi m pagetable pid :
  NPROC <= 128 -> 0 <= pid < NPROC -> owners_bounded pi ->
  owners_bounded (snd (fst (copy_pagetable pi m pagetable pid))).
Proof.
  intros HN Hpid Hb.
  pose proof (page_alloc_lite_owners pi pid HN Hpid Hb) as H1.
  pose proof (page_alloc_lite_owners _ pid HN Hpid H1) as H2.
  destruct (copy_pagetable_unfold pi m pagetable pid)
    as [(_ & E) | [(_ & _ & E) | (_ & _ & _ & E)]]; rewrite E; assumption.
Qed.

Lemma sys_page_alloc_func_owners pi m addr pagetable pid :
  NPROC <= 128 -> 0 <= pid < NPROC -> owners_bounded pi ->
  owners_bounded (snd (fst (sys_page_alloc_func pi m addr pagetable pid))).
Proof.
  intros HN Hpid Hb. unfold sys_page_alloc_func.
  pose proof (physical_page_alloc_owners pi (to_uint32 (find_free pi * PAGESIZE))
                (to_int8 pid) Hb (pid_owner pid Hpid HN)) as Hp.
  destruct (physical_page_alloc _ _ _) as [r pi']. cbn [snd] in Hp.
  now destruct (0 <=? r).
Qed.

Lemma program_load_pages_owners pi pid pages :
  NPROC <= 128 -> 0 <= pid < NPROC -> owners_bounded pi ->
  owners_bounded (snd (program_load_pages pi pid pages)).
Proof.
  intros HN Hpid. revert pi. induction pages as [| a rest IH]; intros pi Hb; [exact Hb |].
  cbn [program_load_pages].
  pose proof (physical_page_alloc_owners pi a (to_int8 pid) Hb (pid_owner pid Hpid HN)) as Hp.
  destruct (physical_page_alloc _ _ _) as [r pi']. cbn [snd] in Hp.
  destruct (r <? 0); [exact Hp | now apply IH].
Qed.

Lemma fork_page_owners newpid s va :
  NPROC <= 128 -> 0 <= newpid < NPROC -> owners_bounded (pageinfo s) ->
  owners_bounded (pageinfo (fork_page newpid s va)).
Proof.
  intros HN Hpid Hb. unfold fork_page.
  destruct (private_page s va).
  - unfold fork_private.
    pose proof (page_alloc_lite_owners (pageinfo s) newpid HN Hpid Hb) as Hp.
    destruct (page_alloc_lite (pageinfo s) newpid) as [page pi1]. exact Hp.
  - destruct (shared_page s va); [| exact Hb].
    unfold fork_shared. cbn [pageinfo upd_mem upd_pageinfo].
    now apply owners_bounded_refcount.
Qed.

Lemma fork_pages_owners newpid vas s :
  NPROC <= 128 -> 0 <= newpid < NPROC -> owners_bounded (pageinfo s) ->
  owners_bounded (pageinfo (fold_left (fork_page newpid) vas s)).
Proof.
  intros HN Hpid. revert s. induction vas as [| va vas IH]; intros s Hb; [exact Hb |].
  cbn [fold_left]. apply IH. now apply fork_page_owners.
Qed.

Lemma fork_child_owners s newpid :
  NPROC <= 128 -> 0 <= newpid < NPROC -> owners_bounded (pageinfo s) ->
  owners_bounded (pageinfo (fork_child s newpid)).
Proof.
  intros HN Hpid Hb. unfold fork_child, fork_registers.
  cbn [pageinfo upd_proc upd_processes]. unfold fork_pages.
  apply fork_pages_owners; [exact HN | exact Hpid |].
  unfold fork_claim. cbn [pageinfo mem upd_proc upd_processes].
  assert (Hpid8 : 0 <= to_int8 newpid < NPROC) by (rewrite to_int8_small; lia).
  pose proof (copy_pagetable_owners (pageinfo s) (mem s)
                (p_pagetable (cur (upd_proc s newpid (fun p => with_state p P_RUNNABLE))))
                (to_int8 newpid) HN Hpid8 Hb) as Hc.
  cbn [upd_proc upd_processes] in Hc.
  destruct (copy_pagetable _ _ _ _) as [[pt pi2] m2]. exact Hc.
Qed.

Lemma fork_scan_owners s pids :
  NPROC <= 128 -> (forall pid, pid ∈ pids -> 0 <= pid < NPROC) ->
  owners_bounded (pageinfo s) -> owners_bounded (pageinfo (fork_scan s pids)).
Proof.
  intros HN. revert s. induction pids as [| newpid rest IH]; intros s Hpids Hb; [exact Hb |].
  cbn [fork_scan]. destruct (procstate_eqb _ _).
  - apply fork_child_owners; [exact HN | apply Hpids; left | exact Hb].
  - apply IH; [intros q Hq; apply Hpids; now right |]. now destruct (newpid =? 15).
Qed.

Lemma interrupt_owners s reg s' :
  NPROC <= 128 -> kernel_running s -> owners_bounded (pageinfo s) ->
  interrupt s reg = Resumed s' -> owners_bounded (pageinfo s').
Proof.
  intros HN Hrun Hb Hint.
  destruct (running_current s Hrun) as (Hcur & Hcpid).
  destruct Hrun as ((Hf & Hp) & Hst). pose proof Hp as (Hlen & Hpids & H0).
  unfold interrupt in Hint.
  set (s0 := upd_proc s (current s) (fun p => with_registers p reg)) in *.
  assert (Hcur0 : cur s0 = with_registers (cur s) reg).
  { unfold s0. apply cur_upd_proc_current. lia. }
  destruct (negb (virtual_memory_check s0)); [discriminate |].
  destruct (memshow s0) as [s1 |] eqn:Hshow; [| discriminate].
  destruct (memshow_frame s0 s1 Hshow) as (_ & _ & _ & Hpi1).
  assert (Hcur1 : cur s1 = with_registers (cur s) reg).
  { rewrite (memshow_cur s0 s1 Hshow). exact Hcur0. }
  assert (Hb1 : owners_bounded (pageinfo s1)) by (rewrite Hpi1; exact Hb).
  assert (Hfin : forall t, resume_or_schedule t = Resumed s' -> pageinfo s' = pageinfo t).
  { intros t Ht. now destruct (resume_or_schedule_resumed t s' Ht) as (p & -> & _). }
  assert (Hsched : forall t, schedule t = Resumed s' -> pageinfo s' = pageinfo t).
  { intros t Ht. now destruct (schedule_resumed t s' Ht) as (p & -> & _). }
  destruct (reg_intno reg) eqn:Eint; try discriminate.
  - rewrite (Hfin _ Hint). exact Hb1.
  - rewrite (Hsched _ Hint). exact Hb1.
  - destruct (sys_page_alloc_func _ _ _ _ _) as [[r pi'] m'] eqn:Ealloc.
    rewrite (Hfin _ Hint). cbn [pageinfo upd_proc upd_processes upd_mem upd_pageinfo].
    pose proof (sys_page_alloc_func_owners (pageinfo s1) (mem s1)
                  (reg_eax (p_registers (cur s1))) (p_pagetable (cur s1))
                  (p_pid (cur s1)) HN) as Hk.
    rewrite Ealloc in Hk. apply Hk; [| exact Hb1].
    rewrite Hcur1. cbn [p_pid with_registers]. lia.
  - rewrite (Hfin _ Hint). apply fork_scan_owners; [exact HN | | exact Hb1].
    intros pid Hpid. apply elem_of_seqZ in Hpid. lia.
  - rewrite (Hsched _ Hint). exact Hb1.
  - destruct (Z.land (reg_err reg) PFERR_USER =? 0); [discriminate |].
    rewrite (Hfin _ Hint). exact Hb1.
Qed.

Lemma pageinfo_init_owners : frames_cover -> 0 < NPROC -> owners_bounded pageinfo_init.
Proof.
  intros Hc HN pn. destruct (pageinfo_init_spec Hc) as (Hsz & Hget).
  destruct (Z_lt_dec pn 0) as [Hneg | Hpos];
    [rewrite pi_get_outside by lia; cbn; unfold PO_KERNEL; lia |].
  destruct (Z_lt_dec pn NPAGES) as [Hin | Hout].
  - rewrite Hget by lia. cbn [owner].
    destruct (boot_owner_cases (pn * PAGESIZE)) as [-> | [-> | ->]];
      unfold PO_RESERVED, PO_KERNEL, PO_FREE; lia.
  - unfold frames_sized in Hsz. rewrite pi_get_outside by lia. cbn. unfold PO_KERNEL. lia.
Qed.

Lemma process_setup_owners s pid prog s' :
  NPROC <= 128 -> 1 <= pid < NPROC -> procs_ok (processes s) ->
  owners_bounded (pageinfo s) -> process_setup s pid prog = Some s' ->
  owners_bounded (pageinfo s').
Proof.
  intros HN Hpid Hp Hb. unfold process_setup.
  assert (Hpid0 : 0 <= pid < NPROC) by lia.
  assert (Hpid8 : 0 <= to_int8 pid < NPROC) by (rewrite to_int8_small; lia).
  assert (Hb3 : owners_bounded (pageinfo (setup_pagetable s pid))).
  { unfold setup_pagetable. cbn [pageinfo mem upd_proc upd_processes].
    pose proof (copy_pagetable_owners (pageinfo s) (mem s) kernel_pagetable (to_int8 pid)
                  HN Hpid8 Hb) as Hc.
    destruct (copy_pagetable _ _ _ _) as [[pt pi2] m2]. cbn [fst snd] in Hc.
    destruct (negb (pt =? 0)); [exact Hc |].
    cbn [pageinfo processes upd_mem upd_proc upd_processes upd_pageinfo].
    now apply owners_bounded_refcount. }
  destruct (setup_pagetable_descriptor s pid) as (_ & _ & Hpp & _);
    [destruct Hp as (Hlen & _); lia |].
  set (s3 := setup_pagetable s pid) in *.
  unfold program_load. cbn [pageinfo upd_proc upd_processes processes].
  rewrite proc_get_set_eq.
  2:{ destruct (setup_pagetable_descriptor s pid) as (Hl & _); [destruct Hp as (Hlen & _); lia |].
      fold s3 in Hl. rewrite Hl. destruct Hp as (Hlen & _). lia. }
  cbn [p_pid with_state]. rewrite Hpp. destruct Hp as (Hlen & Hpids & _). rewrite (Hpids pid Hpid0).
  pose proof (program_load_pages_owners (pageinfo s3) pid (program_pages prog) HN Hpid0 Hb3)
    as Hb5.
  destruct (program_load_pages _ _ _) as [r pi5]. cbn [snd] in Hb5.
  destruct (r <? 0); [discriminate |].
  cbn [pageinfo mem processes upd_proc upd_processes upd_pageinfo].
  match goal with
  | |- context [sys_page_alloc_func ?a ?b ?c ?d ?e] =>
      pose proof (sys_page_alloc_func_owners a b c d e HN Hpid0 Hb5) as Hb7;
      destruct (sys_page_alloc_func a b c d e) as [[r7 pi7] m7]
  end.
  cbn [fst snd] in Hb7. intros [= <-]. exact Hb7.
Qed.

Lemma setup_all_owners l s s' b :
  NPROC <= 128 -> (forall pid prog, (pid, prog) ∈ l -> 1 <= pid < NPROC) ->
  b + Z.of_nat (length l) <= 127 -> kernel_booting s b ->
  owners_bounded (pageinfo s) -> setup_all s l = Some s' ->
  owners_bounded (pageinfo s').
Proof.
  intros HN. revert s b. induction l as [| [pid prog] rest IH]; intros s b Hl Hlen Hboot Hb.
  - cbn. now intros [= <-].
  - cbn [setup_all length] in *.
    destruct (process_setup s pid prog) as [s1 |] eqn:E; [| discriminate].
    assert (Hpid : 1 <= pid < NPROC) by (apply (Hl pid prog); left).
    apply (IH s1 (b + 1)); [intros q pr Hq; apply (Hl q pr); now right | lia | |].
    + apply (process_setup_booting s pid prog); [exact HN | exact Hpid | lia | exact Hboot | exact E].
    + apply (process_setup_owners s pid prog); [exact HN | exact Hpid | apply Hboot | exact Hb | exact E].
Qed.

Lemma kernel_reach_owners s :
  frames_cover -> 4 < NPROC <= 128 -> kernel_frame (PAGENUMBER kernel_pagetable) ->
  kernel_reach s -> owners_bounded (pageinfo s).
Proof.
  intros Hc HN Hk Hreach.
  induction Hreach as [m0 command s Hs | s m a Hr IH | s reg s' Hr IH Hfit Hint].
  - unfold start in Hs.
    destruct (setup_all (boot_state m0) (boot_programs command)) as [s1 |] eqn:E;
      [| discriminate].
    pose proof (boot_programs_length command) as Hlen.
    assert (Hb1 : owners_bounded (pageinfo s1)).
    { apply (setup_all_owners (boot_programs command) (boot_state m0) s1 1);
        [lia | | lia | | | exact E].
      - intros pid prog Hin. apply boot_programs_pids in Hin. lia.
      - apply boot_state_booting; [exact Hc | lia | exact Hk].
      - apply pageinfo_init_owners; [exact Hc | lia]. }
    unfold run in Hs. destruct (procstate_eqb _ _); [| discriminate].
    injection Hs as <-. exact Hb1.
  - exact IH.
  - apply (interrupt_owners s reg); [lia | | exact IH | exact Hint].
    now apply (kernel_reach_running s Hc HN Hk).
Qed.

(** The glyph of a colour word, and the glyphs of the legend. *)
Lemma memstate_color_glyph own :
  PO_KERNEL <= own < 16 ->
  exists color, memstate_color own = Some color
    /\ (own = PO_KERNEL -> Z.land color 255 = 75)
    /\ (own = PO_RESERVED -> Z.land color 255 = 82)
    /\ (own = PO_FREE -> Z.land color 255 = 46)
    /\ (1 <= own <= 9 -> Z.land color 255 = 48 + own)
    /\ (10 <= own -> Z.land color 255 = 55 + own)
    /\ Z.land (Z.land color 30719) 255 = Z.land color 255.
Proof.
  unfold PO_KERNEL, PO_RESERVED, PO_FREE. intros Hown.
  assert (own = -2 \/ own = -1 \/ own = 0 \/ own = 1 \/ own = 2 \/ own = 3 \/ own = 4
          \/ own = 5 \/ own = 6 \/ own = 7 \/ own = 8 \/ own = 9 \/ own = 10 \/ own = 11
          \/ own = 12 \/ own = 13 \/ own = 14 \/ own = 15) as Hcases by lia.
  repeat (destruct Hcases as [-> | Hcases];
          [eexists; split; [reflexivity |];
           repeat split; intros; first [lia | vm_compute; reflexivity] |]).
  subst own. eexists. split; [reflexivity |].
  repeat split; intros; first [lia | vm_compute; reflexivity].
Qed.

End OwnerBounds.

(** X17: owner fields stay within the process table and the viewer's
    legend.  In every state the kernel reaches, the owner of every frame is
    PO_KERNEL, PO_RESERVED, PO_FREE or a process number below NPROC.  Hence
    the check's access processes[owner] for a frame in use with a
    non-negative owner is inside the table; and with at most 16 slots the
    index memshow_physical computes into memstate_colors is inside its 18
    entries, the cell shows '.' for a free frame, 'K' and 'R' for kernel and
    reserved frames and the hexadecimal digit of the owning process
    otherwise, and darkening a shared frame leaves the glyph as it is. *)
Theorem X17_owner_bounds `{Config} (s : kstate) (pn : Z) :
  frames_cover -> 4 < NPROC <= 16 -> kernel_frame (PAGENUMBER kernel_pagetable) ->
  kernel_reach s ->
  PO_KERNEL <= owner (pi_get (pageinfo s) pn) < NPROC
  /\ (0 <= owner (pi_get (pageinfo s) pn) ->
      0 <= owner (pi_get (pageinfo s) pn) < Z.of_nat (length (processes s)))
  /\ exists color,
       memshow_physical_cell (pageinfo s) pn = Some color
       /\ (refcount (pi_get (pageinfo s) pn) = 0 -> color = Z.lor 46 1792)
       /\ (refcount (pi_get (pageinfo s) pn) <> 0 ->
           (owner (pi_get (pageinfo s) pn) = PO_KERNEL -> Z.land color 255 = 75)
           /\ (owner (pi_get (pageinfo s) pn) = PO_RESERVED -> Z.land color 255 = 82)
           /\ (1 <= owner (pi_get (pageinfo s) pn) <= 9 ->
               Z.land color 255 = 48 + owner (pi_get (pageinfo s) pn))
           /\ (10 <= owner (pi_get (pageinfo s) pn) ->
               Z.land color 255 = 55 + owner (pi_get (pageinfo s) pn))).
Proof.
  intros Hc HN Hk Hreach.
  assert (HN' : 4 < NPROC <= 128) by lia.
  pose proof (kernel_reach_owners s Hc HN' Hk Hreach pn) as Hb.
  pose proof (kernel_reach_running s Hc HN' Hk Hreach) as ((_ & Hlen & _) & _).
  split; [exact Hb |]. split; [lia |].
  unfold memshow_physical_cell.
  destruct (refcount (pi_get (pageinfo s) pn) =? 0) eqn:E.
  - apply Z.eqb_eq in E. rewrite E. exists (Z.lor 46 1792).
    split; [reflexivity |]. split; [reflexivity | intros Hne; contradiction].
  - apply Z.eqb_neq in E.
    destruct (memstate_color_glyph (owner (pi_get (pageinfo s) pn)))
      as (color & -> & HK & HR & _ & Hd & Hl & Hdark); [lia |].
    eexists. split; [reflexivity |]. split; [intros E0; contradiction |]. intros _.
    destruct (1 <? refcount (pi_get (pageinfo s) pn)); rewrite ?Hdark;
      (split; [exact HK | split; [exact HR | split; [exact Hd | exact Hl]]]).
Qed.

(** In the booted system frame 256, the first page of process 1, is shown
    with the glyph '1'. *)
Lemma X17_owner_bounds_witness :
  exists color,
    memshow_physical_cell (pageinfo weensy_running) 256 = Some color
    /\ Z.land color 255 = 48 + owner (pi_get (pageinfo weensy_running) 256).
Proof.
  assert (HN : 4 < @NPROC weensy <= 16) by by_compute.
  assert (Hused : refcount (pi_get (pageinfo weensy_running) 256) <> 0)
    by (vm_compute; discriminate).
  assert (Hown : 1 <= owner (pi_get (pageinfo weensy_running) 256) <= 9)
    by (vm_compute; split; discriminate).
  destruct (@X17_owner_bounds weensy weensy_running 256 weensy_frames_cover HN
              weensy_kernel_frame weensy_running_reach)
    as (_ & _ & color & Hcell & _ & Hglyph).
  exists color. destruct (Hglyph Hused) as (_ & _ & Hdigit & _).
  exact (conj Hcell (Hdigit Hown)).
Defined.
